(** * The graphics-state engine of LOVE: state stack, batched draws,
      render targets, temporary textures, and the OpenGL pixel-format table

    A shallow embedding of [src/modules/graphics/Graphics.cpp] and of
    [OpenGL::convertPixelFormat] from [src/modules/graphics/opengl/OpenGL.cpp].

    Conventions.
    - A C++ [int] is a [Z]; signed overflow is undefined in C++ and is not
      modelled.  A [size_t] computation is reduced modulo [2^64] ([size_t]),
      a [uint16] store modulo [2^16] ([uint16]).
    - A [std::vector] used as a stack ([states], [transformStack],
      [pixelScaleStack], [stackTypeStack]) is a list whose head is [back()];
      a vector that is indexed ([temporaryTextures], [colors]) keeps the
      order of the vector.
    - A member function is a computation in the monad [M]: it threads the
      [Graphics] object and either returns or throws [love::Exception];
      what was written before a [throw] stays written, as in C++.
    - Calls on the active backend (the pure virtual functions of
      [Graphics]) are recorded, oldest first, in [backendCalls]. *)

From Stdlib Require Import String.
From Stdlib Require Import ZArith List Lia Bool Permutation.
From Stdlib Require Import SpecFloat.
Import ListNotations.
Local Open Scope Z_scope.

(** ** Machine integers *)

Definition LOVE_UINT16_MAX : Z := 65535.

Definition size_t (z : Z) : Z := z mod 2 ^ 64.

Definition uint16 (z : Z) : Z := z mod 2 ^ 16.

(** ** The exception monad over the object state *)

Inductive outcome (A : Type) : Type :=
  | Returned (a : A)
  | Thrown (what : string).
Arguments Returned {A} a.
Arguments Thrown {A} what.

Definition St (S A : Type) : Type := S -> S * outcome A.

Definition ret {S A : Type} (a : A) : St S A := fun s => (s, Returned a).

Definition throw {S A : Type} (what : string) : St S A := fun s => (s, Thrown what).

Definition bind {S A B : Type} (m : St S A) (k : A -> St S B) : St S B :=
  fun s => match m s with
           | (s', Returned a) => k a s'
           | (s', Thrown what) => (s', Thrown what)
           end.

Definition gets {S A : Type} (f : S -> A) : St S A := fun s => (s, Returned (f s)).

Definition modify {S : Type} (f : S -> S) : St S unit := fun s => (f s, Returned tt).

Definition when {S : Type} (c : bool) (m : St S unit) : St S unit :=
  if c then m else ret tt.

Declare Scope monad_scope.
Delimit Scope monad_scope with monad.
Notation "x <- m ;; k" := (bind m (fun x => k))
  (at level 61, m at next level, right associativity) : monad_scope.
Notation "m ;; k" := (bind m (fun _ => k))
  (at level 61, right associativity) : monad_scope.
Local Open Scope monad_scope.

(** ** Plain values *)

(** [float] and [double] members are only stored and compared; the
    comparison is IEEE equality ([SFeqb]: a NaN differs from itself, the
    two zeros are equal). *)
Definition float : Type := spec_float.

Definition float_1 : float := S754_finite false 1 0.
Definition float_0 : float := S754_zero false.

Record Colorf : Type := mkColorf { col_r : float; col_g : float; col_b : float; col_a : float }.

Definition Colorf_eqb (x y : Colorf) : bool :=
  SFeqb (col_r x) (col_r y) && SFeqb (col_g x) (col_g y)
  && SFeqb (col_b x) (col_b y) && SFeqb (col_a x) (col_a y).

Definition Matrix4 : Type := list float.

(** [Matrix4()] is the identity. *)
Definition Matrix4_identity : Matrix4 :=
  [float_1; float_0; float_0; float_0;
   float_0; float_1; float_0; float_0;
   float_0; float_0; float_1; float_0;
   float_0; float_0; float_0; float_1].

Record Rect : Type := mkRect { rect_x : Z; rect_y : Z; rect_w : Z; rect_h : Z }.

Definition Rect_eqb (p q : Rect) : bool :=
  (rect_x p =? rect_x q) && (rect_y p =? rect_y q)
  && (rect_w p =? rect_w q) && (rect_h p =? rect_h q).

(** Enumerations whose enumerators the sources do not show are kept as
    their integer values. *)
Definition CullMode : Type := Z.
Definition Winding : Type := Z.
Definition CompareMode : Type := Z.
Definition StencilAction : Type := Z.

Inductive LineStyle : Type := LINE_SMOOTH | LINE_ROUGH.
Inductive LineJoin : Type := LINE_JOIN_NONE | LINE_JOIN_MITER | LINE_JOIN_BEVEL.
Inductive StackType : Type := STACK_ALL | STACK_TRANSFORM.

Definition StackType_eqb (x y : StackType) : bool :=
  match x, y with
  | STACK_ALL, STACK_ALL | STACK_TRANSFORM, STACK_TRANSFORM => true
  | _, _ => false
  end.

(** Modelled from the spec: the blend state (renderstate.h is not among the
    sources) is an equation and source/destination factors per channel
    group, with the enable flag. *)
Record BlendState : Type := mkBlendState {
  blend_enable : bool;
  operationRGB : Z; operationA : Z;
  srcFactorRGB : Z; srcFactorA : Z;
  dstFactorRGB : Z; dstFactorA : Z
}.

Definition BlendState_eqb (x y : BlendState) : bool :=
  Bool.eqb (blend_enable x) (blend_enable y)
  && (operationRGB x =? operationRGB y) && (operationA x =? operationA y)
  && (srcFactorRGB x =? srcFactorRGB y) && (srcFactorA x =? srcFactorA y)
  && (dstFactorRGB x =? dstFactorRGB y) && (dstFactorA x =? dstFactorA y).

(** The members are the ones [restoreState] passes to [setStencilMode]. *)
Record StencilState : Type := mkStencilState {
  stencil_action : StencilAction;
  stencil_compare : CompareMode;
  stencil_value : Z;
  stencil_readMask : Z;
  stencil_writeMask : Z
}.

Definition StencilState_eqb (x y : StencilState) : bool :=
  (stencil_action x =? stencil_action y) && (stencil_compare x =? stencil_compare y)
  && (stencil_value x =? stencil_value y) && (stencil_readMask x =? stencil_readMask y)
  && (stencil_writeMask x =? stencil_writeMask y).

Record ColorChannelMask : Type := mkColorChannelMask {
  mask_r : bool; mask_g : bool; mask_b : bool; mask_a : bool
}.

Definition ColorChannelMask_eqb (x y : ColorChannelMask) : bool :=
  Bool.eqb (mask_r x) (mask_r y) && Bool.eqb (mask_g x) (mask_g y)
  && Bool.eqb (mask_b x) (mask_b y) && Bool.eqb (mask_a x) (mask_a y).

(** Only [mipmapFilter] is named by the sources; the other members of the
    sampler state are carried along unread. *)
Inductive MipmapFilterMode : Type :=
  | MIPMAP_FILTER_LINEAR
  | MIPMAP_FILTER_unlisted (value : Z).

Record SamplerState : Type := mkSamplerState {
  mipmapFilter : MipmapFilterMode;
  samplerMembers : list Z
}.

(** Objects that are only held by reference are their addresses. *)
Definition Font : Type := positive.
Definition Shader : Type := positive.

(** ** Pixel formats *)

(** The enumerators are the ones the sources name; any other value of the
    enumeration is [PIXELFORMAT_unlisted]. *)
Inductive PixelFormat : Type :=
  | PIXELFORMAT_UNKNOWN
  | PIXELFORMAT_R8_UNORM | PIXELFORMAT_RG8_UNORM | PIXELFORMAT_RGBA8_UNORM
  | PIXELFORMAT_RGBA8_UNORM_sRGB | PIXELFORMAT_BGRA8_UNORM | PIXELFORMAT_BGRA8_UNORM_sRGB
  | PIXELFORMAT_R16_UNORM | PIXELFORMAT_RG16_UNORM | PIXELFORMAT_RGBA16_UNORM
  | PIXELFORMAT_R16_FLOAT | PIXELFORMAT_RG16_FLOAT | PIXELFORMAT_RGBA16_FLOAT
  | PIXELFORMAT_R32_FLOAT | PIXELFORMAT_RG32_FLOAT | PIXELFORMAT_RGBA32_FLOAT
  | PIXELFORMAT_R8_INT | PIXELFORMAT_R8_UINT | PIXELFORMAT_RG8_INT | PIXELFORMAT_RG8_UINT
  | PIXELFORMAT_RGBA8_INT | PIXELFORMAT_RGBA8_UINT | PIXELFORMAT_R16_INT | PIXELFORMAT_R16_UINT
  | PIXELFORMAT_RG16_INT | PIXELFORMAT_RG16_UINT | PIXELFORMAT_RGBA16_INT
  | PIXELFORMAT_RGBA16_UINT | PIXELFORMAT_R32_INT | PIXELFORMAT_R32_UINT | PIXELFORMAT_RG32_INT
  | PIXELFORMAT_RG32_UINT | PIXELFORMAT_RGBA32_INT | PIXELFORMAT_RGBA32_UINT
  | PIXELFORMAT_LA8_UNORM | PIXELFORMAT_RGBA4_UNORM | PIXELFORMAT_RGB5A1_UNORM
  | PIXELFORMAT_RGB565_UNORM | PIXELFORMAT_RGB10A2_UNORM | PIXELFORMAT_RG11B10_FLOAT
  | PIXELFORMAT_STENCIL8 | PIXELFORMAT_DEPTH16_UNORM | PIXELFORMAT_DEPTH24_UNORM
  | PIXELFORMAT_DEPTH32_FLOAT | PIXELFORMAT_DEPTH24_UNORM_STENCIL8
  | PIXELFORMAT_DEPTH32_FLOAT_STENCIL8 | PIXELFORMAT_DXT1_UNORM | PIXELFORMAT_DXT3_UNORM
  | PIXELFORMAT_DXT5_UNORM | PIXELFORMAT_BC4_UNORM | PIXELFORMAT_BC4_SNORM
  | PIXELFORMAT_BC5_UNORM | PIXELFORMAT_BC5_SNORM | PIXELFORMAT_BC6H_UFLOAT
  | PIXELFORMAT_BC6H_FLOAT | PIXELFORMAT_BC7_UNORM | PIXELFORMAT_PVR1_RGB2_UNORM
  | PIXELFORMAT_PVR1_RGB4_UNORM | PIXELFORMAT_PVR1_RGBA2_UNORM | PIXELFORMAT_PVR1_RGBA4_UNORM
  | PIXELFORMAT_ETC1_UNORM | PIXELFORMAT_ETC2_RGB_UNORM | PIXELFORMAT_ETC2_RGBA_UNORM
  | PIXELFORMAT_ETC2_RGBA1_UNORM | PIXELFORMAT_EAC_R_UNORM | PIXELFORMAT_EAC_R_SNORM
  | PIXELFORMAT_EAC_RG_UNORM | PIXELFORMAT_EAC_RG_SNORM | PIXELFORMAT_ASTC_4x4
  | PIXELFORMAT_ASTC_5x4 | PIXELFORMAT_ASTC_5x5 | PIXELFORMAT_ASTC_6x5 | PIXELFORMAT_ASTC_6x6
  | PIXELFORMAT_ASTC_8x5 | PIXELFORMAT_ASTC_8x6 | PIXELFORMAT_ASTC_8x8 | PIXELFORMAT_ASTC_10x5
  | PIXELFORMAT_ASTC_10x6 | PIXELFORMAT_ASTC_10x8 | PIXELFORMAT_ASTC_10x10
  | PIXELFORMAT_ASTC_12x10 | PIXELFORMAT_ASTC_12x12
  | PIXELFORMAT_unlisted (value : Z).

(** The position of an enumerator in the list above; the values the
    sources do not name come after all of them. *)
Definition PixelFormat_tag (f : PixelFormat) : Z * Z :=
  (match f with
  | PIXELFORMAT_UNKNOWN => 0 | PIXELFORMAT_R8_UNORM => 1 | PIXELFORMAT_RG8_UNORM => 2
  | PIXELFORMAT_RGBA8_UNORM => 3 | PIXELFORMAT_RGBA8_UNORM_sRGB => 4
  | PIXELFORMAT_BGRA8_UNORM => 5 | PIXELFORMAT_BGRA8_UNORM_sRGB => 6 | PIXELFORMAT_R16_UNORM => 7
  | PIXELFORMAT_RG16_UNORM => 8 | PIXELFORMAT_RGBA16_UNORM => 9 | PIXELFORMAT_R16_FLOAT => 10
  | PIXELFORMAT_RG16_FLOAT => 11 | PIXELFORMAT_RGBA16_FLOAT => 12 | PIXELFORMAT_R32_FLOAT => 13
  | PIXELFORMAT_RG32_FLOAT => 14 | PIXELFORMAT_RGBA32_FLOAT => 15 | PIXELFORMAT_R8_INT => 16
  | PIXELFORMAT_R8_UINT => 17 | PIXELFORMAT_RG8_INT => 18 | PIXELFORMAT_RG8_UINT => 19
  | PIXELFORMAT_RGBA8_INT => 20 | PIXELFORMAT_RGBA8_UINT => 21 | PIXELFORMAT_R16_INT => 22
  | PIXELFORMAT_R16_UINT => 23 | PIXELFORMAT_RG16_INT => 24 | PIXELFORMAT_RG16_UINT => 25
  | PIXELFORMAT_RGBA16_INT => 26 | PIXELFORMAT_RGBA16_UINT => 27 | PIXELFORMAT_R32_INT => 28
  | PIXELFORMAT_R32_UINT => 29 | PIXELFORMAT_RG32_INT => 30 | PIXELFORMAT_RG32_UINT => 31
  | PIXELFORMAT_RGBA32_INT => 32 | PIXELFORMAT_RGBA32_UINT => 33 | PIXELFORMAT_LA8_UNORM => 34
  | PIXELFORMAT_RGBA4_UNORM => 35 | PIXELFORMAT_RGB5A1_UNORM => 36
  | PIXELFORMAT_RGB565_UNORM => 37 | PIXELFORMAT_RGB10A2_UNORM => 38
  | PIXELFORMAT_RG11B10_FLOAT => 39 | PIXELFORMAT_STENCIL8 => 40
  | PIXELFORMAT_DEPTH16_UNORM => 41 | PIXELFORMAT_DEPTH24_UNORM => 42
  | PIXELFORMAT_DEPTH32_FLOAT => 43 | PIXELFORMAT_DEPTH24_UNORM_STENCIL8 => 44
  | PIXELFORMAT_DEPTH32_FLOAT_STENCIL8 => 45 | PIXELFORMAT_DXT1_UNORM => 46
  | PIXELFORMAT_DXT3_UNORM => 47 | PIXELFORMAT_DXT5_UNORM => 48 | PIXELFORMAT_BC4_UNORM => 49
  | PIXELFORMAT_BC4_SNORM => 50 | PIXELFORMAT_BC5_UNORM => 51 | PIXELFORMAT_BC5_SNORM => 52
  | PIXELFORMAT_BC6H_UFLOAT => 53 | PIXELFORMAT_BC6H_FLOAT => 54 | PIXELFORMAT_BC7_UNORM => 55
  | PIXELFORMAT_PVR1_RGB2_UNORM => 56 | PIXELFORMAT_PVR1_RGB4_UNORM => 57
  | PIXELFORMAT_PVR1_RGBA2_UNORM => 58 | PIXELFORMAT_PVR1_RGBA4_UNORM => 59
  | PIXELFORMAT_ETC1_UNORM => 60 | PIXELFORMAT_ETC2_RGB_UNORM => 61
  | PIXELFORMAT_ETC2_RGBA_UNORM => 62 | PIXELFORMAT_ETC2_RGBA1_UNORM => 63
  | PIXELFORMAT_EAC_R_UNORM => 64 | PIXELFORMAT_EAC_R_SNORM => 65
  | PIXELFORMAT_EAC_RG_UNORM => 66 | PIXELFORMAT_EAC_RG_SNORM => 67 | PIXELFORMAT_ASTC_4x4 => 68
  | PIXELFORMAT_ASTC_5x4 => 69 | PIXELFORMAT_ASTC_5x5 => 70 | PIXELFORMAT_ASTC_6x5 => 71
  | PIXELFORMAT_ASTC_6x6 => 72 | PIXELFORMAT_ASTC_8x5 => 73 | PIXELFORMAT_ASTC_8x6 => 74
  | PIXELFORMAT_ASTC_8x8 => 75 | PIXELFORMAT_ASTC_10x5 => 76 | PIXELFORMAT_ASTC_10x6 => 77
  | PIXELFORMAT_ASTC_10x8 => 78 | PIXELFORMAT_ASTC_10x10 => 79 | PIXELFORMAT_ASTC_12x10 => 80
  | PIXELFORMAT_ASTC_12x12 => 81
  | PIXELFORMAT_unlisted _ => 82
   end,
   match f with PIXELFORMAT_unlisted v => v | _ => 0 end).

Definition PixelFormat_eqb (x y : PixelFormat) : bool :=
  (fst (PixelFormat_tag x) =? fst (PixelFormat_tag y))
  && (snd (PixelFormat_tag x) =? snd (PixelFormat_tag y)).

(** ** Textures and render targets *)

(** A texture object.  [tex_id] is its address: two [Texture *] are equal
    when their addresses are.  The other members are what the code reads
    through the pointer (Texture.cpp is not among the sources); the size
    accessors take the mipmap level, [isValidSlice] the slice and the
    level.  None of them changes after the texture is created. *)
Record Texture : Type := mkTexture {
  tex_id : positive;
  getPixelFormat : PixelFormat;
  isRenderTarget : bool;
  getMipmapCount : Z;
  getRequestedMSAA : Z;
  getPixelWidth : Z -> Z;
  getPixelHeight : Z -> Z;
  getWidth : Z -> Z;
  getHeight : Z -> Z;
  isValidSlice : Z -> Z -> bool
}.

(** [a == b] on [Texture *], [nullptr] being [None]. *)
Definition Texture_ptr_eqb (a b : option Texture) : bool :=
  match a, b with
  | None, None => true
  | Some x, Some y => Pos.eqb (tex_id x) (tex_id y)
  | _, _ => false
  end.

(** [struct RenderTarget]: a texture pointer, a slice and a mipmap level. *)
Record RenderTarget : Type := mkRenderTarget {
  rt_texture : option Texture;
  rt_slice : Z;
  rt_mipmap : Z
}.

(** Modelled from the spec: the color attachments of a target set are
    (texture reference, slice, mipmap level) triples (Graphics.h is not
    among the sources): an element of [colors] is a [RenderTarget] whose
    texture is not null, which is what the loops of [setRenderTargets]
    rely on when they dereference it. *)
Record ColorTarget : Type := mkColorTarget {
  ct_texture : Texture;
  ct_slice : Z;
  ct_mipmap : Z
}.

Definition asRenderTarget (c : ColorTarget) : RenderTarget :=
  {| rt_texture := Some (ct_texture c); rt_slice := ct_slice c; rt_mipmap := ct_mipmap c |}.

(** [RenderTarget::operator !=]. *)
Definition RenderTarget_neb (x y : RenderTarget) : bool :=
  negb (Texture_ptr_eqb (rt_texture x) (rt_texture y)
        && (rt_slice x =? rt_slice y) && (rt_mipmap x =? rt_mipmap y)).

(** [struct RenderTargets]; [RenderTargetsStrongRef] has the same members
    and only adds reference counts, so the display state holds the same
    record. *)
Record RenderTargets : Type := mkRenderTargets {
  colors : list ColorTarget;
  depthStencil : RenderTarget;
  temporaryRTFlags : Z
}.

(** [RenderTarget()] and [RenderTargets()]. *)
Definition RenderTarget_null : RenderTarget :=
  {| rt_texture := None; rt_slice := 0; rt_mipmap := 0 |}.

Definition RenderTargets_empty : RenderTargets :=
  {| colors := []; depthStencil := RenderTarget_null; temporaryRTFlags := 0 |}.

(** [getFirstTarget]: the first color attachment, or the depth-stencil one
    when there is no color attachment. *)
Definition getFirstTarget (rts : RenderTargets) : RenderTarget :=
  match colors rts with
  | c :: _ => asRenderTarget c
  | [] => depthStencil rts
  end.

(** ** The display state *)

Record DisplayState : Type := mkDisplayState {
  color : Colorf;
  backgroundColor : Colorf;
  blend : BlendState;
  lineWidth : float;
  lineStyle : LineStyle;
  lineJoin : LineJoin;
  pointSize : float;
  scissor : bool;
  scissorRect : Rect;
  meshCullMode : CullMode;
  winding : Winding;
  font : option Font;
  shader : option Shader;
  renderTargets : RenderTargets;
  stencil : StencilState;
  depthTest : CompareMode;
  depthWrite : bool;
  colorMask : ColorChannelMask;
  wireframe : bool;
  defaultSamplerState : SamplerState;
  useCustomProjection : bool;
  customProjection : Matrix4
}.
Definition ds_set_color (v : Colorf) (s : DisplayState) : DisplayState :=
  {| color := v; backgroundColor := backgroundColor s; blend := blend s;
     lineWidth := lineWidth s; lineStyle := lineStyle s; lineJoin := lineJoin s;
     pointSize := pointSize s; scissor := scissor s; scissorRect := scissorRect s;
     meshCullMode := meshCullMode s; winding := winding s; font := font s; shader := shader s;
     renderTargets := renderTargets s; stencil := stencil s; depthTest := depthTest s;
     depthWrite := depthWrite s; colorMask := colorMask s; wireframe := wireframe s;
     defaultSamplerState := defaultSamplerState s; useCustomProjection := useCustomProjection s;
     customProjection := customProjection s |}.
Definition ds_set_backgroundColor (v : Colorf) (s : DisplayState) : DisplayState :=
  {| color := color s; backgroundColor := v; blend := blend s; lineWidth := lineWidth s;
     lineStyle := lineStyle s; lineJoin := lineJoin s; pointSize := pointSize s;
     scissor := scissor s; scissorRect := scissorRect s; meshCullMode := meshCullMode s;
     winding := winding s; font := font s; shader := shader s; renderTargets := renderTargets s;
     stencil := stencil s; depthTest := depthTest s; depthWrite := depthWrite s;
     colorMask := colorMask s; wireframe := wireframe s;
     defaultSamplerState := defaultSamplerState s; useCustomProjection := useCustomProjection s;
     customProjection := customProjection s |}.
Definition ds_set_blend (v : BlendState) (s : DisplayState) : DisplayState :=
  {| color := color s; backgroundColor := backgroundColor s; blend := v;
     lineWidth := lineWidth s; lineStyle := lineStyle s; lineJoin := lineJoin s;
     pointSize := pointSize s; scissor := scissor s; scissorRect := scissorRect s;
     meshCullMode := meshCullMode s; winding := winding s; font := font s; shader := shader s;
     renderTargets := renderTargets s; stencil := stencil s; depthTest := depthTest s;
     depthWrite := depthWrite s; colorMask := colorMask s; wireframe := wireframe s;
     defaultSamplerState := defaultSamplerState s; useCustomProjection := useCustomProjection s;
     customProjection := customProjection s |}.
Definition ds_set_lineWidth (v : float) (s : DisplayState) : DisplayState :=
  {| color := color s; backgroundColor := backgroundColor s; blend := blend s; lineWidth := v;
     lineStyle := lineStyle s; lineJoin := lineJoin s; pointSize := pointSize s;
     scissor := scissor s; scissorRect := scissorRect s; meshCullMode := meshCullMode s;
     winding := winding s; font := font s; shader := shader s; renderTargets := renderTargets s;
     stencil := stencil s; depthTest := depthTest s; depthWrite := depthWrite s;
     colorMask := colorMask s; wireframe := wireframe s;
     defaultSamplerState := defaultSamplerState s; useCustomProjection := useCustomProjection s;
     customProjection := customProjection s |}.
Definition ds_set_lineStyle (v : LineStyle) (s : DisplayState) : DisplayState :=
  {| color := color s; backgroundColor := backgroundColor s; blend := blend s;
     lineWidth := lineWidth s; lineStyle := v; lineJoin := lineJoin s; pointSize := pointSize s;
     scissor := scissor s; scissorRect := scissorRect s; meshCullMode := meshCullMode s;
     winding := winding s; font := font s; shader := shader s; renderTargets := renderTargets s;
     stencil := stencil s; depthTest := depthTest s; depthWrite := depthWrite s;
     colorMask := colorMask s; wireframe := wireframe s;
     defaultSamplerState := defaultSamplerState s; useCustomProjection := useCustomProjection s;
     customProjection := customProjection s |}.
Definition ds_set_lineJoin (v : LineJoin) (s : DisplayState) : DisplayState :=
  {| color := color s; backgroundColor := backgroundColor s; blend := blend s;
     lineWidth := lineWidth s; lineStyle := lineStyle s; lineJoin := v; pointSize := pointSize s;
     scissor := scissor s; scissorRect := scissorRect s; meshCullMode := meshCullMode s;
     winding := winding s; font := font s; shader := shader s; renderTargets := renderTargets s;
     stencil := stencil s; depthTest := depthTest s; depthWrite := depthWrite s;
     colorMask := colorMask s; wireframe := wireframe s;
     defaultSamplerState := defaultSamplerState s; useCustomProjection := useCustomProjection s;
     customProjection := customProjection s |}.
Definition ds_set_pointSize (v : float) (s : DisplayState) : DisplayState :=
  {| color := color s; backgroundColor := backgroundColor s; blend := blend s;
     lineWidth := lineWidth s; lineStyle := lineStyle s; lineJoin := lineJoin s; pointSize := v;
     scissor := scissor s; scissorRect := scissorRect s; meshCullMode := meshCullMode s;
     winding := winding s; font := font s; shader := shader s; renderTargets := renderTargets s;
     stencil := stencil s; depthTest := depthTest s; depthWrite := depthWrite s;
     colorMask := colorMask s; wireframe := wireframe s;
     defaultSamplerState := defaultSamplerState s; useCustomProjection := useCustomProjection s;
     customProjection := customProjection s |}.
Definition ds_set_scissor (v : bool) (s : DisplayState) : DisplayState :=
  {| color := color s; backgroundColor := backgroundColor s; blend := blend s;
     lineWidth := lineWidth s; lineStyle := lineStyle s; lineJoin := lineJoin s;
     pointSize := pointSize s; scissor := v; scissorRect := scissorRect s;
     meshCullMode := meshCullMode s; winding := winding s; font := font s; shader := shader s;
     renderTargets := renderTargets s; stencil := stencil s; depthTest := depthTest s;
     depthWrite := depthWrite s; colorMask := colorMask s; wireframe := wireframe s;
     defaultSamplerState := defaultSamplerState s; useCustomProjection := useCustomProjection s;
     customProjection := customProjection s |}.
Definition ds_set_scissorRect (v : Rect) (s : DisplayState) : DisplayState :=
  {| color := color s; backgroundColor := backgroundColor s; blend := blend s;
     lineWidth := lineWidth s; lineStyle := lineStyle s; lineJoin := lineJoin s;
     pointSize := pointSize s; scissor := scissor s; scissorRect := v;
     meshCullMode := meshCullMode s; winding := winding s; font := font s; shader := shader s;
     renderTargets := renderTargets s; stencil := stencil s; depthTest := depthTest s;
     depthWrite := depthWrite s; colorMask := colorMask s; wireframe := wireframe s;
     defaultSamplerState := defaultSamplerState s; useCustomProjection := useCustomProjection s;
     customProjection := customProjection s |}.
Definition ds_set_meshCullMode (v : CullMode) (s : DisplayState) : DisplayState :=
  {| color := color s; backgroundColor := backgroundColor s; blend := blend s;
     lineWidth := lineWidth s; lineStyle := lineStyle s; lineJoin := lineJoin s;
     pointSize := pointSize s; scissor := scissor s; scissorRect := scissorRect s;
     meshCullMode := v; winding := winding s; font := font s; shader := shader s;
     renderTargets := renderTargets s; stencil := stencil s; depthTest := depthTest s;
     depthWrite := depthWrite s; colorMask := colorMask s; wireframe := wireframe s;
     defaultSamplerState := defaultSamplerState s; useCustomProjection := useCustomProjection s;
     customProjection := customProjection s |}.
Definition ds_set_winding (v : Winding) (s : DisplayState) : DisplayState :=
  {| color := color s; backgroundColor := backgroundColor s; blend := blend s;
     lineWidth := lineWidth s; lineStyle := lineStyle s; lineJoin := lineJoin s;
     pointSize := pointSize s; scissor := scissor s; scissorRect := scissorRect s;
     meshCullMode := meshCullMode s; winding := v; font := font s; shader := shader s;
     renderTargets := renderTargets s; stencil := stencil s; depthTest := depthTest s;
     depthWrite := depthWrite s; colorMask := colorMask s; wireframe := wireframe s;
     defaultSamplerState := defaultSamplerState s; useCustomProjection := useCustomProjection s;
     customProjection := customProjection s |}.
Definition ds_set_font (v : option Font) (s : DisplayState) : DisplayState :=
  {| color := color s; backgroundColor := backgroundColor s; blend := blend s;
     lineWidth := lineWidth s; lineStyle := lineStyle s; lineJoin := lineJoin s;
     pointSize := pointSize s; scissor := scissor s; scissorRect := scissorRect s;
     meshCullMode := meshCullMode s; winding := winding s; font := v; shader := shader s;
     renderTargets := renderTargets s; stencil := stencil s; depthTest := depthTest s;
     depthWrite := depthWrite s; colorMask := colorMask s; wireframe := wireframe s;
     defaultSamplerState := defaultSamplerState s; useCustomProjection := useCustomProjection s;
     customProjection := customProjection s |}.
Definition ds_set_shader (v : option Shader) (s : DisplayState) : DisplayState :=
  {| color := color s; backgroundColor := backgroundColor s; blend := blend s;
     lineWidth := lineWidth s; lineStyle := lineStyle s; lineJoin := lineJoin s;
     pointSize := pointSize s; scissor := scissor s; scissorRect := scissorRect s;
     meshCullMode := meshCullMode s; winding := winding s; font := font s; shader := v;
     renderTargets := renderTargets s; stencil := stencil s; depthTest := depthTest s;
     depthWrite := depthWrite s; colorMask := colorMask s; wireframe := wireframe s;
     defaultSamplerState := defaultSamplerState s; useCustomProjection := useCustomProjection s;
     customProjection := customProjection s |}.
Definition ds_set_renderTargets (v : RenderTargets) (s : DisplayState) : DisplayState :=
  {| color := color s; backgroundColor := backgroundColor s; blend := blend s;
     lineWidth := lineWidth s; lineStyle := lineStyle s; lineJoin := lineJoin s;
     pointSize := pointSize s; scissor := scissor s; scissorRect := scissorRect s;
     meshCullMode := meshCullMode s; winding := winding s; font := font s; shader := shader s;
     renderTargets := v; stencil := stencil s; depthTest := depthTest s;
     depthWrite := depthWrite s; colorMask := colorMask s; wireframe := wireframe s;
     defaultSamplerState := defaultSamplerState s; useCustomProjection := useCustomProjection s;
     customProjection := customProjection s |}.
Definition ds_set_stencil (v : StencilState) (s : DisplayState) : DisplayState :=
  {| color := color s; backgroundColor := backgroundColor s; blend := blend s;
     lineWidth := lineWidth s; lineStyle := lineStyle s; lineJoin := lineJoin s;
     pointSize := pointSize s; scissor := scissor s; scissorRect := scissorRect s;
     meshCullMode := meshCullMode s; winding := winding s; font := font s; shader := shader s;
     renderTargets := renderTargets s; stencil := v; depthTest := depthTest s;
     depthWrite := depthWrite s; colorMask := colorMask s; wireframe := wireframe s;
     defaultSamplerState := defaultSamplerState s; useCustomProjection := useCustomProjection s;
     customProjection := customProjection s |}.
Definition ds_set_depthTest (v : CompareMode) (s : DisplayState) : DisplayState :=
  {| color := color s; backgroundColor := backgroundColor s; blend := blend s;
     lineWidth := lineWidth s; lineStyle := lineStyle s; lineJoin := lineJoin s;
     pointSize := pointSize s; scissor := scissor s; scissorRect := scissorRect s;
     meshCullMode := meshCullMode s; winding := winding s; font := font s; shader := shader s;
     renderTargets := renderTargets s; stencil := stencil s; depthTest := v;
     depthWrite := depthWrite s; colorMask := colorMask s; wireframe := wireframe s;
     defaultSamplerState := defaultSamplerState s; useCustomProjection := useCustomProjection s;
     customProjection := customProjection s |}.
Definition ds_set_depthWrite (v : bool) (s : DisplayState) : DisplayState :=
  {| color := color s; backgroundColor := backgroundColor s; blend := blend s;
     lineWidth := lineWidth s; lineStyle := lineStyle s; lineJoin := lineJoin s;
     pointSize := pointSize s; scissor := scissor s; scissorRect := scissorRect s;
     meshCullMode := meshCullMode s; winding := winding s; font := font s; shader := shader s;
     renderTargets := renderTargets s; stencil := stencil s; depthTest := depthTest s;
     depthWrite := v; colorMask := colorMask s; wireframe := wireframe s;
     defaultSamplerState := defaultSamplerState s; useCustomProjection := useCustomProjection s;
     customProjection := customProjection s |}.
Definition ds_set_colorMask (v : ColorChannelMask) (s : DisplayState) : DisplayState :=
  {| color := color s; backgroundColor := backgroundColor s; blend := blend s;
     lineWidth := lineWidth s; lineStyle := lineStyle s; lineJoin := lineJoin s;
     pointSize := pointSize s; scissor := scissor s; scissorRect := scissorRect s;
     meshCullMode := meshCullMode s; winding := winding s; font := font s; shader := shader s;
     renderTargets := renderTargets s; stencil := stencil s; depthTest := depthTest s;
     depthWrite := depthWrite s; colorMask := v; wireframe := wireframe s;
     defaultSamplerState := defaultSamplerState s; useCustomProjection := useCustomProjection s;
     customProjection := customProjection s |}.
Definition ds_set_wireframe (v : bool) (s : DisplayState) : DisplayState :=
  {| color := color s; backgroundColor := backgroundColor s; blend := blend s;
     lineWidth := lineWidth s; lineStyle := lineStyle s; lineJoin := lineJoin s;
     pointSize := pointSize s; scissor := scissor s; scissorRect := scissorRect s;
     meshCullMode := meshCullMode s; winding := winding s; font := font s; shader := shader s;
     renderTargets := renderTargets s; stencil := stencil s; depthTest := depthTest s;
     depthWrite := depthWrite s; colorMask := colorMask s; wireframe := v;
     defaultSamplerState := defaultSamplerState s; useCustomProjection := useCustomProjection s;
     customProjection := customProjection s |}.
Definition ds_set_defaultSamplerState (v : SamplerState) (s : DisplayState) : DisplayState :=
  {| color := color s; backgroundColor := backgroundColor s; blend := blend s;
     lineWidth := lineWidth s; lineStyle := lineStyle s; lineJoin := lineJoin s;
     pointSize := pointSize s; scissor := scissor s; scissorRect := scissorRect s;
     meshCullMode := meshCullMode s; winding := winding s; font := font s; shader := shader s;
     renderTargets := renderTargets s; stencil := stencil s; depthTest := depthTest s;
     depthWrite := depthWrite s; colorMask := colorMask s; wireframe := wireframe s;
     defaultSamplerState := v; useCustomProjection := useCustomProjection s;
     customProjection := customProjection s |}.
Definition ds_set_useCustomProjection (v : bool) (s : DisplayState) : DisplayState :=
  {| color := color s; backgroundColor := backgroundColor s; blend := blend s;
     lineWidth := lineWidth s; lineStyle := lineStyle s; lineJoin := lineJoin s;
     pointSize := pointSize s; scissor := scissor s; scissorRect := scissorRect s;
     meshCullMode := meshCullMode s; winding := winding s; font := font s; shader := shader s;
     renderTargets := renderTargets s; stencil := stencil s; depthTest := depthTest s;
     depthWrite := depthWrite s; colorMask := colorMask s; wireframe := wireframe s;
     defaultSamplerState := defaultSamplerState s; useCustomProjection := v;
     customProjection := customProjection s |}.
Definition ds_set_customProjection (v : Matrix4) (s : DisplayState) : DisplayState :=
  {| color := color s; backgroundColor := backgroundColor s; blend := blend s;
     lineWidth := lineWidth s; lineStyle := lineStyle s; lineJoin := lineJoin s;
     pointSize := pointSize s; scissor := scissor s; scissorRect := scissorRect s;
     meshCullMode := meshCullMode s; winding := winding s; font := font s; shader := shader s;
     renderTargets := renderTargets s; stencil := stencil s; depthTest := depthTest s;
     depthWrite := depthWrite s; colorMask := colorMask s; wireframe := wireframe s;
     defaultSamplerState := defaultSamplerState s; useCustomProjection := useCustomProjection s;
     customProjection := v |}.

(** ** Vertex formats and the batched-draw accumulator *)

Inductive PrimitiveType : Type :=
  PRIMITIVE_TRIANGLES | PRIMITIVE_TRIANGLE_FAN | PRIMITIVE_POINTS.

Inductive TriangleIndexMode : Type :=
  TRIANGLEINDEX_NONE | TRIANGLEINDEX_FAN | TRIANGLEINDEX_QUADS.

Inductive StandardShader : Type := STANDARD_DEFAULT | STANDARD_POINTS.

Inductive BuiltinVertexAttribute : Type := ATTRIB_POS | ATTRIB_TEXCOORD | ATTRIB_COLOR.

Definition PrimitiveType_eqb (x y : PrimitiveType) : bool :=
  match x, y with
  | PRIMITIVE_TRIANGLES, PRIMITIVE_TRIANGLES
  | PRIMITIVE_TRIANGLE_FAN, PRIMITIVE_TRIANGLE_FAN
  | PRIMITIVE_POINTS, PRIMITIVE_POINTS => true
  | _, _ => false
  end.

Definition StandardShader_eqb (x y : StandardShader) : bool :=
  match x, y with
  | STANDARD_DEFAULT, STANDARD_DEFAULT | STANDARD_POINTS, STANDARD_POINTS => true
  | _, _ => false
  end.

Definition BuiltinVertexAttribute_eqb (x y : BuiltinVertexAttribute) : bool :=
  match x, y with
  | ATTRIB_POS, ATTRIB_POS | ATTRIB_TEXCOORD, ATTRIB_TEXCOORD
  | ATTRIB_COLOR, ATTRIB_COLOR => true
  | _, _ => false
  end.

(** [mode != TRIANGLEINDEX_NONE]. *)
Definition usesIndices (mode : TriangleIndexMode) : bool :=
  match mode with TRIANGLEINDEX_NONE => false | _ => true end.

(** Modelled from the spec: a vertex-format descriptor (vertex.h is not
    among the sources).  [CommonFormat::NONE] is the absent stream; every
    other descriptor has a byte stride and names the built-in attributes
    (position, texture coordinate, color) that its stream carries. *)
Inductive CommonFormat : Type :=
  | NONE
  | Format (stride : Z) (attribs : list BuiltinVertexAttribute).

(** The two descriptors the sources name: a 2D position of two floats, and
    a color of four unsigned bytes. *)
Definition XYf : CommonFormat := Format 8 [ATTRIB_POS].
Definition RGBAub : CommonFormat := Format 4 [ATTRIB_COLOR].

Fixpoint attribs_eqb (l m : list BuiltinVertexAttribute) : bool :=
  match l, m with
  | [], [] => true
  | x :: l', y :: m' => BuiltinVertexAttribute_eqb x y && attribs_eqb l' m'
  | _, _ => false
  end.

Definition CommonFormat_eqb (x y : CommonFormat) : bool :=
  match x, y with
  | NONE, NONE => true
  | Format s l, Format t m => (s =? t) && attribs_eqb l m
  | _, _ => false
  end.

Definition isNONE (f : CommonFormat) : bool :=
  match f with NONE => true | Format _ _ => false end.

Definition getFormatStride (f : CommonFormat) : Z :=
  match f with NONE => 0 | Format s _ => size_t s end.

(** [VertexAttributes]: the enabled attributes, each with the index of the
    buffer it is read from; [enableBits == 0] is the empty list. *)
Definition VertexAttributes : Type := list (BuiltinVertexAttribute * Z).

Definition setCommonFormat (f : CommonFormat) (bufferindex : Z)
    (attributes : VertexAttributes) : VertexAttributes :=
  match f with
  | NONE => attributes
  | Format _ l => attributes ++ map (fun a => (a, bufferindex)) l
  end.

Definition isEnabled (a : BuiltinVertexAttribute) (attributes : VertexAttributes) : bool :=
  existsb (fun e => BuiltinVertexAttribute_eqb (fst e) a) attributes.

Definition enableBits_zero (attributes : VertexAttributes) : bool :=
  match attributes with [] => true | _ :: _ => false end.

(** [BufferBindings]: (binding index, offset into the stream buffer). *)
Definition BufferBindings : Type := list (Z * Z).

(** Modelled from the spec: a stream buffer (StreamBuffer.h is not among
    the sources) has [sb_size] bytes, of which the first [sb_gpuUsed] were
    marked as used by the GPU and may not be written again yet; the rest is
    its usable size.  [map] opens the usable region, [unmap] gives the
    offset where that region starts, [markUsed] extends the used part. *)
Record StreamBuffer : Type := mkStreamBuffer { sb_size : Z; sb_gpuUsed : Z }.

Definition getSize (b : StreamBuffer) : Z := sb_size b.
Definition getUsableSize (b : StreamBuffer) : Z := sb_size b - sb_gpuUsed b.

(** [StreamBuffer::MapInfo]: [data] is [None] for [nullptr], else the
    offset of the write pointer in the buffer. *)
Record MapInfo : Type := mkMapInfo { map_data : option Z; map_size : Z }.

Definition MapInfo_null : MapInfo := {| map_data := None; map_size := 0 |}.

Definition sb_map (b : StreamBuffer) (minsize : Z) : MapInfo :=
  {| map_data := Some (sb_gpuUsed b); map_size := getUsableSize b |}.

Definition sb_unmap (b : StreamBuffer) (usedsize : Z) : Z := sb_gpuUsed b.

Definition sb_markUsed (usedsize : Z) (b : StreamBuffer) : StreamBuffer :=
  {| sb_size := sb_size b; sb_gpuUsed := sb_gpuUsed b + usedsize |}.

(** [data != nullptr] and [data += n]. *)
Definition isMapped (m : MapInfo) : bool :=
  match map_data m with Some _ => true | None => false end.

Definition advance (n : Z) (m : MapInfo) : MapInfo :=
  {| map_data := option_map (fun p => p + n) (map_data m); map_size := map_size m |}.

Record BatchedDrawCommand : Type := mkBatchedDrawCommand {
  cmd_primitiveMode : PrimitiveType;
  cmd_formats0 : CommonFormat;
  cmd_formats1 : CommonFormat;
  cmd_indexMode : TriangleIndexMode;
  cmd_vertexCount : Z;
  cmd_texture : option Texture;
  cmd_standardShaderType : StandardShader
}.

(** [BatchedVertexData]: the two write pointers handed back to the caller. *)
Record BatchedVertexData : Type := mkBatchedVertexData {
  stream0 : option Z;
  stream1 : option Z
}.

(** [indexData] is the memory behind [indexBufferMap]: the [uint16] values
    written through the mapped pointer since the region was opened. *)
Record BatchedDrawState : Type := mkBatchedDrawState {
  primitiveMode : PrimitiveType;
  formats0 : CommonFormat;
  formats1 : CommonFormat;
  texture : option Texture;
  standardShaderType : StandardShader;
  vb0 : StreamBuffer;
  vb1 : StreamBuffer;
  indexBuffer : StreamBuffer;
  vbMap0 : MapInfo;
  vbMap1 : MapInfo;
  indexBufferMap : MapInfo;
  indexData : list Z;
  vertexCount : Z;
  indexCount : Z
}.
Definition bds_set_primitiveMode (v : PrimitiveType) (s : BatchedDrawState) : BatchedDrawState :=
  {| primitiveMode := v; formats0 := formats0 s; formats1 := formats1 s; texture := texture s;
     standardShaderType := standardShaderType s; vb0 := vb0 s; vb1 := vb1 s;
     indexBuffer := indexBuffer s; vbMap0 := vbMap0 s; vbMap1 := vbMap1 s;
     indexBufferMap := indexBufferMap s; indexData := indexData s; vertexCount := vertexCount s;
     indexCount := indexCount s |}.
Definition bds_set_formats0 (v : CommonFormat) (s : BatchedDrawState) : BatchedDrawState :=
  {| primitiveMode := primitiveMode s; formats0 := v; formats1 := formats1 s;
     texture := texture s; standardShaderType := standardShaderType s; vb0 := vb0 s;
     vb1 := vb1 s; indexBuffer := indexBuffer s; vbMap0 := vbMap0 s; vbMap1 := vbMap1 s;
     indexBufferMap := indexBufferMap s; indexData := indexData s; vertexCount := vertexCount s;
     indexCount := indexCount s |}.
Definition bds_set_formats1 (v : CommonFormat) (s : BatchedDrawState) : BatchedDrawState :=
  {| primitiveMode := primitiveMode s; formats0 := formats0 s; formats1 := v;
     texture := texture s; standardShaderType := standardShaderType s; vb0 := vb0 s;
     vb1 := vb1 s; indexBuffer := indexBuffer s; vbMap0 := vbMap0 s; vbMap1 := vbMap1 s;
     indexBufferMap := indexBufferMap s; indexData := indexData s; vertexCount := vertexCount s;
     indexCount := indexCount s |}.
Definition bds_set_texture (v : option Texture) (s : BatchedDrawState) : BatchedDrawState :=
  {| primitiveMode := primitiveMode s; formats0 := formats0 s; formats1 := formats1 s;
     texture := v; standardShaderType := standardShaderType s; vb0 := vb0 s; vb1 := vb1 s;
     indexBuffer := indexBuffer s; vbMap0 := vbMap0 s; vbMap1 := vbMap1 s;
     indexBufferMap := indexBufferMap s; indexData := indexData s; vertexCount := vertexCount s;
     indexCount := indexCount s |}.
Definition bds_set_standardShaderType (v : StandardShader) (s : BatchedDrawState) : BatchedDrawState :=
  {| primitiveMode := primitiveMode s; formats0 := formats0 s; formats1 := formats1 s;
     texture := texture s; standardShaderType := v; vb0 := vb0 s; vb1 := vb1 s;
     indexBuffer := indexBuffer s; vbMap0 := vbMap0 s; vbMap1 := vbMap1 s;
     indexBufferMap := indexBufferMap s; indexData := indexData s; vertexCount := vertexCount s;
     indexCount := indexCount s |}.
Definition bds_set_vb0 (v : StreamBuffer) (s : BatchedDrawState) : BatchedDrawState :=
  {| primitiveMode := primitiveMode s; formats0 := formats0 s; formats1 := formats1 s;
     texture := texture s; standardShaderType := standardShaderType s; vb0 := v; vb1 := vb1 s;
     indexBuffer := indexBuffer s; vbMap0 := vbMap0 s; vbMap1 := vbMap1 s;
     indexBufferMap := indexBufferMap s; indexData := indexData s; vertexCount := vertexCount s;
     indexCount := indexCount s |}.
Definition bds_set_vb1 (v : StreamBuffer) (s : BatchedDrawState) : BatchedDrawState :=
  {| primitiveMode := primitiveMode s; formats0 := formats0 s; formats1 := formats1 s;
     texture := texture s; standardShaderType := standardShaderType s; vb0 := vb0 s; vb1 := v;
     indexBuffer := indexBuffer s; vbMap0 := vbMap0 s; vbMap1 := vbMap1 s;
     indexBufferMap := indexBufferMap s; indexData := indexData s; vertexCount := vertexCount s;
     indexCount := indexCount s |}.
Definition bds_set_indexBuffer (v : StreamBuffer) (s : BatchedDrawState) : BatchedDrawState :=
  {| primitiveMode := primitiveMode s; formats0 := formats0 s; formats1 := formats1 s;
     texture := texture s; standardShaderType := standardShaderType s; vb0 := vb0 s;
     vb1 := vb1 s; indexBuffer := v; vbMap0 := vbMap0 s; vbMap1 := vbMap1 s;
     indexBufferMap := indexBufferMap s; indexData := indexData s; vertexCount := vertexCount s;
     indexCount := indexCount s |}.
Definition bds_set_vbMap0 (v : MapInfo) (s : BatchedDrawState) : BatchedDrawState :=
  {| primitiveMode := primitiveMode s; formats0 := formats0 s; formats1 := formats1 s;
     texture := texture s; standardShaderType := standardShaderType s; vb0 := vb0 s;
     vb1 := vb1 s; indexBuffer := indexBuffer s; vbMap0 := v; vbMap1 := vbMap1 s;
     indexBufferMap := indexBufferMap s; indexData := indexData s; vertexCount := vertexCount s;
     indexCount := indexCount s |}.
Definition bds_set_vbMap1 (v : MapInfo) (s : BatchedDrawState) : BatchedDrawState :=
  {| primitiveMode := primitiveMode s; formats0 := formats0 s; formats1 := formats1 s;
     texture := texture s; standardShaderType := standardShaderType s; vb0 := vb0 s;
     vb1 := vb1 s; indexBuffer := indexBuffer s; vbMap0 := vbMap0 s; vbMap1 := v;
     indexBufferMap := indexBufferMap s; indexData := indexData s; vertexCount := vertexCount s;
     indexCount := indexCount s |}.
Definition bds_set_indexBufferMap (v : MapInfo) (s : BatchedDrawState) : BatchedDrawState :=
  {| primitiveMode := primitiveMode s; formats0 := formats0 s; formats1 := formats1 s;
     texture := texture s; standardShaderType := standardShaderType s; vb0 := vb0 s;
     vb1 := vb1 s; indexBuffer := indexBuffer s; vbMap0 := vbMap0 s; vbMap1 := vbMap1 s;
     indexBufferMap := v; indexData := indexData s; vertexCount := vertexCount s;
     indexCount := indexCount s |}.
Definition bds_set_indexData (v : list Z) (s : BatchedDrawState) : BatchedDrawState :=
  {| primitiveMode := primitiveMode s; formats0 := formats0 s; formats1 := formats1 s;
     texture := texture s; standardShaderType := standardShaderType s; vb0 := vb0 s;
     vb1 := vb1 s; indexBuffer := indexBuffer s; vbMap0 := vbMap0 s; vbMap1 := vbMap1 s;
     indexBufferMap := indexBufferMap s; indexData := v; vertexCount := vertexCount s;
     indexCount := indexCount s |}.
Definition bds_set_vertexCount (v : Z) (s : BatchedDrawState) : BatchedDrawState :=
  {| primitiveMode := primitiveMode s; formats0 := formats0 s; formats1 := formats1 s;
     texture := texture s; standardShaderType := standardShaderType s; vb0 := vb0 s;
     vb1 := vb1 s; indexBuffer := indexBuffer s; vbMap0 := vbMap0 s; vbMap1 := vbMap1 s;
     indexBufferMap := indexBufferMap s; indexData := indexData s; vertexCount := v;
     indexCount := indexCount s |}.
Definition bds_set_indexCount (v : Z) (s : BatchedDrawState) : BatchedDrawState :=
  {| primitiveMode := primitiveMode s; formats0 := formats0 s; formats1 := formats1 s;
     texture := texture s; standardShaderType := standardShaderType s; vb0 := vb0 s;
     vb1 := vb1 s; indexBuffer := indexBuffer s; vbMap0 := vbMap0 s; vbMap1 := vbMap1 s;
     indexBufferMap := indexBufferMap s; indexData := indexData s; vertexCount := vertexCount s;
     indexCount := v |}.

(** [BatchedDrawState()]: nothing accumulated, nothing mapped; the stream
    buffers are the ones the backend allocates when the mode is set. *)
Definition BatchedDrawState_new (b0 b1 bi : StreamBuffer) : BatchedDrawState :=
  {| primitiveMode := PRIMITIVE_TRIANGLES; formats0 := NONE; formats1 := NONE;
     texture := None; standardShaderType := STANDARD_DEFAULT;
     vb0 := b0; vb1 := b1; indexBuffer := bi;
     vbMap0 := MapInfo_null; vbMap1 := MapInfo_null; indexBufferMap := MapInfo_null;
     indexData := []; vertexCount := 0; indexCount := 0 |}.

Record DrawCommand : Type := mkDrawCommand {
  dc_attributes : VertexAttributes;
  dc_buffers : BufferBindings;
  dc_primitiveType : PrimitiveType;
  dc_vertexStart : Z;
  dc_vertexCount : Z;
  dc_texture : option Texture
}.

Record DrawIndexedCommand : Type := mkDrawIndexedCommand {
  dic_attributes : VertexAttributes;
  dic_buffers : BufferBindings;
  dic_primitiveType : PrimitiveType;
  dic_indexCount : Z;
  dic_indexBufferOffset : Z;
  dic_texture : option Texture
}.

(** ** The object and its collaborators *)

Inductive PixelFormatUsage : Type := PIXELFORMATUSAGEFLAGS_RENDERTARGET.

(** What is attached as [Shader::current]: one of the standard shaders or a
    shader of the caller. *)
Inductive AttachedShader : Type :=
  | StandardAttached (type : StandardShader)
  | CustomAttached (s : Shader).

(** The calls that leave [Graphics.cpp]: the pure virtual functions the
    backend implements, and the calls on shader and texture objects.  An
    indexed draw is recorded with the index values it reads. *)
Inductive ExternalCall : Type :=
  | Call_draw (cmd : DrawCommand)
  | Call_drawIndexed (cmd : DrawIndexedCommand) (indices : list Z)
  | Call_setColor (c : Colorf)
  | Call_setBlendState (b : BlendState)
  | Call_setPointSize (size : float)
  | Call_setScissor (rect : option Rect)
  | Call_setFrontFaceWinding (w : Winding)
  | Call_setStencilMode (s : StencilState)
  | Call_setDepthMode (compare : CompareMode) (write : bool)
  | Call_setColorMask (m : ColorChannelMask)
  | Call_setWireframe (enable : bool)
  | Call_setRenderTargetsInternal (rts : RenderTargets) (pixelw pixelh : Z)
                                  (hasSRGBtexture : bool)
  | Call_clearDepthStencil (stencil : Z) (depth : float)
  | Call_newTexture (t : Texture)
  | Call_release (t : Texture)
  | Call_newStreamBuffer (index : bool) (size : Z)
  | Call_attach (s : Shader)
  | Call_attachDefault (type : StandardShader)
  | Call_validateDrawState (mode : PrimitiveType) (tex : option Texture).

Definition isDraw (c : ExternalCall) : bool :=
  match c with Call_draw _ | Call_drawIndexed _ _ => true | _ => false end.

(** The draw calls among the recorded calls. *)
Definition draws (l : list ExternalCall) : list ExternalCall := filter isDraw l.

Record Capabilities : Type := mkCapabilities {
  LIMIT_RENDER_TARGETS : Z;
  FEATURE_MULTI_RENDER_TARGET_FORMATS : bool
}.

(** [framesSinceUse] is -1 while the texture is checked out. *)
Record TemporaryTexture : Type := mkTemporaryTexture {
  tt_texture : Texture;
  framesSinceUse : Z
}.

(** The members of [Graphics] that the modelled functions touch, the two
    statics they read ([gammaCorrect], [Shader::current]), the recorded
    calls, and [heapNext], the address the next created texture gets. *)
Record Graphics : Type := mkGraphics {
  width : Z;
  height : Z;
  pixelWidth : Z;
  pixelHeight : Z;
  states : list DisplayState;
  transformStack : list Matrix4;
  pixelScaleStack : list float;
  stackTypeStack : list StackType;
  batchedDrawState : BatchedDrawState;
  deviceProjectionMatrix : Matrix4;
  renderTargetSwitchCount : Z;
  drawCallsBatched : Z;
  capabilities : Capabilities;
  temporaryTextures : list TemporaryTexture;
  gammaCorrect : bool;
  Shader_current : option AttachedShader;
  calls : list ExternalCall;
  heapNext : positive
}.
Definition set_width (v : Z) (g : Graphics) : Graphics :=
  {| width := v; height := height g; pixelWidth := pixelWidth g; pixelHeight := pixelHeight g;
     states := states g; transformStack := transformStack g;
     pixelScaleStack := pixelScaleStack g; stackTypeStack := stackTypeStack g;
     batchedDrawState := batchedDrawState g; deviceProjectionMatrix := deviceProjectionMatrix g;
     renderTargetSwitchCount := renderTargetSwitchCount g;
     drawCallsBatched := drawCallsBatched g; capabilities := capabilities g;
     temporaryTextures := temporaryTextures g; gammaCorrect := gammaCorrect g;
     Shader_current := Shader_current g; calls := calls g; heapNext := heapNext g |}.
Definition set_height (v : Z) (g : Graphics) : Graphics :=
  {| width := width g; height := v; pixelWidth := pixelWidth g; pixelHeight := pixelHeight g;
     states := states g; transformStack := transformStack g;
     pixelScaleStack := pixelScaleStack g; stackTypeStack := stackTypeStack g;
     batchedDrawState := batchedDrawState g; deviceProjectionMatrix := deviceProjectionMatrix g;
     renderTargetSwitchCount := renderTargetSwitchCount g;
     drawCallsBatched := drawCallsBatched g; capabilities := capabilities g;
     temporaryTextures := temporaryTextures g; gammaCorrect := gammaCorrect g;
     Shader_current := Shader_current g; calls := calls g; heapNext := heapNext g |}.
Definition set_pixelWidth (v : Z) (g : Graphics) : Graphics :=
  {| width := width g; height := height g; pixelWidth := v; pixelHeight := pixelHeight g;
     states := states g; transformStack := transformStack g;
     pixelScaleStack := pixelScaleStack g; stackTypeStack := stackTypeStack g;
     batchedDrawState := batchedDrawState g; deviceProjectionMatrix := deviceProjectionMatrix g;
     renderTargetSwitchCount := renderTargetSwitchCount g;
     drawCallsBatched := drawCallsBatched g; capabilities := capabilities g;
     temporaryTextures := temporaryTextures g; gammaCorrect := gammaCorrect g;
     Shader_current := Shader_current g; calls := calls g; heapNext := heapNext g |}.
Definition set_pixelHeight (v : Z) (g : Graphics) : Graphics :=
  {| width := width g; height := height g; pixelWidth := pixelWidth g; pixelHeight := v;
     states := states g; transformStack := transformStack g;
     pixelScaleStack := pixelScaleStack g; stackTypeStack := stackTypeStack g;
     batchedDrawState := batchedDrawState g; deviceProjectionMatrix := deviceProjectionMatrix g;
     renderTargetSwitchCount := renderTargetSwitchCount g;
     drawCallsBatched := drawCallsBatched g; capabilities := capabilities g;
     temporaryTextures := temporaryTextures g; gammaCorrect := gammaCorrect g;
     Shader_current := Shader_current g; calls := calls g; heapNext := heapNext g |}.
Definition set_states (v : list DisplayState) (g : Graphics) : Graphics :=
  {| width := width g; height := height g; pixelWidth := pixelWidth g;
     pixelHeight := pixelHeight g; states := v; transformStack := transformStack g;
     pixelScaleStack := pixelScaleStack g; stackTypeStack := stackTypeStack g;
     batchedDrawState := batchedDrawState g; deviceProjectionMatrix := deviceProjectionMatrix g;
     renderTargetSwitchCount := renderTargetSwitchCount g;
     drawCallsBatched := drawCallsBatched g; capabilities := capabilities g;
     temporaryTextures := temporaryTextures g; gammaCorrect := gammaCorrect g;
     Shader_current := Shader_current g; calls := calls g; heapNext := heapNext g |}.
Definition set_transformStack (v : list Matrix4) (g : Graphics) : Graphics :=
  {| width := width g; height := height g; pixelWidth := pixelWidth g;
     pixelHeight := pixelHeight g; states := states g; transformStack := v;
     pixelScaleStack := pixelScaleStack g; stackTypeStack := stackTypeStack g;
     batchedDrawState := batchedDrawState g; deviceProjectionMatrix := deviceProjectionMatrix g;
     renderTargetSwitchCount := renderTargetSwitchCount g;
     drawCallsBatched := drawCallsBatched g; capabilities := capabilities g;
     temporaryTextures := temporaryTextures g; gammaCorrect := gammaCorrect g;
     Shader_current := Shader_current g; calls := calls g; heapNext := heapNext g |}.
Definition set_pixelScaleStack (v : list float) (g : Graphics) : Graphics :=
  {| width := width g; height := height g; pixelWidth := pixelWidth g;
     pixelHeight := pixelHeight g; states := states g; transformStack := transformStack g;
     pixelScaleStack := v; stackTypeStack := stackTypeStack g;
     batchedDrawState := batchedDrawState g; deviceProjectionMatrix := deviceProjectionMatrix g;
     renderTargetSwitchCount := renderTargetSwitchCount g;
     drawCallsBatched := drawCallsBatched g; capabilities := capabilities g;
     temporaryTextures := temporaryTextures g; gammaCorrect := gammaCorrect g;
     Shader_current := Shader_current g; calls := calls g; heapNext := heapNext g |}.
Definition set_stackTypeStack (v : list StackType) (g : Graphics) : Graphics :=
  {| width := width g; height := height g; pixelWidth := pixelWidth g;
     pixelHeight := pixelHeight g; states := states g; transformStack := transformStack g;
     pixelScaleStack := pixelScaleStack g; stackTypeStack := v;
     batchedDrawState := batchedDrawState g; deviceProjectionMatrix := deviceProjectionMatrix g;
     renderTargetSwitchCount := renderTargetSwitchCount g;
     drawCallsBatched := drawCallsBatched g; capabilities := capabilities g;
     temporaryTextures := temporaryTextures g; gammaCorrect := gammaCorrect g;
     Shader_current := Shader_current g; calls := calls g; heapNext := heapNext g |}.
Definition set_batchedDrawState (v : BatchedDrawState) (g : Graphics) : Graphics :=
  {| width := width g; height := height g; pixelWidth := pixelWidth g;
     pixelHeight := pixelHeight g; states := states g; transformStack := transformStack g;
     pixelScaleStack := pixelScaleStack g; stackTypeStack := stackTypeStack g;
     batchedDrawState := v; deviceProjectionMatrix := deviceProjectionMatrix g;
     renderTargetSwitchCount := renderTargetSwitchCount g;
     drawCallsBatched := drawCallsBatched g; capabilities := capabilities g;
     temporaryTextures := temporaryTextures g; gammaCorrect := gammaCorrect g;
     Shader_current := Shader_current g; calls := calls g; heapNext := heapNext g |}.
Definition set_deviceProjectionMatrix (v : Matrix4) (g : Graphics) : Graphics :=
  {| width := width g; height := height g; pixelWidth := pixelWidth g;
     pixelHeight := pixelHeight g; states := states g; transformStack := transformStack g;
     pixelScaleStack := pixelScaleStack g; stackTypeStack := stackTypeStack g;
     batchedDrawState := batchedDrawState g; deviceProjectionMatrix := v;
     renderTargetSwitchCount := renderTargetSwitchCount g;
     drawCallsBatched := drawCallsBatched g; capabilities := capabilities g;
     temporaryTextures := temporaryTextures g; gammaCorrect := gammaCorrect g;
     Shader_current := Shader_current g; calls := calls g; heapNext := heapNext g |}.
Definition set_renderTargetSwitchCount (v : Z) (g : Graphics) : Graphics :=
  {| width := width g; height := height g; pixelWidth := pixelWidth g;
     pixelHeight := pixelHeight g; states := states g; transformStack := transformStack g;
     pixelScaleStack := pixelScaleStack g; stackTypeStack := stackTypeStack g;
     batchedDrawState := batchedDrawState g; deviceProjectionMatrix := deviceProjectionMatrix g;
     renderTargetSwitchCount := v; drawCallsBatched := drawCallsBatched g;
     capabilities := capabilities g; temporaryTextures := temporaryTextures g;
     gammaCorrect := gammaCorrect g; Shader_current := Shader_current g; calls := calls g;
     heapNext := heapNext g |}.
Definition set_drawCallsBatched (v : Z) (g : Graphics) : Graphics :=
  {| width := width g; height := height g; pixelWidth := pixelWidth g;
     pixelHeight := pixelHeight g; states := states g; transformStack := transformStack g;
     pixelScaleStack := pixelScaleStack g; stackTypeStack := stackTypeStack g;
     batchedDrawState := batchedDrawState g; deviceProjectionMatrix := deviceProjectionMatrix g;
     renderTargetSwitchCount := renderTargetSwitchCount g; drawCallsBatched := v;
     capabilities := capabilities g; temporaryTextures := temporaryTextures g;
     gammaCorrect := gammaCorrect g; Shader_current := Shader_current g; calls := calls g;
     heapNext := heapNext g |}.
Definition set_capabilities (v : Capabilities) (g : Graphics) : Graphics :=
  {| width := width g; height := height g; pixelWidth := pixelWidth g;
     pixelHeight := pixelHeight g; states := states g; transformStack := transformStack g;
     pixelScaleStack := pixelScaleStack g; stackTypeStack := stackTypeStack g;
     batchedDrawState := batchedDrawState g; deviceProjectionMatrix := deviceProjectionMatrix g;
     renderTargetSwitchCount := renderTargetSwitchCount g;
     drawCallsBatched := drawCallsBatched g; capabilities := v;
     temporaryTextures := temporaryTextures g; gammaCorrect := gammaCorrect g;
     Shader_current := Shader_current g; calls := calls g; heapNext := heapNext g |}.
Definition set_temporaryTextures (v : list TemporaryTexture) (g : Graphics) : Graphics :=
  {| width := width g; height := height g; pixelWidth := pixelWidth g;
     pixelHeight := pixelHeight g; states := states g; transformStack := transformStack g;
     pixelScaleStack := pixelScaleStack g; stackTypeStack := stackTypeStack g;
     batchedDrawState := batchedDrawState g; deviceProjectionMatrix := deviceProjectionMatrix g;
     renderTargetSwitchCount := renderTargetSwitchCount g;
     drawCallsBatched := drawCallsBatched g; capabilities := capabilities g;
     temporaryTextures := v; gammaCorrect := gammaCorrect g; Shader_current := Shader_current g;
     calls := calls g; heapNext := heapNext g |}.
Definition set_gammaCorrect (v : bool) (g : Graphics) : Graphics :=
  {| width := width g; height := height g; pixelWidth := pixelWidth g;
     pixelHeight := pixelHeight g; states := states g; transformStack := transformStack g;
     pixelScaleStack := pixelScaleStack g; stackTypeStack := stackTypeStack g;
     batchedDrawState := batchedDrawState g; deviceProjectionMatrix := deviceProjectionMatrix g;
     renderTargetSwitchCount := renderTargetSwitchCount g;
     drawCallsBatched := drawCallsBatched g; capabilities := capabilities g;
     temporaryTextures := temporaryTextures g; gammaCorrect := v;
     Shader_current := Shader_current g; calls := calls g; heapNext := heapNext g |}.
Definition set_Shader_current (v : option AttachedShader) (g : Graphics) : Graphics :=
  {| width := width g; height := height g; pixelWidth := pixelWidth g;
     pixelHeight := pixelHeight g; states := states g; transformStack := transformStack g;
     pixelScaleStack := pixelScaleStack g; stackTypeStack := stackTypeStack g;
     batchedDrawState := batchedDrawState g; deviceProjectionMatrix := deviceProjectionMatrix g;
     renderTargetSwitchCount := renderTargetSwitchCount g;
     drawCallsBatched := drawCallsBatched g; capabilities := capabilities g;
     temporaryTextures := temporaryTextures g; gammaCorrect := gammaCorrect g;
     Shader_current := v; calls := calls g; heapNext := heapNext g |}.
Definition set_calls (v : list ExternalCall) (g : Graphics) : Graphics :=
  {| width := width g; height := height g; pixelWidth := pixelWidth g;
     pixelHeight := pixelHeight g; states := states g; transformStack := transformStack g;
     pixelScaleStack := pixelScaleStack g; stackTypeStack := stackTypeStack g;
     batchedDrawState := batchedDrawState g; deviceProjectionMatrix := deviceProjectionMatrix g;
     renderTargetSwitchCount := renderTargetSwitchCount g;
     drawCallsBatched := drawCallsBatched g; capabilities := capabilities g;
     temporaryTextures := temporaryTextures g; gammaCorrect := gammaCorrect g;
     Shader_current := Shader_current g; calls := v; heapNext := heapNext g |}.
Definition set_heapNext (v : positive) (g : Graphics) : Graphics :=
  {| width := width g; height := height g; pixelWidth := pixelWidth g;
     pixelHeight := pixelHeight g; states := states g; transformStack := transformStack g;
     pixelScaleStack := pixelScaleStack g; stackTypeStack := stackTypeStack g;
     batchedDrawState := batchedDrawState g; deviceProjectionMatrix := deviceProjectionMatrix g;
     renderTargetSwitchCount := renderTargetSwitchCount g;
     drawCallsBatched := drawCallsBatched g; capabilities := capabilities g;
     temporaryTextures := temporaryTextures g; gammaCorrect := gammaCorrect g;
     Shader_current := Shader_current g; calls := calls g; heapNext := v |}.

(** ** Index generation *)

(** [Zrange lo n] is [lo; lo+1; ...; lo+n-1], empty when [n <= 0]. *)
Definition Zrange (lo n : Z) : list Z :=
  map (fun k => lo + Z.of_nat k) (seq 0 (Z.to_nat n)).

(** Modelled from the spec: [getIndexCount] (vertex.cpp is not among the
    sources).  Quad-list mode produces [6 * (V/4)] indices, fan mode
    [3 * (V-2)], and no index is generated without an index mode; the
    division is the one of C++ [int]s. *)
Definition getIndexCount (mode : TriangleIndexMode) (vertexCount : Z) : Z :=
  match mode with
  | TRIANGLEINDEX_NONE => 0
  | TRIANGLEINDEX_FAN => 3 * (vertexCount - 2)
  | TRIANGLEINDEX_QUADS => 6 * (vertexCount ÷ 4)
  end.

(** Modelled from the spec: [fillIndices] (vertex.cpp is not among the
    sources).  Quad-list mode emits the two triangles {0,1,2,2,3,0} for
    each group of 4 input vertices, offset by the vertex base; fan mode
    emits the triangle {0,i,i+1} for i from 1 to count-2. *)
Definition fillIndices (mode : TriangleIndexMode) (vertexStart vertexCount : Z) : list Z :=
  match mode with
  | TRIANGLEINDEX_NONE => []
  | TRIANGLEINDEX_FAN =>
      flat_map (fun i => [vertexStart; vertexStart + i; vertexStart + i + 1])
               (Zrange 1 (vertexCount - 2))
  | TRIANGLEINDEX_QUADS =>
      flat_map (fun q => let vertex := vertexStart + 4 * q in
                         [vertex; vertex + 1; vertex + 2; vertex + 2; vertex + 3; vertex])
               (Zrange 0 (vertexCount ÷ 4))
  end.

(** ** The engine *)

Section GraphicsEngine.

(** Constants and functions that [Graphics.cpp] uses and the sources do not
    define: two limits of Graphics.h, the two temporary-attachment flag
    bits, the pixel-format predicates of pixelformat.cpp, the backend's
    format query and device projection, [Matrix4::ortho (0, w, 0, h, -10,
    10)], and the member initialisers of [DisplayState]. *)
Variable MAX_USER_STACK_DEPTH : nat.
Variable MAX_TEMPORARY_RESOURCE_UNUSED_FRAMES : Z.
Variable TEMPORARY_RT_DEPTH : Z.
Variable TEMPORARY_RT_STENCIL : Z.
Variable isPixelFormatDepthStencil : PixelFormat -> bool.
Variable isPixelFormatSRGB : PixelFormat -> bool.
Variable isPixelFormatSupported : PixelFormat -> PixelFormatUsage -> bool -> bool.
Variable computeDeviceProjection : Matrix4 -> bool -> Matrix4.
Variable Matrix4_ortho : Z -> Z -> Matrix4.
Variable DisplayState_members : DisplayState.

Definition M (A : Type) : Type := St Graphics A.

(** [DisplayState::DisplayState()]: the constructor body sets the mipmap
    filter; the strong references and the vector of color targets start
    empty. *)
Definition DisplayState_new : DisplayState :=
  ds_set_defaultSamplerState
    {| mipmapFilter := MIPMAP_FILTER_LINEAR;
       samplerMembers := samplerMembers (defaultSamplerState DisplayState_members) |}
    (ds_set_renderTargets RenderTargets_empty
       (ds_set_shader None (ds_set_font None DisplayState_members))).

(** [Graphics::Graphics()]: one identity transform, pixel scale 1, one
    default display state, no user push yet, all counters at zero.  The
    window size, the capabilities and the stream buffers are what the
    backend sets up before the first draw. *)
Definition Graphics_new (caps : Capabilities) (w h pw ph : Z) (b0 b1 bi : StreamBuffer)
    : Graphics :=
  {| width := w; height := h; pixelWidth := pw; pixelHeight := ph;
     states := [DisplayState_new];
     transformStack := [Matrix4_identity];
     pixelScaleStack := [float_1];
     stackTypeStack := [];
     batchedDrawState := BatchedDrawState_new b0 b1 bi;
     deviceProjectionMatrix := Matrix4_identity;
     renderTargetSwitchCount := 0;
     drawCallsBatched := 0;
     capabilities := caps;
     temporaryTextures := [];
     gammaCorrect := false;
     Shader_current := None;
     calls := [];
     heapNext := 1%positive |}.

(** [states.back()]; on an empty vector, which C++ leaves undefined, the
    model reads a default-constructed state. *)
Definition back (g : Graphics) : DisplayState := hd DisplayState_new (states g).

(** An assignment through [states.back()]. *)
Definition modify_back (f : DisplayState -> DisplayState) : M unit :=
  modify (fun g => set_states (match states g with
                               | s :: rest => f s :: rest
                               | [] => []
                               end) g).

Definition modify_batch (f : BatchedDrawState -> BatchedDrawState) : M unit :=
  modify (fun g => set_batchedDrawState (f (batchedDrawState g)) g).

(** A call that leaves the file. *)
Definition call (c : ExternalCall) : M unit :=
  modify (fun g => set_calls (calls g ++ [c]) g).

(** *** Transform stack *)

Definition pushTransform : M unit :=
  modify (fun g => set_transformStack
                     (hd Matrix4_identity (transformStack g) :: transformStack g) g).

Definition pushIdentityTransform : M unit :=
  modify (fun g => set_transformStack (Matrix4_identity :: transformStack g) g).

Definition popTransform : M unit :=
  modify (fun g => set_transformStack (tl (transformStack g)) g).

(** *** Color *)

Definition getColor : M Colorf := gets (fun g => color (back g)).

(** Modelled from the spec: [setColor] is implemented by the backend; it
    hands the color to the backend and writes it into the top display
    state.  It cannot flush: [flushBatchedDraws] calls it while the batch
    is still pending. *)
Definition setColor (c : Colorf) : M unit :=
  call (Call_setColor c) ;;
  modify_back (ds_set_color c).

Definition Colorf_white : Colorf :=
  {| col_r := float_1; col_g := float_1; col_b := float_1; col_a := float_1 |}.

(** *** Shader statics *)

Definition isDefaultActive (g : Graphics) : bool :=
  match Shader_current g with
  | Some (StandardAttached _) => true
  | _ => false
  end.

Definition attachDefault (type : StandardShader) : M unit :=
  call (Call_attachDefault type) ;;
  modify (set_Shader_current (Some (StandardAttached type))).

Definition attach (s : Shader) : M unit :=
  call (Call_attach s) ;;
  modify (set_Shader_current (Some (CustomAttached s))).

(** *** flushBatchedDraws *)

(** [usedsizes[i]] of the loop over the two vertex streams. *)
Definition usedsize (f : CommonFormat) (vertices : Z) : Z :=
  if isNONE f then 0 else size_t (getFormatStride f * vertices).

Definition flushBatchedDraws : M unit :=
  sbstate <- gets batchedDrawState ;;
  if (vertexCount sbstate =? 0) && (indexCount sbstate =? 0) then ret tt else
  (* for (int i = 0; i < 2; i++): attributes, used sizes, unmap *)
  let attributes :=
    setCommonFormat (formats1 sbstate) 1 (setCommonFormat (formats0 sbstate) 0 []) in
  let usedsizes0 := usedsize (formats0 sbstate) (vertexCount sbstate) in
  let usedsizes1 := usedsize (formats1 sbstate) (vertexCount sbstate) in
  let buffers :=
    (if isNONE (formats0 sbstate) then []
     else [(0, sb_unmap (vb0 sbstate) usedsizes0)])
    ++ (if isNONE (formats1 sbstate) then []
        else [(1, sb_unmap (vb1 sbstate) usedsizes1)]) in
  when (negb (isNONE (formats0 sbstate))) (modify_batch (bds_set_vbMap0 MapInfo_null)) ;;
  when (negb (isNONE (formats1 sbstate))) (modify_batch (bds_set_vbMap1 MapInfo_null)) ;;
  if enableBits_zero attributes then ret tt else
  nc <- getColor ;;
  when (isEnabled ATTRIB_COLOR attributes) (setColor Colorf_white) ;;
  pushIdentityTransform ;;
  let usedsizes2 :=
    if 0 <? indexCount sbstate then size_t (2 * indexCount sbstate) else 0 in
  (if 0 <? indexCount sbstate then
     call (Call_drawIndexed
             {| dic_attributes := attributes; dic_buffers := buffers;
                dic_primitiveType := primitiveMode sbstate;
                dic_indexCount := indexCount sbstate;
                dic_indexBufferOffset := sb_unmap (indexBuffer sbstate) usedsizes2;
                dic_texture := texture sbstate |}
             (indexData sbstate)) ;;
     modify_batch (fun s => bds_set_indexData [] (bds_set_indexBufferMap MapInfo_null s))
   else
     call (Call_draw
             {| dc_attributes := attributes; dc_buffers := buffers;
                dc_primitiveType := primitiveMode sbstate;
                dc_vertexStart := 0;
                dc_vertexCount := vertexCount sbstate;
                dc_texture := texture sbstate |})) ;;
  when (0 <? usedsizes0) (modify_batch (fun s => bds_set_vb0 (sb_markUsed usedsizes0 (vb0 s)) s)) ;;
  when (0 <? usedsizes1) (modify_batch (fun s => bds_set_vb1 (sb_markUsed usedsizes1 (vb1 s)) s)) ;;
  when (0 <? usedsizes2)
    (modify_batch (fun s => bds_set_indexBuffer (sb_markUsed usedsizes2 (indexBuffer s)) s)) ;;
  popTransform ;;
  when (isEnabled ATTRIB_COLOR attributes) (setColor nc) ;;
  modify_batch (fun s => bds_set_indexCount 0 (bds_set_vertexCount 0 s)).

(** *** requestBatchedDraw *)

(** What one pass of the loop over the vertex streams decides for stream
    [i]: whether the open mapping is too small, whether the buffer is, the
    size to grow it to, and the bytes this command adds. *)
Record StreamPlan : Type := mkStreamPlan {
  sp_flush : bool;
  sp_resize : bool;
  sp_buffersize : Z;
  sp_newdatasize : Z
}.

Definition streamPlan (f : CommonFormat) (m : MapInfo) (b : StreamBuffer)
    (totalvertices vertices : Z) : StreamPlan :=
  if isNONE f then
    {| sp_flush := false; sp_resize := false; sp_buffersize := 0; sp_newdatasize := 0 |}
  else
    let stride := getFormatStride f in
    let datasize := size_t (stride * totalvertices) in
    {| sp_flush := isMapped m && (map_size m <? datasize);
       sp_resize := getUsableSize b <? datasize;
       sp_buffersize := if getUsableSize b <? datasize
                        then Z.max datasize (size_t (getSize b * 2)) else 0;
       sp_newdatasize := size_t (stride * vertices) |}.

(** The same for the index buffer, when the command generates indices. *)
Definition indexPlan (mode : TriangleIndexMode) (m : MapInfo) (b : StreamBuffer)
    (indices reqIndexCount : Z) : StreamPlan :=
  if usesIndices mode then
    let datasize := size_t ((indices + reqIndexCount) * 2) in
    {| sp_flush := isMapped m && (map_size m <? datasize);
       sp_resize := getUsableSize b <? datasize;
       sp_buffersize := if getUsableSize b <? datasize
                        then Z.max datasize (size_t (getSize b * 2)) else 0;
       sp_newdatasize := 0 |}
  else
    {| sp_flush := false; sp_resize := false; sp_buffersize := 0; sp_newdatasize := 0 |}.

Definition newStreamBuffer (index : bool) (size : Z) : M StreamBuffer :=
  call (Call_newStreamBuffer index size) ;;
  ret {| sb_size := size; sb_gpuUsed := 0 |}.

(** The first test of [requestBatchedDraw]: the command does not continue
    the batch that is accumulating. *)
Definition batchDiffers (cmd : BatchedDrawCommand) (state : BatchedDrawState) : bool :=
  negb (PrimitiveType_eqb (cmd_primitiveMode cmd) (primitiveMode state))
  || negb (CommonFormat_eqb (cmd_formats0 cmd) (formats0 state))
  || negb (CommonFormat_eqb (cmd_formats1 cmd) (formats1 state))
  || negb (Bool.eqb (usesIndices (cmd_indexMode cmd)) (0 <? indexCount state))
  || negb (Texture_ptr_eqb (cmd_texture cmd) (texture state))
  || negb (StandardShader_eqb (cmd_standardShaderType cmd) (standardShaderType state)).

(** The part of [requestBatchedDraw] after the flush decision: the shader
    is validated when a batch starts, the buffers that are too small are
    replaced, the generated indices and the vertex regions are mapped, and
    the counts are advanced. *)
Definition appendBatchedDraw (cmd : BatchedDrawCommand) (shouldresize : bool)
    (plan0 plan1 plan2 : StreamPlan) : M BatchedVertexData :=
  let reqIndexCount := getIndexCount (cmd_indexMode cmd) (cmd_vertexCount cmd) in
  let reqIndexSize := size_t (reqIndexCount * 2) in
  state <- gets batchedDrawState ;;
  when (vertexCount state =? 0)
    (defaultactive <- gets isDefaultActive ;;
     when defaultactive (attachDefault (standardShaderType state)) ;;
     current <- gets Shader_current ;;
     match current with
     | Some _ => call (Call_validateDrawState (cmd_primitiveMode cmd) (cmd_texture cmd))
     | None => ret tt
     end) ;;
  when shouldresize
    (when (getSize (vb0 state) <? sp_buffersize plan0)
       (b <- newStreamBuffer false (sp_buffersize plan0) ;; modify_batch (bds_set_vb0 b)) ;;
     when (getSize (vb1 state) <? sp_buffersize plan1)
       (b <- newStreamBuffer false (sp_buffersize plan1) ;; modify_batch (bds_set_vb1 b)) ;;
     when (getSize (indexBuffer state) <? sp_buffersize plan2)
       (b <- newStreamBuffer true (sp_buffersize plan2) ;;
        modify_batch (bds_set_indexBuffer b))) ;;
  when (usesIndices (cmd_indexMode cmd))
    (modify_batch (fun s =>
       let m := if isMapped (indexBufferMap s) then indexBufferMap s
                else sb_map (indexBuffer s) reqIndexSize in
       bds_set_indexBufferMap (advance reqIndexSize m)
         (bds_set_indexData
            (indexData s
             ++ map uint16 (fillIndices (cmd_indexMode cmd) (vertexCount s)
                                        (cmd_vertexCount cmd))) s))) ;;
  state <- gets batchedDrawState ;;
  let m0 := if isMapped (vbMap0 state) then vbMap0 state
            else sb_map (vb0 state) (sp_newdatasize plan0) in
  let m1 := if isMapped (vbMap1 state) then vbMap1 state
            else sb_map (vb1 state) (sp_newdatasize plan1) in
  when (0 <? sp_newdatasize plan0)
    (modify_batch (bds_set_vbMap0 (advance (sp_newdatasize plan0) m0))) ;;
  when (0 <? sp_newdatasize plan1)
    (modify_batch (bds_set_vbMap1 (advance (sp_newdatasize plan1) m1))) ;;
  when (0 <? vertexCount state)
    (modify (fun g => set_drawCallsBatched (drawCallsBatched g + 1) g)) ;;
  modify_batch (fun s =>
    bds_set_indexCount (indexCount s + reqIndexCount)
      (bds_set_vertexCount (vertexCount s + cmd_vertexCount cmd) s)) ;;
  ret {| stream0 := if 0 <? sp_newdatasize plan0 then map_data m0 else None;
         stream1 := if 0 <? sp_newdatasize plan1 then map_data m1 else None |}.

(** The flush decision of [requestBatchedDraw], followed by the append. *)
Definition requestBatchedDraw (cmd : BatchedDrawCommand) : M BatchedVertexData :=
  state <- gets batchedDrawState ;;
  let totalvertices := vertexCount state + cmd_vertexCount cmd in
  let reqIndexCount := getIndexCount (cmd_indexMode cmd) (cmd_vertexCount cmd) in
  let plan0 := streamPlan (cmd_formats0 cmd) (vbMap0 state) (vb0 state)
                          totalvertices (cmd_vertexCount cmd) in
  let plan1 := streamPlan (cmd_formats1 cmd) (vbMap1 state) (vb1 state)
                          totalvertices (cmd_vertexCount cmd) in
  let plan2 := indexPlan (cmd_indexMode cmd) (indexBufferMap state) (indexBuffer state)
                         (indexCount state) reqIndexCount in
  let shouldflush :=
    batchDiffers cmd state
    (* We only support uint16 index buffers for now. *)
    || ((LOVE_UINT16_MAX <? totalvertices) && usesIndices (cmd_indexMode cmd))
    || sp_flush plan0 || sp_flush plan1 || sp_flush plan2 in
  let shouldresize := sp_resize plan0 || sp_resize plan1 || sp_resize plan2 in
  when (shouldflush || shouldresize)
    (flushBatchedDraws ;;
     modify_batch (fun s =>
       bds_set_standardShaderType (cmd_standardShaderType cmd)
         (bds_set_texture (cmd_texture cmd)
            (bds_set_formats1 (cmd_formats1 cmd)
               (bds_set_formats0 (cmd_formats0 cmd)
                  (bds_set_primitiveMode (cmd_primitiveMode cmd) s)))))) ;;
  appendBatchedDraw cmd shouldresize plan0 plan1 plan2.

(** *** Setters defined in Graphics.cpp *)

Definition setBackgroundColor (c : Colorf) : M unit := modify_back (ds_set_backgroundColor c).

Definition setFont (f : option Font) : M unit := modify_back (ds_set_font f).

Definition setShader (shader : option Shader) : M unit :=
  match shader with
  | None =>
      attachDefault STANDARD_DEFAULT ;;
      modify_back (ds_set_shader None)
  | Some sh =>
      attach sh ;;
      modify_back (ds_set_shader (Some sh))
  end.

Definition setMeshCullMode (cull : CullMode) : M unit := modify_back (ds_set_meshCullMode cull).

Definition setDefaultSamplerState (st : SamplerState) : M unit :=
  modify_back (ds_set_defaultSamplerState st).

Definition setLineWidth (w : float) : M unit := modify_back (ds_set_lineWidth w).

Definition setLineStyle (style : LineStyle) : M unit := modify_back (ds_set_lineStyle style).

Definition setLineJoin (join : LineJoin) : M unit := modify_back (ds_set_lineJoin join).

(** *** Setters implemented by the backend *)

(** Modelled from the spec: the remaining setters are pure virtual in
    [Graphics] and implemented by the backend.  Each one flushes the
    pending batch first when the new value differs from the current one,
    hands the value to the backend, and writes it into the top display
    state. *)
Definition setBlendState (b : BlendState) : M unit :=
  cur <- gets back ;;
  when (negb (BlendState_eqb b (blend cur))) flushBatchedDraws ;;
  call (Call_setBlendState b) ;;
  modify_back (ds_set_blend b).

Definition setPointSize (size : float) : M unit :=
  cur <- gets back ;;
  when (negb (SFeqb size (pointSize cur))) flushBatchedDraws ;;
  call (Call_setPointSize size) ;;
  modify_back (ds_set_pointSize size).

Definition setScissor (rect : Rect) : M unit :=
  cur <- gets back ;;
  when (negb (scissor cur && Rect_eqb rect (scissorRect cur))) flushBatchedDraws ;;
  call (Call_setScissor (Some rect)) ;;
  modify_back (fun st => ds_set_scissorRect rect (ds_set_scissor true st)).

Definition setScissor_off : M unit :=
  cur <- gets back ;;
  when (scissor cur) flushBatchedDraws ;;
  call (Call_setScissor None) ;;
  modify_back (ds_set_scissor false).

Definition setFrontFaceWinding (w : Winding) : M unit :=
  cur <- gets back ;;
  when (negb (w =? winding cur)) flushBatchedDraws ;;
  call (Call_setFrontFaceWinding w) ;;
  modify_back (ds_set_winding w).

Definition setStencilMode (action : StencilAction) (compare : CompareMode)
    (value readmask writemask : Z) : M unit :=
  let st := {| stencil_action := action; stencil_compare := compare;
               stencil_value := value; stencil_readMask := readmask;
               stencil_writeMask := writemask |} in
  cur <- gets back ;;
  when (negb (StencilState_eqb st (stencil cur))) flushBatchedDraws ;;
  call (Call_setStencilMode st) ;;
  modify_back (ds_set_stencil st).

Definition setDepthMode (compare : CompareMode) (write : bool) : M unit :=
  cur <- gets back ;;
  when (negb ((compare =? depthTest cur) && Bool.eqb write (depthWrite cur)))
       flushBatchedDraws ;;
  call (Call_setDepthMode compare write) ;;
  modify_back (fun st => ds_set_depthWrite write (ds_set_depthTest compare st)).

Definition setColorMask (mask : ColorChannelMask) : M unit :=
  cur <- gets back ;;
  when (negb (ColorChannelMask_eqb mask (colorMask cur))) flushBatchedDraws ;;
  call (Call_setColorMask mask) ;;
  modify_back (ds_set_colorMask mask).

Definition setWireframe (enable : bool) : M unit :=
  cur <- gets back ;;
  when (negb (Bool.eqb enable (wireframe cur))) flushBatchedDraws ;;
  call (Call_setWireframe enable) ;;
  modify_back (ds_set_wireframe enable).

(** *** Projection *)

Definition isRenderTargetActive (g : Graphics) : bool :=
  let rts := renderTargets (back g) in
  negb (match colors rts with [] => true | _ :: _ => false end)
  || negb (Texture_ptr_eqb (rt_texture (depthStencil rts)) None).

Definition updateDeviceProjection (projection : Matrix4) : M unit :=
  modify (fun g => set_deviceProjectionMatrix
                     (computeDeviceProjection projection (isRenderTargetActive g)) g).

Definition setCustomProjection (m : Matrix4) : M unit :=
  flushBatchedDraws ;;
  modify_back (fun st => ds_set_customProjection m (ds_set_useCustomProjection true st)) ;;
  updateDeviceProjection m.

Definition resetProjection : M unit :=
  flushBatchedDraws ;;
  state <- gets back ;;
  w0 <- gets width ;;
  h0 <- gets height ;;
  let rt := getFirstTarget (renderTargets state) in
  let w := match rt_texture rt with Some tex => getWidth tex (rt_mipmap rt) | None => w0 end in
  let h := match rt_texture rt with Some tex => getHeight tex (rt_mipmap rt) | None => h0 end in
  modify_back (ds_set_useCustomProjection false) ;;
  updateDeviceProjection (Matrix4_ortho w h).

(** *** Temporary textures *)

(** The shape test of [getTemporaryTexture]. *)
Definition shapeMatches (c : Texture) (format : PixelFormat) (w h samples : Z) : bool :=
  PixelFormat_eqb (getPixelFormat c) format && (getPixelWidth c 0 =? w)
  && (getPixelHeight c 0 =? h) && (getRequestedMSAA c =? samples).

(** The loop of [getTemporaryTexture]: the first entry that is not checked
    out and has the shape is checked out; the result is the pool after the
    loop and the texture found, if any. *)
Fixpoint findTemporaryTexture (pool : list TemporaryTexture)
    (format : PixelFormat) (w h samples : Z) : list TemporaryTexture * option Texture :=
  match pool with
  | [] => ([], None)
  | temp :: rest =>
      if framesSinceUse temp <? 0 then
        let (rest', found) := findTemporaryTexture rest format w h samples in
        (temp :: rest', found)
      else if shapeMatches (tt_texture temp) format w h samples then
        ({| tt_texture := tt_texture temp; framesSinceUse := -1 |} :: rest,
         Some (tt_texture temp))
      else
        let (rest', found) := findTemporaryTexture rest format w h samples in
        (temp :: rest', found)
  end.

(** Modelled from the spec: [newTexture] is implemented by the backend; for
    the settings [getTemporaryTexture] passes it creates, at a fresh
    address, a render-target texture of the requested format, pixel size
    and sample count, with one mipmap level and one slice. *)
Definition newTexture (format : PixelFormat) (w h samples : Z) : M Texture :=
  address <- gets heapNext ;;
  let t := {| tex_id := address; getPixelFormat := format; isRenderTarget := true;
              getMipmapCount := 1; getRequestedMSAA := samples;
              getPixelWidth := fun _ => w; getPixelHeight := fun _ => h;
              getWidth := fun _ => w; getHeight := fun _ => h;
              isValidSlice := fun slice mip => (slice =? 0) && (mip =? 0) |} in
  modify (set_heapNext (Pos.succ address)) ;;
  call (Call_newTexture t) ;;
  ret t.

(** Modelled from the spec: a pool entry is created checked out (tag -1);
    the constructor of [TemporaryTexture] is in Graphics.h. *)
Definition getTemporaryTexture (format : PixelFormat) (w h samples : Z) : M Texture :=
  pool <- gets temporaryTextures ;;
  let (pool', found) := findTemporaryTexture pool format w h samples in
  modify (set_temporaryTextures pool') ;;
  match found with
  | Some texture => ret texture
  | None =>
      texture <- newTexture format w h samples ;;
      modify (fun g => set_temporaryTextures
                         (temporaryTextures g
                          ++ [{| tt_texture := texture; framesSinceUse := -1 |}]) g) ;;
      ret texture
  end.

Fixpoint checkIn (texture : Texture) (pool : list TemporaryTexture) : list TemporaryTexture :=
  match pool with
  | [] => []
  | temp :: rest =>
      if Pos.eqb (tex_id (tt_texture temp)) (tex_id texture)
      then {| tt_texture := tt_texture temp; framesSinceUse := 0 |} :: rest
      else temp :: checkIn texture rest
  end.

Definition releaseTemporaryTexture (texture : Texture) : M unit :=
  modify (fun g => set_temporaryTextures (checkIn texture (temporaryTextures g)) g).

(** [v[i] = x] on a vector. *)
Fixpoint assign {A : Type} (i : nat) (x : A) (v : list A) : list A :=
  match v, i with
  | [], _ => []
  | _ :: rest, O => x :: rest
  | y :: rest, S j => y :: assign j x rest
  end.

(** The iterations [i = n-1, ..., 0] of the loop of
    [updateTemporaryResources] over [temporaryTextures]. *)
Fixpoint ageTemporaryTextures (n : nat) : M unit :=
  match n with
  | O => ret tt
  | S i =>
      pool <- gets temporaryTextures ;;
      match nth_error pool i with
      | None => ret tt
      | Some t =>
          if MAX_TEMPORARY_RESOURCE_UNUSED_FRAMES <=? framesSinceUse t then
            call (Call_release (tt_texture t)) ;;
            modify (set_temporaryTextures (removelast (assign i (last pool t) pool)))
          else if 0 <=? framesSinceUse t then
            modify (set_temporaryTextures
                      (assign i {| tt_texture := tt_texture t;
                                   framesSinceUse := framesSinceUse t + 1 |} pool))
          else ret tt
      end ;;
      ageTemporaryTextures i
  end.

(** The second loop of the function does the same over the temporary
    buffers, which this model does not carry. *)
Definition updateTemporaryResources : M unit :=
  pool <- gets temporaryTextures ;;
  ageTemporaryTextures (length pool).

(** *** Render targets *)

(** [setRenderTargetsInternal] and [clear] are implemented by the backend. *)
Definition setRenderTargetsInternal (rts : RenderTargets) (pixelw pixelh : Z)
    (hasSRGBtexture : bool) : M unit :=
  call (Call_setRenderTargetsInternal rts pixelw pixelh hasSRGBtexture).

(** [setRenderTarget()]: back to the screen. *)
Definition setRenderTarget_screen : M unit :=
  state <- gets back ;;
  if match colors (renderTargets state) with [] => true | _ :: _ => false end
     && Texture_ptr_eqb (rt_texture (depthStencil (renderTargets state))) None
  then ret tt else
  flushBatchedDraws ;;
  pw <- gets pixelWidth ;;
  ph <- gets pixelHeight ;;
  gamma <- gets gammaCorrect ;;
  setRenderTargetsInternal RenderTargets_empty pw ph gamma ;;
  modify_back (ds_set_renderTargets RenderTargets_empty) ;;
  modify (fun g => set_renderTargetSwitchCount (renderTargetSwitchCount g + 1) g) ;;
  resetProjection.

(** The loop [rts.colors[i] != prevRTs.colors[i]] over two vectors of the
    same size. *)
Fixpoint colorsDiffer (a b : list ColorTarget) : bool :=
  match a, b with
  | x :: a', y :: b' =>
      RenderTarget_neb (asRenderTarget x) (asRenderTarget y) || colorsDiffer a' b'
  | _, _ => false
  end.

(** [modified] (and, in [restoreStateChecked], [rtschanged]) once the two
    sets have the same number of color targets. *)
Definition targetsModified (rts prevRTs : RenderTargets) : bool :=
  colorsDiffer (colors rts) (colors prevRTs)
  || RenderTarget_neb (depthStencil rts) (depthStencil prevRTs)
  || negb (temporaryRTFlags rts =? temporaryRTFlags prevRTs).

Definition sameSize (rts prevRTs : RenderTargets) : bool :=
  Nat.eqb (length (colors rts)) (length (colors prevRTs)).

(** One pass of the loop over [rts.colors[1..]]: the first check that
    fails, if any. *)
Definition checkColorTarget (multiformatsupported : bool) (firstcolorformat : PixelFormat)
    (pixelw pixelh reqmsaa : Z) (rt : ColorTarget) : option string :=
  let c := ct_texture rt in
  let format := getPixelFormat c in
  let mip := ct_mipmap rt in
  let slice := ct_slice rt in
  if negb (isRenderTarget c) then
    Some "Texture must be created as a render target to be used in setRenderTargets."%string
  else if (mip <? 0) || (getMipmapCount c <=? mip) then
    Some "Invalid mipmap level %d."%string
  else if negb (isValidSlice c slice mip) then
    Some "Invalid slice index: %d."%string
  else if negb (getPixelWidth c mip =? pixelw) || negb (getPixelHeight c mip =? pixelh) then
    Some "All textures must have the same pixel dimensions."%string
  else if negb multiformatsupported && negb (PixelFormat_eqb format firstcolorformat) then
    Some "This system doesn't support multi-render-target rendering with different texture formats."%string
  else if negb (getRequestedMSAA c =? reqmsaa) then
    Some "All textures must have the same MSAA value."%string
  else if isPixelFormatDepthStencil format then
    Some "Depth/stencil format textures must be used with the 'depthstencil' field of the table passed into setRenderTargets."%string
  else None.

Fixpoint checkColorTargets (multiformatsupported : bool) (firstcolorformat : PixelFormat)
    (pixelw pixelh reqmsaa : Z) (l : list ColorTarget) : option string :=
  match l with
  | [] => None
  | rt :: rest =>
      match checkColorTarget multiformatsupported firstcolorformat pixelw pixelh reqmsaa rt with
      | Some what => Some what
      | None =>
          checkColorTargets multiformatsupported firstcolorformat pixelw pixelh reqmsaa rest
      end
  end.

(** The checks on [rts.depthStencil] when its texture [c] is not null. *)
Definition checkDepthStencil (firsttex : Texture) (pixelw pixelh : Z)
    (c : Texture) (slice mip : Z) : option string :=
  if negb (isRenderTarget c) then
    Some "Texture must be created as a render target to be used in setRenderTargets."%string
  else if negb (isPixelFormatDepthStencil (getPixelFormat c)) then
    Some "Only depth/stencil format textures can be used with the 'depthstencil' field of the table passed into setRenderTargets."%string
  else if negb (getPixelWidth c mip =? pixelw) || negb (getPixelHeight c mip =? pixelh) then
    Some "All Textures must have the same pixel dimensions."%string
  else if negb (getRequestedMSAA c =? getRequestedMSAA firsttex) then
    Some "All Textures must have the same MSAA value."%string
  else if (mip <? 0) || (getMipmapCount c <=? mip) then
    Some "Invalid mipmap level %d."%string
  else if negb (isValidSlice c slice mip) then
    Some "Invalid slice index: %d."%string
  else None.

(** Everything [setRenderTargets] checks between the comparison with the
    bound set and the flush, in the order of the source: the first check
    that fails, if any. *)
Definition checkRenderTargets (caps : Capabilities) (rts : RenderTargets)
    (firsttarget : RenderTarget) (firsttex : Texture) : option string :=
  let rtcount := Z.of_nat (length (colors rts)) in
  let multiformatsupported := FEATURE_MULTI_RENDER_TARGET_FORMATS caps in
  let firstcolorformat :=
    match colors rts with
    | c :: _ => getPixelFormat (ct_texture c)
    | [] => PIXELFORMAT_UNKNOWN
    end in
  let pixelw := getPixelWidth firsttex (rt_mipmap firsttarget) in
  let pixelh := getPixelHeight firsttex (rt_mipmap firsttarget) in
  let reqmsaa := getRequestedMSAA firsttex in
  if LIMIT_RENDER_TARGETS caps <? rtcount then
    Some "This system can't simultaneously render to %d textures."%string
  else if negb (isRenderTarget firsttex) then
    Some "Texture must be created as a render target to be used in setRenderTargets."%string
  else if isPixelFormatDepthStencil firstcolorformat then
    Some "Depth/stencil format textures must be used with the 'depthstencil' field of the table passed into setRenderTargets."%string
  else if (rt_mipmap firsttarget <? 0)
          || (getMipmapCount firsttex <=? rt_mipmap firsttarget) then
    Some "Invalid mipmap level %d."%string
  else if negb (isValidSlice firsttex (rt_slice firsttarget) (rt_mipmap firsttarget)) then
    Some "Invalid slice index: %d."%string
  else
    match checkColorTargets multiformatsupported firstcolorformat pixelw pixelh reqmsaa
                            (tl (colors rts)) with
    | Some what => Some what
    | None =>
        match rt_texture (depthStencil rts) with
        | Some c =>
            checkDepthStencil firsttex pixelw pixelh c
                              (rt_slice (depthStencil rts)) (rt_mipmap (depthStencil rts))
        | None => None
        end
    end.

(** [hasSRGBtexture] after the loop over the color targets. *)
Definition hasSRGB (rts : RenderTargets) : bool :=
  match colors rts with
  | [] => isPixelFormatSRGB PIXELFORMAT_UNKNOWN
  | c :: rest =>
      isPixelFormatSRGB (getPixelFormat (ct_texture c))
      || existsb (fun rt => isPixelFormatSRGB (getPixelFormat (ct_texture rt))) rest
  end.

(** The format of the temporary depth/stencil attachment. *)
Definition temporaryFormat (flags : Z) : PixelFormat :=
  let wantsdepth := negb (Z.land flags TEMPORARY_RT_DEPTH =? 0) in
  let wantsstencil := negb (Z.land flags TEMPORARY_RT_STENCIL =? 0) in
  if wantsdepth && wantsstencil then PIXELFORMAT_DEPTH24_UNORM_STENCIL8
  else if wantsdepth
          && isPixelFormatSupported PIXELFORMAT_DEPTH24_UNORM
                                    PIXELFORMATUSAGEFLAGS_RENDERTARGET false
       then PIXELFORMAT_DEPTH24_UNORM
  else if wantsdepth then PIXELFORMAT_DEPTH16_UNORM
  else PIXELFORMAT_STENCIL8.

(** [setRenderTargets (const RenderTargets &)].  The member it stores for
    the depth/stencil target is built from the texture and the slice only,
    so its mipmap level is the constructor's default. *)
Definition setRenderTargets (rts : RenderTargets) : M unit :=
  state <- gets back ;;
  let firsttarget := getFirstTarget rts in
  match rt_texture firsttarget with
  | None => setRenderTarget_screen
  | Some firsttex =>
      let prevRTs := renderTargets state in
      if sameSize rts prevRTs && negb (targetsModified rts prevRTs) then ret tt else
      caps <- gets capabilities ;;
      match checkRenderTargets caps rts firsttarget firsttex with
      | Some what => throw what
      | None =>
          let pixelw := getPixelWidth firsttex (rt_mipmap firsttarget) in
          let pixelh := getPixelHeight firsttex (rt_mipmap firsttarget) in
          let reqmsaa := getRequestedMSAA firsttex in
          let hasSRGBtexture := hasSRGB rts in
          let temporary :=
            Texture_ptr_eqb (rt_texture (depthStencil rts)) None
            && negb (temporaryRTFlags rts =? 0) in
          flushBatchedDraws ;;
          (if temporary then
             texture <- getTemporaryTexture (temporaryFormat (temporaryRTFlags rts))
                                            pixelw pixelh reqmsaa ;;
             let realRTs :=
               {| colors := colors rts;
                  depthStencil := {| rt_texture := Some texture; rt_slice := 0;
                                     rt_mipmap := rt_mipmap (depthStencil rts) |};
                  temporaryRTFlags := temporaryRTFlags rts |} in
             releaseTemporaryTexture texture ;;
             setRenderTargetsInternal realRTs pixelw pixelh hasSRGBtexture
           else
             setRenderTargetsInternal rts pixelw pixelh hasSRGBtexture) ;;
          let refs :=
            {| colors := colors rts;
               depthStencil := {| rt_texture := rt_texture (depthStencil rts);
                                  rt_slice := rt_slice (depthStencil rts);
                                  rt_mipmap := 0 |};
               temporaryRTFlags := temporaryRTFlags rts |} in
          modify_back (ds_set_renderTargets refs) ;;
          modify (fun g => set_renderTargetSwitchCount (renderTargetSwitchCount g + 1) g) ;;
          resetProjection ;;
          when temporary (call (Call_clearDepthStencil 0 float_1))
      end
  end.

(** [setRenderTarget (RenderTarget rt, uint32 temporaryRTFlags)]. *)
Definition setRenderTarget (rt : RenderTarget) (flags : Z) : M unit :=
  match rt_texture rt with
  | None => setRenderTarget_screen
  | Some tex =>
      setRenderTargets
        {| colors := [{| ct_texture := tex; ct_slice := rt_slice rt;
                         ct_mipmap := rt_mipmap rt |}];
           depthStencil := RenderTarget_null;
           temporaryRTFlags := flags |}
  end.

(** *** Restoring a display state *)

Definition restoreStateChecked (s : DisplayState) : M unit :=
  cur <- gets back ;;
  when (negb (Colorf_eqb (color s) (color cur))) (setColor (color s)) ;;
  setBackgroundColor (backgroundColor s) ;;
  cur <- gets back ;;
  when (negb (BlendState_eqb (blend s) (blend cur))) (setBlendState (blend s)) ;;
  (* These are just simple assignments. *)
  setLineWidth (lineWidth s) ;;
  setLineStyle (lineStyle s) ;;
  setLineJoin (lineJoin s) ;;
  cur <- gets back ;;
  when (negb (SFeqb (pointSize s) (pointSize cur))) (setPointSize (pointSize s)) ;;
  cur <- gets back ;;
  when (negb (Bool.eqb (scissor s) (scissor cur))
        || (scissor s && negb (Rect_eqb (scissorRect s) (scissorRect cur))))
    (if scissor s then setScissor (scissorRect s) else setScissor_off) ;;
  setMeshCullMode (meshCullMode s) ;;
  cur <- gets back ;;
  when (negb (winding s =? winding cur)) (setFrontFaceWinding (winding s)) ;;
  setFont (font s) ;;
  setShader (shader s) ;;
  cur <- gets back ;;
  when (negb (sameSize (renderTargets s) (renderTargets cur))
        || targetsModified (renderTargets s) (renderTargets cur))
    (setRenderTargets (renderTargets s)) ;;
  cur <- gets back ;;
  when (negb (StencilState_eqb (stencil s) (stencil cur)))
    (setStencilMode (stencil_action (stencil s)) (stencil_compare (stencil s))
                    (stencil_value (stencil s)) (stencil_readMask (stencil s))
                    (stencil_writeMask (stencil s))) ;;
  cur <- gets back ;;
  when (negb (depthTest s =? depthTest cur) || negb (Bool.eqb (depthWrite s) (depthWrite cur)))
    (setDepthMode (depthTest s) (depthWrite s)) ;;
  cur <- gets back ;;
  when (negb (ColorChannelMask_eqb (colorMask s) (colorMask cur)))
    (setColorMask (colorMask s)) ;;
  cur <- gets back ;;
  when (negb (Bool.eqb (wireframe s) (wireframe cur))) (setWireframe (wireframe s)) ;;
  setDefaultSamplerState (defaultSamplerState s) ;;
  if useCustomProjection s then setCustomProjection (customProjection s)
  else
    cur <- gets back ;;
    when (useCustomProjection cur) resetProjection.

(** *** push and pop *)

Definition push (type : StackType) : M unit :=
  depth <- gets (fun g => length (stackTypeStack g)) ;;
  if Nat.eqb depth MAX_USER_STACK_DEPTH then
    throw "Maximum stack depth reached (more pushes than pops?)"%string
  else
    pushTransform ;;
    modify (fun g => set_pixelScaleStack
                       (hd float_1 (pixelScaleStack g) :: pixelScaleStack g) g) ;;
    when (StackType_eqb type STACK_ALL)
      (modify (fun g => set_states (back g :: states g) g)) ;;
    modify (fun g => set_stackTypeStack (type :: stackTypeStack g) g).

Definition pop : M unit :=
  depth <- gets (fun g => length (stackTypeStack g)) ;;
  if Nat.ltb depth 1 then
    throw "Minimum stack depth reached (more pops than pushes?)"%string
  else
    popTransform ;;
    modify (fun g => set_pixelScaleStack (tl (pixelScaleStack g)) g) ;;
    type <- gets (fun g => hd STACK_TRANSFORM (stackTypeStack g)) ;;
    when (StackType_eqb type STACK_ALL)
      ((* DisplayState &newstate = states[states.size() - 2]; *)
       newstate <- gets (fun g => nth 1 (states g) DisplayState_new) ;;
       restoreStateChecked newstate ;;
       (* The last two states in the stack should be equal now. *)
       modify (fun g => set_states (tl (states g)) g)) ;;
    modify (fun g => set_stackTypeStack (tl (stackTypeStack g)) g).

Definition getStackDepth (g : Graphics) : nat := length (stackTypeStack g).

(** ** Vocabulary of the statements *)

(** The vertex attributes the accumulating batch enables. *)
Definition batchAttributes (s : BatchedDrawState) : VertexAttributes :=
  setCommonFormat (formats1 s) 1 (setCommonFormat (formats0 s) 0 []).

(** Nothing is accumulated. *)
Definition batchEmpty (s : BatchedDrawState) : bool :=
  (vertexCount s =? 0) && (indexCount s =? 0).

(** The draw call [flushBatchedDraws] issues for a pending batch. *)
Definition pendingDraw (s : BatchedDrawState) : ExternalCall :=
  let buffers :=
    (if isNONE (formats0 s) then []
     else [(0, sb_unmap (vb0 s) (usedsize (formats0 s) (vertexCount s)))])
    ++ (if isNONE (formats1 s) then []
        else [(1, sb_unmap (vb1 s) (usedsize (formats1 s) (vertexCount s)))]) in
  if 0 <? indexCount s then
    Call_drawIndexed
      {| dic_attributes := batchAttributes s; dic_buffers := buffers;
         dic_primitiveType := primitiveMode s;
         dic_indexCount := indexCount s;
         dic_indexBufferOffset := sb_unmap (indexBuffer s) (size_t (2 * indexCount s));
         dic_texture := texture s |}
      (indexData s)
  else
    Call_draw
      {| dc_attributes := batchAttributes s; dc_buffers := buffers;
         dc_primitiveType := primitiveMode s;
         dc_vertexStart := 0;
         dc_vertexCount := vertexCount s;
         dc_texture := texture s |}.

(** A flush of this batch reaches the draw call. *)
Definition batchDrawable (s : BatchedDrawState) : bool :=
  negb (batchEmpty s) && negb (enableBits_zero (batchAttributes s)).

(** Everything of the object but the accumulator and the recorded calls. *)
Definition sameObject (g g' : Graphics) : Prop :=
  width g' = width g /\ height g' = height g
  /\ pixelWidth g' = pixelWidth g /\ pixelHeight g' = pixelHeight g
  /\ states g' = states g /\ transformStack g' = transformStack g
  /\ pixelScaleStack g' = pixelScaleStack g /\ stackTypeStack g' = stackTypeStack g
  /\ deviceProjectionMatrix g' = deviceProjectionMatrix g
  /\ renderTargetSwitchCount g' = renderTargetSwitchCount g
  /\ drawCallsBatched g' = drawCallsBatched g
  /\ capabilities g' = capabilities g
  /\ temporaryTextures g' = temporaryTextures g
  /\ gammaCorrect g' = gammaCorrect g
  /\ Shader_current g' = Shader_current g
  /\ heapNext g' = heapNext g.

(** * Properties *)

(** ** flushBatchedDraws *)

Lemma ds_color_eta (s : DisplayState) : ds_set_color (color s) s = s.
Proof. destruct s; reflexivity. Qed.

Ltac unfold_monad :=
  unfold bind, gets, when, modify_batch, modify_back, call, getColor, setColor,
    pushIdentityTransform, popTransform, pushTransform, modify, ret, throw in *.

(** Symbolic execution of [flushBatchedDraws g]: one goal per path. *)
Ltac flush_cases g :=
  unfold flushBatchedDraws; unfold_monad;
  fold (batchEmpty (batchedDrawState g));
  destruct (batchEmpty (batchedDrawState g)) eqn:Hempty;
  [ | destruct (formats0 (batchedDrawState g)) as [|s0 a0] eqn:Hf0;
      destruct (formats1 (batchedDrawState g)) as [|s1 a1] eqn:Hf1;
      cbn [isNONE negb]; cbn;
      try (match goal with
           | |- context [enableBits_zero ?a] => destruct (enableBits_zero a) eqn:Hbits
           end; cbn);
      try (match goal with
           | |- context [isEnabled ?a ?b] => destruct (isEnabled a b) eqn:Hcol
           end; cbn);
      try (destruct (0 <? indexCount (batchedDrawState g)) eqn:Hidx; cbn);
      repeat match goal with
             | |- context [if ?c then _ else _] => destruct c eqn:?; cbn
             end ].

Lemma flushBatchedDraws_returns (g : Graphics) :
  snd (flushBatchedDraws g) = Returned tt.
Proof. flush_cases g; reflexivity. Qed.

Lemma flushBatchedDraws_empty (g : Graphics) :
  batchEmpty (batchedDrawState g) = true -> flushBatchedDraws g = (g, Returned tt).
Proof.
  intro H. unfold flushBatchedDraws; unfold_monad.
  fold (batchEmpty (batchedDrawState g)). rewrite H. reflexivity.
Qed.

Lemma flushBatchedDraws_sameObject (g : Graphics) :
  sameObject g (fst (flushBatchedDraws g)).
Proof.
  unfold sameObject.
  flush_cases g; repeat split; try reflexivity.
  all: unfold back; cbn; destruct (states g) as [|s r]; cbn; try reflexivity.
  all: destruct s; reflexivity.
Qed.

Lemma flushBatchedDraws_key (g : Graphics) :
  let s := batchedDrawState g in
  let s' := batchedDrawState (fst (flushBatchedDraws g)) in
  primitiveMode s' = primitiveMode s /\ formats0 s' = formats0 s
  /\ formats1 s' = formats1 s /\ texture s' = texture s
  /\ standardShaderType s' = standardShaderType s
  /\ getSize (vb0 s') = getSize (vb0 s) /\ getSize (vb1 s') = getSize (vb1 s)
  /\ getSize (indexBuffer s') = getSize (indexBuffer s).
Proof.
  cbv zeta. flush_cases g; rewrite ?Hf0, ?Hf1; repeat split; reflexivity.
Qed.

(** After a flush that reaches the draw call nothing is accumulated and no
    region is mapped for the streams of the batch. *)
Lemma flushBatchedDraws_resets (g : Graphics) :
  let s := batchedDrawState g in
  let s' := batchedDrawState (fst (flushBatchedDraws g)) in
  batchDrawable s = true ->
  vertexCount s' = 0 /\ indexCount s' = 0
  /\ vbMap0 s' = (if isNONE (formats0 s) then vbMap0 s else MapInfo_null)
  /\ vbMap1 s' = (if isNONE (formats1 s) then vbMap1 s else MapInfo_null)
  /\ indexBufferMap s' = (if 0 <? indexCount s then MapInfo_null else indexBufferMap s)
  /\ indexData s' = (if 0 <? indexCount s then [] else indexData s).
Proof.
  cbv zeta. unfold batchDrawable, batchAttributes.
  flush_cases g; rewrite ?Hf0, ?Hf1, ?Hidx; cbn; rewrite ?Hbits; cbn;
    try discriminate; intros _; repeat split; reflexivity.
Qed.

(** A flush that does not reach the draw call leaves what is accumulated. *)
Lemma flushBatchedDraws_skips (g : Graphics) :
  let s := batchedDrawState g in
  let s' := batchedDrawState (fst (flushBatchedDraws g)) in
  batchDrawable s = false ->
  vertexCount s' = vertexCount s /\ indexCount s' = indexCount s
  /\ calls (fst (flushBatchedDraws g)) = calls g.
Proof.
  cbv zeta. unfold batchDrawable, batchAttributes.
  flush_cases g; rewrite ?Hf0, ?Hf1, ?Hidx; cbn; rewrite ?Hbits; cbn;
    try discriminate; intros _; repeat split; reflexivity.
Qed.

Lemma draws_app (l m : list ExternalCall) : draws (l ++ m) = draws l ++ draws m.
Proof. apply filter_app. Qed.

(** The calls of a flush: the pending draw, bracketed by the two color
    calls when the batch carries per-vertex colors. *)
Lemma flushBatchedDraws_calls (g : Graphics) :
  let s := batchedDrawState g in
  batchDrawable s = true ->
  calls (fst (flushBatchedDraws g)) =
    calls g
    ++ (if isEnabled ATTRIB_COLOR (batchAttributes s) then [Call_setColor Colorf_white] else [])
    ++ [pendingDraw s]
    ++ (if isEnabled ATTRIB_COLOR (batchAttributes s)
        then [Call_setColor (color (back g))] else []).
Proof.
  cbv zeta. unfold batchDrawable, batchAttributes, pendingDraw, batchAttributes, usedsize.
  flush_cases g; rewrite ?Hf0, ?Hf1, ?Hidx; cbn; rewrite ?Hbits, ?Hcol; cbn;
    try discriminate; intros _; rewrite <- ?app_assoc; try reflexivity.
Qed.

Lemma flushBatchedDraws_draws (g : Graphics) :
  draws (calls (fst (flushBatchedDraws g))) =
    draws (calls g)
    ++ (if batchDrawable (batchedDrawState g) then [pendingDraw (batchedDrawState g)] else []).
Proof.
  destruct (batchDrawable (batchedDrawState g)) eqn:H.
  - rewrite (flushBatchedDraws_calls g H). rewrite !draws_app.
    assert (Hd : draws [pendingDraw (batchedDrawState g)] = [pendingDraw (batchedDrawState g)]).
    { unfold pendingDraw. destruct (0 <? indexCount (batchedDrawState g)); reflexivity. }
    rewrite Hd.
    destruct (isEnabled ATTRIB_COLOR (batchAttributes (batchedDrawState g))); cbn;
      rewrite ?app_nil_r; reflexivity.
  - destruct (flushBatchedDraws_skips g H) as (_ & _ & ->). rewrite app_nil_r. reflexivity.
Qed.

(** ** Equality tests *)

Lemma PrimitiveType_eqb_eq (x y : PrimitiveType) : PrimitiveType_eqb x y = true <-> x = y.
Proof. destruct x, y; cbn; split; congruence. Qed.

Lemma StandardShader_eqb_eq (x y : StandardShader) : StandardShader_eqb x y = true <-> x = y.
Proof. destruct x, y; cbn; split; congruence. Qed.

Lemma BuiltinVertexAttribute_eqb_eq (x y : BuiltinVertexAttribute) :
  BuiltinVertexAttribute_eqb x y = true <-> x = y.
Proof. destruct x, y; cbn; split; congruence. Qed.

Lemma attribs_eqb_eq (l m : list BuiltinVertexAttribute) : attribs_eqb l m = true <-> l = m.
Proof.
  revert m; induction l as [|x l IH]; intros [|y m]; cbn; split; try congruence.
  - intros H. apply andb_true_iff in H as [Hx Hl].
    apply BuiltinVertexAttribute_eqb_eq in Hx. apply IH in Hl. congruence.
  - intros H. injection H as -> ->. apply andb_true_iff. split.
    + now apply BuiltinVertexAttribute_eqb_eq.
    + now apply IH.
Qed.

Lemma CommonFormat_eqb_eq (x y : CommonFormat) : CommonFormat_eqb x y = true <-> x = y.
Proof.
  destruct x as [|s l], y as [|t m]; cbn; split; try congruence.
  - intros H. apply andb_true_iff in H as [Hs Hl].
    apply Z.eqb_eq in Hs. apply attribs_eqb_eq in Hl. congruence.
  - intros H. injection H as -> ->. apply andb_true_iff. split.
    + apply Z.eqb_refl.
    + now apply attribs_eqb_eq.
Qed.

Lemma Texture_ptr_eqb_refl (a : option Texture) : Texture_ptr_eqb a a = true.
Proof. destruct a; cbn; [apply Pos.eqb_refl | reflexivity]. Qed.

Lemma Texture_ptr_eqb_sym (a b : option Texture) : Texture_ptr_eqb a b = Texture_ptr_eqb b a.
Proof. destruct a, b; cbn; try reflexivity. apply Pos.eqb_sym. Qed.

Lemma Texture_ptr_eqb_trans (a b c : option Texture) :
  Texture_ptr_eqb a b = true -> Texture_ptr_eqb b c = true -> Texture_ptr_eqb a c = true.
Proof.
  destruct a, b, c; cbn; try congruence.
  intros H1 H2. apply Pos.eqb_eq in H1, H2. apply Pos.eqb_eq. congruence.
Qed.

Lemma PixelFormat_eqb_refl (f : PixelFormat) : PixelFormat_eqb f f = true.
Proof. unfold PixelFormat_eqb. rewrite !Z.eqb_refl. reflexivity. Qed.

Lemma size_t_small (z : Z) : 0 <= z < 2 ^ 64 -> size_t z = z.
Proof. intro H. unfold size_t. apply Z.mod_small. exact H. Qed.

(** ** Runs of batched draws *)

(** The command [c] has the topology, the vertex formats, the index-mode
    presence, the texture and the standard shader role of [c0]. *)
Definition sameBatch (c0 c : BatchedDrawCommand) : bool :=
  PrimitiveType_eqb (cmd_primitiveMode c) (cmd_primitiveMode c0)
  && CommonFormat_eqb (cmd_formats0 c) (cmd_formats0 c0)
  && CommonFormat_eqb (cmd_formats1 c) (cmd_formats1 c0)
  && Bool.eqb (usesIndices (cmd_indexMode c)) (usesIndices (cmd_indexMode c0))
  && Texture_ptr_eqb (cmd_texture c) (cmd_texture c0)
  && StandardShader_eqb (cmd_standardShaderType c) (cmd_standardShaderType c0).

(** The command has a vertex and, when it generates indices, an index. *)
Definition nonDegenerate (c : BatchedDrawCommand) : Prop :=
  0 < cmd_vertexCount c
  /\ (if usesIndices (cmd_indexMode c)
      then 0 < getIndexCount (cmd_indexMode c) (cmd_vertexCount c)
      else True).

Definition reqIndexCount (c : BatchedDrawCommand) : Z :=
  getIndexCount (cmd_indexMode c) (cmd_vertexCount c).

Fixpoint totalVertices (cmds : list BatchedDrawCommand) : Z :=
  match cmds with
  | [] => 0
  | c :: rest => cmd_vertexCount c + totalVertices rest
  end.

Fixpoint totalIndices (cmds : list BatchedDrawCommand) : Z :=
  match cmds with
  | [] => 0
  | c :: rest => reqIndexCount c + totalIndices rest
  end.

(** An open mapping spans the usable part of its buffer. *)
Definition mapCoherent (m : MapInfo) (b : StreamBuffer) : Prop :=
  isMapped m = true -> map_size m = getUsableSize b.

Definition mapsCoherent (s : BatchedDrawState) : Prop :=
  mapCoherent (vbMap0 s) (vb0 s) /\ mapCoherent (vbMap1 s) (vb1 s)
  /\ mapCoherent (indexBufferMap s) (indexBuffer s).

(** Nothing is accumulated and no region is mapped: the accumulator of a
    new object, and of any object after a flush that drew. *)
Definition idle (s : BatchedDrawState) : Prop :=
  batchEmpty s = true
  /\ map_data (vbMap0 s) = None /\ map_data (vbMap1 s) = None
  /\ map_data (indexBufferMap s) = None /\ indexData s = [].

(** [vertices] more vertices of format [f] fit in what the buffer [b] has
    left, [used] bytes of it being taken already. *)
Definition streamFits (f : CommonFormat) (b : StreamBuffer) (used vertices : Z) : Prop :=
  isNONE f = true
  \/ (used + getFormatStride f * vertices <= getUsableSize b /\ getUsableSize b < 2 ^ 64).

(** The same for [indices] generated 16-bit indices. *)
Definition indicesFit (mode : TriangleIndexMode) (b : StreamBuffer) (used indices : Z) : Prop :=
  usesIndices mode = false
  \/ (used + 2 * indices <= getUsableSize b /\ getUsableSize b < 2 ^ 64).

(** A batch of [vertices] vertices respects the 16-bit index limit. *)
Definition withinIndexLimit (mode : TriangleIndexMode) (vertices : Z) : Prop :=
  usesIndices mode = false \/ vertices <= LOVE_UINT16_MAX.

(** Consecutive calls of [requestBatchedDraw]. *)
Fixpoint requestBatchedDraws (cmds : list BatchedDrawCommand) : M unit :=
  match cmds with
  | [] => ret tt
  | c :: rest => requestBatchedDraw c ;; requestBatchedDraws rest
  end.

Lemma Texture_ptr_eqb_congr (a b c : option Texture) :
  Texture_ptr_eqb a b = true -> Texture_ptr_eqb a c = Texture_ptr_eqb b c.
Proof.
  destruct a, b, c; cbn; try congruence.
  intros H. apply Pos.eqb_eq in H. now rewrite H.
Qed.

Lemma sameBatch_batchDiffers (c0 c : BatchedDrawCommand) (s : BatchedDrawState) :
  sameBatch c0 c = true -> batchDiffers c s = batchDiffers c0 s.
Proof.
  unfold sameBatch, batchDiffers. intros H.
  repeat (apply andb_true_iff in H as [H ?]).
  apply PrimitiveType_eqb_eq in H.
  repeat match goal with
         | X : CommonFormat_eqb _ _ = true |- _ => apply CommonFormat_eqb_eq in X
         | X : StandardShader_eqb _ _ = true |- _ => apply StandardShader_eqb_eq in X
         | X : Bool.eqb _ _ = true |- _ => apply Bool.eqb_prop in X
         | X : Texture_ptr_eqb _ _ = true |- _ =>
             apply Texture_ptr_eqb_congr with (c := texture s) in X
         end.
  congruence.
Qed.

#[local] Arguments Z.mul : simpl never.
#[local] Arguments Z.add : simpl never.
#[local] Arguments Z.sub : simpl never.
#[local] Arguments Z.quot : simpl never.
#[local] Arguments Z.ltb : simpl never.
#[local] Arguments Z.leb : simpl never.
#[local] Arguments Z.eqb : simpl never.
#[local] Arguments size_t : simpl never.
#[local] Arguments uint16 : simpl never.

Lemma getFormatStride_nonneg (f : CommonFormat) : 0 <= getFormatStride f.
Proof.
  destruct f; cbn; [lia|]. unfold size_t. apply Z.mod_pos_bound. lia.
Qed.

Definition plannedBytes (f : CommonFormat) (vertices : Z) : Z :=
  if isNONE f then 0 else getFormatStride f * vertices.

Lemma streamPlan_fits (f : CommonFormat) (m : MapInfo) (b : StreamBuffer) (total v : Z) :
  streamFits f b 0 total -> mapCoherent m b -> 0 <= v <= total ->
  streamPlan f m b total v =
    {| sp_flush := false; sp_resize := false; sp_buffersize := 0;
       sp_newdatasize := plannedBytes f v |}.
Proof.
  intros Hfit Hmap Hv. unfold streamPlan, plannedBytes.
  destruct (isNONE f) eqn:Hnone; [reflexivity|].
  destruct Hfit as [Hfit | [Hfit Hbound]]; [congruence|].
  pose proof (getFormatStride_nonneg f) as Hs.
  assert (Ht : 0 <= getFormatStride f * total) by nia.
  assert (Hvv : 0 <= getFormatStride f * v <= getFormatStride f * total) by nia.
  rewrite (size_t_small (getFormatStride f * total)) by lia.
  rewrite (size_t_small (getFormatStride f * v)) by lia.
  assert (Hr : (getUsableSize b <? getFormatStride f * total) = false)
    by (apply Z.ltb_ge; lia).
  rewrite Hr.
  assert (Hf : isMapped m && (map_size m <? getFormatStride f * total) = false).
  { destruct (isMapped m) eqn:Hm; [|reflexivity]. cbn.
    rewrite (Hmap Hm). exact Hr. }
  rewrite Hf. reflexivity.
Qed.

Lemma indexPlan_fits (mode : TriangleIndexMode) (m : MapInfo) (b : StreamBuffer)
    (indices req : Z) :
  indicesFit mode b 0 (indices + req) -> mapCoherent m b -> 0 <= indices + req ->
  indexPlan mode m b indices req =
    {| sp_flush := false; sp_resize := false; sp_buffersize := 0; sp_newdatasize := 0 |}.
Proof.
  intros Hfit Hmap Hv. unfold indexPlan.
  destruct (usesIndices mode) eqn:Hidx; [|reflexivity].
  destruct Hfit as [Hfit | [Hfit Hbound]]; [congruence|].
  rewrite !size_t_small by lia.
  assert (Hr : (getUsableSize b <? (indices + req) * 2) = false)
    by (apply Z.ltb_ge; lia).
  rewrite Hr.
  assert (Hf : isMapped m && (map_size m <? (indices + req) * 2) = false).
  { destruct (isMapped m) eqn:Hm; [|reflexivity]. cbn.
    rewrite (Hmap Hm). exact Hr. }
  rewrite Hf. reflexivity.
Qed.

Lemma mapCoherent_advance (n : Z) (m : MapInfo) (b : StreamBuffer) :
  mapCoherent m b -> mapCoherent (advance n m) b.
Proof.
  unfold mapCoherent, advance, isMapped. cbn.
  destruct (map_data m); cbn; auto.
Qed.

Lemma mapCoherent_map (b : StreamBuffer) (n : Z) : mapCoherent (sb_map b n) b.
Proof. intros _. reflexivity. Qed.

Lemma draws_snoc_other (l : list ExternalCall) (c : ExternalCall) :
  isDraw c = false -> draws (l ++ [c]) = draws l.
Proof. intro H. rewrite draws_app. cbn. rewrite H. apply app_nil_r. Qed.

Lemma batchDiffers_false (c : BatchedDrawCommand) (s : BatchedDrawState) :
  PrimitiveType_eqb (cmd_primitiveMode c) (primitiveMode s) = true ->
  CommonFormat_eqb (cmd_formats0 c) (formats0 s) = true ->
  CommonFormat_eqb (cmd_formats1 c) (formats1 s) = true ->
  Bool.eqb (usesIndices (cmd_indexMode c)) (0 <? indexCount s) = true ->
  Texture_ptr_eqb (cmd_texture c) (texture s) = true ->
  StandardShader_eqb (cmd_standardShaderType c) (standardShaderType s) = true ->
  batchDiffers c s = false.
Proof. unfold batchDiffers. intros -> -> -> -> -> ->. reflexivity. Qed.

Lemma batchDiffers_false_inv (c : BatchedDrawCommand) (s : BatchedDrawState) :
  batchDiffers c s = false ->
  PrimitiveType_eqb (cmd_primitiveMode c) (primitiveMode s) = true
  /\ CommonFormat_eqb (cmd_formats0 c) (formats0 s) = true
  /\ CommonFormat_eqb (cmd_formats1 c) (formats1 s) = true
  /\ Bool.eqb (usesIndices (cmd_indexMode c)) (0 <? indexCount s) = true
  /\ Texture_ptr_eqb (cmd_texture c) (texture s) = true
  /\ StandardShader_eqb (cmd_standardShaderType c) (standardShaderType s) = true.
Proof.
  unfold batchDiffers. intros H.
  repeat (apply orb_false_iff in H as [H ?]).
  repeat match goal with X : negb _ = false |- _ => apply negb_false_iff in X end.
  repeat split; assumption.
Qed.

Lemma requestBatchedDraw_appends (g : Graphics) (c : BatchedDrawCommand) :
  let s := batchedDrawState g in
  nonDegenerate c ->
  mapsCoherent s ->
  batchEmpty s = true \/ batchDiffers c s = false ->
  0 <= vertexCount s -> 0 <= indexCount s ->
  streamFits (cmd_formats0 c) (vb0 s) 0 (vertexCount s + cmd_vertexCount c) ->
  streamFits (cmd_formats1 c) (vb1 s) 0 (vertexCount s + cmd_vertexCount c) ->
  indicesFit (cmd_indexMode c) (indexBuffer s) 0 (indexCount s + reqIndexCount c) ->
  withinIndexLimit (cmd_indexMode c) (vertexCount s + cmd_vertexCount c) ->
  let g' := fst (requestBatchedDraw c g) in
  let s' := batchedDrawState g' in
  draws (calls g') = draws (calls g)
  /\ vertexCount s' = vertexCount s + cmd_vertexCount c
  /\ indexCount s' = indexCount s + reqIndexCount c
  /\ batchDiffers c s' = false
  /\ mapsCoherent s'
  /\ vb0 s' = vb0 s /\ vb1 s' = vb1 s /\ indexBuffer s' = indexBuffer s.
Proof.
  cbv zeta. intros [Hv Hi] (Hm0 & Hm1 & Hm2) Hk Hvc Hic Hf0 Hf1 Hf2 Hlim.
  unfold reqIndexCount in *.
  assert (Hreq : 0 <= getIndexCount (cmd_indexMode c) (cmd_vertexCount c)).
  { destruct (cmd_indexMode c); cbn in *; lia. }
  destruct (requestBatchedDraw c g) as [g' r] eqn:E. cbn [fst].
  unfold requestBatchedDraw, appendBatchedDraw in E.
  unfold bind at 1 in E. unfold gets at 1 in E.
  cbv beta iota zeta in E.
  rewrite (streamPlan_fits _ _ _ _ _ Hf0 Hm0) in E by lia.
  rewrite (streamPlan_fits _ _ _ _ _ Hf1 Hm1) in E by lia.
  rewrite (indexPlan_fits _ _ _ _ _ Hf2 Hm2) in E by lia.
  cbn [sp_flush sp_resize sp_buffersize sp_newdatasize orb] in E.
  assert (Hl : (LOVE_UINT16_MAX <? vertexCount (batchedDrawState g) + cmd_vertexCount c)
               && usesIndices (cmd_indexMode c) = false).
  { destruct Hlim as [-> | Hlim]; [apply andb_false_r|].
    apply andb_false_iff. left. apply Z.ltb_ge. lia. }
  rewrite Hl in E. rewrite !orb_false_r in E.
  assert (Hkey : vertexCount (batchedDrawState g) = 0 /\ indexCount (batchedDrawState g) = 0
                 \/ batchDiffers c (batchedDrawState g) = false).
  { destruct Hk as [He|Hd]; [left|right; exact Hd].
    apply andb_true_iff in He as [H1 H2]. apply Z.eqb_eq in H1, H2. auto. }
  clear Hk.
  assert (Hidx : Bool.eqb (usesIndices (cmd_indexMode c))
                   (0 <? getIndexCount (cmd_indexMode c) (cmd_vertexCount c)) = true).
  { destruct (cmd_indexMode c); cbn in *; try reflexivity.
    - assert (H1 : (0 <? 3 * (cmd_vertexCount c - 2)) = true) by (apply Z.ltb_lt; lia).
      now rewrite H1.
    - assert (H1 : (0 <? 6 * (cmd_vertexCount c ÷ 4)) = true) by (apply Z.ltb_lt; lia).
      now rewrite H1. }
  assert (Hidx' : forall n, Bool.eqb (usesIndices (cmd_indexMode c)) (0 <? n) = true -> 0 <= n ->
            Bool.eqb (usesIndices (cmd_indexMode c))
              (0 <? n + getIndexCount (cmd_indexMode c) (cmd_vertexCount c)) = true).
  { intros n Hn Hn0. destruct (usesIndices (cmd_indexMode c)) eqn:Hu.
    - assert (H1 : (0 <? n + getIndexCount (cmd_indexMode c) (cmd_vertexCount c)) = true)
        by (apply Z.ltb_lt; lia).
      now rewrite H1.
    - assert (H0 : getIndexCount (cmd_indexMode c) (cmd_vertexCount c) = 0)
        by (destruct (cmd_indexMode c); cbn in Hu; try discriminate; reflexivity).
      now rewrite H0, Z.add_0_r. }
  unfold attachDefault, newStreamBuffer in E. unfold_monad.
  destruct (batchDiffers c (batchedDrawState g)) eqn:Hd.
  - destruct Hkey as [[Hv0 Hi0]|]; [|discriminate].
    rewrite (surjective_pairing (flushBatchedDraws g)) in E.
    rewrite flushBatchedDraws_empty in E
      by (unfold batchEmpty; rewrite Hv0, Hi0; reflexivity).
    cbn in E. rewrite Hv0 in E. change (0 =? 0) with true in E.
    change (0 <? 0) with false in E. cbn in E.
    repeat match type of E with
           | context [if ?b then _ else _] => destruct b eqn:?; cbn in E
           | context [match Shader_current ?x with _ => _ end] =>
               destruct (Shader_current x) eqn:?; cbn in E
           end.
    all: injection E as <- <-; cbn.
    all: rewrite ?draws_app, ?Hv0, ?Hi0; cbn; rewrite ?app_nil_r.
    all: repeat split; try reflexivity; try lia.
    all: try (apply batchDiffers_false; cbn;
              [ now apply PrimitiveType_eqb_eq | now apply CommonFormat_eqb_eq
              | now apply CommonFormat_eqb_eq
              | try (match goal with X : usesIndices _ = _ |- _ => rewrite X end);
                rewrite Z.add_0_l; exact Hidx
              | apply Texture_ptr_eqb_refl | now apply StandardShader_eqb_eq ]).
    all: try (apply mapCoherent_advance; first [assumption | apply mapCoherent_map]).
    all: try assumption.
  - destruct (batchDiffers_false_inv _ _ Hd) as (Hb1 & Hb2 & Hb3 & Hb4 & Hb5 & Hb6).
    pose proof (Hidx' _ Hb4 Hic) as Hb4'.
    cbn in E.
    repeat match type of E with
           | context [if ?b then _ else _] => destruct b eqn:?; cbn in E
           | context [match Shader_current ?x with _ => _ end] =>
               destruct (Shader_current x) eqn:?; cbn in E
           end.
    all: injection E as <- <-; cbn.
    all: rewrite ?draws_app; cbn; rewrite ?app_nil_r.
    all: repeat split; try reflexivity; try lia.
    all: try (apply batchDiffers_false; cbn;
              try (match goal with X : usesIndices _ = _ |- _ => rewrite X end);
              assumption).
    all: try (apply mapCoherent_advance; first [assumption | apply mapCoherent_map]).
    all: try assumption.
Qed.

(** ** Computations that never throw *)

Definition returns {A : Type} (m : M A) : Prop :=
  forall g, exists a, snd (m g) = Returned a.

Lemma returns_ret {A : Type} (a : A) : returns (ret a).
Proof. intros g. now exists a. Qed.

Lemma returns_gets {A : Type} (f : Graphics -> A) : returns (gets f).
Proof. intros g. now exists (f g). Qed.

Lemma returns_modify (f : Graphics -> Graphics) : returns (modify f).
Proof. intros g. now exists tt. Qed.

Lemma returns_bind {A B : Type} (m : M A) (k : A -> M B) :
  returns m -> (forall a, returns (k a)) -> returns (bind m k).
Proof.
  intros Hm Hk g. unfold bind. destruct (Hm g) as [a Ha].
  destruct (m g) as [g1 r1]. cbn in Ha. subst r1. apply Hk.
Qed.

Lemma returns_when (c : bool) (m : M unit) : returns m -> returns (when c m).
Proof. intros Hm. destruct c; [exact Hm | apply returns_ret]. Qed.

Lemma returns_flushBatchedDraws : returns flushBatchedDraws.
Proof. intros g. exists tt. apply flushBatchedDraws_returns. Qed.

(** Structural proof that a computation never throws. *)
Ltac returns_step :=
  first
    [ apply returns_ret | apply returns_gets | apply returns_modify
    | apply returns_flushBatchedDraws
    | apply returns_when
    | apply returns_bind; [ | intro ]
    | match goal with
      | |- returns (if ?b then _ else _) => destruct b
      | |- returns (match ?x with _ => _ end) => destruct x
      | |- returns (let _ := _ in _) => cbv zeta
      end ].

Ltac returns_tac := repeat returns_step.

Lemma returns_call (c : ExternalCall) : returns (call c).
Proof. unfold call. returns_tac. Qed.

Lemma returns_modify_batch (f : BatchedDrawState -> BatchedDrawState) :
  returns (modify_batch f).
Proof. unfold modify_batch. returns_tac. Qed.

Lemma returns_modify_back (f : DisplayState -> DisplayState) : returns (modify_back f).
Proof. unfold modify_back. returns_tac. Qed.

Lemma returns_requestBatchedDraw (c : BatchedDrawCommand) : returns (requestBatchedDraw c).
Proof.
  unfold requestBatchedDraw, appendBatchedDraw, attachDefault, newStreamBuffer, call,
    modify_batch.
  returns_tac.
Qed.

Lemma requestBatchedDraw_returns (g : Graphics) (c : BatchedDrawCommand) :
  exists d, snd (requestBatchedDraw c g) = Returned d.
Proof. apply returns_requestBatchedDraw. Qed.

Lemma bind_returned {A B : Type} (m : M A) (k : A -> M B) (g : Graphics) (a : A) :
  snd (m g) = Returned a -> bind m k g = k a (fst (m g)).
Proof. unfold bind. destruct (m g) as [g1 r1]. cbn. intros ->. reflexivity. Qed.

Lemma totalVertices_app (l m : list BatchedDrawCommand) :
  totalVertices (l ++ m) = totalVertices l + totalVertices m.
Proof. induction l; cbn; lia. Qed.

Lemma totalIndices_app (l m : list BatchedDrawCommand) :
  totalIndices (l ++ m) = totalIndices l + totalIndices m.
Proof. induction l; cbn; lia. Qed.

Lemma nonDegenerate_reqIndexCount (c : BatchedDrawCommand) :
  nonDegenerate c -> 0 <= reqIndexCount c.
Proof.
  unfold nonDegenerate, reqIndexCount. intros [_ H].
  destruct (cmd_indexMode c); cbn in *; lia.
Qed.

Lemma totals_nonneg (cmds : list BatchedDrawCommand) :
  Forall nonDegenerate cmds -> 0 <= totalVertices cmds /\ 0 <= totalIndices cmds.
Proof.
  induction 1 as [|c rest Hc _ IH]; cbn; [lia|].
  pose proof (nonDegenerate_reqIndexCount c Hc). destruct Hc. lia.
Qed.

Lemma sameBatch_fields (c0 c : BatchedDrawCommand) :
  sameBatch c0 c = true ->
  cmd_formats0 c = cmd_formats0 c0 /\ cmd_formats1 c = cmd_formats1 c0
  /\ usesIndices (cmd_indexMode c) = usesIndices (cmd_indexMode c0).
Proof.
  unfold sameBatch. intros H.
  repeat (apply andb_true_iff in H as [H ?]).
  repeat match goal with
         | X : CommonFormat_eqb _ _ = true |- _ => apply CommonFormat_eqb_eq in X
         | X : Bool.eqb _ _ = true |- _ => apply Bool.eqb_prop in X
         end.
  auto.
Qed.

Lemma streamFits_less (f : CommonFormat) (b : StreamBuffer) (n m : Z) :
  streamFits f b 0 m -> n <= m -> streamFits f b 0 n.
Proof.
  intros [H | [H Hb]] Hn; [left; exact H | right].
  pose proof (getFormatStride_nonneg f). split; [nia | exact Hb].
Qed.

Lemma indicesFit_less (mode mode' : TriangleIndexMode) (b : StreamBuffer) (n m : Z) :
  indicesFit mode b 0 m -> usesIndices mode' = usesIndices mode -> n <= m ->
  indicesFit mode' b 0 n.
Proof.
  intros [H | [H Hb]] Hm Hn; [left; congruence | right]. split; [lia | exact Hb].
Qed.

Lemma withinIndexLimit_less (mode mode' : TriangleIndexMode) (n m : Z) :
  withinIndexLimit mode m -> usesIndices mode' = usesIndices mode -> n <= m ->
  withinIndexLimit mode' n.
Proof. intros [H | H] Hm Hn; [left; congruence | right; lia]. Qed.

(** A run of commands of one batch is accumulated without any draw call. *)
Lemma requestBatchedDraws_accumulates (c0 : BatchedDrawCommand)
    (cmds : list BatchedDrawCommand) (g : Graphics) :
  let s := batchedDrawState g in
  Forall (fun c => sameBatch c0 c = true) cmds ->
  Forall nonDegenerate cmds ->
  mapsCoherent s ->
  batchEmpty s = true \/ batchDiffers c0 s = false ->
  0 <= vertexCount s -> 0 <= indexCount s ->
  streamFits (cmd_formats0 c0) (vb0 s) 0 (vertexCount s + totalVertices cmds) ->
  streamFits (cmd_formats1 c0) (vb1 s) 0 (vertexCount s + totalVertices cmds) ->
  indicesFit (cmd_indexMode c0) (indexBuffer s) 0 (indexCount s + totalIndices cmds) ->
  withinIndexLimit (cmd_indexMode c0) (vertexCount s + totalVertices cmds) ->
  let g' := fst (requestBatchedDraws cmds g) in
  let s' := batchedDrawState g' in
  snd (requestBatchedDraws cmds g) = Returned tt
  /\ draws (calls g') = draws (calls g)
  /\ vertexCount s' = vertexCount s + totalVertices cmds
  /\ indexCount s' = indexCount s + totalIndices cmds
  /\ (cmds <> [] -> batchDiffers c0 s' = false)
  /\ mapsCoherent s'
  /\ vb0 s' = vb0 s /\ vb1 s' = vb1 s /\ indexBuffer s' = indexBuffer s.
Proof.
  cbv zeta. revert g.
  induction cmds as [|c rest IH]; intros g Hsame Hnd Hmaps Hk Hv Hi Hf0 Hf1 Hf2 Hlim.
  - cbn. rewrite !Z.add_0_r. repeat split; try assumption; try apply Hmaps. congruence.
  - inversion Hsame as [|? ? Hc Hsame']; subst.
    inversion Hnd as [|? ? Hndc Hnd']; subst.
    destruct (totals_nonneg rest Hnd') as [Htv Hti].
    destruct (sameBatch_fields c0 c Hc) as (E0 & E1 & Eu).
    pose proof (nonDegenerate_reqIndexCount c Hndc) as Hreq.
    assert (Hvc : 0 < cmd_vertexCount c) by apply Hndc.
    cbn [totalVertices totalIndices] in *.
    assert (Hk' : batchEmpty (batchedDrawState g) = true
                  \/ batchDiffers c (batchedDrawState g) = false).
    { destruct Hk as [Hk|Hk]; [left; exact Hk | right].
      now rewrite (sameBatch_batchDiffers c0 c _ Hc). }
    destruct (requestBatchedDraw_appends g c Hndc Hmaps Hk' Hv Hi) as
      (Hd & Hv1 & Hi1 & Hb1 & Hm1 & B0 & B1 & B2).
    + rewrite E0. eapply streamFits_less; [exact Hf0 | lia].
    + rewrite E1. eapply streamFits_less; [exact Hf1 | lia].
    + eapply indicesFit_less; [exact Hf2 | exact Eu | lia].
    + eapply withinIndexLimit_less; [exact Hlim | exact Eu | lia].
    + destruct (requestBatchedDraw_returns g c) as [d Hret].
      cbn [requestBatchedDraws]. rewrite (bind_returned _ _ _ _ Hret).
      set (g1 := fst (requestBatchedDraw c g)) in *.
      rewrite (sameBatch_batchDiffers c0 c _ Hc) in Hb1.
      destruct (IH g1 Hsame' Hnd' Hm1 (or_intror Hb1)) as
        (R & Hd2 & Hv2 & Hi2 & Hb2 & Hm2 & C0 & C1 & C2).
      * lia.
      * lia.
      * rewrite B0, Hv1. replace (vertexCount (batchedDrawState g) + cmd_vertexCount c
                                  + totalVertices rest)
          with (vertexCount (batchedDrawState g) + (cmd_vertexCount c + totalVertices rest))
          by lia. exact Hf0.
      * rewrite B1, Hv1. replace (vertexCount (batchedDrawState g) + cmd_vertexCount c
                                  + totalVertices rest)
          with (vertexCount (batchedDrawState g) + (cmd_vertexCount c + totalVertices rest))
          by lia. exact Hf1.
      * rewrite B2, Hi1. replace (indexCount (batchedDrawState g) + reqIndexCount c
                                  + totalIndices rest)
          with (indexCount (batchedDrawState g) + (reqIndexCount c + totalIndices rest))
          by lia. exact Hf2.
      * rewrite Hv1. replace (vertexCount (batchedDrawState g) + cmd_vertexCount c
                              + totalVertices rest)
          with (vertexCount (batchedDrawState g) + (cmd_vertexCount c + totalVertices rest))
          by lia. exact Hlim.
      * repeat split; try congruence; try lia; try apply Hm2.
        intros _. destruct rest as [|c' rest'].
        -- cbn. exact Hb1.
        -- apply Hb2. discriminate.
Qed.

Lemma sp_newdatasize_streamPlan (f : CommonFormat) (m : MapInfo) (b : StreamBuffer)
    (total v : Z) :
  sp_newdatasize (streamPlan f m b total v)
  = if isNONE f then 0 else size_t (getFormatStride f * v).
Proof. unfold streamPlan. destruct (isNONE f); reflexivity. Qed.

(** Without a resize the append only reads the bytes each stream adds. *)
Lemma appendBatchedDraw_plans (c : BatchedDrawCommand) (p0 p1 p2 q0 q1 q2 : StreamPlan) :
  sp_newdatasize p0 = sp_newdatasize q0 -> sp_newdatasize p1 = sp_newdatasize q1 ->
  appendBatchedDraw c false p0 p1 p2 = appendBatchedDraw c false q0 q1 q2.
Proof.
  intros H0 H1. unfold appendBatchedDraw. rewrite H0, H1. reflexivity.
Qed.

(** The command forces a flush or a resize. *)
Definition restarts (c : BatchedDrawCommand) (s : BatchedDrawState) : bool :=
  let totalvertices := vertexCount s + cmd_vertexCount c in
  let plan0 := streamPlan (cmd_formats0 c) (vbMap0 s) (vb0 s)
                          totalvertices (cmd_vertexCount c) in
  let plan1 := streamPlan (cmd_formats1 c) (vbMap1 s) (vb1 s)
                          totalvertices (cmd_vertexCount c) in
  let plan2 := indexPlan (cmd_indexMode c) (indexBufferMap s) (indexBuffer s)
                         (indexCount s) (reqIndexCount c) in
  (batchDiffers c s
   || ((LOVE_UINT16_MAX <? totalvertices) && usesIndices (cmd_indexMode c))
   || sp_flush plan0 || sp_flush plan1 || sp_flush plan2)
  || (sp_resize plan0 || sp_resize plan1 || sp_resize plan2).

Definition resizes (c : BatchedDrawCommand) (s : BatchedDrawState) : bool :=
  let totalvertices := vertexCount s + cmd_vertexCount c in
  sp_resize (streamPlan (cmd_formats0 c) (vbMap0 s) (vb0 s)
                        totalvertices (cmd_vertexCount c))
  || sp_resize (streamPlan (cmd_formats1 c) (vbMap1 s) (vb1 s)
                           totalvertices (cmd_vertexCount c))
  || sp_resize (indexPlan (cmd_indexMode c) (indexBufferMap s) (indexBuffer s)
                          (indexCount s) (reqIndexCount c)).

(** The accumulator once the key of the command is written into it. *)
Definition keyed (c : BatchedDrawCommand) (g : Graphics) : Graphics :=
  set_batchedDrawState
    (bds_set_standardShaderType (cmd_standardShaderType c)
       (bds_set_texture (cmd_texture c)
          (bds_set_formats1 (cmd_formats1 c)
             (bds_set_formats0 (cmd_formats0 c)
                (bds_set_primitiveMode (cmd_primitiveMode c) (batchedDrawState g))))))
    g.

Lemma requestBatchedDraw_eq (g : Graphics) (c : BatchedDrawCommand) :
  let s := batchedDrawState g in
  let totalvertices := vertexCount s + cmd_vertexCount c in
  let plan0 := streamPlan (cmd_formats0 c) (vbMap0 s) (vb0 s)
                          totalvertices (cmd_vertexCount c) in
  let plan1 := streamPlan (cmd_formats1 c) (vbMap1 s) (vb1 s)
                          totalvertices (cmd_vertexCount c) in
  let plan2 := indexPlan (cmd_indexMode c) (indexBufferMap s) (indexBuffer s)
                         (indexCount s) (reqIndexCount c) in
  requestBatchedDraw c g =
    appendBatchedDraw c (resizes c s) plan0 plan1 plan2
      (if restarts c s then keyed c (fst (flushBatchedDraws g)) else g).
Proof.
  cbv zeta. unfold requestBatchedDraw, restarts, resizes, reqIndexCount, keyed.
  unfold bind at 1. unfold gets at 1. cbv beta iota zeta.
  match goal with |- context [when ?b _] => destruct b end.
  - unfold bind at 1. unfold when. unfold bind at 1.
    pose proof (flushBatchedDraws_returns g) as Hret.
    destruct (flushBatchedDraws g) as [gf rf]. cbn in Hret. subst rf. reflexivity.
  - reflexivity.
Qed.

(** When the command forces a flush and no buffer has to grow, the call
    does what it does on the flushed object. *)
Lemma requestBatchedDraw_flushed (g : Graphics) (c : BatchedDrawCommand) :
  let s := batchedDrawState g in
  let gf := fst (flushBatchedDraws g) in
  let sf := batchedDrawState gf in
  restarts c s = true -> resizes c s = false ->
  restarts c sf = true -> resizes c sf = false ->
  batchEmpty sf = true ->
  requestBatchedDraw c g = requestBatchedDraw c gf.
Proof.
  cbv zeta. intros Hd Hr Hdf Hrf Hef.
  rewrite (requestBatchedDraw_eq g), (requestBatchedDraw_eq (fst (flushBatchedDraws g))).
  cbv zeta. rewrite Hd, Hr, Hdf, Hrf.
  rewrite (flushBatchedDraws_empty _ Hef). cbn [fst].
  apply (f_equal (fun f => f (keyed c (fst (flushBatchedDraws g))))).
  apply appendBatchedDraw_plans; rewrite !sp_newdatasize_streamPlan; reflexivity.
Qed.

(** The stream buffers after a flush that drew: what the batch used is
    marked as used by the GPU. *)
Lemma flushBatchedDraws_buffers (g : Graphics) :
  let s := batchedDrawState g in
  let s' := batchedDrawState (fst (flushBatchedDraws g)) in
  batchDrawable s = true ->
  vb0 s' = (if 0 <? usedsize (formats0 s) (vertexCount s)
            then sb_markUsed (usedsize (formats0 s) (vertexCount s)) (vb0 s) else vb0 s)
  /\ vb1 s' = (if 0 <? usedsize (formats1 s) (vertexCount s)
               then sb_markUsed (usedsize (formats1 s) (vertexCount s)) (vb1 s) else vb1 s)
  /\ indexBuffer s' =
       (if 0 <? indexCount s
        then (if 0 <? size_t (2 * indexCount s)
              then sb_markUsed (size_t (2 * indexCount s)) (indexBuffer s)
              else indexBuffer s)
        else indexBuffer s).
Proof.
  cbv zeta. unfold batchDrawable, batchAttributes, usedsize.
  flush_cases g; rewrite ?Hf0, ?Hf1, ?Hidx; cbn; rewrite ?Hbits; cbn;
    try discriminate; intros _.
  all: repeat match goal with
              | H : (0 <? ?x) = _ |- context [0 <? ?x] => rewrite H
              end.
  all: repeat split; try reflexivity.
  all: change (0 <? 0) with false in *; try discriminate.
Qed.

Lemma flushBatchedDraws_mapsCoherent (g : Graphics) :
  let s := batchedDrawState g in
  batchDrawable s = true -> mapsCoherent s ->
  mapsCoherent (batchedDrawState (fst (flushBatchedDraws g))).
Proof.
  cbv zeta. intros Hd (H0 & H1 & H2).
  destruct (flushBatchedDraws_resets g Hd) as (_ & _ & M0 & M1 & M2 & _).
  destruct (flushBatchedDraws_buffers g Hd) as (B0 & B1 & B2).
  unfold mapsCoherent. rewrite M0, M1, M2, B0, B1, B2. unfold usedsize.
  repeat split.
  - destruct (isNONE (formats0 (batchedDrawState g))).
    + change (0 <? 0) with false. exact H0.
    + intros H. discriminate.
  - destruct (isNONE (formats1 (batchedDrawState g))).
    + change (0 <? 0) with false. exact H1.
    + intros H. discriminate.
  - destruct (0 <? indexCount (batchedDrawState g)).
    + intros H. discriminate.
    + exact H2.
Qed.

Lemma resizes_false (c : BatchedDrawCommand) (s : BatchedDrawState) :
  mapsCoherent s -> 0 <= vertexCount s -> 0 <= cmd_vertexCount c ->
  0 <= indexCount s + reqIndexCount c ->
  streamFits (cmd_formats0 c) (vb0 s) 0 (vertexCount s + cmd_vertexCount c) ->
  streamFits (cmd_formats1 c) (vb1 s) 0 (vertexCount s + cmd_vertexCount c) ->
  indicesFit (cmd_indexMode c) (indexBuffer s) 0 (indexCount s + reqIndexCount c) ->
  resizes c s = false.
Proof.
  intros (M0 & M1 & M2) Hv Hc Hi F0 F1 F2. unfold resizes. cbv zeta.
  rewrite (streamPlan_fits _ _ _ _ _ F0 M0) by lia.
  rewrite (streamPlan_fits _ _ _ _ _ F1 M1) by lia.
  rewrite (indexPlan_fits _ _ _ _ _ F2 M2) by lia.
  reflexivity.
Qed.

Lemma usedsize_nonneg (f : CommonFormat) (n : Z) : 0 <= usedsize f n.
Proof.
  unfold usedsize. destruct (isNONE f); [lia|].
  unfold size_t. apply Z.mod_pos_bound. lia.
Qed.

Lemma size_t_nonneg (z : Z) : 0 <= size_t z.
Proof. unfold size_t. apply Z.mod_pos_bound. lia. Qed.

(** What a flush that drew leaves usable in the stream buffers. *)
Lemma flushBatchedDraws_usable (g : Graphics) :
  let s := batchedDrawState g in
  let s' := batchedDrawState (fst (flushBatchedDraws g)) in
  batchDrawable s = true -> 0 <= indexCount s ->
  getUsableSize (vb0 s') = getUsableSize (vb0 s) - usedsize (formats0 s) (vertexCount s)
  /\ getUsableSize (vb1 s') = getUsableSize (vb1 s) - usedsize (formats1 s) (vertexCount s)
  /\ getUsableSize (indexBuffer s')
     = getUsableSize (indexBuffer s) - size_t (2 * indexCount s).
Proof.
  cbv zeta. intros Hd Hi.
  destruct (flushBatchedDraws_buffers g Hd) as (-> & -> & ->).
  pose proof (usedsize_nonneg (formats0 (batchedDrawState g)) (vertexCount (batchedDrawState g))).
  pose proof (usedsize_nonneg (formats1 (batchedDrawState g)) (vertexCount (batchedDrawState g))).
  pose proof (size_t_nonneg (2 * indexCount (batchedDrawState g))).
  repeat split.
  - destruct (0 <? _) eqn:E; unfold getUsableSize, sb_markUsed; cbn; [lia|].
    apply Z.ltb_ge in E. lia.
  - destruct (0 <? _) eqn:E; unfold getUsableSize, sb_markUsed; cbn; [lia|].
    apply Z.ltb_ge in E. lia.
  - destruct (0 <? indexCount (batchedDrawState g)) eqn:E.
    + destruct (0 <? size_t _) eqn:E2; unfold getUsableSize, sb_markUsed; cbn; [lia|].
      apply Z.ltb_ge in E2. lia.
    + apply Z.ltb_ge in E.
      assert (indexCount (batchedDrawState g) = 0) as -> by lia.
      change (size_t (2 * 0)) with 0. lia.
Qed.

(** A command with another texture than the pending batch: the batch is
    drawn, and the command starts the next one. *)
Lemma requestBatchedDraw_switches (g : Graphics) (c : BatchedDrawCommand) :
  let s := batchedDrawState g in
  let sf := batchedDrawState (fst (flushBatchedDraws g)) in
  batchDrawable s = true ->
  Texture_ptr_eqb (cmd_texture c) (texture s) = false ->
  nonDegenerate c -> mapsCoherent s ->
  0 <= vertexCount s -> 0 <= indexCount s ->
  resizes c s = false ->
  streamFits (cmd_formats0 c) (vb0 sf) 0 (cmd_vertexCount c) ->
  streamFits (cmd_formats1 c) (vb1 sf) 0 (cmd_vertexCount c) ->
  indicesFit (cmd_indexMode c) (indexBuffer sf) 0 (reqIndexCount c) ->
  withinIndexLimit (cmd_indexMode c) (cmd_vertexCount c) ->
  let g' := fst (requestBatchedDraw c g) in
  let s' := batchedDrawState g' in
  draws (calls g') = draws (calls g) ++ [pendingDraw s]
  /\ vertexCount s' = cmd_vertexCount c
  /\ indexCount s' = reqIndexCount c
  /\ batchDiffers c s' = false
  /\ mapsCoherent s'
  /\ vb0 s' = vb0 sf /\ vb1 s' = vb1 sf /\ indexBuffer s' = indexBuffer sf.
Proof.
  cbv zeta. intros Hd Ht Hnd Hmaps Hv Hi Hr F0 F1 F2 Hlim.
  destruct (flushBatchedDraws_resets g Hd) as (V0 & I0 & _).
  destruct (flushBatchedDraws_key g) as (_ & _ & _ & Kt & _).
  pose proof (flushBatchedDraws_mapsCoherent g Hd Hmaps) as Hmf.
  pose proof (flushBatchedDraws_draws g) as Hdr. rewrite Hd in Hdr.
  assert (Hrestart : forall s0, Texture_ptr_eqb (cmd_texture c) (texture s0) = false ->
                       restarts c s0 = true).
  { intros s0 H0. unfold restarts, batchDiffers. cbv zeta. rewrite H0. cbn.
    rewrite !orb_true_r. reflexivity. }
  assert (Hempty : batchEmpty (batchedDrawState (fst (flushBatchedDraws g))) = true).
  { unfold batchEmpty. rewrite V0, I0. reflexivity. }
  pose proof (nonDegenerate_reqIndexCount c Hnd) as Hreq.
  assert (Hvc : 0 < cmd_vertexCount c) by apply Hnd.
  rewrite (requestBatchedDraw_flushed g c).
  - destruct (requestBatchedDraw_appends (fst (flushBatchedDraws g)) c Hnd Hmf
                (or_introl Hempty)) as (A1 & A2 & A3 & A4 & A5 & A6 & A7 & A8).
    + lia.
    + lia.
    + rewrite V0, Z.add_0_l. exact F0.
    + rewrite V0, Z.add_0_l. exact F1.
    + rewrite I0, Z.add_0_l. exact F2.
    + rewrite V0, Z.add_0_l. exact Hlim.
    + rewrite A1, Hdr, A2, A3, V0, I0. repeat split; try assumption; try lia; apply A5.
  - apply Hrestart. exact Ht.
  - exact Hr.
  - apply Hrestart. cbv zeta in Kt. rewrite Kt. exact Ht.
  - apply resizes_false; try assumption; rewrite ?V0, ?I0, ?Z.add_0_l; try assumption; lia.
  - exact Hempty.
Qed.

Lemma idle_mapsCoherent (s : BatchedDrawState) : idle s -> mapsCoherent s.
Proof.
  intros (_ & H0 & H1 & H2 & _).
  unfold mapsCoherent, mapCoherent, isMapped. rewrite H0, H1, H2.
  repeat split; discriminate.
Qed.

Lemma batchDiffers_false_formats (c : BatchedDrawCommand) (s : BatchedDrawState) :
  batchDiffers c s = false ->
  formats0 s = cmd_formats0 c /\ formats1 s = cmd_formats1 c.
Proof.
  intros H. destruct (batchDiffers_false_inv c s H) as (_ & H0 & H1 & _).
  apply CommonFormat_eqb_eq in H0. apply CommonFormat_eqb_eq in H1. auto.
Qed.

(** The attributes the formats of the command enable. *)
Definition commandAttributes (c : BatchedDrawCommand) : VertexAttributes :=
  setCommonFormat (cmd_formats1 c) 1 (setCommonFormat (cmd_formats0 c) 0 []).

Lemma batchDrawable_keyed (c : BatchedDrawCommand) (s : BatchedDrawState) :
  batchDiffers c s = false -> 0 < vertexCount s ->
  enableBits_zero (commandAttributes c) = false ->
  batchDrawable s = true.
Proof.
  intros Hk Hv Ha. destruct (batchDiffers_false_formats c s Hk) as [E0 E1].
  unfold batchDrawable, batchEmpty, batchAttributes. rewrite E0, E1.
  unfold commandAttributes in Ha. rewrite Ha.
  assert ((vertexCount s =? 0) = false) as -> by (apply Z.eqb_neq; lia).
  reflexivity.
Qed.

Lemma streamFits_flushed (f : CommonFormat) (b b' : StreamBuffer) (used n : Z) :
  0 <= used -> 0 <= n ->
  getUsableSize b' = getUsableSize b - usedsize f used ->
  streamFits f b 0 (used + n) -> streamFits f b' 0 n.
Proof.
  intros Hu Hn Hb [H | [H Hlt]]; [left; exact H | right].
  pose proof (getFormatStride_nonneg f) as Hs.
  pose proof (usedsize_nonneg f used) as Hp.
  rewrite Hb. unfold usedsize in *.
  destruct (isNONE f).
  - split; [nia | lia].
  - rewrite size_t_small in * by nia. split; [nia | nia].
Qed.

Lemma indicesFit_flushed (mode : TriangleIndexMode) (b b' : StreamBuffer) (used n : Z) :
  0 <= used -> 0 <= n ->
  getUsableSize b' = getUsableSize b - size_t (2 * used) ->
  indicesFit mode b 0 (used + n) -> indicesFit mode b' 0 n.
Proof.
  intros Hu Hn Hb [H | [H Hlt]]; [left; exact H | right].
  rewrite Hb. rewrite size_t_small by lia. split; lia.
Qed.

Lemma totalVertices_pos (c : BatchedDrawCommand) (rest : list BatchedDrawCommand) :
  Forall nonDegenerate (c :: rest) -> 0 < totalVertices (c :: rest).
Proof.
  intros H. inversion H as [|? ? Hc Hr]; subst.
  destruct (totals_nonneg rest Hr). destruct Hc. cbn [totalVertices]. lia.
Qed.

(** A run of commands of one batch that arrives while a batch with another
    texture is pending: the pending batch is drawn by the first command of
    the run, and the run is accumulated. *)
Lemma requestBatchedDraws_switches (c0 c : BatchedDrawCommand)
    (rest : list BatchedDrawCommand) (g : Graphics) :
  let s := batchedDrawState g in
  let cmds := c :: rest in
  batchDrawable s = true -> mapsCoherent s ->
  0 <= vertexCount s -> 0 <= indexCount s ->
  formats0 s = cmd_formats0 c0 -> formats1 s = cmd_formats1 c0 ->
  Texture_ptr_eqb (cmd_texture c0) (texture s) = false ->
  Forall (fun c => sameBatch c0 c = true) cmds ->
  Forall nonDegenerate cmds ->
  streamFits (cmd_formats0 c0) (vb0 s) 0 (vertexCount s + totalVertices cmds) ->
  streamFits (cmd_formats1 c0) (vb1 s) 0 (vertexCount s + totalVertices cmds) ->
  indicesFit (cmd_indexMode c0) (indexBuffer s) 0 (indexCount s + totalIndices cmds) ->
  withinIndexLimit (cmd_indexMode c0) (totalVertices cmds) ->
  let g' := fst (requestBatchedDraws cmds g) in
  let s' := batchedDrawState g' in
  draws (calls g') = draws (calls g) ++ [pendingDraw s]
  /\ vertexCount s' = totalVertices cmds
  /\ indexCount s' = totalIndices cmds
  /\ batchDiffers c0 s' = false
  /\ mapsCoherent s'
  /\ (forall n, 0 <= n ->
        streamFits (cmd_formats0 c0) (vb0 s) 0 (vertexCount s + n) ->
        streamFits (cmd_formats0 c0) (vb0 s') 0 n)
  /\ (forall n, 0 <= n ->
        streamFits (cmd_formats1 c0) (vb1 s) 0 (vertexCount s + n) ->
        streamFits (cmd_formats1 c0) (vb1 s') 0 n)
  /\ (forall mode n, 0 <= n ->
        indicesFit mode (indexBuffer s) 0 (indexCount s + n) ->
        indicesFit mode (indexBuffer s') 0 n).
Proof.
  cbv zeta. intros Hd Hmaps Hv Hi E0 E1 Ht Hsame Hnd F0 F1 F2 Hlim.
  inversion Hsame as [|? ? Hc Hsame']; subst.
  inversion Hnd as [|? ? Hndc Hnd']; subst.
  destruct (totals_nonneg rest Hnd') as [Htv Hti].
  destruct (sameBatch_fields c0 c Hc) as (C0 & C1 & Cu).
  pose proof (nonDegenerate_reqIndexCount c Hndc) as Hreq.
  assert (Hvc : 0 < cmd_vertexCount c) by apply Hndc.
  cbn [totalVertices totalIndices] in *.
  destruct (flushBatchedDraws_usable g Hd Hi) as (U0 & U1 & U2).
  rewrite E0 in U0. rewrite E1 in U1.
  assert (Htc : Texture_ptr_eqb (cmd_texture c) (texture (batchedDrawState g)) = false).
  { unfold sameBatch in Hc. repeat (apply andb_true_iff in Hc as [Hc ?]).
    match goal with X : Texture_ptr_eqb (cmd_texture c) _ = true |- _ =>
      rewrite (Texture_ptr_eqb_congr _ _ _ X) end. exact Ht. }
  assert (G0 : forall n, 0 <= n ->
     streamFits (cmd_formats0 c0) (vb0 (batchedDrawState g)) 0 (vertexCount (batchedDrawState g) + n) ->
     streamFits (cmd_formats0 c0) (vb0 (batchedDrawState (fst (flushBatchedDraws g)))) 0 n).
  { intros n Hn. apply streamFits_flushed; assumption. }
  assert (G1 : forall n, 0 <= n ->
     streamFits (cmd_formats1 c0) (vb1 (batchedDrawState g)) 0 (vertexCount (batchedDrawState g) + n) ->
     streamFits (cmd_formats1 c0) (vb1 (batchedDrawState (fst (flushBatchedDraws g)))) 0 n).
  { intros n Hn. apply streamFits_flushed; assumption. }
  assert (G2 : forall mode n, 0 <= n ->
     indicesFit mode (indexBuffer (batchedDrawState g)) 0 (indexCount (batchedDrawState g) + n) ->
     indicesFit mode (indexBuffer (batchedDrawState (fst (flushBatchedDraws g)))) 0 n).
  { intros mode n Hn. apply indicesFit_flushed; assumption. }
  destruct (requestBatchedDraw_switches g c Hd Htc Hndc Hmaps Hv Hi)
    as (S1 & S2 & S3 & S4 & S5 & S6 & S7 & S8).
  - apply resizes_false; try assumption; try lia.
    + rewrite C0. eapply streamFits_less; [exact F0 | lia].
    + rewrite C1. eapply streamFits_less; [exact F1 | lia].
    + eapply indicesFit_less; [exact F2 | exact Cu | lia].
  - rewrite C0. apply G0; [lia|]. eapply streamFits_less; [exact F0 | lia].
  - rewrite C1. apply G1; [lia|]. eapply streamFits_less; [exact F1 | lia].
  - apply G2; [lia|]. eapply indicesFit_less; [exact F2 | exact Cu | lia].
  - eapply withinIndexLimit_less; [exact Hlim | exact Cu | lia].
  - destruct (requestBatchedDraw_returns g c) as [[] Hret].
    cbn [requestBatchedDraws]. rewrite (bind_returned _ _ _ _ Hret).
    set (g1 := fst (requestBatchedDraw c g)) in *.
    assert (K1 : batchDiffers c0 (batchedDrawState g1) = false).
    { rewrite <- (sameBatch_batchDiffers c0 c _ Hc). exact S4. }
    destruct (requestBatchedDraws_accumulates c0 rest g1 Hsame' Hnd' S5 (or_intror K1))
      as (_ & A1 & A2 & A3 & _ & A5 & A6 & A7 & A8).
    + lia.
    + lia.
    + rewrite S6, S2. apply G0; [lia|]. exact F0.
    + rewrite S7, S2. apply G1; [lia|]. exact F1.
    + rewrite S8, S3. apply G2; [lia|]. exact F2.
    + rewrite S2. exact Hlim.
    + rewrite A1, A2, A3, A6, A7, A8, S1, S2, S3, S6, S7, S8.
      repeat split; try assumption; try apply A5.
      destruct rest as [|c' rest'].
      * cbn. exact K1.
      * destruct (requestBatchedDraws_accumulates c0 (c' :: rest') g1 Hsame' Hnd' S5
                    (or_intror K1)) as (_ & _ & _ & _ & B & _); try (apply B; discriminate).
        -- lia.
        -- lia.
        -- rewrite S6, S2. apply G0; [lia|]. exact F0.
        -- rewrite S7, S2. apply G1; [lia|]. exact F1.
        -- rewrite S8, S3. apply G2; [lia|]. exact F2.
        -- rewrite S2. exact Hlim.
Qed.

(** The draw call [d] covers [vertices] vertices: [indices] generated
    indices when there are any, the vertices themselves otherwise. *)
Definition drawCovers (d : ExternalCall) (vertices indices : Z) : Prop :=
  match d with
  | Call_draw cmd => dc_vertexCount cmd = vertices /\ indices = 0
  | Call_drawIndexed cmd _ => dic_indexCount cmd = indices /\ 0 < indices
  | _ => False
  end.

(** The command [c] is of the batch of [c0] but for its texture. *)
Definition otherTexture (c0 c : BatchedDrawCommand) : bool :=
  PrimitiveType_eqb (cmd_primitiveMode c) (cmd_primitiveMode c0)
  && CommonFormat_eqb (cmd_formats0 c) (cmd_formats0 c0)
  && CommonFormat_eqb (cmd_formats1 c) (cmd_formats1 c0)
  && Bool.eqb (usesIndices (cmd_indexMode c)) (usesIndices (cmd_indexMode c0))
  && negb (Texture_ptr_eqb (cmd_texture c) (cmd_texture c0))
  && StandardShader_eqb (cmd_standardShaderType c) (cmd_standardShaderType c0).

Lemma pendingDraw_covers (s : BatchedDrawState) :
  0 <= indexCount s -> drawCovers (pendingDraw s) (vertexCount s) (indexCount s).
Proof.
  intros H. unfold pendingDraw. destruct (0 <? indexCount s) eqn:E; cbn.
  - apply Z.ltb_lt in E. auto.
  - apply Z.ltb_ge in E. split; [reflexivity | lia].
Qed.

Lemma sameBatch_refl (c : BatchedDrawCommand) : sameBatch c c = true.
Proof.
  unfold sameBatch.
  rewrite (proj2 (PrimitiveType_eqb_eq _ _) eq_refl).
  rewrite !(proj2 (CommonFormat_eqb_eq _ _) eq_refl).
  rewrite Bool.eqb_reflx, Texture_ptr_eqb_refl.
  rewrite (proj2 (StandardShader_eqb_eq _ _) eq_refl). reflexivity.
Qed.

Lemma otherTexture_fields (c0 c : BatchedDrawCommand) :
  otherTexture c0 c = true ->
  cmd_formats0 c = cmd_formats0 c0 /\ cmd_formats1 c = cmd_formats1 c0
  /\ usesIndices (cmd_indexMode c) = usesIndices (cmd_indexMode c0)
  /\ Texture_ptr_eqb (cmd_texture c) (cmd_texture c0) = false.
Proof.
  unfold otherTexture. intros H.
  repeat (apply andb_true_iff in H as [H ?]).
  repeat match goal with
         | X : CommonFormat_eqb _ _ = true |- _ => apply CommonFormat_eqb_eq in X
         | X : Bool.eqb _ _ = true |- _ => apply Bool.eqb_prop in X
         | X : negb _ = true |- _ => apply negb_true_iff in X
         end.
  auto.
Qed.

Lemma requestBatchedDraws_returns (cmds : list BatchedDrawCommand) (g : Graphics) :
  snd (requestBatchedDraws cmds g) = Returned tt.
Proof.
  revert g. induction cmds as [|c rest IH]; intros g; [reflexivity|].
  destruct (requestBatchedDraw_returns g c) as [[] Hret].
  cbn [requestBatchedDraws]. rewrite (bind_returned _ _ _ _ Hret). apply IH.
Qed.

Lemma requestBatchedDraws_app (a b : list BatchedDrawCommand) (g : Graphics) :
  fst (requestBatchedDraws (a ++ b) g)
  = fst (requestBatchedDraws b (fst (requestBatchedDraws a g))).
Proof.
  revert g. induction a as [|c rest IH]; intros g; [reflexivity|].
  destruct (requestBatchedDraw_returns g c) as [[] Hret].
  cbn [requestBatchedDraws app]. rewrite !(bind_returned _ _ _ _ Hret). apply IH.
Qed.

(** Claim C1.  From an idle accumulator, a non-empty run of commands that
    agree in topology, vertex formats, index-mode presence, texture and
    standard shader role, each with at least one vertex and (when indexed)
    at least one generated index, whose formats enable some attribute and
    whose totals fit the stream buffers and the 16-bit index limit, issues
    no draw call, and the next flush issues exactly one, which covers the
    vertices and indices of the whole run.  When one command that differs
    from the run in its texture only is inserted inside the run, exactly two
    draw calls are issued while the commands are requested: one covering the
    part of the run before the inserted command, one covering the inserted
    command; the part after it is left pending. *)
Theorem requestBatchedDraw_coalesces (g : Graphics) (c0 : BatchedDrawCommand)
    (cmds : list BatchedDrawCommand) :
  let s := batchedDrawState g in
  idle s -> cmds <> [] ->
  Forall (fun c => sameBatch c0 c = true) cmds ->
  Forall nonDegenerate cmds ->
  enableBits_zero (commandAttributes c0) = false ->
  (let g1 := fst (requestBatchedDraws cmds g) in
   streamFits (cmd_formats0 c0) (vb0 s) 0 (totalVertices cmds) ->
   streamFits (cmd_formats1 c0) (vb1 s) 0 (totalVertices cmds) ->
   indicesFit (cmd_indexMode c0) (indexBuffer s) 0 (totalIndices cmds) ->
   withinIndexLimit (cmd_indexMode c0) (totalVertices cmds) ->
   draws (calls g1) = draws (calls g)
   /\ exists d,
        draws (calls (fst (flushBatchedDraws g1))) = draws (calls g) ++ [d]
        /\ drawCovers d (totalVertices cmds) (totalIndices cmds))
  /\ (forall (cB : BatchedDrawCommand) (run1 run2 : list BatchedDrawCommand),
        let g3 := fst (requestBatchedDraws (run1 ++ cB :: run2) g) in
        cmds = run1 ++ run2 -> run1 <> [] -> run2 <> [] ->
        otherTexture c0 cB = true -> nonDegenerate cB ->
        streamFits (cmd_formats0 c0) (vb0 s) 0 (totalVertices cmds + cmd_vertexCount cB) ->
        streamFits (cmd_formats1 c0) (vb1 s) 0 (totalVertices cmds + cmd_vertexCount cB) ->
        indicesFit (cmd_indexMode c0) (indexBuffer s) 0
          (totalIndices cmds + reqIndexCount cB) ->
        withinIndexLimit (cmd_indexMode c0) (totalVertices cmds) ->
        withinIndexLimit (cmd_indexMode cB) (cmd_vertexCount cB) ->
        exists d1 d2,
          draws (calls g3) = draws (calls g) ++ [d1; d2]
          /\ drawCovers d1 (totalVertices run1) (totalIndices run1)
          /\ drawCovers d2 (cmd_vertexCount cB) (reqIndexCount cB)
          /\ vertexCount (batchedDrawState g3) = totalVertices run2
          /\ indexCount (batchedDrawState g3) = totalIndices run2).
Proof.
  cbv zeta. intros Hidle Hne Hsame Hnd Hattr.
  pose proof (idle_mapsCoherent _ Hidle) as Hmaps.
  assert (Hempty : batchEmpty (batchedDrawState g) = true) by apply Hidle.
  assert (Hv0 : vertexCount (batchedDrawState g) = 0 /\ indexCount (batchedDrawState g) = 0).
  { unfold batchEmpty in Hempty. apply andb_true_iff in Hempty as [A B].
    apply Z.eqb_eq in A. apply Z.eqb_eq in B. auto. }
  destruct Hv0 as [Hv0 Hi0].
  split.
  - intros F0 F1 F2 Hlim.
    destruct (requestBatchedDraws_accumulates c0 cmds g Hsame Hnd Hmaps (or_introl Hempty))
      as (_ & A1 & A2 & A3 & A4 & A5 & _); rewrite ?Hv0, ?Hi0, ?Z.add_0_l; try assumption;
      try lia.
    split; [exact A1|].
    exists (pendingDraw (batchedDrawState (fst (requestBatchedDraws cmds g)))).
    rewrite Hv0, Z.add_0_l in A2. rewrite Hi0, Z.add_0_l in A3.
    destruct (totals_nonneg cmds Hnd) as [Tv Ti].
    assert (Tpos : 0 < totalVertices cmds).
    { destruct cmds as [|c rest]; [congruence|]. now apply totalVertices_pos. }
    split.
    + rewrite flushBatchedDraws_draws.
      rewrite (batchDrawable_keyed c0 _ (A4 Hne)) by (try assumption; lia).
      rewrite A1. reflexivity.
    + rewrite <- A2, <- A3. apply pendingDraw_covers. lia.
  - intros cB run1 run2 -> Hne1 Hne2 HcB HndB F0 F1 F2 Hlim HlimB.
    apply Forall_app in Hsame as [Hsame1 Hsame2].
    apply Forall_app in Hnd as [Hnd1 Hnd2].
    rewrite totalVertices_app in *. rewrite totalIndices_app in *.
    destruct (totals_nonneg run1 Hnd1) as [Tv1 Ti1].
    destruct (totals_nonneg run2 Hnd2) as [Tv2 Ti2].
    destruct (otherTexture_fields c0 cB HcB) as (B0 & B1 & Bu & Bt).
    pose proof (nonDegenerate_reqIndexCount cB HndB) as HreqB.
    assert (HvB : 0 < cmd_vertexCount cB) by apply HndB.
    assert (Tpos1 : 0 < totalVertices run1).
    { destruct run1 as [|c rest]; [congruence|]. now apply totalVertices_pos. }
    (* the first part of the run is accumulated *)
    destruct (requestBatchedDraws_accumulates c0 run1 g Hsame1 Hnd1 Hmaps (or_introl Hempty))
      as (_ & A1 & A2 & A3 & A4 & A5 & A6 & A7 & A8); rewrite ?Hv0, ?Hi0, ?Z.add_0_l;
      try lia.
    { eapply streamFits_less; [exact F0 | lia]. }
    { eapply streamFits_less; [exact F1 | lia]. }
    { eapply indicesFit_less; [exact F2 | reflexivity | lia]. }
    { eapply withinIndexLimit_less; [exact Hlim | reflexivity | lia]. }
    rewrite Hv0, Z.add_0_l in A2. rewrite Hi0, Z.add_0_l in A3.
    specialize (A4 Hne1).
    set (g1 := fst (requestBatchedDraws run1 g)) in *.
    destruct (batchDiffers_false_formats c0 _ A4) as [E0 E1].
    destruct (batchDiffers_false_inv c0 _ A4) as (_ & _ & _ & _ & Et & _).
    (* the inserted command draws it *)
    destruct (requestBatchedDraws_switches cB cB [] g1) as
      (S1 & S2 & S3 & S4 & S5 & S6 & S7 & S8).
    { apply (batchDrawable_keyed c0); [exact A4 | lia | exact Hattr]. }
    { exact A5. }
    { lia. }
    { lia. }
    { congruence. }
    { congruence. }
    { rewrite Texture_ptr_eqb_sym.
      rewrite <- (Texture_ptr_eqb_congr _ _ (cmd_texture cB) Et).
      rewrite Texture_ptr_eqb_sym. exact Bt. }
    { constructor; [apply sameBatch_refl | constructor]. }
    { constructor; [exact HndB | constructor]. }
    { cbn [totalVertices]. rewrite A2, A6, B0, Z.add_0_r.
      eapply streamFits_less; [exact F0 | lia]. }
    { cbn [totalVertices]. rewrite A2, A7, B1, Z.add_0_r.
      eapply streamFits_less; [exact F1 | lia]. }
    { cbn [totalIndices]. rewrite A3, A8, Z.add_0_r.
      eapply indicesFit_less; [exact F2 | exact Bu | lia]. }
    { cbn [totalVertices]. rewrite Z.add_0_r. exact HlimB. }
    cbn [totalVertices totalIndices] in S2, S3. rewrite Z.add_0_r in S2, S3.
    set (g2 := fst (requestBatchedDraws [cB] g1)) in *.
    destruct (batchDiffers_false_formats cB _ S4) as [E0' E1'].
    destruct (batchDiffers_false_inv cB _ S4) as (_ & _ & _ & _ & Et' & _).
    (* the rest of the run draws the inserted command *)
    destruct run2 as [|c rest]; [congruence|].
    destruct (requestBatchedDraws_switches c0 c rest g2) as
      (R1 & R2 & R3 & R4 & R5 & _).
    { apply (batchDrawable_keyed cB); [exact S4 | lia |].
      unfold commandAttributes in *. rewrite B0, B1. exact Hattr. }
    { exact S5. }
    { lia. }
    { lia. }
    { congruence. }
    { congruence. }
    { rewrite Texture_ptr_eqb_sym.
      rewrite <- (Texture_ptr_eqb_congr _ _ (cmd_texture c0) Et'). exact Bt. }
    { exact Hsame2. }
    { exact Hnd2. }
    { rewrite S2, <- B0. apply S6; [lia|]. rewrite B0, A2, A6.
      eapply streamFits_less; [exact F0 | lia]. }
    { rewrite S2, <- B1. apply S7; [lia|]. rewrite B1, A2, A7.
      eapply streamFits_less; [exact F1 | lia]. }
    { rewrite S3. apply S8; [lia|]. rewrite A3, A8.
      eapply indicesFit_less; [exact F2 | reflexivity | lia]. }
    { eapply withinIndexLimit_less; [exact Hlim | reflexivity | lia]. }
    exists (pendingDraw (batchedDrawState g1)), (pendingDraw (batchedDrawState g2)).
    rewrite requestBatchedDraws_app.
    change (cB :: c :: rest) with ([cB] ++ c :: rest).
    rewrite requestBatchedDraws_app. fold g1. fold g2.
    rewrite R1, S1, A1, <- app_assoc. cbn [app].
    repeat split; try assumption.
    + rewrite <- A2, <- A3. apply pendingDraw_covers. lia.
    + rewrite <- S2, <- S3. apply pendingDraw_covers. lia.
Qed.

(** What the append does to the counts, the generated indices and the draw
    calls, whatever the plans are. *)
Lemma appendBatchedDraw_effect (c : BatchedDrawCommand) (r : bool)
    (p0 p1 p2 : StreamPlan) (g : Graphics) :
  let s := batchedDrawState g in
  let g' := fst (appendBatchedDraw c r p0 p1 p2 g) in
  let s' := batchedDrawState g' in
  vertexCount s' = vertexCount s + cmd_vertexCount c
  /\ indexCount s' = indexCount s + reqIndexCount c
  /\ indexData s' =
       indexData s
       ++ (if usesIndices (cmd_indexMode c)
           then map uint16 (fillIndices (cmd_indexMode c) (vertexCount s) (cmd_vertexCount c))
           else [])
  /\ draws (calls g') = draws (calls g)
  /\ formats0 s' = formats0 s /\ formats1 s' = formats1 s
  /\ primitiveMode s' = primitiveMode s /\ texture s' = texture s.
Proof.
  cbv zeta. unfold appendBatchedDraw, reqIndexCount, attachDefault, newStreamBuffer.
  unfold_monad. cbn.
  repeat match goal with
         | |- context [if ?b then _ else _] => destruct b eqn:?; cbn
         | |- context [match Shader_current ?x with _ => _ end] =>
             destruct (Shader_current x) eqn:?; cbn
         end.
  all: rewrite ?draws_app; cbn; rewrite ?app_nil_r.
  all: repeat split; reflexivity.
Qed.

(** ** Index generation *)

Lemma Zrange_length (lo n : Z) : length (Zrange lo n) = Z.to_nat n.
Proof. unfold Zrange. now rewrite length_map, length_seq. Qed.

Lemma Zrange_nth (lo n : Z) (k : nat) (d : Z) :
  (k < Z.to_nat n)%nat -> nth k (Zrange lo n) d = lo + Z.of_nat k.
Proof.
  intros H. unfold Zrange.
  rewrite (nth_indep _ d (lo + Z.of_nat 0)) by now rewrite length_map, length_seq.
  pose proof (map_nth (fun k => lo + Z.of_nat k) (seq 0 (Z.to_nat n)) 0%nat k) as E.
  cbv beta in E. rewrite E, seq_nth by exact H. reflexivity.
Qed.

Lemma flat_map_length_const {A B : Type} (f : A -> list B) (m : nat) (l : list A) :
  (forall x, length (f x) = m) -> length (flat_map f l) = (length l * m)%nat.
Proof.
  intros Hf. induction l as [|x l IH]; cbn; [reflexivity|].
  now rewrite length_app, Hf, IH.
Qed.

(** The [k]-th chunk of a [flat_map] whose chunks all have [m] elements. *)
Lemma flat_map_chunk {A B : Type} (f : A -> list B) (m : nat) (l : list A)
    (k : nat) (d : A) :
  (forall x, length (f x) = m) -> (k < length l)%nat ->
  firstn m (skipn (k * m) (flat_map f l)) = f (nth k l d).
Proof.
  intros Hf. revert k. induction l as [|x l IH]; intros k Hk; cbn in Hk; [lia|].
  destruct k as [|k]; cbn [flat_map nth Nat.mul].
  - cbn [skipn]. rewrite <- (Hf x) at 1. rewrite firstn_app, Nat.sub_diag, firstn_all.
    cbn. apply app_nil_r.
  - assert (E : skipn (m + k * m) (f x ++ flat_map f l) = skipn (k * m) (flat_map f l)).
    { rewrite skipn_app, skipn_all2 by (rewrite Hf; lia). rewrite Hf. cbn [app].
      f_equal. lia. }
    rewrite E. apply IH. lia.
Qed.

Lemma fillIndices_fan_triangle (base V i : Z) :
  1 <= i <= V - 2 ->
  firstn 3 (skipn (Z.to_nat (3 * (i - 1))) (fillIndices TRIANGLEINDEX_FAN base V))
  = [base; base + i; base + i + 1].
Proof.
  intros Hi. unfold fillIndices.
  replace (Z.to_nat (3 * (i - 1))) with (Z.to_nat (i - 1) * 3)%nat by lia.
  rewrite (flat_map_chunk _ 3 _ _ 0) by
    (try reflexivity; rewrite Zrange_length; lia).
  rewrite Zrange_nth by lia.
  rewrite Z2Nat.id by lia.
  replace (1 + (i - 1)) with i by lia. reflexivity.
Qed.

(** Claim C8.  For every vertex base and vertex count [V], quad-list index
    generation produces [6 * (V/4)] indices, the group of input vertices
    [q] giving the indices {0,1,2,2,3,0} offset by the base plus [4 * q];
    fan index generation produces [3 * (V-2)] indices (none when [V < 2]),
    the triangle [i] from 1 to [V-2] being {0,i,i+1} offset by the base;
    and [requestBatchedDraw] generates them with the vertex count of the
    accumulating batch as the base, stored as 16-bit values after those
    already generated. *)
Theorem fillIndices_pattern (base V : Z) :
  length (fillIndices TRIANGLEINDEX_QUADS base V) = Z.to_nat (6 * (V ÷ 4))
  /\ length (fillIndices TRIANGLEINDEX_FAN base V) = Z.to_nat (3 * (V - 2))
  /\ (forall mode,
        Z.of_nat (length (fillIndices mode base V)) = Z.max 0 (getIndexCount mode V))
  /\ (forall q, 0 <= q < V ÷ 4 ->
        firstn 6 (skipn (Z.to_nat (6 * q)) (fillIndices TRIANGLEINDEX_QUADS base V))
        = [base + 4 * q; base + 4 * q + 1; base + 4 * q + 2;
           base + 4 * q + 2; base + 4 * q + 3; base + 4 * q])
  /\ (forall i, 1 <= i <= V - 2 ->
        firstn 3 (skipn (Z.to_nat (3 * (i - 1))) (fillIndices TRIANGLEINDEX_FAN base V))
        = [base; base + i; base + i + 1])
  /\ (forall (g : Graphics) (c : BatchedDrawCommand),
        let s := batchedDrawState g in
        let gm := if restarts c s then keyed c (fst (flushBatchedDraws g)) else g in
        let s' := batchedDrawState (fst (requestBatchedDraw c g)) in
        usesIndices (cmd_indexMode c) = true ->
        indexData s' =
          indexData (batchedDrawState gm)
          ++ map uint16 (fillIndices (cmd_indexMode c) (vertexCount (batchedDrawState gm))
                                     (cmd_vertexCount c))).
Proof.
  assert (Lq : length (fillIndices TRIANGLEINDEX_QUADS base V) = Z.to_nat (6 * (V ÷ 4))).
  { unfold fillIndices. rewrite (flat_map_length_const _ 6) by reflexivity.
    rewrite Zrange_length. generalize (V ÷ 4). intros z. lia. }
  assert (Lf : length (fillIndices TRIANGLEINDEX_FAN base V) = Z.to_nat (3 * (V - 2))).
  { unfold fillIndices. rewrite (flat_map_length_const _ 3) by reflexivity.
    rewrite Zrange_length. lia. }
  split; [exact Lq|]. split; [exact Lf|]. split; [|split; [|split]].
  - intros [| |].
    + reflexivity.
    + rewrite Lf. unfold getIndexCount. lia.
    + rewrite Lq. unfold getIndexCount. generalize (V ÷ 4). intros z. lia.
  - intros q Hq. unfold fillIndices.
    replace (Z.to_nat (6 * q)) with (Z.to_nat q * 6)%nat by lia.
    rewrite (flat_map_chunk _ 6 _ _ 0) by
      (try reflexivity; rewrite Zrange_length; lia).
    rewrite Zrange_nth by lia. cbv beta zeta.
    rewrite Z2Nat.id by lia. rewrite Z.add_0_l. reflexivity.
  - apply fillIndices_fan_triangle.
  - intros g c. cbv zeta. intros Hu.
    rewrite requestBatchedDraw_eq.
    match goal with |- context [appendBatchedDraw c ?r ?p0 ?p1 ?p2 ?gm] =>
      destruct (appendBatchedDraw_effect c r p0 p1 p2 gm) as (_ & _ & E & _) end.
    rewrite Hu in E. exact E.
Qed.

(** A command that leaves both vertex formats at their default. *)
Definition unformattedCommand (vertices : Z) : BatchedDrawCommand :=
  {| cmd_primitiveMode := PRIMITIVE_TRIANGLES;
     cmd_formats0 := NONE; cmd_formats1 := NONE;
     cmd_indexMode := TRIANGLEINDEX_NONE;
     cmd_vertexCount := vertices;
     cmd_texture := None;
     cmd_standardShaderType := STANDARD_DEFAULT |}.


(** The command [polygon] requests for a filled polygon of [vertices]
    vertices in two dimensions. *)
Definition fanCommand (vertices : Z) : BatchedDrawCommand :=
  {| cmd_primitiveMode := PRIMITIVE_TRIANGLES;
     cmd_formats0 := XYf; cmd_formats1 := RGBAub;
     cmd_indexMode := TRIANGLEINDEX_FAN;
     cmd_vertexCount := vertices;
     cmd_texture := None;
     cmd_standardShaderType := STANDARD_DEFAULT |}.

Lemma requestBatchedDraw_over_limit (g : Graphics) (c : BatchedDrawCommand) :
  let s := batchedDrawState g in
  let totalvertices := vertexCount s + cmd_vertexCount c in
  let plan0 := streamPlan (cmd_formats0 c) (vbMap0 s) (vb0 s)
                          totalvertices (cmd_vertexCount c) in
  let plan1 := streamPlan (cmd_formats1 c) (vbMap1 s) (vb1 s)
                          totalvertices (cmd_vertexCount c) in
  let plan2 := indexPlan (cmd_indexMode c) (indexBufferMap s) (indexBuffer s)
                         (indexCount s) (reqIndexCount c) in
  usesIndices (cmd_indexMode c) = true ->
  LOVE_UINT16_MAX < totalvertices ->
  requestBatchedDraw c g
  = appendBatchedDraw c (resizes c s) plan0 plan1 plan2
      (keyed c (fst (flushBatchedDraws g))).
Proof.
  cbv zeta. intros Hu Hlim.
  pose proof (requestBatchedDraw_eq g c) as E. cbv zeta in E.
  assert (R : restarts c (batchedDrawState g) = true).
  { unfold restarts. cbv zeta. rewrite Hu.
    assert ((LOVE_UINT16_MAX <? vertexCount (batchedDrawState g) + cmd_vertexCount c)
            = true) as -> by (apply Z.ltb_lt; exact Hlim).
    cbn. rewrite !orb_true_r. reflexivity. }
  rewrite R in E. exact E.
Qed.

(** Claim C3.  When a command generates indices and its vertices would
    take the accumulated vertex count past 65535, [requestBatchedDraw]
    flushes before it appends, and the batch then holds what the flush left
    plus the vertices of the command.  A single fan of 70000 vertices
    requested on a new object is accepted whole: it is queued as one batch
    of 70000 vertices, and the next flush issues one indexed draw call of
    209994 16-bit indices, in which vertex 65536 is stored as index 0. *)
Theorem requestBatchedDraw_index_limit (caps : Capabilities) (w h pw ph : Z)
    (b0 b1 bi : StreamBuffer) :
  (forall (g : Graphics) (c : BatchedDrawCommand),
     let s := batchedDrawState g in
     let totalvertices := vertexCount s + cmd_vertexCount c in
     let plan0 := streamPlan (cmd_formats0 c) (vbMap0 s) (vb0 s)
                             totalvertices (cmd_vertexCount c) in
     let plan1 := streamPlan (cmd_formats1 c) (vbMap1 s) (vb1 s)
                             totalvertices (cmd_vertexCount c) in
     let plan2 := indexPlan (cmd_indexMode c) (indexBufferMap s) (indexBuffer s)
                            (indexCount s) (reqIndexCount c) in
     let gf := fst (flushBatchedDraws g) in
     usesIndices (cmd_indexMode c) = true ->
     LOVE_UINT16_MAX < totalvertices ->
     requestBatchedDraw c g
       = appendBatchedDraw c (resizes c s) plan0 plan1 plan2 (keyed c gf)
     /\ vertexCount (batchedDrawState (fst (requestBatchedDraw c g)))
        = vertexCount (batchedDrawState gf) + cmd_vertexCount c)
  /\ (let g1 := fst (requestBatchedDraw (fanCommand 70000)
                       (Graphics_new caps w h pw ph b0 b1 bi)) in
      let s1 := batchedDrawState g1 in
      vertexCount s1 = 70000
      /\ indexCount s1 = 209994
      /\ indexData s1 = map uint16 (fillIndices TRIANGLEINDEX_FAN 0 70000)
      /\ draws (calls g1) = []
      /\ draws (calls (fst (flushBatchedDraws g1))) = [pendingDraw s1]
      /\ (exists d, pendingDraw s1 = Call_drawIndexed d (indexData s1)
                    /\ dic_indexCount d = 209994)
      /\ firstn 3 (skipn (Z.to_nat (3 * (65535 - 1)))
                         (fillIndices TRIANGLEINDEX_FAN 0 70000)) = [0; 65535; 65536]
      /\ uint16 65536 = 0).
Proof.
  split.
  - intros g c. cbv zeta. intros Hu Hlim.
    pose proof (requestBatchedDraw_over_limit g c Hu Hlim) as E. cbv zeta in E.
    split; [exact E|]. rewrite E.
    match goal with |- context [appendBatchedDraw c ?r ?p0 ?p1 ?p2 ?gm] =>
      destruct (appendBatchedDraw_effect c r p0 p1 p2 gm) as (V & _) end.
    rewrite V. reflexivity.
  - cbv zeta.
    set (g0 := Graphics_new caps w h pw ph b0 b1 bi).
    assert (E0 : flushBatchedDraws g0 = (g0, Returned tt))
      by (apply flushBatchedDraws_empty; reflexivity).
    pose proof (requestBatchedDraw_over_limit g0 (fanCommand 70000) eq_refl) as E.
    cbv zeta in E. rewrite E by (cbn; unfold LOVE_UINT16_MAX; lia). clear E.
    rewrite E0. cbn [fst].
    match goal with |- context [appendBatchedDraw ?c ?r ?p0 ?p1 ?p2 ?gm] =>
      destruct (appendBatchedDraw_effect c r p0 p1 p2 gm)
        as (V & I & D & C & F0 & F1 & _);
      set (g1 := fst (appendBatchedDraw c r p0 p1 p2 gm)) in *
    end.
    cbn in V, I, D, C, F0, F1.
    change (0 + 70000) with 70000 in V. change (0 + 209994) with 209994 in I.
    assert (Hd : batchDrawable (batchedDrawState g1) = true).
    { unfold batchDrawable, batchEmpty, batchAttributes. rewrite V, F0, F1. reflexivity. }
    split; [exact V|]. split; [exact I|]. split; [exact D|]. split; [exact C|].
    split.
    { rewrite flushBatchedDraws_draws, Hd, C. reflexivity. }
    split.
    { unfold pendingDraw. rewrite I. cbn. eexists. split; reflexivity. }
    split; [apply fillIndices_fan_triangle; lia | reflexivity].
Qed.

(** ** What the setters leave alone *)

(** The computation [m] takes every object to one related to it by [R],
    whether it returns or throws. *)
Definition keeps {A : Type} (R : Graphics -> Graphics -> Prop) (m : M A) : Prop :=
  forall g, R g (fst (m g)).

Section Keeps.

Variable R : Graphics -> Graphics -> Prop.
Hypothesis R_refl : forall g, R g g.
Hypothesis R_trans : forall g1 g2 g3, R g1 g2 -> R g2 g3 -> R g1 g3.

Lemma keeps_ret {A : Type} (a : A) : keeps R (ret a).
Proof. intros g. apply R_refl. Qed.

Lemma keeps_throw {A : Type} (what : string) : keeps R (@throw Graphics A what).
Proof. intros g. apply R_refl. Qed.

Lemma keeps_gets {A : Type} (f : Graphics -> A) : keeps R (gets f).
Proof. intros g. apply R_refl. Qed.

Lemma keeps_bind {A B : Type} (m : M A) (k : A -> M B) :
  keeps R m -> (forall a, keeps R (k a)) -> keeps R (bind m k).
Proof.
  intros Hm Hk g. unfold bind. specialize (Hm g).
  destruct (m g) as [g1 [a|what]]; cbn in *; [|exact Hm].
  eapply R_trans; [exact Hm | apply Hk].
Qed.

Lemma keeps_when (c : bool) (m : M unit) : keeps R m -> keeps R (when c m).
Proof. intros Hm. destruct c; [exact Hm | apply keeps_ret]. Qed.

End Keeps.

(** The stacks below the top display state, and the capabilities. *)
Definition sameStacks (g g' : Graphics) : Prop :=
  tl (states g') = tl (states g)
  /\ length (states g') = length (states g)
  /\ transformStack g' = transformStack g
  /\ pixelScaleStack g' = pixelScaleStack g
  /\ stackTypeStack g' = stackTypeStack g
  /\ capabilities g' = capabilities g.

Lemma sameStacks_refl (g : Graphics) : sameStacks g g.
Proof. unfold sameStacks. auto 10. Qed.

Lemma sameStacks_trans (g1 g2 g3 : Graphics) :
  sameStacks g1 g2 -> sameStacks g2 g3 -> sameStacks g1 g3.
Proof. unfold sameStacks. intuition congruence. Qed.

Lemma sameStacks_modify_back (f : DisplayState -> DisplayState) :
  keeps sameStacks (modify_back f).
Proof.
  intros g. unfold modify_back, modify, sameStacks. cbn.
  destruct (states g); cbn; auto 10.
Qed.

Lemma sameStacks_flushBatchedDraws : keeps sameStacks flushBatchedDraws.
Proof.
  intros g. destruct (flushBatchedDraws_sameObject g)
    as (_ & _ & _ & _ & Hst & Htr & Hps & Hty & _ & _ & _ & Hc & _).
  unfold sameStacks. rewrite Hst, Htr, Hps, Hty, Hc. auto 10.
Qed.

(** A [modify] that writes another member than the stacks. *)
Ltac sameStacks_modify :=
  let g := fresh "g" in
  intros g; unfold modify, sameStacks; cbn; auto 10.

Create HintDb frames.

Ltac sameStacks_step :=
  first
    [ solve [auto 1 with frames nocore]
    | apply (keeps_ret _ sameStacks_refl)
    | apply (keeps_throw _ sameStacks_refl)
    | apply (keeps_gets _ sameStacks_refl)
    | apply sameStacks_modify_back
    | apply sameStacks_flushBatchedDraws
    | apply (keeps_when _ sameStacks_refl)
    | apply (keeps_bind _ sameStacks_trans); [ | intro ]
    | match goal with
      | |- keeps _ (if ?b then _ else _) => destruct b
      | |- keeps _ (match ?x with _ => _ end) => destruct x
      | |- keeps _ (let _ := _ in _) => cbv zeta
      | |- keeps _ (modify _) => sameStacks_modify
      | |- keeps _ (call _) => unfold call
      end ].

Ltac sameStacks_tac := repeat sameStacks_step.

Lemma sameStacks_call (c : ExternalCall) : keeps sameStacks (call c).
Proof. unfold call. sameStacks_tac. Qed.
#[local] Hint Resolve sameStacks_call : frames.

Lemma sameStacks_setColor (c : Colorf) : keeps sameStacks (setColor c).
Proof. unfold setColor, call. sameStacks_tac. Qed.
#[local] Hint Resolve sameStacks_setColor : frames.

Lemma sameStacks_setShader (sh : option Shader) : keeps sameStacks (setShader sh).
Proof. unfold setShader, attachDefault, attach, call. sameStacks_tac. Qed.
#[local] Hint Resolve sameStacks_setShader : frames.

Lemma sameStacks_setBlendState (b : BlendState) : keeps sameStacks (setBlendState b).
Proof. unfold setBlendState, call. sameStacks_tac. Qed.
#[local] Hint Resolve sameStacks_setBlendState : frames.

Lemma sameStacks_setPointSize (x : float) : keeps sameStacks (setPointSize x).
Proof. unfold setPointSize, call. sameStacks_tac. Qed.
#[local] Hint Resolve sameStacks_setPointSize : frames.

Lemma sameStacks_setScissor (r : Rect) : keeps sameStacks (setScissor r).
Proof. unfold setScissor, call. sameStacks_tac. Qed.
#[local] Hint Resolve sameStacks_setScissor : frames.

Lemma sameStacks_setScissor_off : keeps sameStacks setScissor_off.
Proof. unfold setScissor_off, call. sameStacks_tac. Qed.
#[local] Hint Resolve sameStacks_setScissor_off : frames.

Lemma sameStacks_setFrontFaceWinding (x : Winding) : keeps sameStacks (setFrontFaceWinding x).
Proof. unfold setFrontFaceWinding, call. sameStacks_tac. Qed.
#[local] Hint Resolve sameStacks_setFrontFaceWinding : frames.

Lemma sameStacks_setStencilMode (a : StencilAction) (c : CompareMode) (v r w : Z) :
  keeps sameStacks (setStencilMode a c v r w).
Proof. unfold setStencilMode, call. sameStacks_tac. Qed.
#[local] Hint Resolve sameStacks_setStencilMode : frames.

Lemma sameStacks_setDepthMode (c : CompareMode) (w : bool) : keeps sameStacks (setDepthMode c w).
Proof. unfold setDepthMode, call. sameStacks_tac. Qed.
#[local] Hint Resolve sameStacks_setDepthMode : frames.

Lemma sameStacks_setColorMask (m : ColorChannelMask) : keeps sameStacks (setColorMask m).
Proof. unfold setColorMask, call. sameStacks_tac. Qed.
#[local] Hint Resolve sameStacks_setColorMask : frames.

Lemma sameStacks_setWireframe (b : bool) : keeps sameStacks (setWireframe b).
Proof. unfold setWireframe, call. sameStacks_tac. Qed.
#[local] Hint Resolve sameStacks_setWireframe : frames.

Lemma sameStacks_setCustomProjection (m : Matrix4) : keeps sameStacks (setCustomProjection m).
Proof. unfold setCustomProjection, updateDeviceProjection. sameStacks_tac. Qed.
#[local] Hint Resolve sameStacks_setCustomProjection : frames.

Lemma sameStacks_resetProjection : keeps sameStacks resetProjection.
Proof. unfold resetProjection, updateDeviceProjection. sameStacks_tac. Qed.
#[local] Hint Resolve sameStacks_resetProjection : frames.

Lemma sameStacks_newTexture (f : PixelFormat) (w h samples : Z) :
  keeps sameStacks (newTexture f w h samples).
Proof. unfold newTexture, call. sameStacks_tac. Qed.
#[local] Hint Resolve sameStacks_newTexture : frames.

Lemma sameStacks_getTemporaryTexture (f : PixelFormat) (w h samples : Z) :
  keeps sameStacks (getTemporaryTexture f w h samples).
Proof.
  unfold getTemporaryTexture. sameStacks_tac; try apply sameStacks_newTexture.
Qed.
#[local] Hint Resolve sameStacks_getTemporaryTexture : frames.

Lemma sameStacks_releaseTemporaryTexture (t : Texture) :
  keeps sameStacks (releaseTemporaryTexture t).
Proof. unfold releaseTemporaryTexture. sameStacks_tac. Qed.
#[local] Hint Resolve sameStacks_releaseTemporaryTexture : frames.

Lemma sameStacks_setRenderTargetsInternal (rts : RenderTargets) (w h : Z) (srgb : bool) :
  keeps sameStacks (setRenderTargetsInternal rts w h srgb).
Proof. unfold setRenderTargetsInternal. sameStacks_tac. Qed.
#[local] Hint Resolve sameStacks_setRenderTargetsInternal : frames.

Lemma sameStacks_setRenderTarget_screen : keeps sameStacks setRenderTarget_screen.
Proof.
  unfold setRenderTarget_screen, setRenderTargetsInternal, call.
  sameStacks_tac; try apply sameStacks_resetProjection.
Qed.
#[local] Hint Resolve sameStacks_setRenderTarget_screen : frames.

Lemma sameStacks_setRenderTargets (rts : RenderTargets) :
  keeps sameStacks (setRenderTargets rts).
Proof.
  unfold setRenderTargets, setRenderTargetsInternal, call.
  sameStacks_tac;
    first [ apply sameStacks_resetProjection | apply sameStacks_setRenderTarget_screen
          | apply sameStacks_getTemporaryTexture | apply sameStacks_releaseTemporaryTexture ].
Qed.
#[local] Hint Resolve sameStacks_setRenderTargets : frames.

Lemma sameStacks_setRenderTarget (rt : RenderTarget) (flags : Z) :
  keeps sameStacks (setRenderTarget rt flags).
Proof.
  unfold setRenderTarget. destruct (rt_texture rt);
    [apply sameStacks_setRenderTargets | apply sameStacks_setRenderTarget_screen].
Qed.
#[local] Hint Resolve sameStacks_setRenderTarget : frames.

Lemma sameStacks_restoreStateChecked (s : DisplayState) :
  keeps sameStacks (restoreStateChecked s).
Proof.
  unfold restoreStateChecked, setBackgroundColor, setLineWidth, setLineStyle, setLineJoin,
    setMeshCullMode, setFont, setDefaultSamplerState.
  sameStacks_tac;
    first [ apply sameStacks_setColor | apply sameStacks_setBlendState
          | apply sameStacks_setPointSize | apply sameStacks_setScissor
          | apply sameStacks_setScissor_off | apply sameStacks_setFrontFaceWinding
          | apply sameStacks_setShader | apply sameStacks_setRenderTargets
          | apply sameStacks_setStencilMode | apply sameStacks_setDepthMode
          | apply sameStacks_setColorMask | apply sameStacks_setWireframe
          | apply sameStacks_setCustomProjection | apply sameStacks_resetProjection ].
Qed.
#[local] Hint Resolve sameStacks_restoreStateChecked : frames.

(** *** The setters return *)

Lemma returns_setColor (c : Colorf) : returns (setColor c).
Proof. unfold setColor, call, modify_back. returns_tac. Qed.

Lemma returns_setShader (sh : option Shader) : returns (setShader sh).
Proof. unfold setShader, attachDefault, attach, call, modify_back. returns_tac. Qed.

Lemma returns_setBlendState (b : BlendState) : returns (setBlendState b).
Proof. unfold setBlendState, call, modify_back. returns_tac. Qed.

Lemma returns_setPointSize (x : float) : returns (setPointSize x).
Proof. unfold setPointSize, call, modify_back. returns_tac. Qed.

Lemma returns_setScissor (r : Rect) : returns (setScissor r).
Proof. unfold setScissor, call, modify_back. returns_tac. Qed.

Lemma returns_setScissor_off : returns setScissor_off.
Proof. unfold setScissor_off, call, modify_back. returns_tac. Qed.

Lemma returns_setFrontFaceWinding (x : Winding) : returns (setFrontFaceWinding x).
Proof. unfold setFrontFaceWinding, call, modify_back. returns_tac. Qed.

Lemma returns_setStencilMode (a : StencilAction) (c : CompareMode) (v r w : Z) :
  returns (setStencilMode a c v r w).
Proof. unfold setStencilMode, call, modify_back. returns_tac. Qed.

Lemma returns_setDepthMode (c : CompareMode) (w : bool) : returns (setDepthMode c w).
Proof. unfold setDepthMode, call, modify_back. returns_tac. Qed.

Lemma returns_setColorMask (m : ColorChannelMask) : returns (setColorMask m).
Proof. unfold setColorMask, call, modify_back. returns_tac. Qed.

Lemma returns_setWireframe (b : bool) : returns (setWireframe b).
Proof. unfold setWireframe, call, modify_back. returns_tac. Qed.

Lemma returns_setCustomProjection (m : Matrix4) : returns (setCustomProjection m).
Proof. unfold setCustomProjection, updateDeviceProjection, modify_back. returns_tac. Qed.

Lemma returns_resetProjection : returns resetProjection.
Proof. unfold resetProjection, updateDeviceProjection, modify_back. returns_tac. Qed.

Lemma returns_getTemporaryTexture (f : PixelFormat) (w h samples : Z) :
  returns (getTemporaryTexture f w h samples).
Proof. unfold getTemporaryTexture, newTexture, call. returns_tac. Qed.

Lemma returns_releaseTemporaryTexture (t : Texture) : returns (releaseTemporaryTexture t).
Proof. unfold releaseTemporaryTexture. returns_tac. Qed.

Lemma returns_setRenderTarget_screen : returns setRenderTarget_screen.
Proof.
  unfold setRenderTarget_screen, setRenderTargetsInternal, call, modify_back.
  returns_tac; apply returns_resetProjection.
Qed.

Lemma returns_setRenderTargetsInternal (rts : RenderTargets) (w h : Z) (srgb : bool) :
  returns (setRenderTargetsInternal rts w h srgb).
Proof. unfold setRenderTargetsInternal, call. returns_tac. Qed.

(** *** The render-target set that passes the validation *)

(** The set [rts] is the screen, or passes every check of
    [setRenderTargets] under the capabilities [caps]. *)
Definition restorable (caps : Capabilities) (rts : RenderTargets) : Prop :=
  match rt_texture (getFirstTarget rts) with
  | None => True
  | Some firsttex => checkRenderTargets caps rts (getFirstTarget rts) firsttex = None
  end.

(** The computation returns on every object with the capabilities [caps]. *)
Definition returnsUnder (caps : Capabilities) {A : Type} (m : M A) : Prop :=
  forall g, capabilities g = caps -> exists a, snd (m g) = Returned a.

Lemma returnsUnder_of_returns (caps : Capabilities) {A : Type} (m : M A) :
  returns m -> returnsUnder caps m.
Proof. intros H g _. apply H. Qed.

Lemma returnsUnder_bind (caps : Capabilities) {A B : Type} (m : M A) (k : A -> M B) :
  keeps sameStacks m -> returnsUnder caps m -> (forall a, returnsUnder caps (k a)) ->
  returnsUnder caps (bind m k).
Proof.
  intros Hf Hm Hk g Hc. unfold bind. destruct (Hm g Hc) as [a Ha].
  specialize (Hf g). destruct (m g) as [g1 r1]. cbn in *. subst r1.
  apply Hk. destruct Hf as (_ & _ & _ & _ & _ & Hcaps). congruence.
Qed.

Lemma returnsUnder_when (caps : Capabilities) (c : bool) (m : M unit) :
  returnsUnder caps m -> returnsUnder caps (when c m).
Proof. intros Hm. destruct c; [exact Hm | apply returnsUnder_of_returns, returns_ret]. Qed.

Lemma returnsUnder_setRenderTargets (caps : Capabilities) (rts : RenderTargets) :
  restorable caps rts -> returnsUnder caps (setRenderTargets rts).
Proof.
  unfold restorable. intros H g Hc. unfold setRenderTargets.
  unfold bind at 1. unfold gets at 1. cbv beta iota zeta.
  destruct (rt_texture (getFirstTarget rts)) as [firsttex|];
    [|apply returns_setRenderTarget_screen].
  destruct (sameSize rts (renderTargets (back g)) &&
            negb (targetsModified rts (renderTargets (back g)))); [now exists tt|].
  unfold bind at 1. unfold gets at 1. cbv beta iota zeta. rewrite Hc, H.
  match goal with |- exists a, snd (?m g) = _ => assert (Hr : returns m) end; [|apply Hr].
  returns_tac;
    first [ apply returns_getTemporaryTexture | apply returns_releaseTemporaryTexture
          | apply returns_setRenderTargetsInternal | apply returns_modify_back
          | apply returns_resetProjection | apply returns_call ].
Qed.

Lemma returnsUnder_restoreStateChecked (caps : Capabilities) (s : DisplayState) :
  restorable caps (renderTargets s) -> returnsUnder caps (restoreStateChecked s).
Proof.
  intros H. unfold restoreStateChecked.
  repeat first
    [ apply returnsUnder_setRenderTargets; exact H
    | apply returnsUnder_of_returns;
      solve [ first [ apply returns_setColor | apply returns_setBlendState
                    | apply returns_setPointSize | apply returns_setScissor
                    | apply returns_setScissor_off | apply returns_setFrontFaceWinding
                    | apply returns_setShader | apply returns_setStencilMode
                    | apply returns_setDepthMode | apply returns_setColorMask
                    | apply returns_setWireframe | apply returns_setCustomProjection
                    | apply returns_resetProjection | apply returns_gets
                    | apply returns_modify_back ] ]
    | apply returnsUnder_when
    | apply returnsUnder_bind; [ solve [sameStacks_tac] | | intro ]
    | match goal with
      | |- returnsUnder _ (if ?b then _ else _) => destruct b
      end ].
Qed.

(** ** push and pop *)

Inductive StackOp : Type :=
  | OpPush (type : StackType)
  | OpPop.

Definition runStackOp (op : StackOp) : M unit :=
  match op with
  | OpPush type => push type
  | OpPop => pop
  end.

(** The calls of [ops] in order, each one on the object the one before
    left, whether that one returned or threw. *)
Fixpoint runStackOps (ops : list StackOp) (g : Graphics) : Graphics :=
  match ops with
  | [] => g
  | op :: rest => runStackOps rest (fst (runStackOp op g))
  end.

Definition countAll (l : list StackType) : nat :=
  length (filter (fun t => StackType_eqb t STACK_ALL) l).

(** The shape of the stacks [push] and [pop] maintain: one transform and
    one pixel scale more than there are user pushes, one display state more
    than there are full-state pushes, and every display state holds a
    render-target set that can be bound again. *)
Definition balanced (g : Graphics) : Prop :=
  length (transformStack g) = S (length (stackTypeStack g))
  /\ length (pixelScaleStack g) = S (length (stackTypeStack g))
  /\ length (states g) = S (countAll (stackTypeStack g))
  /\ (length (stackTypeStack g) <= MAX_USER_STACK_DEPTH)%nat
  /\ Forall (fun s => restorable (capabilities g) (renderTargets s)) (states g).

Lemma pop_minimum (g : Graphics) :
  stackTypeStack g = [] ->
  pop g = (g, Thrown "Minimum stack depth reached (more pops than pushes?)"%string).
Proof. intros H. unfold pop, bind, gets. rewrite H. reflexivity. Qed.

Lemma push_maximum (g : Graphics) (type : StackType) :
  length (stackTypeStack g) = MAX_USER_STACK_DEPTH ->
  push type g = (g, Thrown "Maximum stack depth reached (more pushes than pops?)"%string).
Proof. intros H. unfold push, bind, gets. rewrite H, Nat.eqb_refl. reflexivity. Qed.

Lemma push_effect (g : Graphics) (type : StackType) :
  length (stackTypeStack g) <> MAX_USER_STACK_DEPTH ->
  let g' := fst (push type g) in
  snd (push type g) = Returned tt
  /\ transformStack g' = hd Matrix4_identity (transformStack g) :: transformStack g
  /\ pixelScaleStack g' = hd float_1 (pixelScaleStack g) :: pixelScaleStack g
  /\ stackTypeStack g' = type :: stackTypeStack g
  /\ states g' = (if StackType_eqb type STACK_ALL then back g :: states g else states g)
  /\ capabilities g' = capabilities g.
Proof.
  intros H. apply Nat.eqb_neq in H. cbv zeta.
  unfold push. unfold_monad. rewrite H.
  destruct type; cbn; repeat split; reflexivity.
Qed.

Lemma pop_effect (g : Graphics) (type : StackType) (rest : list StackType) :
  stackTypeStack g = type :: rest ->
  (type = STACK_ALL ->
   restorable (capabilities g) (renderTargets (nth 1 (states g) DisplayState_new))) ->
  let g' := fst (pop g) in
  snd (pop g) = Returned tt
  /\ transformStack g' = tl (transformStack g)
  /\ pixelScaleStack g' = tl (pixelScaleStack g)
  /\ stackTypeStack g' = rest
  /\ states g' = (if StackType_eqb type STACK_ALL then tl (states g) else states g)
  /\ capabilities g' = capabilities g.
Proof.
  intros Hs Hr. cbv zeta.
  destruct (pop g) as [g' r] eqn:E. cbn [fst snd].
  unfold pop in E.
  unfold bind at 1 in E. unfold gets at 1 in E. cbv beta iota zeta in E.
  rewrite Hs in E. cbn [length Nat.ltb Nat.leb] in E.
  unfold popTransform in E.
  unfold bind at 1 in E. unfold modify at 1 in E. cbv beta iota zeta in E.
  unfold bind at 1 in E. unfold modify at 1 in E. cbv beta iota zeta in E.
  unfold bind at 1 in E. unfold gets at 1 in E. cbv beta iota zeta in E.
  cbn [stackTypeStack set_pixelScaleStack set_transformStack hd] in E.
  rewrite Hs in E. cbn [hd] in E.
  destruct type; cbn [StackType_eqb when] in E.
  - set (g1 := set_pixelScaleStack _ _) in E.
    unfold bind at 1 in E. unfold bind at 1 in E. unfold gets at 1 in E.
    cbv beta iota zeta in E.
    set (newstate := nth 1 (states g1) DisplayState_new) in E.
    assert (Hc1 : capabilities g1 = capabilities g) by reflexivity.
    assert (Hn : newstate = nth 1 (states g) DisplayState_new) by reflexivity.
    destruct (returnsUnder_restoreStateChecked (capabilities g) newstate) with (g := g1)
      as [[] Hret].
    { rewrite Hn. apply Hr. reflexivity. }
    { exact Hc1. }
    pose proof (sameStacks_restoreStateChecked newstate g1) as Hf.
    unfold bind at 1 in E.
    destruct (restoreStateChecked newstate g1) as [g2 r2]. cbn [fst snd] in *. subst r2.
    destruct Hf as (F1 & F2 & F3 & F4 & F5 & F6).
    unfold modify in E. cbn -[tl] in E. injection E as <- <-. cbn -[tl].
    rewrite F1, F3, F4, F5, F6. subst g1. cbn -[tl]. rewrite Hs.
    repeat split; reflexivity.
  - unfold ret, bind, modify in E. cbn -[tl] in E. injection E as <- <-. cbn -[tl].
    rewrite Hs. repeat split; reflexivity.
Qed.

Lemma Graphics_new_balanced (caps : Capabilities) (w h pw ph : Z) (b0 b1 bi : StreamBuffer) :
  balanced (Graphics_new caps w h pw ph b0 b1 bi).
Proof.
  unfold balanced. cbn. repeat split; try lia.
  constructor; [exact I | constructor].
Qed.

Lemma balanced_step (g : Graphics) (op : StackOp) :
  balanced g -> balanced (fst (runStackOp op g)).
Proof.
  intros (Ht & Hp & Hs & Hmax & Hr). destruct op as [type|]; cbn [runStackOp].
  - destruct (Nat.eq_dec (length (stackTypeStack g)) MAX_USER_STACK_DEPTH) as [E|E].
    + rewrite (push_maximum g type E). cbn [fst]. repeat split; assumption.
    + destruct (push_effect g type E) as (_ & P1 & P2 & P3 & P4 & P5).
      unfold balanced. rewrite P1, P2, P3, P4, P5. cbn [length].
      repeat split; try lia.
      * unfold countAll in *. cbn [filter]. destruct (StackType_eqb type STACK_ALL); cbn; lia.
      * destruct (StackType_eqb type STACK_ALL); [|exact Hr].
        constructor; [|exact Hr].
        unfold back. destruct (states g) as [|s0 l]; [cbn in Hs; lia|].
        cbn. now inversion Hr.
  - destruct (stackTypeStack g) as [|type rest] eqn:Est.
    + rewrite (pop_minimum g Est). cbn [fst]. unfold balanced. rewrite Est.
      repeat split; assumption.
    + destruct (pop_effect g type rest Est) as (_ & P1 & P2 & P3 & P4 & P5).
      { intros ->. unfold countAll in Hs. cbn in Hs.
        destruct (states g) as [|s0 [|s1 l]]; cbn in Hs; try lia.
        cbn. inversion Hr as [|? ? _ Hr']; subst. now inversion Hr'. }
      unfold balanced. rewrite P1, P2, P3, P4, P5. cbn [length] in *.
      unfold countAll in *. cbn [filter] in Hs.
      destruct (transformStack g) as [|m tr]; [cbn in Ht; lia|].
      destruct (pixelScaleStack g) as [|x ps]; [cbn in Hp; lia|].
      cbn [tl length] in *.
      repeat split; try lia.
      * destruct (StackType_eqb type STACK_ALL); [|exact Hs].
        destruct (states g); cbn in *; lia.
      * destruct (StackType_eqb type STACK_ALL); [|exact Hr].
        destruct (states g); cbn; [constructor | now inversion Hr].
Qed.


(** ** Restoring a display state *)

Inductive Setter : Type :=
  | SetColor (c : Colorf)
  | SetBackgroundColor (c : Colorf)
  | SetBlendState (b : BlendState)
  | SetLineWidth (w : float)
  | SetLineStyle (style : LineStyle)
  | SetLineJoin (join : LineJoin)
  | SetPointSize (size : float)
  | SetScissor (rect : Rect)
  | SetScissorOff
  | SetMeshCullMode (cull : CullMode)
  | SetFrontFaceWinding (w : Winding)
  | SetFont (f : option Font)
  | SetShader (sh : option Shader)
  | SetRenderTargets (rts : RenderTargets)
  | SetRenderTarget (rt : RenderTarget) (flags : Z)
  | SetRenderTargetScreen
  | SetStencilMode (action : StencilAction) (compare : CompareMode)
      (value readmask writemask : Z)
  | SetDepthMode (compare : CompareMode) (write : bool)
  | SetColorMask (mask : ColorChannelMask)
  | SetWireframe (enable : bool)
  | SetDefaultSamplerState (st : SamplerState)
  | SetCustomProjection (m : Matrix4)
  | ResetProjection.

Definition runSetter (op : Setter) : M unit :=
  match op with
  | SetColor c => setColor c
  | SetBackgroundColor c => setBackgroundColor c
  | SetBlendState b => setBlendState b
  | SetLineWidth w => setLineWidth w
  | SetLineStyle style => setLineStyle style
  | SetLineJoin join => setLineJoin join
  | SetPointSize size => setPointSize size
  | SetScissor rect => setScissor rect
  | SetScissorOff => setScissor_off
  | SetMeshCullMode cull => setMeshCullMode cull
  | SetFrontFaceWinding w => setFrontFaceWinding w
  | SetFont f => setFont f
  | SetShader sh => setShader sh
  | SetRenderTargets rts => setRenderTargets rts
  | SetRenderTarget rt flags => setRenderTarget rt flags
  | SetRenderTargetScreen => setRenderTarget_screen
  | SetStencilMode action compare value readmask writemask =>
      setStencilMode action compare value readmask writemask
  | SetDepthMode compare write => setDepthMode compare write
  | SetColorMask mask => setColorMask mask
  | SetWireframe enable => setWireframe enable
  | SetDefaultSamplerState st => setDefaultSamplerState st
  | SetCustomProjection m => setCustomProjection m
  | ResetProjection => resetProjection
  end.

(** The setters of [ops] in order, each one on the object the one before
    left, whether that one returned or threw. *)
Fixpoint runSetters (ops : list Setter) (g : Graphics) : Graphics :=
  match ops with
  | [] => g
  | op :: rest => runSetters rest (fst (runSetter op g))
  end.

Lemma sameStacks_runSetter (op : Setter) : keeps sameStacks (runSetter op).
Proof.
  destruct op; cbn [runSetter];
    unfold setBackgroundColor, setLineWidth, setLineStyle, setLineJoin, setMeshCullMode,
      setFont, setDefaultSamplerState;
    sameStacks_tac.
Qed.

Lemma sameStacks_runSetters (ops : list Setter) (g : Graphics) :
  sameStacks g (runSetters ops g).
Proof.
  revert g. induction ops as [|op rest IH]; intros g; cbn [runSetters].
  - apply sameStacks_refl.
  - eapply sameStacks_trans; [apply sameStacks_runSetter | apply IH].
Qed.

(** The fields [restoreStateChecked] compares before it calls their
    setters, compared the way it compares them. *)
Definition guardedEqual (s cur : DisplayState) : bool :=
  Colorf_eqb (color s) (color cur)
  && BlendState_eqb (blend s) (blend cur)
  && SFeqb (pointSize s) (pointSize cur)
  && Bool.eqb (scissor s) (scissor cur)
  && (negb (scissor s) || Rect_eqb (scissorRect s) (scissorRect cur))
  && (winding s =? winding cur)
  && sameSize (renderTargets s) (renderTargets cur)
  && negb (targetsModified (renderTargets s) (renderTargets cur))
  && StencilState_eqb (stencil s) (stencil cur)
  && (depthTest s =? depthTest cur)
  && Bool.eqb (depthWrite s) (depthWrite cur)
  && ColorChannelMask_eqb (colorMask s) (colorMask cur)
  && Bool.eqb (wireframe s) (wireframe cur).

(** The fields it assigns without comparing them. *)
Definition assignUnguarded (s cur : DisplayState) : DisplayState :=
  ds_set_defaultSamplerState (defaultSamplerState s)
    (ds_set_shader (shader s)
       (ds_set_font (font s)
          (ds_set_meshCullMode (meshCullMode s)
             (ds_set_lineJoin (lineJoin s)
                (ds_set_lineStyle (lineStyle s)
                   (ds_set_lineWidth (lineWidth s)
                      (ds_set_backgroundColor (backgroundColor s) cur))))))).

(** The call [setShader] makes for the shader of the restored state. *)
Definition shaderCall (sh : option Shader) : ExternalCall :=
  match sh with
  | None => Call_attachDefault STANDARD_DEFAULT
  | Some x => Call_attach x
  end.

#[local] Arguments Colorf_eqb : simpl never.
#[local] Arguments BlendState_eqb : simpl never.
#[local] Arguments SFeqb : simpl never.
#[local] Arguments Rect_eqb : simpl never.
#[local] Arguments StencilState_eqb : simpl never.
#[local] Arguments ColorChannelMask_eqb : simpl never.
#[local] Arguments Bool.eqb : simpl never.
#[local] Arguments sameSize : simpl never.
#[local] Arguments targetsModified : simpl never.

(** [restoreStateChecked] in three parts, each one followed by the rest. *)
Definition restoreColorToPointSize (s : DisplayState) (rest : M unit) : M unit :=
  cur <- gets back ;;
  when (negb (Colorf_eqb (color s) (color cur))) (setColor (color s)) ;;
  setBackgroundColor (backgroundColor s) ;;
  cur <- gets back ;;
  when (negb (BlendState_eqb (blend s) (blend cur))) (setBlendState (blend s)) ;;
  setLineWidth (lineWidth s) ;;
  setLineStyle (lineStyle s) ;;
  setLineJoin (lineJoin s) ;;
  cur <- gets back ;;
  when (negb (SFeqb (pointSize s) (pointSize cur))) (setPointSize (pointSize s)) ;;
  rest.

Definition restoreScissorToTargets (s : DisplayState) (rest : M unit) : M unit :=
  cur <- gets back ;;
  when (negb (Bool.eqb (scissor s) (scissor cur))
        || (scissor s && negb (Rect_eqb (scissorRect s) (scissorRect cur))))
    (if scissor s then setScissor (scissorRect s) else setScissor_off) ;;
  setMeshCullMode (meshCullMode s) ;;
  cur <- gets back ;;
  when (negb (winding s =? winding cur)) (setFrontFaceWinding (winding s)) ;;
  setFont (font s) ;;
  setShader (shader s) ;;
  cur <- gets back ;;
  when (negb (sameSize (renderTargets s) (renderTargets cur))
        || targetsModified (renderTargets s) (renderTargets cur))
    (setRenderTargets (renderTargets s)) ;;
  rest.

Definition restoreStencilToProjection (s : DisplayState) : M unit :=
  cur <- gets back ;;
  when (negb (StencilState_eqb (stencil s) (stencil cur)))
    (setStencilMode (stencil_action (stencil s)) (stencil_compare (stencil s))
                    (stencil_value (stencil s)) (stencil_readMask (stencil s))
                    (stencil_writeMask (stencil s))) ;;
  cur <- gets back ;;
  when (negb (depthTest s =? depthTest cur) || negb (Bool.eqb (depthWrite s) (depthWrite cur)))
    (setDepthMode (depthTest s) (depthWrite s)) ;;
  cur <- gets back ;;
  when (negb (ColorChannelMask_eqb (colorMask s) (colorMask cur)))
    (setColorMask (colorMask s)) ;;
  cur <- gets back ;;
  when (negb (Bool.eqb (wireframe s) (wireframe cur))) (setWireframe (wireframe s)) ;;
  setDefaultSamplerState (defaultSamplerState s) ;;
  if useCustomProjection s then setCustomProjection (customProjection s)
  else
    cur <- gets back ;;
    when (useCustomProjection cur) resetProjection.

Lemma restoreStateChecked_parts (s : DisplayState) :
  restoreStateChecked s
  = restoreColorToPointSize s (restoreScissorToTargets s (restoreStencilToProjection s)).
Proof. reflexivity. Qed.

(** Symbolic execution of one part on an object whose top display state
    is known, the guards being settled by the hypotheses. *)
Ltac restore_exec Hst :=
  unfold bind, gets, when, modify_back, modify, call, ret; unfold back;
  do 12 (try (first [ rewrite Hst
                    | match goal with X : _ = true |- _ => rewrite X end
                    | match goal with X : _ = false |- _ => rewrite X end ];
              cbn)).

Lemma restoreColorToPointSize_unchanged (s : DisplayState) (rest : M unit) (g : Graphics)
    (cur : DisplayState) (below : list DisplayState) :
  states g = cur :: below ->
  Colorf_eqb (color s) (color cur) = true ->
  BlendState_eqb (blend s) (blend cur) = true ->
  SFeqb (pointSize s) (pointSize cur) = true ->
  restoreColorToPointSize s rest g
  = rest (set_states
            (ds_set_lineJoin (lineJoin s)
               (ds_set_lineStyle (lineStyle s)
                  (ds_set_lineWidth (lineWidth s)
                     (ds_set_backgroundColor (backgroundColor s) cur))) :: below) g).
Proof.
  intros Hst H1 H2 H3.
  unfold restoreColorToPointSize, setBackgroundColor, setLineWidth, setLineStyle, setLineJoin.
  destruct cur; cbn in H1, H2, H3.
  restore_exec Hst. destruct g; reflexivity.
Qed.

(** What [Shader::current] is after [setShader]. *)
Definition shaderAttached (sh : option Shader) : option AttachedShader :=
  match sh with
  | None => Some (StandardAttached STANDARD_DEFAULT)
  | Some x => Some (CustomAttached x)
  end.

Lemma restoreScissorToTargets_unchanged (s : DisplayState) (rest : M unit) (g : Graphics)
    (cur : DisplayState) (below : list DisplayState) :
  states g = cur :: below ->
  Bool.eqb (scissor s) (scissor cur) = true ->
  negb (scissor s) || Rect_eqb (scissorRect s) (scissorRect cur) = true ->
  (winding s =? winding cur) = true ->
  sameSize (renderTargets s) (renderTargets cur) = true ->
  targetsModified (renderTargets s) (renderTargets cur) = false ->
  restoreScissorToTargets s rest g
  = rest (set_states
            (ds_set_shader (shader s)
               (ds_set_font (font s)
                  (ds_set_meshCullMode (meshCullMode s) cur)) :: below)
            (set_Shader_current (shaderAttached (shader s))
               (set_calls (calls g ++ [shaderCall (shader s)]) g))).
Proof.
  intros Hst H1 H2 H3 H4 H5.
  unfold restoreScissorToTargets, setMeshCullMode, setFont, setShader, attachDefault, attach.
  destruct (scissor s) eqn:Hsc; cbn [negb orb] in H2;
    destruct (shader s) eqn:Hsh; destruct cur; cbn in H1, H2, H3, H4, H5;
    repeat match goal with X : ?a = ?a |- _ => clear X end;
    restore_exec Hst; destruct g; reflexivity.
Qed.

Lemma restoreStencilToProjection_unchanged (s : DisplayState) (g : Graphics)
    (cur : DisplayState) (below : list DisplayState) :
  states g = cur :: below ->
  StencilState_eqb (stencil s) (stencil cur) = true ->
  (depthTest s =? depthTest cur) = true ->
  Bool.eqb (depthWrite s) (depthWrite cur) = true ->
  ColorChannelMask_eqb (colorMask s) (colorMask cur) = true ->
  Bool.eqb (wireframe s) (wireframe cur) = true ->
  useCustomProjection s = false -> useCustomProjection cur = false ->
  restoreStencilToProjection s g
  = (set_states (ds_set_defaultSamplerState (defaultSamplerState s) cur :: below) g,
     Returned tt).
Proof.
  intros Hst H1 H2 H3 H4 H5 H6 H7.
  unfold restoreStencilToProjection, setDefaultSamplerState.
  destruct cur; cbn in H1, H2, H3, H4, H5, H7. subst.
  restore_exec Hst. destruct g; reflexivity.
Qed.

(** When the guarded fields of the restored state compare equal to the
    current ones and neither state has a custom projection,
    [restoreStateChecked] calls no guarded setter: it assigns the unguarded
    fields and hands the shader to [setShader]. *)
Lemma restoreStateChecked_unchanged (s : DisplayState) (g : Graphics)
    (cur : DisplayState) (below : list DisplayState) :
  states g = cur :: below ->
  guardedEqual s cur = true ->
  useCustomProjection s = false -> useCustomProjection cur = false ->
  restoreStateChecked s g
  = (set_states (assignUnguarded s cur :: below)
       (set_Shader_current (shaderAttached (shader s))
          (set_calls (calls g ++ [shaderCall (shader s)]) g)),
     Returned tt).
Proof.
  intros Hst Hg Hs Hc.
  unfold guardedEqual in Hg. do 12 (apply andb_true_iff in Hg as [Hg ?]).
  repeat match goal with X : negb _ = true |- _ => apply negb_true_iff in X end.
  rewrite restoreStateChecked_parts.
  rewrite (restoreColorToPointSize_unchanged s _ g cur below) by assumption.
  erewrite restoreScissorToTargets_unchanged;
    [ | reflexivity | destruct cur; assumption.. ].
  erewrite restoreStencilToProjection_unchanged;
    [ | reflexivity | destruct cur; assumption.. ].
  unfold assignUnguarded. destruct g, cur; reflexivity.
Qed.

Lemma restoreStencilToProjection_custom (s : DisplayState) (g : Graphics)
    (cur : DisplayState) (below : list DisplayState) :
  states g = cur :: below ->
  StencilState_eqb (stencil s) (stencil cur) = true ->
  (depthTest s =? depthTest cur) = true ->
  Bool.eqb (depthWrite s) (depthWrite cur) = true ->
  ColorChannelMask_eqb (colorMask s) (colorMask cur) = true ->
  Bool.eqb (wireframe s) (wireframe cur) = true ->
  useCustomProjection s = true ->
  restoreStencilToProjection s g
  = setCustomProjection (customProjection s)
      (set_states (ds_set_defaultSamplerState (defaultSamplerState s) cur :: below) g).
Proof.
  intros Hst H1 H2 H3 H4 H5 H6.
  unfold restoreStencilToProjection, setDefaultSamplerState.
  destruct cur; cbn in H1, H2, H3, H4, H5.
  restore_exec Hst. destruct g; reflexivity.
Qed.

Lemma restoreStateChecked_custom (s : DisplayState) (g : Graphics)
    (cur : DisplayState) (below : list DisplayState) :
  states g = cur :: below ->
  guardedEqual s cur = true ->
  useCustomProjection s = true ->
  restoreStateChecked s g
  = setCustomProjection (customProjection s)
      (set_states (assignUnguarded s cur :: below)
         (set_Shader_current (shaderAttached (shader s))
            (set_calls (calls g ++ [shaderCall (shader s)]) g))).
Proof.
  intros Hst Hg Hs.
  unfold guardedEqual in Hg. do 12 (apply andb_true_iff in Hg as [Hg ?]).
  repeat match goal with X : negb _ = true |- _ => apply negb_true_iff in X end.
  rewrite restoreStateChecked_parts.
  rewrite (restoreColorToPointSize_unchanged s _ g cur below) by assumption.
  erewrite restoreScissorToTargets_unchanged;
    [ | reflexivity | destruct cur; assumption.. ].
  erewrite restoreStencilToProjection_custom;
    [ | reflexivity | destruct cur; assumption.. ].
  unfold assignUnguarded. destruct g, cur; reflexivity.
Qed.


(** ** Render-target validation *)

(** The comparison of [setRenderTargets] with the bound set. *)
Definition sameTargets (rts prevRTs : RenderTargets) : bool :=
  sameSize rts prevRTs && negb (targetsModified rts prevRTs).

(** Every color attachment after the first, and the depth/stencil
    attachment, has the pixel size [pixelw] x [pixelh] at its mipmap
    level. *)
Definition uniformDimensions (rts : RenderTargets) (pixelw pixelh : Z) : Prop :=
  Forall (fun rt => getPixelWidth (ct_texture rt) (ct_mipmap rt) = pixelw
                    /\ getPixelHeight (ct_texture rt) (ct_mipmap rt) = pixelh)
         (tl (colors rts))
  /\ match rt_texture (depthStencil rts) with
     | Some c => getPixelWidth c (rt_mipmap (depthStencil rts)) = pixelw
                 /\ getPixelHeight c (rt_mipmap (depthStencil rts)) = pixelh
     | None => True
     end.

Lemma dims_of_check (a b pw ph : Z) :
  negb (a =? pw) || negb (b =? ph) = false -> a = pw /\ b = ph.
Proof.
  intros H. apply orb_false_iff in H as [H1 H2].
  apply negb_false_iff in H1, H2. apply Z.eqb_eq in H1, H2. auto.
Qed.

Lemma checkColorTarget_dims (m : bool) (f : PixelFormat) (pw ph msaa : Z) (rt : ColorTarget) :
  checkColorTarget m f pw ph msaa rt = None ->
  getPixelWidth (ct_texture rt) (ct_mipmap rt) = pw
  /\ getPixelHeight (ct_texture rt) (ct_mipmap rt) = ph.
Proof.
  unfold checkColorTarget.
  repeat match goal with
         | |- context [if ?b then _ else _] => destruct b eqn:?; try discriminate
         end.
  intros _. now apply dims_of_check.
Qed.

Lemma checkColorTargets_dims (m : bool) (f : PixelFormat) (pw ph msaa : Z)
    (l : list ColorTarget) :
  checkColorTargets m f pw ph msaa l = None ->
  Forall (fun rt => getPixelWidth (ct_texture rt) (ct_mipmap rt) = pw
                    /\ getPixelHeight (ct_texture rt) (ct_mipmap rt) = ph) l.
Proof.
  induction l as [|rt rest IH]; cbn [checkColorTargets]; intros H; [constructor|].
  destruct (checkColorTarget m f pw ph msaa rt) eqn:E; [discriminate|].
  constructor; [eapply checkColorTarget_dims; exact E | now apply IH].
Qed.

Lemma checkDepthStencil_dims (firsttex : Texture) (pw ph : Z) (c : Texture) (slice mip : Z) :
  checkDepthStencil firsttex pw ph c slice mip = None ->
  getPixelWidth c mip = pw /\ getPixelHeight c mip = ph.
Proof.
  unfold checkDepthStencil.
  repeat match goal with
         | |- context [if ?b then _ else _] => destruct b eqn:?; try discriminate
         end.
  intros _. now apply dims_of_check.
Qed.

(** A set that passes the validation has one pixel size. *)
Lemma checkRenderTargets_dims (caps : Capabilities) (rts : RenderTargets)
    (firsttarget : RenderTarget) (firsttex : Texture) :
  checkRenderTargets caps rts firsttarget firsttex = None ->
  uniformDimensions rts (getPixelWidth firsttex (rt_mipmap firsttarget))
                        (getPixelHeight firsttex (rt_mipmap firsttarget)).
Proof.
  unfold checkRenderTargets. cbv zeta.
  repeat match goal with
         | |- context [if ?b then _ else _] => destruct b eqn:?; try discriminate
         end.
  destruct (checkColorTargets _ _ _ _ _ _) eqn:Ec; [discriminate|].
  intros Hd. split; [eapply checkColorTargets_dims; exact Ec|].
  destruct (rt_texture (depthStencil rts)); [|exact I].
  eapply checkDepthStencil_dims; exact Hd.
Qed.

Lemma setRenderTargets_same (g : Graphics) (rts : RenderTargets) (firsttex : Texture) :
  rt_texture (getFirstTarget rts) = Some firsttex ->
  sameTargets rts (renderTargets (back g)) = true ->
  setRenderTargets rts g = (g, Returned tt).
Proof.
  unfold sameTargets. intros Hf Hs. unfold setRenderTargets.
  unfold bind at 1. unfold gets at 1. cbv beta iota zeta. rewrite Hf, Hs. reflexivity.
Qed.

Lemma setRenderTargets_invalid (g : Graphics) (rts : RenderTargets) (firsttex : Texture)
    (what : string) :
  rt_texture (getFirstTarget rts) = Some firsttex ->
  sameTargets rts (renderTargets (back g)) = false ->
  checkRenderTargets (capabilities g) rts (getFirstTarget rts) firsttex = Some what ->
  setRenderTargets rts g = (g, Thrown what).
Proof.
  unfold sameTargets. intros Hf Hs Hc. unfold setRenderTargets.
  unfold bind at 1. unfold gets at 1. cbv beta iota zeta. rewrite Hf, Hs.
  unfold bind at 1. unfold gets at 1. cbv beta iota zeta. rewrite Hc. reflexivity.
Qed.


(** ** The order of a render-target change *)

(** The object [g'] comes after [g] with the same switch counter and the
    same bound set, its calls extend those of [g], and when no drawable
    batch is pending in [g] none is in [g'] and no draw call was added. *)
Definition settled (g g' : Graphics) : Prop :=
  renderTargetSwitchCount g' = renderTargetSwitchCount g
  /\ renderTargets (back g') = renderTargets (back g)
  /\ length (states g') = length (states g)
  /\ (exists tail, calls g' = calls g ++ tail
                   /\ (batchDrawable (batchedDrawState g) = false -> draws tail = []))
  /\ (batchDrawable (batchedDrawState g) = false ->
      batchDrawable (batchedDrawState g') = false).

Lemma settled_refl (g : Graphics) : settled g g.
Proof.
  unfold settled. repeat split; try reflexivity; auto.
  exists []. now rewrite app_nil_r.
Qed.

Lemma settled_trans (g1 g2 g3 : Graphics) : settled g1 g2 -> settled g2 g3 -> settled g1 g3.
Proof.
  intros (A1 & A2 & A3 & (t1 & A4 & A5) & A6) (B1 & B2 & B3 & (t2 & B4 & B5) & B6).
  unfold settled. repeat split; try congruence; auto.
  exists (t1 ++ t2). split.
  - now rewrite B4, A4, app_assoc.
  - intros H. rewrite draws_app, A5, B5; auto.
Qed.

Lemma settled_flushBatchedDraws : keeps settled flushBatchedDraws.
Proof.
  intros g. destruct (flushBatchedDraws_sameObject g)
    as (_ & _ & _ & _ & Hst & _ & _ & _ & _ & Hc & _).
  destruct (flushBatchedDraws_key g) as (_ & K0 & K1 & _).
  unfold settled, back. rewrite Hst, Hc.
  split; [reflexivity|]. split; [reflexivity|]. split; [reflexivity|].
  destruct (batchDrawable (batchedDrawState g)) eqn:Hd.
  - split; [|discriminate].
    eexists. split; [apply (flushBatchedDraws_calls g Hd) | discriminate].
  - destruct (flushBatchedDraws_skips g Hd) as (V & I & C).
    split.
    + exists []. rewrite C, app_nil_r. auto.
    + intros _. unfold batchDrawable, batchEmpty, batchAttributes in *.
      cbv zeta in K0, K1. rewrite V, I, K0, K1. exact Hd.
Qed.

Lemma settled_call (c : ExternalCall) : isDraw c = false -> keeps settled (call c).
Proof.
  intros H g. unfold call, modify, settled. cbn.
  repeat split; try reflexivity; auto.
  exists [c]. split; [reflexivity|]. intros _. unfold draws. cbn. now rewrite H.
Qed.

Lemma settled_modify_back (f : DisplayState -> DisplayState) :
  (forall s, renderTargets (f s) = renderTargets s) -> keeps settled (modify_back f).
Proof.
  intros H g. unfold modify_back, modify, settled, back. cbn.
  destruct (states g); cbn; rewrite ?H; repeat split; try reflexivity; auto;
    exists []; now rewrite app_nil_r.
Qed.

Create HintDb settle.

(** A [modify] that writes neither the states, the calls, the counter nor
    the accumulator. *)
Ltac settled_modify :=
  let g := fresh "g" in
  intros g; unfold modify, settled; cbn;
  repeat split; try reflexivity; auto; exists []; now rewrite app_nil_r.

Ltac settled_step :=
  first
    [ solve [auto 1 with settle nocore]
    | apply (keeps_ret _ settled_refl)
    | apply (keeps_throw _ settled_refl)
    | apply (keeps_gets _ settled_refl)
    | apply settled_flushBatchedDraws
    | apply settled_call; reflexivity
    | apply settled_modify_back; intros []; reflexivity
    | apply (keeps_when _ settled_refl)
    | apply (keeps_bind _ settled_trans); [ | intro ]
    | match goal with
      | |- keeps _ (if ?b then _ else _) => destruct b
      | |- keeps _ (match ?x with _ => _ end) => destruct x
      | |- keeps _ (let _ := _ in _) => cbv zeta
      | |- keeps _ (modify _) => settled_modify
      end ].

Ltac settled_tac := repeat settled_step.

Lemma settled_resetProjection : keeps settled resetProjection.
Proof. unfold resetProjection, updateDeviceProjection. settled_tac. Qed.
#[local] Hint Resolve settled_resetProjection : settle.

Lemma settled_setCustomProjection (m : Matrix4) : keeps settled (setCustomProjection m).
Proof. unfold setCustomProjection, updateDeviceProjection. settled_tac. Qed.
#[local] Hint Resolve settled_setCustomProjection : settle.

Lemma settled_getTemporaryTexture (f : PixelFormat) (w h samples : Z) :
  keeps settled (getTemporaryTexture f w h samples).
Proof. unfold getTemporaryTexture, newTexture. settled_tac. Qed.
#[local] Hint Resolve settled_getTemporaryTexture : settle.

Lemma settled_releaseTemporaryTexture (t : Texture) :
  keeps settled (releaseTemporaryTexture t).
Proof. unfold releaseTemporaryTexture. settled_tac. Qed.
#[local] Hint Resolve settled_releaseTemporaryTexture : settle.

(** [setRenderTargets] asks for a temporary depth/stencil attachment. *)
Definition temporaryTargets (rts : RenderTargets) : bool :=
  Texture_ptr_eqb (rt_texture (depthStencil rts)) None
  && negb (temporaryRTFlags rts =? 0).

(** The set [setRenderTargets] writes into the display state. *)
Definition storedTargets (rts : RenderTargets) : RenderTargets :=
  {| colors := colors rts;
     depthStencil := {| rt_texture := rt_texture (depthStencil rts);
                        rt_slice := rt_slice (depthStencil rts);
                        rt_mipmap := 0 |};
     temporaryRTFlags := temporaryRTFlags rts |}.

(** The part of [setRenderTargets] that hands the set to the backend. *)
Definition internalTargets (rts : RenderTargets) (firsttex : Texture) : M unit :=
  let firsttarget := getFirstTarget rts in
  let pixelw := getPixelWidth firsttex (rt_mipmap firsttarget) in
  let pixelh := getPixelHeight firsttex (rt_mipmap firsttarget) in
  let reqmsaa := getRequestedMSAA firsttex in
  if temporaryTargets rts then
    texture <- getTemporaryTexture (temporaryFormat (temporaryRTFlags rts))
                                   pixelw pixelh reqmsaa ;;
    let realRTs :=
      {| colors := colors rts;
         depthStencil := {| rt_texture := Some texture; rt_slice := 0;
                            rt_mipmap := rt_mipmap (depthStencil rts) |};
         temporaryRTFlags := temporaryRTFlags rts |} in
    releaseTemporaryTexture texture ;;
    setRenderTargetsInternal realRTs pixelw pixelh (hasSRGB rts)
  else
    setRenderTargetsInternal rts pixelw pixelh (hasSRGB rts).

(** Everything [setRenderTargets] does after its flush. *)
Definition bindRenderTargets (rts : RenderTargets) (firsttex : Texture) : M unit :=
  internalTargets rts firsttex ;;
  modify_back (ds_set_renderTargets (storedTargets rts)) ;;
  modify (fun g => set_renderTargetSwitchCount (renderTargetSwitchCount g + 1) g) ;;
  resetProjection ;;
  when (temporaryTargets rts) (call (Call_clearDepthStencil 0 float_1)).

Lemma setRenderTargets_valid (g : Graphics) (rts : RenderTargets) (firsttex : Texture) :
  rt_texture (getFirstTarget rts) = Some firsttex ->
  sameTargets rts (renderTargets (back g)) = false ->
  checkRenderTargets (capabilities g) rts (getFirstTarget rts) firsttex = None ->
  setRenderTargets rts g = (flushBatchedDraws ;; bindRenderTargets rts firsttex) g.
Proof.
  unfold sameTargets. intros Hf Hs Hc. unfold setRenderTargets.
  unfold bind at 1. unfold gets at 1. cbv beta iota zeta. rewrite Hf, Hs.
  unfold bind at 1. unfold gets at 1. cbv beta iota zeta. rewrite Hc. reflexivity.
Qed.

Lemma settled_internalTargets (rts : RenderTargets) (firsttex : Texture) :
  keeps settled (internalTargets rts firsttex).
Proof. unfold internalTargets, setRenderTargetsInternal. settled_tac. Qed.
#[local] Hint Resolve settled_internalTargets : settle.

Lemma returns_internalTargets (rts : RenderTargets) (firsttex : Texture) :
  returns (internalTargets rts firsttex).
Proof.
  unfold internalTargets. cbv zeta. destruct (temporaryTargets rts).
  - apply returns_bind; [apply returns_getTemporaryTexture | intro].
    apply returns_bind; [apply returns_releaseTemporaryTexture | intro].
    apply returns_setRenderTargetsInternal.
  - apply returns_setRenderTargetsInternal.
Qed.

(** The last call of [internalTargets] is the one that binds. *)
Lemma internalTargets_calls (rts : RenderTargets) (firsttex : Texture) (g : Graphics) :
  let firsttarget := getFirstTarget rts in
  let g' := fst (internalTargets rts firsttex g) in
  batchDrawable (batchedDrawState g) = false ->
  exists pre bound,
    calls g' = calls g ++ pre
               ++ [Call_setRenderTargetsInternal bound
                     (getPixelWidth firsttex (rt_mipmap firsttarget))
                     (getPixelHeight firsttex (rt_mipmap firsttarget)) (hasSRGB rts)]
    /\ draws pre = [] /\ colors bound = colors rts.
Proof.
  cbv zeta. intros Hq. unfold internalTargets. cbv zeta.
  destruct (temporaryTargets rts).
  - match goal with |- context [bind (getTemporaryTexture ?f ?w ?h ?m) ?k] =>
      pose proof (settled_getTemporaryTexture f w h m g) as S1;
      destruct (returns_getTemporaryTexture f w h m g) as [texture R1];
      rewrite (bind_returned _ k g texture R1);
      set (g1 := fst (getTemporaryTexture f w h m g)) in *
    end.
    pose proof (settled_releaseTemporaryTexture texture g1) as S2.
    destruct (returns_releaseTemporaryTexture texture g1) as [[] R2].
    rewrite (bind_returned _ _ g1 tt R2).
    set (g2 := fst (releaseTemporaryTexture texture g1)) in *.
    pose proof (settled_trans _ _ _ S1 S2) as (_ & _ & _ & (tail & Hc & Hd) & _).
    exists tail. eexists. unfold setRenderTargetsInternal, call, modify. cbn [fst calls set_calls].
    rewrite Hc, <- app_assoc. split; [reflexivity|]. split; [now apply Hd | reflexivity].
  - exists []. exists rts. unfold setRenderTargetsInternal, call, modify. cbn.
    repeat split; reflexivity.
Qed.

Lemma flushBatchedDraws_quiet (g : Graphics) :
  batchDrawable (batchedDrawState (fst (flushBatchedDraws g))) = false.
Proof.
  destruct (batchDrawable (batchedDrawState g)) eqn:Hd.
  - destruct (flushBatchedDraws_resets g Hd) as (V & I & _).
    unfold batchDrawable, batchEmpty. rewrite V, I. reflexivity.
  - destruct (settled_flushBatchedDraws g) as (_ & _ & _ & _ & H). now apply H.
Qed.

(** [resetProjection] on an object whose top display state is [st]. *)
Lemma resetProjection_effect (g : Graphics) (st : DisplayState) (below : list DisplayState) :
  states g = st :: below ->
  let gq := fst (flushBatchedDraws g) in
  let rt := getFirstTarget (renderTargets st) in
  let w := match rt_texture rt with Some tex => getWidth tex (rt_mipmap rt) | None => width g end in
  let h := match rt_texture rt with Some tex => getHeight tex (rt_mipmap rt) | None => height g end in
  let gr := set_states (ds_set_useCustomProjection false st :: below) gq in
  resetProjection g
  = (set_deviceProjectionMatrix
       (computeDeviceProjection (Matrix4_ortho w h) (isRenderTargetActive gr)) gr,
     Returned tt).
Proof.
  intros Hst. cbv zeta. unfold resetProjection.
  rewrite (bind_returned _ _ g tt (flushBatchedDraws_returns g)).
  destruct (flushBatchedDraws_sameObject g) as (Hw & Hh & _ & _ & Hs & _).
  set (gq := fst (flushBatchedDraws g)) in *.
  unfold updateDeviceProjection, bind, gets, modify_back, modify, back. cbn.
  rewrite Hs, Hst, Hw, Hh. reflexivity.
Qed.


(** ** Temporary textures *)

(** The loop of [getTemporaryTexture] passes over the entry. *)
Definition passedOver (format : PixelFormat) (w h samples : Z) (e : TemporaryTexture) : Prop :=
  framesSinceUse e < 0 \/ shapeMatches (tt_texture e) format w h samples = false.

Definition checkedOut (t : Texture) : TemporaryTexture :=
  {| tt_texture := t; framesSinceUse := -1 |}.

Definition checkedIn (t : Texture) : TemporaryTexture :=
  {| tt_texture := t; framesSinceUse := 0 |}.

Lemma findTemporaryTexture_found (pool pool' : list TemporaryTexture)
    (format : PixelFormat) (w h samples : Z) (t : Texture) :
  findTemporaryTexture pool format w h samples = (pool', Some t) ->
  exists front e back,
    pool = front ++ e :: back /\ t = tt_texture e /\ 0 <= framesSinceUse e
    /\ shapeMatches t format w h samples = true
    /\ pool' = front ++ checkedOut t :: back
    /\ Forall (passedOver format w h samples) front.
Proof.
  revert pool'. induction pool as [|x rest IH]; intros pool' H; cbn in H; [discriminate|].
  destruct (framesSinceUse x <? 0) eqn:Ex.
  - destruct (findTemporaryTexture rest format w h samples) as [rest' found] eqn:Er.
    injection H as <- ->.
    destruct (IH _ eq_refl) as (front & e & back & -> & Ht & He & Hs & -> & Hf).
    exists (x :: front), e, back. repeat split; auto.
    constructor; [left; now apply Z.ltb_lt | exact Hf].
  - destruct (shapeMatches (tt_texture x) format w h samples) eqn:Es.
    + injection H as <- <-. exists [], x, rest.
      apply Z.ltb_ge in Ex. repeat split; auto.
    + destruct (findTemporaryTexture rest format w h samples) as [rest' found] eqn:Er.
      injection H as <- ->.
      destruct (IH _ eq_refl) as (front & e & back & -> & Ht & He & Hs & -> & Hf).
      exists (x :: front), e, back. repeat split; auto.
      constructor; [right; exact Es | exact Hf].
Qed.

Lemma findTemporaryTexture_none (pool pool' : list TemporaryTexture)
    (format : PixelFormat) (w h samples : Z) :
  findTemporaryTexture pool format w h samples = (pool', None) ->
  pool' = pool /\ Forall (passedOver format w h samples) pool.
Proof.
  revert pool'. induction pool as [|x rest IH]; intros pool' H; cbn in H.
  - injection H as <-. split; [reflexivity | constructor].
  - destruct (framesSinceUse x <? 0) eqn:Ex.
    + destruct (findTemporaryTexture rest format w h samples) as [rest' found] eqn:Er.
      injection H as <- ->. destruct (IH _ eq_refl) as [-> Hf].
      split; [reflexivity|]. constructor; [left; now apply Z.ltb_lt | exact Hf].
    + destruct (shapeMatches (tt_texture x) format w h samples) eqn:Es; [discriminate|].
      destruct (findTemporaryTexture rest format w h samples) as [rest' found] eqn:Er.
      injection H as <- ->. destruct (IH _ eq_refl) as [-> Hf].
      split; [reflexivity|]. constructor; [right; exact Es | exact Hf].
Qed.

Lemma findTemporaryTexture_at (front back : list TemporaryTexture) (e : TemporaryTexture)
    (format : PixelFormat) (w h samples : Z) :
  Forall (passedOver format w h samples) front ->
  0 <= framesSinceUse e ->
  shapeMatches (tt_texture e) format w h samples = true ->
  findTemporaryTexture (front ++ e :: back) format w h samples
  = (front ++ checkedOut (tt_texture e) :: back, Some (tt_texture e)).
Proof.
  intros Hf He Hs. induction Hf as [|x front Hx Hf IH]; cbn.
  - apply Z.ltb_ge in He. now rewrite He, Hs.
  - rewrite IH. destruct Hx as [Hx | Hx].
    + apply Z.ltb_lt in Hx. now rewrite Hx.
    + rewrite Hx. now destruct (framesSinceUse x <? 0).
Qed.

Lemma checkIn_at (front back : list TemporaryTexture) (t : Texture) (tag : Z) :
  Forall (fun x => tex_id (tt_texture x) <> tex_id t) front ->
  checkIn t (front ++ {| tt_texture := t; framesSinceUse := tag |} :: back)
  = front ++ checkedIn t :: back.
Proof.
  intros Hf. induction Hf as [|x front Hx Hf IH]; cbn.
  - now rewrite Pos.eqb_refl.
  - apply Pos.eqb_neq in Hx. now rewrite Hx, IH.
Qed.

(** The textures of the pool are distinct objects, allocated before the
    next allocation. *)
Definition poolDistinct (g : Graphics) : Prop :=
  NoDup (map (fun e => tex_id (tt_texture e)) (temporaryTextures g))
  /\ Forall (fun e => (tex_id (tt_texture e) < heapNext g)%positive) (temporaryTextures g).

Lemma NoDup_front (front back : list TemporaryTexture) (e : TemporaryTexture) :
  NoDup (map (fun e => tex_id (tt_texture e)) (front ++ e :: back)) ->
  Forall (fun x => tex_id (tt_texture x) <> tex_id (tt_texture e)) front.
Proof.
  rewrite map_app. cbn [map]. intros H. apply NoDup_remove_2 in H.
  apply Forall_forall. intros x Hx Heq. apply H. apply in_or_app. left.
  rewrite <- Heq. now apply (in_map (fun e => tex_id (tt_texture e))).
Qed.

(** The texture [newTexture] creates at [address]. *)
Definition textureAt (address : positive) (format : PixelFormat) (w h samples : Z)
    : Texture :=
  {| tex_id := address; getPixelFormat := format; isRenderTarget := true;
     getMipmapCount := 1; getRequestedMSAA := samples;
     getPixelWidth := fun _ => w; getPixelHeight := fun _ => h;
     getWidth := fun _ => w; getHeight := fun _ => h;
     isValidSlice := fun slice mip => (slice =? 0) && (mip =? 0) |}.

Lemma textureAt_shape (address : positive) (format : PixelFormat) (w h samples : Z) :
  shapeMatches (textureAt address format w h samples) format w h samples = true.
Proof. unfold shapeMatches. cbn. now rewrite PixelFormat_eqb_refl, !Z.eqb_refl. Qed.

Lemma getTemporaryTexture_found (g : Graphics) (format : PixelFormat) (w h samples : Z)
    (pool' : list TemporaryTexture) (t : Texture) :
  findTemporaryTexture (temporaryTextures g) format w h samples = (pool', Some t) ->
  getTemporaryTexture format w h samples g = (set_temporaryTextures pool' g, Returned t).
Proof.
  intros Ef. unfold getTemporaryTexture, bind, gets, modify, ret. now rewrite Ef.
Qed.

Lemma getTemporaryTexture_new (g : Graphics) (format : PixelFormat) (w h samples : Z)
    (pool' : list TemporaryTexture) :
  findTemporaryTexture (temporaryTextures g) format w h samples = (pool', None) ->
  let t := textureAt (heapNext g) format w h samples in
  getTemporaryTexture format w h samples g
  = (set_temporaryTextures (temporaryTextures g ++ [checkedOut t])
       (set_calls (calls g ++ [Call_newTexture t])
          (set_heapNext (Pos.succ (heapNext g)) g)),
     Returned t).
Proof.
  intros Ef. cbv zeta. destruct (findTemporaryTexture_none _ _ _ _ _ _ Ef) as [-> _].
  unfold getTemporaryTexture, newTexture, call, bind, gets, modify, ret. rewrite Ef.
  destruct g; reflexivity.
Qed.

(** Acquire, release, acquire: the second acquisition returns the texture
    of the first and leaves the object as the first left it. *)
Lemma getTemporaryTexture_again (g : Graphics) (format : PixelFormat) (w h samples : Z) :
  poolDistinct g ->
  let g1 := fst (getTemporaryTexture format w h samples g) in
  exists t,
    snd (getTemporaryTexture format w h samples g) = Returned t
    /\ shapeMatches t format w h samples = true
    /\ getTemporaryTexture format w h samples (fst (releaseTemporaryTexture t g1))
       = (g1, Returned t).
Proof.
  intros [Hnd Hfresh]. cbv zeta.
  destruct (findTemporaryTexture (temporaryTextures g) format w h samples)
    as [pool' [t|]] eqn:Ef.
  - rewrite (getTemporaryTexture_found _ _ _ _ _ _ _ Ef). cbn [fst snd].
    destruct (findTemporaryTexture_found _ _ _ _ _ _ _ Ef)
      as (front & e & back & Hp & Ht & He & Hs & Hp' & Hf).
    exists t. split; [reflexivity|]. split; [exact Hs|].
    rewrite (getTemporaryTexture_found _ _ _ _ _ (front ++ checkedOut t :: back) t).
    + unfold releaseTemporaryTexture, modify. cbn [fst]. rewrite Hp'.
      destruct g; reflexivity.
    + unfold releaseTemporaryTexture, modify.
      cbn [fst temporaryTextures set_temporaryTextures].
      rewrite Hp'. unfold checkedOut. rewrite checkIn_at.
      * apply (findTemporaryTexture_at front back (checkedIn t)); cbn; try lia; assumption.
      * rewrite Hp in Hnd. rewrite Ht. exact (NoDup_front front back e Hnd).
  - rewrite (getTemporaryTexture_new _ _ _ _ _ _ Ef). cbn [fst snd].
    destruct (findTemporaryTexture_none _ _ _ _ _ _ Ef) as [_ Hf].
    set (t := textureAt (heapNext g) format w h samples).
    exists t. split; [reflexivity|]. split; [apply textureAt_shape|].
    rewrite (getTemporaryTexture_found _ _ _ _ _
               (temporaryTextures g ++ checkedOut t :: []) t).
    + unfold releaseTemporaryTexture, modify. cbn [fst]. destruct g; reflexivity.
    + unfold releaseTemporaryTexture, modify.
      cbn [fst temporaryTextures set_temporaryTextures set_calls set_heapNext].
      unfold checkedOut. rewrite checkIn_at.
      * apply (findTemporaryTexture_at (temporaryTextures g) [] (checkedIn t));
          cbn [checkedIn framesSinceUse tt_texture]; try lia; try assumption.
        apply textureAt_shape.
      * eapply Forall_impl; [|exact Hfresh].
        cbn beta. intros a Ha. cbn [t textureAt tex_id]. lia.
Qed.

(** *** Aging *)

Lemma nth_error_middle {A : Type} (l l' : list A) (a : A) :
  nth_error (l ++ a :: l') (length l) = Some a.
Proof. induction l; cbn; auto. Qed.

Lemma assign_middle {A : Type} (l l' : list A) (a x : A) :
  assign (length l) x (l ++ a :: l') = l ++ x :: l'.
Proof. induction l as [|y l IH]; cbn; [reflexivity | now rewrite IH]. Qed.

Lemma last_middle {A : Type} (l l' : list A) (a d : A) :
  last (l ++ a :: l') d = last (a :: l') d.
Proof.
  induction l as [|y l IH]; [reflexivity|].
  cbn [app]. rewrite <- IH. cbn. destruct (l ++ a :: l') eqn:E; [|reflexivity].
  destruct l; discriminate.
Qed.

(** The entry leaves the pool at the next update. *)
Definition evicted (e : TemporaryTexture) : bool :=
  MAX_TEMPORARY_RESOURCE_UNUSED_FRAMES <=? framesSinceUse e.

(** What the update makes of one entry. *)
Definition aged (e : TemporaryTexture) : list TemporaryTexture :=
  if evicted e then []
  else if 0 <=? framesSinceUse e
       then [{| tt_texture := tt_texture e; framesSinceUse := framesSinceUse e + 1 |}]
       else [e].

Definition releases (l : list TemporaryTexture) : list ExternalCall :=
  map (fun e => Call_release (tt_texture e)) (rev (filter evicted l)).

Lemma releases_snoc (l : list TemporaryTexture) (e : TemporaryTexture) :
  releases (l ++ [e])
  = (if evicted e then [Call_release (tt_texture e)] else []) ++ releases l.
Proof.
  unfold releases. rewrite filter_app. cbn [filter].
  destruct (evicted e); [|now rewrite app_nil_r].
  now rewrite rev_app_distr.
Qed.

Lemma swap_remove_perm (e : TemporaryTexture) (bp : list TemporaryTexture) :
  Permutation (removelast (last (e :: bp) e :: bp)) bp.
Proof.
  destruct bp as [|b bp0]; [reflexivity|].
  change (last (e :: b :: bp0) e) with (last (b :: bp0) e).
  change (removelast (last (b :: bp0) e :: b :: bp0))
    with (last (b :: bp0) e :: removelast (b :: bp0)).
  rewrite (app_removelast_last e (l := b :: bp0)) at 3 by discriminate.
  apply Permutation_cons_append.
Qed.

(** The loop of [updateTemporaryResources] over the entries below index
    [n], the entries from [n] on having been visited. *)
Lemma ageTemporaryTextures_effect (n : nat) :
  forall (front visited : list TemporaryTexture) (g : Graphics),
    temporaryTextures g = front ++ visited -> length front = n ->
    exists pool',
      ageTemporaryTextures n g
      = (set_temporaryTextures pool' (set_calls (calls g ++ releases front) g), Returned tt)
      /\ Permutation pool' (flat_map aged front ++ visited).
Proof.
  induction n as [|i IH]; intros front visited g Hp Hl.
  - destruct front; [|discriminate]. exists (temporaryTextures g). cbn. split.
    + rewrite app_nil_r. destruct g; reflexivity.
    + now rewrite Hp.
  - destruct (exists_last (l := front)) as (front' & e & ->);
      [destruct front; discriminate|].
    rewrite length_app in Hl. cbn in Hl. assert (Hi : length front' = i) by lia.
    rewrite <- app_assoc in Hp. cbn [app] in Hp.
    cbn [ageTemporaryTextures]. unfold bind at 1. unfold gets at 1. cbv beta iota zeta.
    rewrite Hp, <- Hi, nth_error_middle.
    rewrite releases_snoc, flat_map_app. cbn [flat_map]. rewrite app_nil_r.
    set (below := flat_map aged front'). unfold aged. destruct (evicted e) eqn:Ev.
    + unfold evicted in Ev. rewrite Ev.
      unfold call. unfold bind at 1. unfold bind at 1. unfold modify at 1 2.
      cbv beta iota zeta.
      cbn [temporaryTextures set_calls set_temporaryTextures calls].
      rewrite last_middle, assign_middle, removelast_app by discriminate.
      match goal with |- context [ageTemporaryTextures _ ?gm] =>
        destruct (IH front' (removelast (last (e :: visited) e :: visited)) gm)
          as (pool' & E & P); [reflexivity | exact Hi | ] end.
      rewrite Hi. rewrite E. exists pool'. split.
      * destruct g; cbn. rewrite <- app_assoc. reflexivity.
      * rewrite P, ?app_nil_r. apply Permutation_app_head. apply swap_remove_perm.
    + unfold evicted in Ev. rewrite Ev. destruct (0 <=? framesSinceUse e) eqn:E0.
      * unfold bind at 1. unfold modify at 1. cbv beta iota zeta.
        rewrite assign_middle.
        match goal with |- context [ageTemporaryTextures _ ?gm] =>
          destruct (IH front' ({| tt_texture := tt_texture e;
                                  framesSinceUse := framesSinceUse e + 1 |} :: visited) gm)
            as (pool' & E & P); [reflexivity | exact Hi | ] end.
        rewrite Hi. rewrite E. exists pool'. split.
        -- cbn [calls set_calls set_temporaryTextures app]. destruct g; reflexivity.
        -- rewrite P, <- app_assoc. reflexivity.
      * unfold bind at 1. unfold ret at 1. cbv beta iota zeta.
        destruct (IH front' (e :: visited) g) as (pool' & E & P); [exact Hp | exact Hi | ].
        rewrite Hi. rewrite E. exists pool'. split; [reflexivity|].
        rewrite P, <- app_assoc. reflexivity.
Qed.

(** [updateTemporaryResources]: every entry is visited once, from the
    last to the first. *)
Lemma updateTemporaryResources_effect (g : Graphics) :
  exists pool',
    updateTemporaryResources g
    = (set_temporaryTextures pool'
         (set_calls (calls g ++ releases (temporaryTextures g)) g), Returned tt)
    /\ Permutation pool' (flat_map aged (temporaryTextures g)).
Proof.
  unfold updateTemporaryResources, bind, gets.
  destruct (ageTemporaryTextures_effect (length (temporaryTextures g))
              (temporaryTextures g) [] g) as (pool' & E & P);
    [now rewrite app_nil_r | reflexivity | ].
  exists pool'. rewrite E. split; [reflexivity|]. now rewrite app_nil_r in P.
Qed.

Lemma aged_iter (k : nat) (e : TemporaryTexture) :
  0 <= framesSinceUse e ->
  framesSinceUse e + Z.of_nat k <= MAX_TEMPORARY_RESOURCE_UNUSED_FRAMES ->
  Nat.iter k (flat_map aged) [e]
  = [{| tt_texture := tt_texture e; framesSinceUse := framesSinceUse e + Z.of_nat k |}].
Proof.
  induction k as [|k IH]; intros H0 Hk.
  - cbn. rewrite Z.add_0_r. now destruct e.
  - change (Nat.iter (S k) (flat_map aged) [e])
      with (flat_map aged (Nat.iter k (flat_map aged) [e])).
    rewrite IH by lia. cbn [flat_map]. unfold aged, evicted.
    cbn [framesSinceUse tt_texture].
    assert ((MAX_TEMPORARY_RESOURCE_UNUSED_FRAMES <=? framesSinceUse e + Z.of_nat k) = false)
      as -> by (apply Z.leb_gt; lia).
    assert ((0 <=? framesSinceUse e + Z.of_nat k) = true) as -> by (apply Z.leb_le; lia).
    cbn [app]. do 2 f_equal. lia.
Qed.

(** Claim C7.  With the textures of the pool distinct objects and a
    threshold that is not negative: acquiring a shape, releasing the
    texture and acquiring the shape again returns the same texture and
    leaves the object as the first acquisition left it, so nothing is
    allocated; the per-frame update visits every entry once, removes and
    releases those whose tag has reached the threshold, adds one to the
    other tags that are not negative and leaves the negative ones; an
    entry released and never reacquired is in the pool after as many
    updates as the threshold and gone after one more; an entry with a
    negative tag is never the one an acquisition returns. *)
Theorem temporaryTexture_lifecycle (g : Graphics) (format : PixelFormat) (w h samples : Z) :
  poolDistinct g ->
  0 <= MAX_TEMPORARY_RESOURCE_UNUSED_FRAMES ->
  let g1 := fst (getTemporaryTexture format w h samples g) in
  let pool := temporaryTextures g in
  (exists t,
     snd (getTemporaryTexture format w h samples g) = Returned t
     /\ shapeMatches t format w h samples = true
     /\ getTemporaryTexture format w h samples (fst (releaseTemporaryTexture t g1))
        = (g1, Returned t))
  /\ (exists pool',
        updateTemporaryResources g
        = (set_temporaryTextures pool' (set_calls (calls g ++ releases pool) g), Returned tt)
        /\ Permutation pool' (flat_map aged pool))
  /\ (forall e, In e pool ->
        (MAX_TEMPORARY_RESOURCE_UNUSED_FRAMES <= framesSinceUse e ->
         aged e = [] /\ In (Call_release (tt_texture e)) (releases pool))
        /\ (0 <= framesSinceUse e < MAX_TEMPORARY_RESOURCE_UNUSED_FRAMES ->
            aged e = [{| tt_texture := tt_texture e;
                         framesSinceUse := framesSinceUse e + 1 |}])
        /\ (framesSinceUse e < 0 -> aged e = [e]))
  /\ (forall t,
        Nat.iter (Z.to_nat MAX_TEMPORARY_RESOURCE_UNUSED_FRAMES) (flat_map aged) [checkedIn t]
        = [{| tt_texture := t; framesSinceUse := MAX_TEMPORARY_RESOURCE_UNUSED_FRAMES |}]
        /\ flat_map aged
             [{| tt_texture := t; framesSinceUse := MAX_TEMPORARY_RESOURCE_UNUSED_FRAMES |}]
           = [])
  /\ (forall pool' t,
        findTemporaryTexture pool format w h samples = (pool', Some t) ->
        exists e, In e pool /\ tt_texture e = t /\ 0 <= framesSinceUse e).
Proof.
  intros Hd Hmax. cbv zeta.
  split; [exact (getTemporaryTexture_again g format w h samples Hd)|].
  split; [apply updateTemporaryResources_effect|].
  split; [|split].
  - intros e He. unfold aged, evicted. split; [|split].
    + intros H. assert ((MAX_TEMPORARY_RESOURCE_UNUSED_FRAMES <=? framesSinceUse e) = true)
        as E by (apply Z.leb_le; lia).
      rewrite E. split; [reflexivity|].
      unfold releases. apply (in_map (fun e => Call_release (tt_texture e))).
      apply -> in_rev. apply filter_In. split; [exact He | exact E].
    + intros H. assert ((MAX_TEMPORARY_RESOURCE_UNUSED_FRAMES <=? framesSinceUse e) = false)
        as -> by (apply Z.leb_gt; lia).
      assert ((0 <=? framesSinceUse e) = true) as -> by (apply Z.leb_le; lia).
      reflexivity.
    + intros H. assert ((MAX_TEMPORARY_RESOURCE_UNUSED_FRAMES <=? framesSinceUse e) = false)
        as -> by (apply Z.leb_gt; lia).
      assert ((0 <=? framesSinceUse e) = false) as -> by (apply Z.leb_gt; lia).
      reflexivity.
  - intros t. split.
    + rewrite (aged_iter _ (checkedIn t)); cbn [checkedIn framesSinceUse tt_texture]; try lia.
      do 2 f_equal. lia.
    + cbn [flat_map]. unfold aged, evicted. cbn [framesSinceUse].
      now rewrite Z.leb_refl.
  - intros pool' t Hfind.
    destruct (findTemporaryTexture_found _ _ _ _ _ _ _ Hfind)
      as (front & e & back & Hp & Ht & He & _).
    exists e. split; [rewrite Hp; apply in_or_app; right; now left | auto].
Qed.

(** ** Scissor intersection *)

Definition INT_MAX : Z := 2147483647.

(** The rectangle in force: the scissor rectangle, or everything from the
    origin on when the scissor is off. *)
Definition currentScissor (state : DisplayState) : Rect :=
  if scissor state then scissorRect state
  else {| rect_x := 0; rect_y := 0; rect_w := INT_MAX; rect_h := INT_MAX |}.

(** [newrect] of [intersectScissor]. *)
Definition intersectedScissor (state : DisplayState) (rect : Rect) : Rect :=
  let currect := currentScissor state in
  let x1 := Z.max (rect_x currect) (rect_x rect) in
  let y1 := Z.max (rect_y currect) (rect_y rect) in
  let x2 := Z.min (rect_x currect + rect_w currect) (rect_x rect + rect_w rect) in
  let y2 := Z.min (rect_y currect + rect_h currect) (rect_y rect + rect_h rect) in
  {| rect_x := x1; rect_y := y1; rect_w := Z.max 0 (x2 - x1); rect_h := Z.max 0 (y2 - y1) |}.

Definition intersectScissor (rect : Rect) : M unit :=
  state <- gets back ;;
  setScissor (intersectedScissor state rect).

(** The pixel lies in the rectangle. *)
Definition insideRect (r : Rect) (px py : Z) : Prop :=
  rect_x r <= px < rect_x r + rect_w r /\ rect_y r <= py < rect_y r + rect_h r.

(** An [int] value. *)
Definition isInt (z : Z) : Prop := - 2 ^ 31 <= z <= INT_MAX.

(** No sum or difference that [intersectScissor] computes leaves the range
    of [int]. *)
Definition intersectionFits (state : DisplayState) (rect : Rect) : Prop :=
  let currect := currentScissor state in
  let x1 := Z.max (rect_x currect) (rect_x rect) in
  let y1 := Z.max (rect_y currect) (rect_y rect) in
  let x2 := Z.min (rect_x currect + rect_w currect) (rect_x rect + rect_w rect) in
  let y2 := Z.min (rect_y currect + rect_h currect) (rect_y rect + rect_h rect) in
  isInt (rect_x currect + rect_w currect) /\ isInt (rect_y currect + rect_h currect)
  /\ isInt (rect_x rect + rect_w rect) /\ isInt (rect_y rect + rect_h rect)
  /\ isInt (x2 - x1) /\ isInt (y2 - y1).

(** What a setter of the shape "flush when the value changes, tell the
    backend, store" leaves on the stack of display states. *)
Definition topEffect {A : Type} (f : DisplayState -> DisplayState) (m : M A) : Prop :=
  forall g st below,
    states g = st :: below ->
    states (fst (m g)) = f st :: below /\ exists a, snd (m g) = Returned a.

Lemma topEffect_ret {A : Type} (a : A) : topEffect (fun st => st) (ret a).
Proof. intros g st below H. split; [exact H | now exists a]. Qed.

Lemma topEffect_gets {A : Type} (f : Graphics -> A) : topEffect (fun st => st) (gets f).
Proof. intros g st below H. split; [exact H | now exists (f g)]. Qed.

Lemma topEffect_bind {A B : Type} (f h : DisplayState -> DisplayState)
    (m : M A) (k : A -> M B) :
  topEffect f m -> (forall a, topEffect h (k a)) ->
  topEffect (fun st => h (f st)) (bind m k).
Proof.
  intros Hm Hk g st below H. unfold bind.
  destruct (Hm g st below H) as [Hs [a Ha]].
  destruct (m g) as [g1 r1]. cbn in *. subst r1.
  apply (Hk a g1 (f st) below Hs).
Qed.

Lemma topEffect_ext {A : Type} (f h : DisplayState -> DisplayState) (m : M A) :
  (forall st, f st = h st) -> topEffect f m -> topEffect h m.
Proof.
  intros E Hm g st below H. destruct (Hm g st below H) as [Hs Hr].
  rewrite <- E. auto.
Qed.

Lemma topEffect_flushBatchedDraws : topEffect (fun st => st) flushBatchedDraws.
Proof.
  intros g st below H.
  destruct (flushBatchedDraws_sameObject g) as (_ & _ & _ & _ & Hs & _).
  split; [congruence | exists tt; apply flushBatchedDraws_returns].
Qed.

Lemma topEffect_when (c : bool) (m : M unit) :
  topEffect (fun st => st) m -> topEffect (fun st => st) (when c m).
Proof. intros Hm. destruct c; [exact Hm | apply topEffect_ret]. Qed.

Lemma topEffect_call (c : ExternalCall) : topEffect (fun st => st) (call c).
Proof. intros g st below H. split; [exact H | now exists tt]. Qed.

Lemma topEffect_modify_back (f : DisplayState -> DisplayState) :
  topEffect f (modify_back f).
Proof.
  intros g st below H. unfold modify_back, modify. cbn. rewrite H.
  split; [reflexivity | now exists tt].
Qed.

(** The shape shared by the setters the backend implements. *)
Lemma topEffect_setter (changed : DisplayState -> bool) (c : ExternalCall)
    (f : DisplayState -> DisplayState) :
  topEffect f (cur <- gets back ;;
               when (changed cur) flushBatchedDraws ;;
               call c ;;
               modify_back f).
Proof.
  apply (topEffect_bind (fun st => st) f); [apply topEffect_gets | intros cur].
  apply (topEffect_bind (fun st => st) f);
    [apply topEffect_when, topEffect_flushBatchedDraws | intros _].
  apply (topEffect_bind (fun st => st) f); [apply topEffect_call | intros _].
  apply topEffect_modify_back.
Qed.

Lemma topEffect_setScissor (rect : Rect) :
  topEffect (fun st => ds_set_scissorRect rect (ds_set_scissor true st)) (setScissor rect).
Proof.
  exact (topEffect_setter
           (fun cur => negb (scissor cur && Rect_eqb rect (scissorRect cur))) _ _).
Qed.

(** The extent of the overlap of two spans in one dimension. *)
Definition spanLength (c cw r rw : Z) : Z :=
  Z.max 0 (Z.min (c + cw) (r + rw) - Z.max c r).

Lemma span_inside (c cw r rw p : Z) :
  Z.max c r <= p < Z.max c r + spanLength c cw r rw
  <-> (c <= p < c + cw) /\ (r <= p < r + rw).
Proof. unfold spanLength. lia. Qed.

Lemma span_length_comm (c cw a aw b bw : Z) :
  spanLength (Z.max c a) (spanLength c cw a aw) b bw
  = spanLength (Z.max c b) (spanLength c cw b bw) a aw.
Proof.
  unfold spanLength.
  destruct (Z.max_spec c a) as [[? ->]|[? ->]];
  destruct (Z.max_spec c b) as [[? ->]|[? ->]];
  destruct (Z.min_spec (c + cw) (a + aw)) as [[? ->]|[? ->]];
  destruct (Z.min_spec (c + cw) (b + bw)) as [[? ->]|[? ->]]; lia.
Qed.

Lemma span_length_idem (c cw a aw : Z) :
  spanLength (Z.max c a) (spanLength c cw a aw) a aw = spanLength c cw a aw.
Proof.
  unfold spanLength.
  destruct (Z.max_spec c a) as [[? ->]|[? ->]];
  destruct (Z.min_spec (c + cw) (a + aw)) as [[? ->]|[? ->]]; lia.
Qed.

Lemma intersectedScissor_spans (state : DisplayState) (rect : Rect) :
  intersectedScissor state rect
  = {| rect_x := Z.max (rect_x (currentScissor state)) (rect_x rect);
       rect_y := Z.max (rect_y (currentScissor state)) (rect_y rect);
       rect_w := spanLength (rect_x (currentScissor state)) (rect_w (currentScissor state))
                            (rect_x rect) (rect_w rect);
       rect_h := spanLength (rect_y (currentScissor state)) (rect_h (currentScissor state))
                            (rect_y rect) (rect_h rect) |}.
Proof. reflexivity. Qed.

Lemma intersectedScissor_inside (state : DisplayState) (rect : Rect) (px py : Z) :
  insideRect (intersectedScissor state rect) px py
  <-> insideRect (currentScissor state) px py /\ insideRect rect px py.
Proof.
  rewrite intersectedScissor_spans. unfold insideRect. cbn [rect_x rect_y rect_w rect_h].
  rewrite !span_inside. tauto.
Qed.

Lemma currentScissor_stored (r : Rect) (st : DisplayState) :
  currentScissor (ds_set_scissorRect r (ds_set_scissor true st)) = r.
Proof. reflexivity. Qed.

(** X12.  [intersectScissor] sets the intersection.  As long as no sum or
    difference it computes overflows an [int], the rectangle it hands to
    [setScissor] has a width and a height that are not negative and holds
    exactly the pixels that lie both in [rect] and in the rectangle in
    force, which is the current scissor rectangle or, with the scissor
    off, the quadrant from the origin up to [INT_MAX]. *)
Theorem intersectScissor_intersection (g : Graphics) (rect : Rect) :
  intersectionFits (back g) rect ->
  let newrect := intersectedScissor (back g) rect in
  intersectScissor rect g = setScissor newrect g
  /\ 0 <= rect_w newrect /\ 0 <= rect_h newrect
  /\ isInt (rect_w newrect) /\ isInt (rect_h newrect)
  /\ (forall px py,
        insideRect newrect px py
        <-> insideRect (currentScissor (back g)) px py /\ insideRect rect px py)
  /\ (scissor (back g) = false ->
      forall px py,
        insideRect newrect px py
        <-> 0 <= px < INT_MAX /\ 0 <= py < INT_MAX /\ insideRect rect px py).
Proof.
  intros Hfit newrect.
  split; [reflexivity|].
  subst newrect. unfold intersectedScissor at 1 2 3 4. cbn [rect_w rect_h].
  split; [lia|]. split; [lia|].
  split; [|split; [|split]].
  - destruct Hfit as (_ & _ & _ & _ & H & _). unfold isInt, INT_MAX in *. lia.
  - destruct Hfit as (_ & _ & _ & _ & _ & H). unfold isInt, INT_MAX in *. lia.
  - intros px py. apply intersectedScissor_inside.
  - intros Hoff px py. rewrite intersectedScissor_inside.
    unfold currentScissor. rewrite Hoff. unfold insideRect, INT_MAX.
    cbn [rect_x rect_y rect_w rect_h]. lia.
Qed.


(** ** Queries on the bound render targets *)

(** [getRenderTargets]: a copy, attachment by attachment, of the set in the
    top display state. *)
Definition getRenderTargets (g : Graphics) : RenderTargets :=
  let curRTs := renderTargets (back g) in
  {| colors := map (fun rt => {| ct_texture := ct_texture rt; ct_slice := ct_slice rt;
                                 ct_mipmap := ct_mipmap rt |}) (colors curRTs);
     depthStencil := {| rt_texture := rt_texture (depthStencil curRTs);
                        rt_slice := rt_slice (depthStencil curRTs);
                        rt_mipmap := rt_mipmap (depthStencil curRTs) |};
     temporaryRTFlags := temporaryRTFlags curRTs |}.

(** [isRenderTargetActive (Texture *texture)]. *)
Definition isRenderTargetActive_texture (texture : option Texture) (g : Graphics) : bool :=
  let rts := renderTargets (back g) in
  existsb (fun rt => Texture_ptr_eqb (Some (ct_texture rt)) texture) (colors rts)
  || Texture_ptr_eqb (rt_texture (depthStencil rts)) texture.

(** [isRenderTargetActive (Texture *texture, int slice)]. *)
Definition isRenderTargetActive_slice (texture : option Texture) (slice : Z) (g : Graphics)
    : bool :=
  let rts := renderTargets (back g) in
  existsb (fun rt => Texture_ptr_eqb (Some (ct_texture rt)) texture
                     && (ct_slice rt =? slice)) (colors rts)
  || (Texture_ptr_eqb (rt_texture (depthStencil rts)) texture
      && (rt_slice (depthStencil rts) =? slice)).

(** The stack of display states is the same. *)
Definition sameStates (g g' : Graphics) : Prop := states g' = states g.

Lemma sameStates_refl (g : Graphics) : sameStates g g.
Proof. reflexivity. Qed.

Lemma sameStates_trans (g1 g2 g3 : Graphics) :
  sameStates g1 g2 -> sameStates g2 g3 -> sameStates g1 g3.
Proof. unfold sameStates. congruence. Qed.

Lemma sameStates_flushBatchedDraws : keeps sameStates flushBatchedDraws.
Proof.
  intros g. destruct (flushBatchedDraws_sameObject g) as (_ & _ & _ & _ & Hs & _).
  exact Hs.
Qed.

Ltac sameStates_step :=
  first
    [ apply (keeps_ret sameStates sameStates_refl)
    | apply (keeps_throw sameStates sameStates_refl)
    | apply (keeps_gets sameStates sameStates_refl)
    | apply sameStates_flushBatchedDraws
    | apply (keeps_when sameStates sameStates_refl)
    | apply (keeps_bind sameStates sameStates_trans); [ | intro ]
    | match goal with
      | |- keeps _ (if ?b then _ else _) => destruct b
      | |- keeps _ (match ?x with _ => _ end) => destruct x
      | |- keeps _ (let _ := _ in _) => cbv zeta
      | |- keeps _ (modify _) => let g := fresh "g" in intros g; reflexivity
      | |- keeps _ (call _) => unfold call
      end ].

Ltac sameStates_tac := repeat sameStates_step.

Lemma sameStates_getTemporaryTexture (format : PixelFormat) (w h samples : Z) :
  keeps sameStates (getTemporaryTexture format w h samples).
Proof.
  unfold getTemporaryTexture.
  apply (keeps_bind sameStates sameStates_trans); [sameStates_tac | intros pool].
  destruct (findTemporaryTexture pool format w h samples) as [pool' found].
  unfold newTexture. sameStates_tac.
Qed.

Lemma sameStates_internalTargets (rts : RenderTargets) (firsttex : Texture) :
  keeps sameStates (internalTargets rts firsttex).
Proof.
  unfold internalTargets, setRenderTargetsInternal, releaseTemporaryTexture.
  cbv zeta. destruct (temporaryTargets rts); [|sameStates_tac].
  apply (keeps_bind sameStates sameStates_trans); [apply sameStates_getTemporaryTexture | intro].
  sameStates_tac.
Qed.

Lemma topEffect_frame {A : Type} (m : M A) :
  keeps sameStates m -> returns m -> topEffect (fun st => st) m.
Proof.
  intros Hk Hr g st below H. split; [|apply Hr].
  rewrite <- H. apply Hk.
Qed.

Lemma topEffect_resetProjection :
  topEffect (ds_set_useCustomProjection false) resetProjection.
Proof.
  unfold resetProjection, updateDeviceProjection.
  apply (topEffect_bind (fun st => st) (ds_set_useCustomProjection false));
    [apply topEffect_flushBatchedDraws | intros _].
  apply (topEffect_bind (fun st => st) (ds_set_useCustomProjection false));
    [apply topEffect_gets | intros state].
  apply (topEffect_bind (fun st => st) (ds_set_useCustomProjection false));
    [apply topEffect_gets | intros w0].
  apply (topEffect_bind (fun st => st) (ds_set_useCustomProjection false));
    [apply topEffect_gets | intros h0].
  cbv zeta.
  apply (topEffect_bind (ds_set_useCustomProjection false) (fun st => st));
    [apply topEffect_modify_back | intros _].
  apply topEffect_frame; [sameStates_tac | returns_tac].
Qed.

(** The top display state after the switch to the screen has started. *)
Definition onScreen (st : DisplayState) : DisplayState :=
  ds_set_useCustomProjection false (ds_set_renderTargets RenderTargets_empty st).

(** The set has no attachment. *)
Definition noTargets (rts : RenderTargets) : bool :=
  match colors rts with [] => true | _ :: _ => false end
  && Texture_ptr_eqb (rt_texture (depthStencil rts)) None.

Lemma setRenderTarget_screen_top (g : Graphics) (st : DisplayState)
    (below : list DisplayState) :
  states g = st :: below ->
  states (fst (setRenderTarget_screen g))
  = (if noTargets (renderTargets st) then st else onScreen st) :: below.
Proof.
  intros H. unfold setRenderTarget_screen, bind at 1, gets at 1. cbv beta iota zeta.
  unfold back at 1 2. rewrite H. cbn [hd fst snd]. fold (noTargets (renderTargets st)).
  destruct (noTargets (renderTargets st)); [exact H|].
  match goal with |- states (fst (?m g)) = _ => assert (T : topEffect onScreen m) end;
    [|apply (T g st below H)].
  unfold onScreen, setRenderTargetsInternal.
  apply (topEffect_bind (fun st => st)
           (fun st => ds_set_useCustomProjection false
                        (ds_set_renderTargets RenderTargets_empty st)));
    [apply topEffect_flushBatchedDraws | intros _].
  apply (topEffect_bind (fun st => st)
           (fun st => ds_set_useCustomProjection false
                        (ds_set_renderTargets RenderTargets_empty st)));
    [apply topEffect_gets | intros pw].
  apply (topEffect_bind (fun st => st)
           (fun st => ds_set_useCustomProjection false
                        (ds_set_renderTargets RenderTargets_empty st)));
    [apply topEffect_gets | intros ph].
  apply (topEffect_bind (fun st => st)
           (fun st => ds_set_useCustomProjection false
                        (ds_set_renderTargets RenderTargets_empty st)));
    [apply topEffect_gets | intros gamma].
  apply (topEffect_bind (fun st => st)
           (fun st => ds_set_useCustomProjection false
                        (ds_set_renderTargets RenderTargets_empty st)));
    [apply topEffect_call | intros _].
  apply (topEffect_bind (ds_set_renderTargets RenderTargets_empty)
           (ds_set_useCustomProjection false));
    [apply topEffect_modify_back | intros _].
  apply (topEffect_bind (fun st => st) (ds_set_useCustomProjection false));
    [apply topEffect_frame; [sameStates_tac | returns_tac] | intros _].
  apply topEffect_resetProjection.
Qed.

Lemma bindRenderTargets_top (rts : RenderTargets) (firsttex : Texture) :
  topEffect (fun st => ds_set_useCustomProjection false
                         (ds_set_renderTargets (storedTargets rts) st))
    (flushBatchedDraws ;; bindRenderTargets rts firsttex).
Proof.
  unfold bindRenderTargets.
  apply (topEffect_bind (fun st => st)
           (fun st => ds_set_useCustomProjection false
                        (ds_set_renderTargets (storedTargets rts) st)));
    [apply topEffect_flushBatchedDraws | intros _].
  apply (topEffect_bind (fun st => st)
           (fun st => ds_set_useCustomProjection false
                        (ds_set_renderTargets (storedTargets rts) st)));
    [apply topEffect_frame;
       [apply sameStates_internalTargets | apply returns_internalTargets] | intros _].
  apply (topEffect_bind (ds_set_renderTargets (storedTargets rts))
           (ds_set_useCustomProjection false));
    [apply topEffect_modify_back | intros _].
  apply (topEffect_bind (fun st => st) (ds_set_useCustomProjection false));
    [apply topEffect_frame; [sameStates_tac | returns_tac] | intros _].
  apply (topEffect_bind (ds_set_useCustomProjection false) (fun st => st));
    [apply topEffect_resetProjection | intros _].
  apply topEffect_when, topEffect_call.
Qed.

Lemma RenderTarget_neb_refl (x : RenderTarget) : RenderTarget_neb x x = false.
Proof.
  unfold RenderTarget_neb. now rewrite Texture_ptr_eqb_refl, !Z.eqb_refl.
Qed.

Lemma colorsDiffer_refl (l : list ColorTarget) : colorsDiffer l l = false.
Proof.
  induction l as [|x l IH]; cbn; [reflexivity|].
  now rewrite RenderTarget_neb_refl, IH.
Qed.

Lemma sameTargets_refl (rts : RenderTargets) : sameTargets rts rts = true.
Proof.
  unfold sameTargets, sameSize, targetsModified.
  now rewrite Nat.eqb_refl, colorsDiffer_refl, RenderTarget_neb_refl, Z.eqb_refl.
Qed.

Lemma getRenderTargets_copy (g : Graphics) : getRenderTargets g = renderTargets (back g).
Proof.
  unfold getRenderTargets. cbv zeta.
  destruct (renderTargets (back g)) as [cs [t s m] flags]. cbn. f_equal.
  induction cs as [|[t0 s0 m0] cs IH]; cbn; [reflexivity|]. now rewrite IH.
Qed.

Lemma noTargets_first (rts : RenderTargets) :
  rt_texture (getFirstTarget rts) = None -> noTargets rts = true.
Proof.
  unfold getFirstTarget, noTargets. destruct (colors rts); cbn; [|discriminate].
  intros ->. reflexivity.
Qed.

(** X14.  Reading the bound render targets and setting them again does
    nothing.  [getRenderTargets] returns the set of the top display state,
    and [setRenderTargets] of that set leaves the object as it is: no
    flush, no call to the backend, no count of a switch. *)
Theorem getRenderTargets_roundtrip (g : Graphics) :
  getRenderTargets g = renderTargets (back g)
  /\ setRenderTargets (getRenderTargets g) g = (g, Returned tt).
Proof.
  split; [apply getRenderTargets_copy|].
  rewrite getRenderTargets_copy.
  destruct (rt_texture (getFirstTarget (renderTargets (back g)))) as [firsttex|] eqn:F.
  - apply (setRenderTargets_same g _ firsttex F). apply sameTargets_refl.
  - unfold setRenderTargets, bind at 1, gets at 1. cbv beta iota zeta. rewrite F.
    unfold setRenderTarget_screen, bind at 1, gets at 1. cbv beta iota zeta.
    fold (noTargets (renderTargets (back g))). now rewrite (noTargets_first _ F).
Qed.

(** The texture is one of the attachments of the set. *)
Definition attached (t : Texture) (rts : RenderTargets) : Prop :=
  (exists c, In c (colors rts) /\ tex_id (ct_texture c) = tex_id t)
  \/ (exists d, rt_texture (depthStencil rts) = Some d /\ tex_id d = tex_id t).

(** The slice of the texture is one of the attachments of the set. *)
Definition attachedSlice (t : Texture) (slice : Z) (rts : RenderTargets) : Prop :=
  (exists c, In c (colors rts) /\ tex_id (ct_texture c) = tex_id t /\ ct_slice c = slice)
  \/ (exists d, rt_texture (depthStencil rts) = Some d /\ tex_id d = tex_id t
                /\ rt_slice (depthStencil rts) = slice).

Lemma active_texture_iff (t : Texture) (g : Graphics) :
  isRenderTargetActive_texture (Some t) g = true <-> attached t (renderTargets (back g)).
Proof.
  unfold isRenderTargetActive_texture, attached. cbv zeta.
  rewrite orb_true_iff, existsb_exists. split.
  - intros [(c & Hin & Hc)|Hd].
    + left. exists c. split; [exact Hin|]. cbn in Hc. now apply Pos.eqb_eq.
    + right. destruct (rt_texture (depthStencil (renderTargets (back g)))) as [d|];
        [|discriminate]. exists d. split; [reflexivity|]. now apply Pos.eqb_eq.
  - intros [(c & Hin & Hc)|(d & Hd & Hi)].
    + left. exists c. split; [exact Hin|]. cbn. now apply Pos.eqb_eq.
    + right. rewrite Hd. cbn. now apply Pos.eqb_eq.
Qed.

Lemma active_slice_iff (t : Texture) (slice : Z) (g : Graphics) :
  isRenderTargetActive_slice (Some t) slice g = true
  <-> attachedSlice t slice (renderTargets (back g)).
Proof.
  unfold isRenderTargetActive_slice, attachedSlice. cbv zeta.
  rewrite orb_true_iff, existsb_exists. split.
  - intros [(c & Hin & Hc)|Hd].
    + left. exists c. apply andb_true_iff in Hc. destruct Hc as [Hc Hs].
      split; [exact Hin|]. cbn in Hc. split; [now apply Pos.eqb_eq | now apply Z.eqb_eq].
    + right. apply andb_true_iff in Hd. destruct Hd as [Hd Hs].
      destruct (rt_texture (depthStencil (renderTargets (back g)))) as [d|];
        [|discriminate]. exists d. split; [reflexivity|].
      split; [now apply Pos.eqb_eq | now apply Z.eqb_eq].
  - intros [(c & Hin & Hc & Hs)|(d & Hd & Hi & Hs)].
    + left. exists c. split; [exact Hin|]. apply andb_true_iff.
      split; [cbn; now apply Pos.eqb_eq | now apply Z.eqb_eq].
    + right. rewrite Hd. apply andb_true_iff.
      split; [cbn; now apply Pos.eqb_eq | now apply Z.eqb_eq].
Qed.

(** X15.  Which textures are reported as render targets.  On an object
    with a display state: after [setRenderTarget ()] no render target is
    active and no texture is reported active, with or without a slice,
    while the null pointer is; after a [setRenderTargets] that passes the
    validation a render target is active, and a texture is reported active
    exactly when it is one of the color attachments or the depth/stencil
    attachment that was passed in, so a temporary depth/stencil texture is
    never reported. *)
Theorem isRenderTargetActive_bound (g : Graphics) (rts : RenderTargets)
    (firsttex : Texture) :
  states g <> [] ->
  (let g' := fst (setRenderTarget_screen g) in
   isRenderTargetActive g' = false
   /\ (forall t, isRenderTargetActive_texture (Some t) g' = false)
   /\ (forall t slice, isRenderTargetActive_slice (Some t) slice g' = false)
   /\ isRenderTargetActive_texture None g' = true)
  /\ (rt_texture (getFirstTarget rts) = Some firsttex ->
      sameTargets rts (renderTargets (back g)) = false ->
      checkRenderTargets (capabilities g) rts (getFirstTarget rts) firsttex = None ->
      let g' := fst (setRenderTargets rts g) in
      isRenderTargetActive g' = true
      /\ (forall t, isRenderTargetActive_texture (Some t) g' = true <-> attached t rts)
      /\ (forall t slice,
            isRenderTargetActive_slice (Some t) slice g' = true
            <-> attachedSlice t slice rts)).
Proof.
  intros Hne. destruct (states g) as [|st below] eqn:Hst; [contradiction|]. clear Hne.
  split.
  - cbv zeta. pose proof (setRenderTarget_screen_top g st below Hst) as H.
    assert (Hn : noTargets (renderTargets (back (fst (setRenderTarget_screen g)))) = true).
    { unfold back. rewrite H. cbn [hd].
      destruct (noTargets (renderTargets st)) eqn:E; [exact E | reflexivity]. }
    unfold noTargets in Hn. apply andb_true_iff in Hn. destruct Hn as [Hc Hd].
    unfold isRenderTargetActive, isRenderTargetActive_texture, isRenderTargetActive_slice.
    cbv zeta.
    destruct (colors (renderTargets (back (fst (setRenderTarget_screen g)))));
      [|discriminate].
    destruct (rt_texture
                (depthStencil (renderTargets (back (fst (setRenderTarget_screen g))))));
      [discriminate|].
    repeat split; reflexivity.
  - intros Hf Hs Hc. cbv zeta.
    rewrite (setRenderTargets_valid g rts firsttex Hf Hs Hc).
    destruct (bindRenderTargets_top rts firsttex g st below Hst) as [H _].
    assert (Hr : renderTargets
                   (back (fst ((flushBatchedDraws ;; bindRenderTargets rts firsttex) g)))
                 = storedTargets rts).
    { unfold back. rewrite H. reflexivity. }
    split; [|split].
    + unfold isRenderTargetActive. rewrite Hr. unfold storedTargets. cbn.
      unfold getFirstTarget in Hf. destruct (colors rts); [|reflexivity].
      rewrite Hf. reflexivity.
    + intros t. rewrite active_texture_iff, Hr. reflexivity.
    + intros t slice. rewrite active_slice_iff, Hr. reflexivity.
Qed.

(** ** restoreState and reset *)

(** [restoreState (const DisplayState &s)], for a state [s] that is not the
    top display state itself, as in [reset]. *)
Definition restoreState (s : DisplayState) : M unit :=
  setColor (color s) ;;
  setBackgroundColor (backgroundColor s) ;;
  setBlendState (blend s) ;;
  setLineWidth (lineWidth s) ;;
  setLineStyle (lineStyle s) ;;
  setLineJoin (lineJoin s) ;;
  setPointSize (pointSize s) ;;
  (if scissor s then setScissor (scissorRect s) else setScissor_off) ;;
  setMeshCullMode (meshCullMode s) ;;
  setFrontFaceWinding (winding s) ;;
  setFont (font s) ;;
  setShader (shader s) ;;
  setRenderTargets (renderTargets s) ;;
  setStencilMode (stencil_action (stencil s)) (stencil_compare (stencil s))
                 (stencil_value (stencil s)) (stencil_readMask (stencil s))
                 (stencil_writeMask (stencil s)) ;;
  setDepthMode (depthTest s) (depthWrite s) ;;
  setColorMask (colorMask s) ;;
  setWireframe (wireframe s) ;;
  setDefaultSamplerState (defaultSamplerState s) ;;
  if useCustomProjection s then updateDeviceProjection (customProjection s)
  else resetProjection.

(** [origin]: the top transform becomes the identity and the top pixel
    scale 1. *)
Definition origin : M unit :=
  modify (fun g => set_transformStack
                     (match transformStack g with
                      | _ :: rest => Matrix4_identity :: rest
                      | [] => []
                      end) g) ;;
  modify (fun g => set_pixelScaleStack
                     (match pixelScaleStack g with
                      | _ :: rest => float_1 :: rest
                      | [] => []
                      end) g).

Definition reset : M unit :=
  restoreState DisplayState_new ;;
  origin.

Lemma topEffect_setColor (c : Colorf) : topEffect (ds_set_color c) (setColor c).
Proof.
  unfold setColor.
  apply (topEffect_bind (fun st => st) (ds_set_color c));
    [apply topEffect_call | intros _; apply topEffect_modify_back].
Qed.

Lemma topEffect_setShader (sh : option Shader) :
  topEffect (ds_set_shader sh) (setShader sh).
Proof.
  unfold setShader, attachDefault, attach. destruct sh as [sh|].
  - apply (topEffect_bind (fun st => st) (ds_set_shader (Some sh)));
      [apply topEffect_frame; [sameStates_tac | returns_tac; apply returns_call]
      | intros _; apply topEffect_modify_back].
  - apply (topEffect_bind (fun st => st) (ds_set_shader None));
      [apply topEffect_frame; [sameStates_tac | returns_tac; apply returns_call]
      | intros _; apply topEffect_modify_back].
Qed.

Lemma topEffect_setRenderTarget_screen :
  topEffect (fun st => if noTargets (renderTargets st) then st else onScreen st)
    setRenderTarget_screen.
Proof.
  intros g st below H. split.
  - now apply setRenderTarget_screen_top.
  - apply returns_setRenderTarget_screen.
Qed.

Lemma setRenderTargets_screen (rts : RenderTargets) :
  rt_texture (getFirstTarget rts) = None ->
  setRenderTargets rts = setRenderTarget_screen.
Proof.
  intros H. unfold setRenderTargets. cbv zeta. rewrite H. reflexivity.
Qed.

(** The top display state after [restoreState s] on the top state [st],
    for a state [s] that renders to the screen: the fields of [s], but the
    scissor rectangle of [st] when [s] has the scissor off, the render
    targets without attachment, the custom projection of [st], and a
    custom-projection flag that is never raised. *)
Definition restoredTop (s st : DisplayState) : DisplayState :=
  {| color := color s;
     backgroundColor := backgroundColor s;
     blend := blend s;
     lineWidth := lineWidth s;
     lineStyle := lineStyle s;
     lineJoin := lineJoin s;
     pointSize := pointSize s;
     scissor := scissor s;
     scissorRect := if scissor s then scissorRect s else scissorRect st;
     meshCullMode := meshCullMode s;
     winding := winding s;
     font := font s;
     shader := shader s;
     renderTargets := if noTargets (renderTargets st) then renderTargets st
                      else RenderTargets_empty;
     stencil := stencil s;
     depthTest := depthTest s;
     depthWrite := depthWrite s;
     colorMask := colorMask s;
     wireframe := wireframe s;
     defaultSamplerState := defaultSamplerState s;
     useCustomProjection := useCustomProjection s && noTargets (renderTargets st)
                            && useCustomProjection st;
     customProjection := customProjection st |}.

(** The setters of [restoreState] before and after [setRenderTargets]. *)
Definition restoreBefore (s st : DisplayState) : DisplayState :=
  ds_set_shader (shader s)
    (ds_set_font (font s)
       (ds_set_winding (winding s)
          (ds_set_meshCullMode (meshCullMode s)
             ((if scissor s
               then fun st => ds_set_scissorRect (scissorRect s) (ds_set_scissor true st)
               else ds_set_scissor false)
                (ds_set_pointSize (pointSize s)
                   (ds_set_lineJoin (lineJoin s)
                      (ds_set_lineStyle (lineStyle s)
                         (ds_set_lineWidth (lineWidth s)
                            (ds_set_blend (blend s)
                               (ds_set_backgroundColor (backgroundColor s)
                                  (ds_set_color (color s) st))))))))))).

Definition restoreAfter (s st : DisplayState) : DisplayState :=
  (if useCustomProjection s then fun st => st else ds_set_useCustomProjection false)
    (ds_set_defaultSamplerState (defaultSamplerState s)
       (ds_set_wireframe (wireframe s)
          (ds_set_colorMask (colorMask s)
             (ds_set_depthWrite (depthWrite s)
                (ds_set_depthTest (depthTest s)
                   (ds_set_stencil
                      {| stencil_action := stencil_action (stencil s);
                         stencil_compare := stencil_compare (stencil s);
                         stencil_value := stencil_value (stencil s);
                         stencil_readMask := stencil_readMask (stencil s);
                         stencil_writeMask := stencil_writeMask (stencil s) |} st)))))).

Ltac topEffect_next f h lemma :=
  apply (topEffect_bind f h); [lemma | intros _].

Lemma topEffect_restoreState (s : DisplayState) :
  rt_texture (getFirstTarget (renderTargets s)) = None ->
  topEffect (fun st =>
               restoreAfter s
                 ((fun st => if noTargets (renderTargets st) then st else onScreen st)
                    (restoreBefore s st)))
    (restoreState s).
Proof.
  intros Hscreen. unfold restoreState. rewrite (setRenderTargets_screen _ Hscreen).
  unfold restoreBefore, restoreAfter.
  unfold setBackgroundColor, setLineWidth, setLineStyle, setLineJoin, setMeshCullMode,
    setFont, setDefaultSamplerState.
  eapply topEffect_ext; [|
    eapply topEffect_bind; [apply topEffect_setColor | intros _];
    eapply topEffect_bind; [apply topEffect_modify_back | intros _];
    eapply topEffect_bind;
      [exact (topEffect_setter
                (fun cur => negb (BlendState_eqb (blend s) (blend cur))) _ _) | intros _];
    eapply topEffect_bind; [apply topEffect_modify_back | intros _];
    eapply topEffect_bind; [apply topEffect_modify_back | intros _];
    eapply topEffect_bind; [apply topEffect_modify_back | intros _];
    eapply topEffect_bind;
      [exact (topEffect_setter
                (fun cur => negb (SFeqb (pointSize s) (pointSize cur))) _ _) | intros _];
    eapply topEffect_bind;
      [instantiate (1 := if scissor s
                         then fun st => ds_set_scissorRect (scissorRect s)
                                          (ds_set_scissor true st)
                         else ds_set_scissor false);
       destruct (scissor s);
         [apply topEffect_setScissor
         | exact (topEffect_setter (fun cur => scissor cur) _ _)] | intros _];
    eapply topEffect_bind; [apply topEffect_modify_back | intros _];
    eapply topEffect_bind;
      [exact (topEffect_setter
                (fun cur => negb (winding s =? winding cur)) _ _) | intros _];
    eapply topEffect_bind; [apply topEffect_modify_back | intros _];
    eapply topEffect_bind; [apply topEffect_setShader | intros _];
    eapply topEffect_bind; [apply topEffect_setRenderTarget_screen | intros _];
    eapply topEffect_bind;
      [exact (topEffect_setter
                (fun cur => negb (StencilState_eqb _ (stencil cur))) _ _) | intros _];
    eapply topEffect_bind;
      [exact (topEffect_setter
                (fun cur => negb ((depthTest s =? depthTest cur)
                                  && Bool.eqb (depthWrite s) (depthWrite cur))) _
                (fun st => ds_set_depthWrite (depthWrite s)
                             (ds_set_depthTest (depthTest s) st))) | intros _];
    eapply topEffect_bind;
      [exact (topEffect_setter
                (fun cur => negb (ColorChannelMask_eqb (colorMask s) (colorMask cur))) _ _)
      | intros _];
    eapply topEffect_bind;
      [exact (topEffect_setter
                (fun cur => negb (Bool.eqb (wireframe s) (wireframe cur))) _ _) | intros _];
    eapply topEffect_bind; [apply topEffect_modify_back | intros _];
    instantiate (1 := if useCustomProjection s then fun st => st
                      else ds_set_useCustomProjection false);
    destruct (useCustomProjection s);
      [apply topEffect_frame; [unfold updateDeviceProjection; sameStates_tac
                              | unfold updateDeviceProjection; returns_tac]
      | apply topEffect_resetProjection] ].
  intros st. cbv beta. reflexivity.
Qed.

Lemma restoredTop_eq (s st : DisplayState) :
  restoreAfter s
    ((fun st => if noTargets (renderTargets st) then st else onScreen st)
       (restoreBefore s st))
  = restoredTop s st.
Proof.
  destruct s as [c bc bl lw ls lj ps sc sr mc wi fo sh rt [sa sco sv srm swm] dt dw cm wf
                   dss ucp cp].
  destruct st as [c' bc' bl' lw' ls' lj' ps' sc' sr' mc' wi' fo' sh' rt' se' dt' dw' cm'
                    wf' dss' ucp' cp'].
  unfold restoreAfter, restoreBefore, restoredTop, onScreen. cbn.
  destruct sc, ucp; cbn; destruct (noTargets rt'); cbn; reflexivity.
Qed.

Lemma sameStacks_restoreState (s : DisplayState) : keeps sameStacks (restoreState s).
Proof.
  unfold restoreState, setBackgroundColor, setLineWidth, setLineStyle, setLineJoin,
    setMeshCullMode, setFont, setDefaultSamplerState, updateDeviceProjection.
  sameStacks_tac.
Qed.

(** X16.  What [reset] restores.  On an object with a display state,
    [reset] returns; the top display state takes every field of a default
    [DisplayState] except that the scissor rectangle is kept when the
    default has the scissor off, the render targets are left without
    attachment, the custom projection matrix is kept and the
    custom-projection flag is never raised; the display states below, the
    depth of the transform stack and the record of user pushes are as they
    were, so [reset] pops nothing; the top transform is the identity and
    the top pixel scale is 1. *)
Theorem reset_restores (g : Graphics) (st : DisplayState) (below : list DisplayState) :
  states g = st :: below ->
  let g' := fst (reset g) in
  snd (reset g) = Returned tt
  /\ states g' = restoredTop DisplayState_new st :: below
  /\ noTargets (renderTargets (back g')) = true
  /\ customProjection (back g') = customProjection st
  /\ (useCustomProjection (back g') = true -> useCustomProjection st = true)
  /\ stackTypeStack g' = stackTypeStack g
  /\ transformStack g'
     = match transformStack g with _ :: rest => Matrix4_identity :: rest | [] => [] end
  /\ pixelScaleStack g'
     = match pixelScaleStack g with _ :: rest => float_1 :: rest | [] => [] end.
Proof.
  intros Hst.
  assert (Hscreen : rt_texture (getFirstTarget (renderTargets DisplayState_new)) = None)
    by reflexivity.
  destruct (topEffect_restoreState DisplayState_new Hscreen g st below Hst)
    as [Htop [[] Hret]].
  rewrite restoredTop_eq in Htop.
  destruct (sameStacks_restoreState DisplayState_new g)
    as (_ & _ & Htr & Hps & Hty & _).
  cbv zeta. unfold reset.
  rewrite (bind_returned _ _ g tt Hret).
  set (g1 := fst (restoreState DisplayState_new g)) in *.
  unfold origin, bind, modify. cbn [fst snd].
  unfold back. cbn [states set_pixelScaleStack set_transformStack stackTypeStack
                      transformStack pixelScaleStack hd].
  rewrite Htop, Htr, Hps, Hty. cbn [hd].
  split; [reflexivity|]. split; [reflexivity|].
  split; [|split; [reflexivity|split; [|repeat split; reflexivity]]].
  - unfold restoredTop. cbn [renderTargets]. destruct (noTargets (renderTargets st)) eqn:E;
      [exact E | reflexivity].
  - unfold restoredTop. cbn [useCustomProjection]. intros H.
    apply andb_true_iff in H. tauto.
Qed.

(** ** A transform-only push *)

(** X17.  A transform-only [push] saves the transform and nothing else.
    Below the maximum depth: after [push (STACK_TRANSFORM)], any setters
    and an [origin], the matching [pop] returns, the transform stack, the
    pixel-scale stack and the record of pushes are the ones from before
    the [push], and the display states are the ones the setters left:
    what the setters changed is not undone. *)
Theorem push_transform_pop (g : Graphics) (ops : list Setter) :
  length (stackTypeStack g) <> MAX_USER_STACK_DEPTH ->
  let g1 := fst (push STACK_TRANSFORM g) in
  let g2 := fst (origin (runSetters ops g1)) in
  let g3 := fst (pop g2) in
  snd (push STACK_TRANSFORM g) = Returned tt
  /\ snd (pop g2) = Returned tt
  /\ transformStack g2 = Matrix4_identity :: transformStack g
  /\ pixelScaleStack g2 = float_1 :: pixelScaleStack g
  /\ transformStack g3 = transformStack g
  /\ pixelScaleStack g3 = pixelScaleStack g
  /\ stackTypeStack g3 = stackTypeStack g
  /\ states g3 = states (runSetters ops g1)
  /\ length (states g3) = length (states g).
Proof.
  intros Hmax. cbv zeta.
  destruct (push_effect g STACK_TRANSFORM Hmax) as (Hr & Ht & Hp & Hs & Hst & _).
  cbn [StackType_eqb] in Hst.
  set (g1 := fst (push STACK_TRANSFORM g)) in *.
  destruct (sameStacks_runSetters ops g1) as (_ & Hl & Ht2 & Hp2 & Hs2 & _).
  set (g1' := runSetters ops g1) in *.
  set (g2 := fst (origin g1')).
  assert (Ht3 : transformStack g2 = Matrix4_identity :: transformStack g).
  { subst g2. unfold origin, bind, modify. cbn. rewrite Ht2, Ht. reflexivity. }
  assert (Hp3 : pixelScaleStack g2 = float_1 :: pixelScaleStack g).
  { subst g2. unfold origin, bind, modify. cbn. rewrite Hp2, Hp. reflexivity. }
  assert (Hs3 : stackTypeStack g2 = STACK_TRANSFORM :: stackTypeStack g).
  { subst g2. unfold origin, bind, modify. cbn. rewrite Hs2, Hs. reflexivity. }
  assert (Hst3 : states g2 = states g1') by reflexivity.
  destruct (pop_effect g2 STACK_TRANSFORM (stackTypeStack g) Hs3) as (Q1 & Q2 & Q3 & Q4 & Q5 & _);
    [discriminate|].
  cbn [StackType_eqb] in Q5.
  rewrite Q2, Q3, Q4, Q5, Ht3, Hp3, Hst3, Hl, Hst.
  repeat split; auto.
Qed.

(** ** Temporary textures are handed out to one user at a time *)

Lemma NoDup_ids_middle (front back : list TemporaryTexture) (e x : TemporaryTexture) :
  NoDup (map (fun e => tex_id (tt_texture e)) (front ++ e :: back)) ->
  In x (front ++ e :: back) -> x <> e ->
  In x (front ++ back) /\ tex_id (tt_texture x) <> tex_id (tt_texture e).
Proof.
  rewrite map_app. cbn [map]. intros H Hx Hne.
  apply NoDup_remove_2 in H.
  apply in_app_or in Hx. destruct Hx as [Hx|[Hx|Hx]]; [|congruence|].
  - split; [apply in_or_app; now left|].
    intros E. apply H. apply in_or_app. left. rewrite <- E.
    now apply (in_map (fun e => tex_id (tt_texture e))).
  - split; [apply in_or_app; now right|].
    intros E. apply H. apply in_or_app. right. rewrite <- E.
    now apply (in_map (fun e => tex_id (tt_texture e))).
Qed.

(** One acquisition: the pool stays a pool of distinct objects, the
    texture returned has the shape asked for and is checked out, it is none
    of the textures that were checked out already, and those stay checked
    out. *)
Lemma getTemporaryTexture_step (g : Graphics) (format : PixelFormat) (w h samples : Z) :
  poolDistinct g ->
  let g1 := fst (getTemporaryTexture format w h samples g) in
  exists t,
    snd (getTemporaryTexture format w h samples g) = Returned t
    /\ poolDistinct g1
    /\ shapeMatches t format w h samples = true
    /\ In (checkedOut t) (temporaryTextures g1)
    /\ (forall e, In e (temporaryTextures g) -> framesSinceUse e < 0 ->
          In e (temporaryTextures g1) /\ tex_id (tt_texture e) <> tex_id t).
Proof.
  intros [Hnd Hfresh]. cbv zeta.
  destruct (findTemporaryTexture (temporaryTextures g) format w h samples)
    as [pool' [t|]] eqn:Ef.
  - rewrite (getTemporaryTexture_found _ _ _ _ _ _ _ Ef). cbn [fst snd].
    destruct (findTemporaryTexture_found _ _ _ _ _ _ _ Ef)
      as (front & e & back & Hp & Ht & He & Hs & Hp' & Hf).
    exists t. split; [reflexivity|].
    cbn [temporaryTextures set_temporaryTextures]. subst pool'.
    split; [|split; [exact Hs|split]].
    + split; cbn [temporaryTextures set_temporaryTextures heapNext].
      * rewrite Hp in Hnd. rewrite map_app in *. cbn [map checkedOut tt_texture] in *.
        now rewrite Ht.
      * rewrite Hp in Hfresh. apply Forall_app in Hfresh. destruct Hfresh as [F1 F2].
        apply Forall_app. split; [exact F1|].
        inversion F2 as [|x l Hx Hl]; subst. constructor; [|exact Hl].
        cbn [checkedOut tt_texture]. exact Hx.
    + apply in_or_app. right. left. reflexivity.
    + intros x Hx Hneg. rewrite Hp in Hx, Hnd.
      assert (Hne : x <> e) by (intros ->; lia).
      destruct (NoDup_ids_middle front back e x Hnd Hx Hne) as [Hin Hid].
      split; [|now rewrite Ht].
      apply in_app_or in Hin. apply in_or_app.
      destruct Hin; [now left | right; now right].
  - rewrite (getTemporaryTexture_new _ _ _ _ _ _ Ef). cbn [fst snd].
    set (t := textureAt (heapNext g) format w h samples).
    exists t. split; [reflexivity|].
    cbn [temporaryTextures set_temporaryTextures set_calls set_heapNext].
    split; [|split; [apply textureAt_shape|split]].
    + split; cbn [temporaryTextures set_temporaryTextures set_calls set_heapNext heapNext].
      * rewrite map_app. cbn [map checkedOut tt_texture t textureAt tex_id].
        apply NoDup_app.
        -- exact Hnd.
        -- constructor; [intros []|constructor].
        -- intros a Ha [<-|[]].
           apply in_map_iff in Ha. destruct Ha as (x & Hx & Hin).
           rewrite Forall_forall in Hfresh. specialize (Hfresh x Hin). lia.
      * apply Forall_app. split.
        -- eapply Forall_impl; [|exact Hfresh]. cbn beta. intros a Ha. lia.
        -- constructor; [|constructor]. cbn. lia.
    + apply in_or_app. right. left. reflexivity.
    + intros x Hx _. split; [apply in_or_app; now left|].
      rewrite Forall_forall in Hfresh. specialize (Hfresh x Hx). cbn. lia.
Qed.

(** The shape asked of a temporary texture. *)
Record TextureRequest : Type := mkTextureRequest {
  req_format : PixelFormat;
  req_w : Z;
  req_h : Z;
  req_samples : Z
}.

(** [getTemporaryTexture] for each request in turn, with no release in
    between. *)
Fixpoint getTemporaryTextures (reqs : list TextureRequest) : M (list Texture) :=
  match reqs with
  | [] => ret []
  | r :: rest =>
      t <- getTemporaryTexture (req_format r) (req_w r) (req_h r) (req_samples r) ;;
      ts <- getTemporaryTextures rest ;;
      ret (t :: ts)
  end.

Lemma getTemporaryTextures_distinct (reqs : list TextureRequest) (g : Graphics) :
  poolDistinct g ->
  let g' := fst (getTemporaryTextures reqs g) in
  exists ts,
    snd (getTemporaryTextures reqs g) = Returned ts
    /\ poolDistinct g'
    /\ Forall2 (fun r t => shapeMatches t (req_format r) (req_w r) (req_h r)
                             (req_samples r) = true) reqs ts
    /\ NoDup (map tex_id ts)
    /\ Forall (fun t => In (checkedOut t) (temporaryTextures g')) ts
    /\ (forall e, In e (temporaryTextures g) -> framesSinceUse e < 0 ->
          In e (temporaryTextures g') /\ ~ In (tex_id (tt_texture e)) (map tex_id ts)).
Proof.
  revert g. induction reqs as [|r rest IH]; intros g Hd; cbv zeta.
  - exists []. cbn. destruct Hd as [H1 H2]. repeat split; auto; try constructor.
  - destruct (getTemporaryTexture_step g (req_format r) (req_w r) (req_h r) (req_samples r) Hd)
      as (t & Hr & Hd1 & Hs & Hin & Hold).
    cbn [getTemporaryTextures].
    rewrite (bind_returned _ _ g t Hr).
    set (g1 := fst (getTemporaryTexture (req_format r) (req_w r) (req_h r)
                      (req_samples r) g)) in *.
    destruct (IH g1 Hd1) as (ts & Hrs & Hd' & Hshape & Hnd & Hall & Hkeep).
    rewrite (bind_returned _ _ g1 ts Hrs).
    set (g' := fst (getTemporaryTextures rest g1)) in *.
    exists (t :: ts). cbn [ret fst snd map].
    destruct (Hkeep (checkedOut t) Hin) as [Hin' Hnot]; [cbn; lia|].
    cbn [checkedOut tt_texture] in Hnot.
    split; [reflexivity|]. split; [exact Hd'|]. split; [now constructor|].
    split; [now constructor|]. split; [now constructor|].
    intros e He Hneg. destruct (Hold e He Hneg) as [He1 Hid].
    destruct (Hkeep e He1 Hneg) as [He' Hn].
    split; [exact He'|]. intros [E|E]; [now apply Hid | now apply Hn].
Qed.

(** X18.  A temporary texture is handed out to one user at a time.  On a
    pool of distinct textures, any number of [getTemporaryTexture] calls
    with no release in between all return: each texture has the shape
    asked for, no two of them are the same object, none is a texture that
    was checked out before the calls, and after the calls every one of
    them, and every texture that was checked out before, is still checked
    out. *)
Theorem getTemporaryTexture_exclusive (reqs : list TextureRequest) (g : Graphics) :
  poolDistinct g ->
  let g' := fst (getTemporaryTextures reqs g) in
  exists ts,
    snd (getTemporaryTextures reqs g) = Returned ts
    /\ Forall2 (fun r t => shapeMatches t (req_format r) (req_w r) (req_h r)
                             (req_samples r) = true) reqs ts
    /\ NoDup (map tex_id ts)
    /\ Forall (fun t => In (checkedOut t) (temporaryTextures g')) ts
    /\ (forall e, In e (temporaryTextures g) -> framesSinceUse e < 0 ->
          In e (temporaryTextures g') /\ ~ In (tex_id (tt_texture e)) (map tex_id ts))
    /\ poolDistinct g'.
Proof.
  intros Hd. cbv zeta.
  destruct (getTemporaryTextures_distinct reqs g Hd)
    as (ts & Hr & Hd' & Hs & Hn & Ha & Hk).
  exists ts. auto 10.
Qed.

End GraphicsEngine.

(** * The OpenGL backend: pixel formats *)

Module OpenGL.

(** A [GLenum]: zero ([GL_NONE], [GL_ZERO]), or the constant of the name. *)
Inductive GLenum : Type :=
  | GL_NONE
  | GL (name : string).

Arguments GL name%_string.

(** The version and extension flags GLAD exposes, the two workaround flags
    of [gl.bugs] and the profile, as far as the conversion reads them. *)
Record GLCaps : Type := mkGLCaps {
  GLAD_ES_VERSION_2_0 : bool;
  GLAD_ES_VERSION_3_0 : bool;
  GLAD_VERSION_3_0 : bool;
  GLAD_VERSION_4_2 : bool;
  GLAD_VERSION_4_3 : bool;
  GLAD_ARB_ES3_compatibility : bool;
  GLAD_ARB_framebuffer_object : bool;
  GLAD_ARB_texture_rg : bool;
  GLAD_ARB_texture_storage : bool;
  GLAD_EXT_texture_rg : bool;
  GLAD_EXT_packed_depth_stencil : bool;
  GLAD_OES_depth24 : bool;
  GLAD_OES_packed_depth_stencil : bool;
  GLAD_OES_texture_half_float : bool;
  brokenR8PixelFormat : bool;
  texStorageBreaksSubImage : bool;
  isCoreProfile : bool
}.

(** [struct TextureFormat]: the three enums start at zero and [swizzled]
    at false; the swizzle entries are read only when [swizzled] is set. *)
Record TextureFormat : Type := mkTextureFormat {
  internalformat : GLenum;
  externalformat : GLenum;
  type : GLenum;
  swizzled : bool;
  swizzle0 : GLenum;
  swizzle1 : GLenum;
  swizzle2 : GLenum;
  swizzle3 : GLenum;
  framebufferAttachments0 : GLenum;
  framebufferAttachments1 : GLenum
}.

Definition tf_set_internalformat (x : GLenum) (f : TextureFormat) : TextureFormat :=
  {| internalformat := x; externalformat := externalformat f; type := type f;
     swizzled := swizzled f; swizzle0 := swizzle0 f; swizzle1 := swizzle1 f;
     swizzle2 := swizzle2 f; swizzle3 := swizzle3 f;
     framebufferAttachments0 := framebufferAttachments0 f;
     framebufferAttachments1 := framebufferAttachments1 f |}.

Definition tf_set_externalformat (x : GLenum) (f : TextureFormat) : TextureFormat :=
  {| internalformat := internalformat f; externalformat := x; type := type f;
     swizzled := swizzled f; swizzle0 := swizzle0 f; swizzle1 := swizzle1 f;
     swizzle2 := swizzle2 f; swizzle3 := swizzle3 f;
     framebufferAttachments0 := framebufferAttachments0 f;
     framebufferAttachments1 := framebufferAttachments1 f |}.

Definition tf_set_type (x : GLenum) (f : TextureFormat) : TextureFormat :=
  {| internalformat := internalformat f; externalformat := externalformat f; type := x;
     swizzled := swizzled f; swizzle0 := swizzle0 f; swizzle1 := swizzle1 f;
     swizzle2 := swizzle2 f; swizzle3 := swizzle3 f;
     framebufferAttachments0 := framebufferAttachments0 f;
     framebufferAttachments1 := framebufferAttachments1 f |}.

Definition tf_set_swizzled (x : bool) (f : TextureFormat) : TextureFormat :=
  {| internalformat := internalformat f; externalformat := externalformat f; type := type f;
     swizzled := x; swizzle0 := swizzle0 f; swizzle1 := swizzle1 f; swizzle2 := swizzle2 f;
     swizzle3 := swizzle3 f; framebufferAttachments0 := framebufferAttachments0 f;
     framebufferAttachments1 := framebufferAttachments1 f |}.

Definition tf_set_swizzle0 (x : GLenum) (f : TextureFormat) : TextureFormat :=
  {| internalformat := internalformat f; externalformat := externalformat f; type := type f;
     swizzled := swizzled f; swizzle0 := x; swizzle1 := swizzle1 f; swizzle2 := swizzle2 f;
     swizzle3 := swizzle3 f; framebufferAttachments0 := framebufferAttachments0 f;
     framebufferAttachments1 := framebufferAttachments1 f |}.

Definition tf_set_swizzle1 (x : GLenum) (f : TextureFormat) : TextureFormat :=
  {| internalformat := internalformat f; externalformat := externalformat f; type := type f;
     swizzled := swizzled f; swizzle0 := swizzle0 f; swizzle1 := x; swizzle2 := swizzle2 f;
     swizzle3 := swizzle3 f; framebufferAttachments0 := framebufferAttachments0 f;
     framebufferAttachments1 := framebufferAttachments1 f |}.

Definition tf_set_swizzle2 (x : GLenum) (f : TextureFormat) : TextureFormat :=
  {| internalformat := internalformat f; externalformat := externalformat f; type := type f;
     swizzled := swizzled f; swizzle0 := swizzle0 f; swizzle1 := swizzle1 f; swizzle2 := x;
     swizzle3 := swizzle3 f; framebufferAttachments0 := framebufferAttachments0 f;
     framebufferAttachments1 := framebufferAttachments1 f |}.

Definition tf_set_swizzle3 (x : GLenum) (f : TextureFormat) : TextureFormat :=
  {| internalformat := internalformat f; externalformat := externalformat f; type := type f;
     swizzled := swizzled f; swizzle0 := swizzle0 f; swizzle1 := swizzle1 f;
     swizzle2 := swizzle2 f; swizzle3 := x;
     framebufferAttachments0 := framebufferAttachments0 f;
     framebufferAttachments1 := framebufferAttachments1 f |}.

Definition tf_set_framebufferAttachments0 (x : GLenum) (f : TextureFormat) : TextureFormat :=
  {| internalformat := internalformat f; externalformat := externalformat f; type := type f;
     swizzled := swizzled f; swizzle0 := swizzle0 f; swizzle1 := swizzle1 f;
     swizzle2 := swizzle2 f; swizzle3 := swizzle3 f; framebufferAttachments0 := x;
     framebufferAttachments1 := framebufferAttachments1 f |}.

Definition tf_set_framebufferAttachments1 (x : GLenum) (f : TextureFormat) : TextureFormat :=
  {| internalformat := internalformat f; externalformat := externalformat f; type := type f;
     swizzled := swizzled f; swizzle0 := swizzle0 f; swizzle1 := swizzle1 f;
     swizzle2 := swizzle2 f; swizzle3 := swizzle3 f;
     framebufferAttachments0 := framebufferAttachments0 f; framebufferAttachments1 := x |}.

Definition TextureFormat_new : TextureFormat :=
  {| internalformat := GL_NONE; externalformat := GL_NONE; type := GL_NONE;
     swizzled := false;
     swizzle0 := GL_NONE; swizzle1 := GL_NONE; swizzle2 := GL_NONE; swizzle3 := GL_NONE;
     framebufferAttachments0 := GL_NONE; framebufferAttachments1 := GL_NONE |}.

(** What [printf] writes in the default case: the message and its
    argument. *)
Inductive Diagnostic : Type :=
  | Unhandled_pixel_format (pixelformat : PixelFormat).

Definition isTexStorageSupported (caps : GLCaps) : bool :=
  if texStorageBreaksSubImage caps then false
  else GLAD_ES_VERSION_3_0 caps || GLAD_VERSION_4_2 caps || GLAD_ARB_texture_storage caps.

Section Conversion.

(** From pixelformat.cpp, which is not among the sources. *)
Variable getSRGBPixelFormat : PixelFormat -> PixelFormat.
Variable isPixelFormatCompressed : PixelFormat -> bool.
Variable isPixelFormatSRGB : PixelFormat -> bool.

(** The format the switch of [convertPixelFormat] is entered with. *)
Definition switchedFormat (caps : GLCaps) (pixelformat : PixelFormat) (isSRGB : bool)
    : PixelFormat :=
  if isSRGB then getSRGBPixelFormat pixelformat
  else if PixelFormat_eqb pixelformat PIXELFORMAT_ETC1_UNORM then
    (* The ETC2 format can load ETC1 textures. *)
    if GLAD_ES_VERSION_3_0 caps || GLAD_VERSION_4_3 caps || GLAD_ARB_ES3_compatibility caps
    then PIXELFORMAT_ETC2_RGB_UNORM else pixelformat
  else pixelformat.

(** The switch: the format, [isSRGB] and what was printed. *)
Definition convertSwitch (caps : GLCaps) (pixelformat : PixelFormat) (f : TextureFormat)
    (isSRGB : bool) : TextureFormat * bool * list Diagnostic :=
  match pixelformat with
  | PIXELFORMAT_R8_UNORM =>
      let f :=
        if (GLAD_VERSION_3_0 caps || GLAD_ES_VERSION_3_0 caps || GLAD_ARB_texture_rg caps || GLAD_EXT_texture_rg caps) && negb (brokenR8PixelFormat caps) then
          let f := tf_set_internalformat (GL "GL_R8") f in
          let f := tf_set_externalformat (GL "GL_RED") f in
          f
        else
          let f := tf_set_internalformat (GL "GL_LUMINANCE8") f in
          let f := tf_set_externalformat (GL "GL_LUMINANCE") f in
          f
      in
      let f := tf_set_type (GL "GL_UNSIGNED_BYTE") f in
      (f, isSRGB, [])
  | PIXELFORMAT_RG8_UNORM =>
      let f := tf_set_internalformat (GL "GL_RG8") f in
      let f := tf_set_externalformat (GL "GL_RG") f in
      let f := tf_set_type (GL "GL_UNSIGNED_BYTE") f in
      (f, isSRGB, [])
  | PIXELFORMAT_RGBA8_UNORM =>
      let f := tf_set_internalformat (GL "GL_RGBA8") f in
      let f := tf_set_externalformat (GL "GL_RGBA") f in
      let f := tf_set_type (GL "GL_UNSIGNED_BYTE") f in
      (f, isSRGB, [])
  | PIXELFORMAT_RGBA8_UNORM_sRGB =>
      let f := tf_set_internalformat (GL "GL_SRGB8_ALPHA8") f in
      let f := tf_set_type (GL "GL_UNSIGNED_BYTE") f in
      let f :=
        if GLAD_ES_VERSION_2_0 caps && negb (GLAD_ES_VERSION_3_0 caps) then
          let f := tf_set_externalformat (GL "GL_SRGB_ALPHA") f in
          f
        else
          let f := tf_set_externalformat (GL "GL_RGBA") f in
          f
      in
      (f, isSRGB, [])
  | PIXELFORMAT_BGRA8_UNORM | PIXELFORMAT_BGRA8_UNORM_sRGB =>
      (f, isSRGB, [])
  | PIXELFORMAT_R16_UNORM =>
      let f := tf_set_internalformat (GL "GL_R16") f in
      let f := tf_set_externalformat (GL "GL_RED") f in
      let f := tf_set_type (GL "GL_UNSIGNED_SHORT") f in
      (f, isSRGB, [])
  | PIXELFORMAT_RG16_UNORM =>
      let f := tf_set_internalformat (GL "GL_RG16") f in
      let f := tf_set_externalformat (GL "GL_RG") f in
      let f := tf_set_type (GL "GL_UNSIGNED_SHORT") f in
      (f, isSRGB, [])
  | PIXELFORMAT_RGBA16_UNORM =>
      let f := tf_set_internalformat (GL "GL_RGBA16") f in
      let f := tf_set_externalformat (GL "GL_RGBA") f in
      let f := tf_set_type (GL "GL_UNSIGNED_SHORT") f in
      (f, isSRGB, [])
  | PIXELFORMAT_R16_FLOAT =>
      let f := tf_set_internalformat (GL "GL_R16F") f in
      let f := tf_set_externalformat (GL "GL_RED") f in
      let f :=
        if GLAD_OES_texture_half_float caps then
          let f := tf_set_type (GL "GL_HALF_FLOAT_OES") f in
          f
        else
          let f := tf_set_type (GL "GL_HALF_FLOAT") f in
          f
      in
      (f, isSRGB, [])
  | PIXELFORMAT_RG16_FLOAT =>
      let f := tf_set_internalformat (GL "GL_RG16F") f in
      let f := tf_set_externalformat (GL "GL_RG") f in
      let f :=
        if GLAD_OES_texture_half_float caps then
          let f := tf_set_type (GL "GL_HALF_FLOAT_OES") f in
          f
        else
          let f := tf_set_type (GL "GL_HALF_FLOAT") f in
          f
      in
      (f, isSRGB, [])
  | PIXELFORMAT_RGBA16_FLOAT =>
      let f := tf_set_internalformat (GL "GL_RGBA16F") f in
      let f := tf_set_externalformat (GL "GL_RGBA") f in
      let f :=
        if GLAD_OES_texture_half_float caps then
          let f := tf_set_type (GL "GL_HALF_FLOAT_OES") f in
          f
        else
          let f := tf_set_type (GL "GL_HALF_FLOAT") f in
          f
      in
      (f, isSRGB, [])
  | PIXELFORMAT_R32_FLOAT =>
      let f := tf_set_internalformat (GL "GL_R32F") f in
      let f := tf_set_externalformat (GL "GL_RED") f in
      let f := tf_set_type (GL "GL_FLOAT") f in
      (f, isSRGB, [])
  | PIXELFORMAT_RG32_FLOAT =>
      let f := tf_set_internalformat (GL "GL_RG32F") f in
      let f := tf_set_externalformat (GL "GL_RG") f in
      let f := tf_set_type (GL "GL_FLOAT") f in
      (f, isSRGB, [])
  | PIXELFORMAT_RGBA32_FLOAT =>
      let f := tf_set_internalformat (GL "GL_RGBA32F") f in
      let f := tf_set_externalformat (GL "GL_RGBA") f in
      let f := tf_set_type (GL "GL_FLOAT") f in
      (f, isSRGB, [])
  | PIXELFORMAT_R8_INT =>
      let f := tf_set_internalformat (GL "GL_R8I") f in
      let f := tf_set_externalformat (GL "GL_RED_INTEGER") f in
      let f := tf_set_type (GL "GL_BYTE") f in
      (f, isSRGB, [])
  | PIXELFORMAT_R8_UINT =>
      let f := tf_set_internalformat (GL "GL_R8UI") f in
      let f := tf_set_externalformat (GL "GL_RED_INTEGER") f in
      let f := tf_set_type (GL "GL_UNSIGNED_BYTE") f in
      (f, isSRGB, [])
  | PIXELFORMAT_RG8_INT =>
      let f := tf_set_internalformat (GL "GL_RG8I") f in
      let f := tf_set_externalformat (GL "GL_RG_INTEGER") f in
      let f := tf_set_type (GL "GL_BYTE") f in
      (f, isSRGB, [])
  | PIXELFORMAT_RG8_UINT =>
      let f := tf_set_internalformat (GL "GL_RG8UI") f in
      let f := tf_set_externalformat (GL "GL_RG_INTEGER") f in
      let f := tf_set_type (GL "GL_UNSIGNED_BYTE") f in
      (f, isSRGB, [])
  | PIXELFORMAT_RGBA8_INT =>
      let f := tf_set_internalformat (GL "GL_RGBA8I") f in
      let f := tf_set_externalformat (GL "GL_RGBA_INTEGER") f in
      let f := tf_set_type (GL "GL_BYTE") f in
      (f, isSRGB, [])
  | PIXELFORMAT_RGBA8_UINT =>
      let f := tf_set_internalformat (GL "GL_RGBA8UI") f in
      let f := tf_set_externalformat (GL "GL_RGBA_INTEGER") f in
      let f := tf_set_type (GL "GL_UNSIGNED_BYTE") f in
      (f, isSRGB, [])
  | PIXELFORMAT_R16_INT =>
      let f := tf_set_internalformat (GL "GL_R16I") f in
      let f := tf_set_externalformat (GL "GL_RED_INTEGER") f in
      let f := tf_set_type (GL "GL_SHORT") f in
      (f, isSRGB, [])
  | PIXELFORMAT_R16_UINT =>
      let f := tf_set_internalformat (GL "GL_R16UI") f in
      let f := tf_set_externalformat (GL "GL_RED_INTEGER") f in
      let f := tf_set_type (GL "GL_UNSIGNED_SHORT") f in
      (f, isSRGB, [])
  | PIXELFORMAT_RG16_INT =>
      let f := tf_set_internalformat (GL "GL_RG16I") f in
      let f := tf_set_externalformat (GL "GL_RG_INTEGER") f in
      let f := tf_set_type (GL "GL_SHORT") f in
      (f, isSRGB, [])
  | PIXELFORMAT_RG16_UINT =>
      let f := tf_set_internalformat (GL "GL_RG16UI") f in
      let f := tf_set_externalformat (GL "GL_RG_INTEGER") f in
      let f := tf_set_type (GL "GL_UNSIGNED_SHORT") f in
      (f, isSRGB, [])
  | PIXELFORMAT_RGBA16_INT =>
      let f := tf_set_internalformat (GL "GL_RGBA16I") f in
      let f := tf_set_externalformat (GL "GL_RGBA_INTEGER") f in
      let f := tf_set_type (GL "GL_SHORT") f in
      (f, isSRGB, [])
  | PIXELFORMAT_RGBA16_UINT =>
      let f := tf_set_internalformat (GL "GL_RGBA16UI") f in
      let f := tf_set_externalformat (GL "GL_RGBA_INTEGER") f in
      let f := tf_set_type (GL "GL_UNSIGNED_SHORT") f in
      (f, isSRGB, [])
  | PIXELFORMAT_R32_INT =>
      let f := tf_set_internalformat (GL "GL_R32I") f in
      let f := tf_set_externalformat (GL "GL_RED_INTEGER") f in
      let f := tf_set_type (GL "GL_INT") f in
      (f, isSRGB, [])
  | PIXELFORMAT_R32_UINT =>
      let f := tf_set_internalformat (GL "GL_R32UI") f in
      let f := tf_set_externalformat (GL "GL_RED_INTEGER") f in
      let f := tf_set_type (GL "GL_UNSIGNED_INT") f in
      (f, isSRGB, [])
  | PIXELFORMAT_RG32_INT =>
      let f := tf_set_internalformat (GL "GL_RG32I") f in
      let f := tf_set_externalformat (GL "GL_RG_INTEGER") f in
      let f := tf_set_type (GL "GL_INT") f in
      (f, isSRGB, [])
  | PIXELFORMAT_RG32_UINT =>
      let f := tf_set_internalformat (GL "GL_RG32UI") f in
      let f := tf_set_externalformat (GL "GL_RG_INTEGER") f in
      let f := tf_set_type (GL "GL_UNSIGNED_INT") f in
      (f, isSRGB, [])
  | PIXELFORMAT_RGBA32_INT =>
      let f := tf_set_internalformat (GL "GL_RGBA32I") f in
      let f := tf_set_externalformat (GL "GL_RGBA_INTEGER") f in
      let f := tf_set_type (GL "GL_INT") f in
      (f, isSRGB, [])
  | PIXELFORMAT_RGBA32_UINT =>
      let f := tf_set_internalformat (GL "GL_RGBA32UI") f in
      let f := tf_set_externalformat (GL "GL_RGBA_INTEGER") f in
      let f := tf_set_type (GL "GL_UNSIGNED_INT") f in
      (f, isSRGB, [])
  | PIXELFORMAT_LA8_UNORM =>
      let f :=
        if isCoreProfile caps || GLAD_ES_VERSION_3_0 caps then
          let f := tf_set_internalformat (GL "GL_RG8") f in
          let f := tf_set_externalformat (GL "GL_RG") f in
          let f := tf_set_type (GL "GL_UNSIGNED_BYTE") f in
          let f := tf_set_swizzled true f in
          let f := tf_set_swizzle2 (GL "GL_RED") f in
          let f := tf_set_swizzle1 (GL "GL_RED") f in
          let f := tf_set_swizzle0 (GL "GL_RED") f in
          let f := tf_set_swizzle3 (GL "GL_GREEN") f in
          f
        else
          let f := tf_set_internalformat (GL "GL_LUMINANCE8_ALPHA8") f in
          let f := tf_set_externalformat (GL "GL_LUMINANCE_ALPHA") f in
          let f := tf_set_type (GL "GL_UNSIGNED_BYTE") f in
          f
      in
      (f, isSRGB, [])
  | PIXELFORMAT_RGBA4_UNORM =>
      let f := tf_set_internalformat (GL "GL_RGBA4") f in
      let f := tf_set_externalformat (GL "GL_RGBA") f in
      let f := tf_set_type (GL "GL_UNSIGNED_SHORT_4_4_4_4") f in
      (f, isSRGB, [])
  | PIXELFORMAT_RGB5A1_UNORM =>
      let f := tf_set_internalformat (GL "GL_RGB5_A1") f in
      let f := tf_set_externalformat (GL "GL_RGBA") f in
      let f := tf_set_type (GL "GL_UNSIGNED_SHORT_5_5_5_1") f in
      (f, isSRGB, [])
  | PIXELFORMAT_RGB565_UNORM =>
      let f := tf_set_internalformat (GL "GL_RGB565") f in
      let f := tf_set_externalformat (GL "GL_RGB") f in
      let f := tf_set_type (GL "GL_UNSIGNED_SHORT_5_6_5") f in
      (f, isSRGB, [])
  | PIXELFORMAT_RGB10A2_UNORM =>
      let f := tf_set_internalformat (GL "GL_RGB10_A2") f in
      let f := tf_set_externalformat (GL "GL_RGBA") f in
      let f := tf_set_type (GL "GL_UNSIGNED_INT_2_10_10_10_REV") f in
      (f, isSRGB, [])
  | PIXELFORMAT_RG11B10_FLOAT =>
      let f := tf_set_internalformat (GL "GL_R11F_G11F_B10F") f in
      let f := tf_set_externalformat (GL "GL_RGB") f in
      let f := tf_set_type (GL "GL_UNSIGNED_INT_10F_11F_11F_REV") f in
      (f, isSRGB, [])
  | PIXELFORMAT_STENCIL8 =>
      let f :=
        if GLAD_ES_VERSION_3_0 caps || GLAD_VERSION_3_0 caps || GLAD_ARB_framebuffer_object caps then
          let f := tf_set_internalformat (GL "GL_DEPTH24_STENCIL8") f in
          let f := tf_set_externalformat (GL "GL_DEPTH_STENCIL") f in
          let f := tf_set_type (GL "GL_UNSIGNED_INT_24_8") f in
          let f := tf_set_framebufferAttachments0 (GL "GL_DEPTH_STENCIL_ATTACHMENT") f in
          f
        else
          if GLAD_EXT_packed_depth_stencil caps || GLAD_OES_packed_depth_stencil caps then
            let f := tf_set_internalformat (GL "GL_DEPTH24_STENCIL8") f in
            let f := tf_set_externalformat (GL "GL_DEPTH_STENCIL") f in
            let f := tf_set_type (GL "GL_UNSIGNED_INT_24_8") f in
            let f := tf_set_framebufferAttachments0 (GL "GL_DEPTH_ATTACHMENT") f in
            let f := tf_set_framebufferAttachments1 (GL "GL_STENCIL_ATTACHMENT") f in
            f
          else
            let f := tf_set_internalformat (GL "GL_STENCIL_INDEX8") f in
            let f := tf_set_externalformat (GL "GL_STENCIL") f in
            let f := tf_set_type (GL "GL_UNSIGNED_BYTE") f in
            let f := tf_set_framebufferAttachments0 (GL "GL_STENCIL_ATTACHMENT") f in
            f
      in
      (f, isSRGB, [])
  | PIXELFORMAT_DEPTH16_UNORM =>
      let f := tf_set_internalformat (GL "GL_DEPTH_COMPONENT16") f in
      let f := tf_set_externalformat (GL "GL_DEPTH_COMPONENT") f in
      let f := tf_set_type (GL "GL_UNSIGNED_SHORT") f in
      let f := tf_set_framebufferAttachments0 (GL "GL_DEPTH_ATTACHMENT") f in
      (f, isSRGB, [])
  | PIXELFORMAT_DEPTH24_UNORM =>
      let f :=
        if GLAD_ES_VERSION_2_0 caps && negb (GLAD_ES_VERSION_3_0 caps) && negb (GLAD_OES_depth24 caps) && GLAD_OES_packed_depth_stencil caps then
          let f := tf_set_internalformat (GL "GL_DEPTH24_STENCIL8") f in
          let f := tf_set_externalformat (GL "GL_DEPTH_STENCIL") f in
          let f := tf_set_type (GL "GL_UNSIGNED_INT_24_8") f in
          let f := tf_set_framebufferAttachments0 (GL "GL_DEPTH_ATTACHMENT") f in
          let f := tf_set_framebufferAttachments1 (GL "GL_STENCIL_ATTACHMENT") f in
          f
        else
          let f := tf_set_internalformat (GL "GL_DEPTH_COMPONENT24") f in
          let f := tf_set_externalformat (GL "GL_DEPTH_COMPONENT") f in
          let f := tf_set_type (GL "GL_UNSIGNED_INT") f in
          let f := tf_set_framebufferAttachments0 (GL "GL_DEPTH_ATTACHMENT") f in
          f
      in
      (f, isSRGB, [])
  | PIXELFORMAT_DEPTH32_FLOAT =>
      let f := tf_set_internalformat (GL "GL_DEPTH_COMPONENT32F") f in
      let f := tf_set_externalformat (GL "GL_DEPTH_COMPONENT") f in
      let f := tf_set_type (GL "GL_FLOAT") f in
      let f := tf_set_framebufferAttachments0 (GL "GL_DEPTH_ATTACHMENT") f in
      (f, isSRGB, [])
  | PIXELFORMAT_DEPTH24_UNORM_STENCIL8 =>
      let f := tf_set_internalformat (GL "GL_DEPTH24_STENCIL8") f in
      let f := tf_set_externalformat (GL "GL_DEPTH_STENCIL") f in
      let f := tf_set_type (GL "GL_UNSIGNED_INT_24_8") f in
      let f :=
        if GLAD_ES_VERSION_3_0 caps || GLAD_VERSION_3_0 caps || GLAD_ARB_framebuffer_object caps then
          let f := tf_set_framebufferAttachments0 (GL "GL_DEPTH_STENCIL_ATTACHMENT") f in
          f
        else
          if GLAD_EXT_packed_depth_stencil caps || GLAD_OES_packed_depth_stencil caps then
            let f := tf_set_framebufferAttachments0 (GL "GL_DEPTH_ATTACHMENT") f in
            let f := tf_set_framebufferAttachments1 (GL "GL_STENCIL_ATTACHMENT") f in
            f
          else
            f
      in
      (f, isSRGB, [])
  | PIXELFORMAT_DEPTH32_FLOAT_STENCIL8 =>
      let f := tf_set_internalformat (GL "GL_DEPTH32F_STENCIL8") f in
      let f := tf_set_externalformat (GL "GL_DEPTH_STENCIL") f in
      let f := tf_set_type (GL "GL_FLOAT_32_UNSIGNED_INT_24_8_REV") f in
      let f := tf_set_framebufferAttachments0 (GL "GL_DEPTH_STENCIL_ATTACHMENT") f in
      (f, isSRGB, [])
  | PIXELFORMAT_DXT1_UNORM =>
      let f := tf_set_internalformat (if isSRGB then GL "GL_COMPRESSED_SRGB_ALPHA_S3TC_DXT1_EXT" else GL "GL_COMPRESSED_RGBA_S3TC_DXT1_EXT") f in
      (f, isSRGB, [])
  | PIXELFORMAT_DXT3_UNORM =>
      let f := tf_set_internalformat (if isSRGB then GL "GL_COMPRESSED_SRGB_ALPHA_S3TC_DXT3_EXT" else GL "GL_COMPRESSED_RGBA_S3TC_DXT3_EXT") f in
      (f, isSRGB, [])
  | PIXELFORMAT_DXT5_UNORM =>
      let f := tf_set_internalformat (if isSRGB then GL "GL_COMPRESSED_SRGB_ALPHA_S3TC_DXT5_EXT" else GL "GL_COMPRESSED_RGBA_S3TC_DXT5_EXT") f in
      (f, isSRGB, [])
  | PIXELFORMAT_BC4_UNORM =>
      let isSRGB := false in
      let f := tf_set_internalformat (GL "GL_COMPRESSED_RED_RGTC1") f in
      (f, isSRGB, [])
  | PIXELFORMAT_BC4_SNORM =>
      let isSRGB := false in
      let f := tf_set_internalformat (GL "GL_COMPRESSED_SIGNED_RED_RGTC1") f in
      (f, isSRGB, [])
  | PIXELFORMAT_BC5_UNORM =>
      let isSRGB := false in
      let f := tf_set_internalformat (GL "GL_COMPRESSED_RG_RGTC2") f in
      (f, isSRGB, [])
  | PIXELFORMAT_BC5_SNORM =>
      let isSRGB := false in
      let f := tf_set_internalformat (GL "GL_COMPRESSED_SIGNED_RG_RGTC2") f in
      (f, isSRGB, [])
  | PIXELFORMAT_BC6H_UFLOAT =>
      let isSRGB := false in
      let f := tf_set_internalformat (GL "GL_COMPRESSED_RGB_BPTC_UNSIGNED_FLOAT") f in
      (f, isSRGB, [])
  | PIXELFORMAT_BC6H_FLOAT =>
      let isSRGB := false in
      let f := tf_set_internalformat (GL "GL_COMPRESSED_RGB_BPTC_SIGNED_FLOAT") f in
      (f, isSRGB, [])
  | PIXELFORMAT_BC7_UNORM =>
      let f := tf_set_internalformat (if isSRGB then GL "GL_COMPRESSED_SRGB_ALPHA_BPTC_UNORM" else GL "GL_COMPRESSED_RGBA_BPTC_UNORM") f in
      (f, isSRGB, [])
  | PIXELFORMAT_PVR1_RGB2_UNORM =>
      let f := tf_set_internalformat (if isSRGB then GL "GL_COMPRESSED_SRGB_PVRTC_2BPPV1_EXT" else GL "GL_COMPRESSED_RGB_PVRTC_2BPPV1_IMG") f in
      (f, isSRGB, [])
  | PIXELFORMAT_PVR1_RGB4_UNORM =>
      let f := tf_set_internalformat (if isSRGB then GL "GL_COMPRESSED_SRGB_PVRTC_4BPPV1_EXT" else GL "GL_COMPRESSED_RGB_PVRTC_4BPPV1_IMG") f in
      (f, isSRGB, [])
  | PIXELFORMAT_PVR1_RGBA2_UNORM =>
      let f := tf_set_internalformat (if isSRGB then GL "GL_COMPRESSED_SRGB_ALPHA_PVRTC_2BPPV1_EXT" else GL "GL_COMPRESSED_RGBA_PVRTC_2BPPV1_IMG") f in
      (f, isSRGB, [])
  | PIXELFORMAT_PVR1_RGBA4_UNORM =>
      let f := tf_set_internalformat (if isSRGB then GL "GL_COMPRESSED_SRGB_ALPHA_PVRTC_4BPPV1_EXT" else GL "GL_COMPRESSED_RGBA_PVRTC_4BPPV1_IMG") f in
      (f, isSRGB, [])
  | PIXELFORMAT_ETC1_UNORM =>
      let isSRGB := false in
      let f := tf_set_internalformat (GL "GL_ETC1_RGB8_OES") f in
      (f, isSRGB, [])
  | PIXELFORMAT_ETC2_RGB_UNORM =>
      let f := tf_set_internalformat (if isSRGB then GL "GL_COMPRESSED_SRGB8_ETC2" else GL "GL_COMPRESSED_RGB8_ETC2") f in
      (f, isSRGB, [])
  | PIXELFORMAT_ETC2_RGBA_UNORM =>
      let f := tf_set_internalformat (if isSRGB then GL "GL_COMPRESSED_SRGB8_ALPHA8_ETC2_EAC" else GL "GL_COMPRESSED_RGBA8_ETC2_EAC") f in
      (f, isSRGB, [])
  | PIXELFORMAT_ETC2_RGBA1_UNORM =>
      let f := tf_set_internalformat (if isSRGB then GL "GL_COMPRESSED_SRGB8_PUNCHTHROUGH_ALPHA1_ETC2" else GL "GL_COMPRESSED_RGB8_PUNCHTHROUGH_ALPHA1_ETC2") f in
      (f, isSRGB, [])
  | PIXELFORMAT_EAC_R_UNORM =>
      let isSRGB := false in
      let f := tf_set_internalformat (GL "GL_COMPRESSED_R11_EAC") f in
      (f, isSRGB, [])
  | PIXELFORMAT_EAC_R_SNORM =>
      let isSRGB := false in
      let f := tf_set_internalformat (GL "GL_COMPRESSED_SIGNED_R11_EAC") f in
      (f, isSRGB, [])
  | PIXELFORMAT_EAC_RG_UNORM =>
      let isSRGB := false in
      let f := tf_set_internalformat (GL "GL_COMPRESSED_RG11_EAC") f in
      (f, isSRGB, [])
  | PIXELFORMAT_EAC_RG_SNORM =>
      let isSRGB := false in
      let f := tf_set_internalformat (GL "GL_COMPRESSED_SIGNED_RG11_EAC") f in
      (f, isSRGB, [])
  | PIXELFORMAT_ASTC_4x4 =>
      let f := tf_set_internalformat (if isSRGB then GL "GL_COMPRESSED_SRGB8_ALPHA8_ASTC_4x4_KHR" else GL "GL_COMPRESSED_RGBA_ASTC_4x4_KHR") f in
      (f, isSRGB, [])
  | PIXELFORMAT_ASTC_5x4 =>
      let f := tf_set_internalformat (if isSRGB then GL "GL_COMPRESSED_SRGB8_ALPHA8_ASTC_5x4_KHR" else GL "GL_COMPRESSED_RGBA_ASTC_5x4_KHR") f in
      (f, isSRGB, [])
  | PIXELFORMAT_ASTC_5x5 =>
      let f := tf_set_internalformat (if isSRGB then GL "GL_COMPRESSED_SRGB8_ALPHA8_ASTC_5x5_KHR" else GL "GL_COMPRESSED_RGBA_ASTC_5x5_KHR") f in
      (f, isSRGB, [])
  | PIXELFORMAT_ASTC_6x5 =>
      let f := tf_set_internalformat (if isSRGB then GL "GL_COMPRESSED_SRGB8_ALPHA8_ASTC_6x5_KHR" else GL "GL_COMPRESSED_RGBA_ASTC_6x5_KHR") f in
      (f, isSRGB, [])
  | PIXELFORMAT_ASTC_6x6 =>
      let f := tf_set_internalformat (if isSRGB then GL "GL_COMPRESSED_SRGB8_ALPHA8_ASTC_6x6_KHR" else GL "GL_COMPRESSED_RGBA_ASTC_6x6_KHR") f in
      (f, isSRGB, [])
  | PIXELFORMAT_ASTC_8x5 =>
      let f := tf_set_internalformat (if isSRGB then GL "GL_COMPRESSED_SRGB8_ALPHA8_ASTC_8x5_KHR" else GL "GL_COMPRESSED_RGBA_ASTC_8x5_KHR") f in
      (f, isSRGB, [])
  | PIXELFORMAT_ASTC_8x6 =>
      let f := tf_set_internalformat (if isSRGB then GL "GL_COMPRESSED_SRGB8_ALPHA8_ASTC_8x6_KHR" else GL "GL_COMPRESSED_RGBA_ASTC_8x6_KHR") f in
      (f, isSRGB, [])
  | PIXELFORMAT_ASTC_8x8 =>
      let f := tf_set_internalformat (if isSRGB then GL "GL_COMPRESSED_SRGB8_ALPHA8_ASTC_8x8_KHR" else GL "GL_COMPRESSED_RGBA_ASTC_8x8_KHR") f in
      (f, isSRGB, [])
  | PIXELFORMAT_ASTC_10x5 =>
      let f := tf_set_internalformat (if isSRGB then GL "GL_COMPRESSED_SRGB8_ALPHA8_ASTC_10x5_KHR" else GL "GL_COMPRESSED_RGBA_ASTC_10x5_KHR") f in
      (f, isSRGB, [])
  | PIXELFORMAT_ASTC_10x6 =>
      let f := tf_set_internalformat (if isSRGB then GL "GL_COMPRESSED_SRGB8_ALPHA8_ASTC_10x6_KHR" else GL "GL_COMPRESSED_RGBA_ASTC_10x6_KHR") f in
      (f, isSRGB, [])
  | PIXELFORMAT_ASTC_10x8 =>
      let f := tf_set_internalformat (if isSRGB then GL "GL_COMPRESSED_SRGB8_ALPHA8_ASTC_10x8_KHR" else GL "GL_COMPRESSED_RGBA_ASTC_10x8_KHR") f in
      (f, isSRGB, [])
  | PIXELFORMAT_ASTC_10x10 =>
      let f := tf_set_internalformat (if isSRGB then GL "GL_COMPRESSED_SRGB8_ALPHA8_ASTC_10x10_KHR" else GL "GL_COMPRESSED_RGBA_ASTC_10x10_KHR") f in
      (f, isSRGB, [])
  | PIXELFORMAT_ASTC_12x10 =>
      let f := tf_set_internalformat (if isSRGB then GL "GL_COMPRESSED_SRGB8_ALPHA8_ASTC_12x10_KHR" else GL "GL_COMPRESSED_RGBA_ASTC_12x10_KHR") f in
      (f, isSRGB, [])
  | PIXELFORMAT_ASTC_12x12 =>
      let f := tf_set_internalformat (if isSRGB then GL "GL_COMPRESSED_SRGB8_ALPHA8_ASTC_12x12_KHR" else GL "GL_COMPRESSED_RGBA_ASTC_12x12_KHR") f in
      (f, isSRGB, [])
  | PIXELFORMAT_UNKNOWN | PIXELFORMAT_unlisted _ =>
      (f, isSRGB, [Unhandled_pixel_format pixelformat])
  end.

(** [OpenGL::convertPixelFormat]: the returned format, [isSRGB] as the
    reference parameter is left, and what was printed. *)
Definition convertPixelFormat (caps : GLCaps) (pixelformat : PixelFormat)
    (renderbuffer : bool) (isSRGB : bool) : TextureFormat * bool * list Diagnostic :=
  let f := TextureFormat_new in
  let f := tf_set_framebufferAttachments0 (GL "GL_COLOR_ATTACHMENT0") f in
  let f := tf_set_framebufferAttachments1 GL_NONE f in
  let pixelformat := switchedFormat caps pixelformat isSRGB in
  let '(f, isSRGB, printed) := convertSwitch caps pixelformat f isSRGB in
  if negb (isPixelFormatCompressed pixelformat) then
    let f :=
      if GLAD_ES_VERSION_2_0 caps && negb (GLAD_ES_VERSION_3_0 caps)
         && negb renderbuffer && negb (isTexStorageSupported caps)
      then tf_set_internalformat (externalformat f) f
      else f in
    let isSRGB := if negb (isPixelFormatSRGB pixelformat) then false else isSRGB in
    (f, isSRGB, printed)
  else (f, isSRGB, printed).

(** The switch has a case for the format. *)
Definition handled (pixelformat : PixelFormat) : bool :=
  match pixelformat with
  | PIXELFORMAT_UNKNOWN | PIXELFORMAT_unlisted _ => false
  | _ => true
  end.

(** The two formats of the case that assigns nothing. *)
Definition notSupportedYet (pixelformat : PixelFormat) : bool :=
  match pixelformat with
  | PIXELFORMAT_BGRA8_UNORM | PIXELFORMAT_BGRA8_UNORM_sRGB => true
  | _ => false
  end.

(** The formats whose case assigns the internal format only. *)
Definition onlyInternal (pixelformat : PixelFormat) : bool :=
  match pixelformat with
  | PIXELFORMAT_DXT1_UNORM | PIXELFORMAT_DXT3_UNORM | PIXELFORMAT_DXT5_UNORM
  | PIXELFORMAT_BC4_UNORM | PIXELFORMAT_BC4_SNORM | PIXELFORMAT_BC5_UNORM
  | PIXELFORMAT_BC5_SNORM | PIXELFORMAT_BC6H_UFLOAT | PIXELFORMAT_BC6H_FLOAT
  | PIXELFORMAT_BC7_UNORM | PIXELFORMAT_PVR1_RGB2_UNORM | PIXELFORMAT_PVR1_RGB4_UNORM
  | PIXELFORMAT_PVR1_RGBA2_UNORM | PIXELFORMAT_PVR1_RGBA4_UNORM | PIXELFORMAT_ETC1_UNORM
  | PIXELFORMAT_ETC2_RGB_UNORM | PIXELFORMAT_ETC2_RGBA_UNORM | PIXELFORMAT_ETC2_RGBA1_UNORM
  | PIXELFORMAT_EAC_R_UNORM | PIXELFORMAT_EAC_R_SNORM | PIXELFORMAT_EAC_RG_UNORM
  | PIXELFORMAT_EAC_RG_SNORM | PIXELFORMAT_ASTC_4x4 | PIXELFORMAT_ASTC_5x4
  | PIXELFORMAT_ASTC_5x5 | PIXELFORMAT_ASTC_6x5 | PIXELFORMAT_ASTC_6x6
  | PIXELFORMAT_ASTC_8x5 | PIXELFORMAT_ASTC_8x6 | PIXELFORMAT_ASTC_8x8
  | PIXELFORMAT_ASTC_10x5 | PIXELFORMAT_ASTC_10x6 | PIXELFORMAT_ASTC_10x8
  | PIXELFORMAT_ASTC_10x10 | PIXELFORMAT_ASTC_12x10 | PIXELFORMAT_ASTC_12x12 => true
  | _ => false
  end.

Definition zeroTriple (f : TextureFormat) : Prop :=
  internalformat f = GL_NONE /\ externalformat f = GL_NONE /\ type f = GL_NONE.

(** Claim C9.  Whatever the capability flags and the two flags passed in:
    a format the switch has no case for is printed as unhandled and the
    returned internal format, external format and type are zero; a format
    the switch has a case for prints nothing; the two BGRA8 formats have a
    case that assigns nothing, so they return the same zero triple and
    print nothing; every other format with a case returns an internal
    format that is not zero, as long as the formats whose case assigns
    only the internal format are reported as compressed. *)
Theorem convertPixelFormat_diagnostic (caps : GLCaps) (pixelformat : PixelFormat)
    (renderbuffer isSRGB : bool) :
  let switched := switchedFormat caps pixelformat isSRGB in
  let '(f, _, printed) := convertPixelFormat caps pixelformat renderbuffer isSRGB in
  (handled switched = false ->
   printed = [Unhandled_pixel_format switched] /\ zeroTriple f /\ swizzled f = false)
  /\ (handled switched = true -> printed = [])
  /\ (notSupportedYet switched = true -> zeroTriple f /\ printed = [])
  /\ (handled switched = true -> notSupportedYet switched = false ->
      (onlyInternal switched = true -> isPixelFormatCompressed switched = true) ->
      internalformat f <> GL_NONE).
Proof.
  cbv zeta. unfold convertPixelFormat. cbv zeta.
  destruct (switchedFormat caps pixelformat isSRGB) eqn:Es;
    cbn [convertSwitch handled notSupportedYet onlyInternal];
    unfold zeroTriple;
    repeat match goal with
           | |- context [if ?b then _ else _] => destruct b eqn:?
           end;
    cbn; repeat split; intros; try reflexivity; try discriminate; try congruence;
    match goal with
    | H : true = true -> _ = true, G : negb _ = true |- _ =>
        rewrite (H eq_refl) in G; discriminate
    end.
Qed.

(** The condition under which the internal format is replaced by the
    external one: OpenGL ES 2 only, a texture, no texture storage. *)
Definition unsizedOnly (caps : GLCaps) (renderbuffer : bool) : bool :=
  GLAD_ES_VERSION_2_0 caps && negb (GLAD_ES_VERSION_3_0 caps)
  && negb renderbuffer && negb (isTexStorageSupported caps).

#[local] Ltac convert_cases :=
  repeat match goal with
         | |- context [if ?b then _ else _] => destruct b eqn:?
         end.

(** X9.  The sRGB flag is only ever lowered.  Whatever the capability
    flags: when [convertPixelFormat] leaves [isSRGB] set, it was set on
    entry; and for a format that is not compressed it stays set only if
    the converted format is an sRGB format. *)
Theorem convertPixelFormat_sRGB_lowered (caps : GLCaps) (pixelformat : PixelFormat)
    (renderbuffer isSRGB : bool) :
  let switched := switchedFormat caps pixelformat isSRGB in
  let '(_, srgb, _) := convertPixelFormat caps pixelformat renderbuffer isSRGB in
  (srgb = true -> isSRGB = true)
  /\ (srgb = true -> isPixelFormatCompressed switched = false ->
      isPixelFormatSRGB switched = true)
  /\ (isSRGB = false -> srgb = false).
Proof.
  cbv zeta. unfold convertPixelFormat. cbv zeta.
  destruct (switchedFormat caps pixelformat isSRGB) eqn:Es;
    cbn [convertSwitch];
    convert_cases; cbn; repeat split; intros; subst;
    try reflexivity; try discriminate; try congruence;
    match goal with
    | H : negb ?x = false |- ?x = true => apply negb_false_iff; exact H
    | H : negb ?x = false, G : ?x = false |- _ => rewrite G in H; discriminate H
    end.
Qed.

(** X10.  The [renderbuffer] flag matters on OpenGL ES 2 only.  Two
    conversions that differ in the flag alone agree on everything but the
    internal format; they agree on the internal format too unless the
    context is OpenGL ES 2 without texture storage and the format is not
    compressed; and in that case the conversion for a texture returns the
    external format as the internal format. *)
Theorem convertPixelFormat_unsized (caps : GLCaps) (pixelformat : PixelFormat)
    (isSRGB : bool) :
  let switched := switchedFormat caps pixelformat isSRGB in
  let '(ft, srgbt, printedt) := convertPixelFormat caps pixelformat false isSRGB in
  let '(fr, srgbr, printedr) := convertPixelFormat caps pixelformat true isSRGB in
  srgbt = srgbr /\ printedt = printedr
  /\ ft = tf_set_internalformat (internalformat ft) fr
  /\ (unsizedOnly caps false && negb (isPixelFormatCompressed switched) = true ->
      internalformat ft = externalformat ft /\ externalformat ft = externalformat fr)
  /\ (unsizedOnly caps false && negb (isPixelFormatCompressed switched) = false ->
      ft = fr).
Proof.
  cbv zeta. unfold convertPixelFormat, unsizedOnly. cbv zeta.
  destruct (convertSwitch caps (switchedFormat caps pixelformat isSRGB)
              (tf_set_framebufferAttachments1 GL_NONE
                 (tf_set_framebufferAttachments0 (GL "GL_COLOR_ATTACHMENT0")
                    TextureFormat_new)) isSRGB) as [[f srgb] printed].
  cbn [negb andb].
  rewrite !andb_true_r, andb_false_r.
  destruct (isPixelFormatCompressed (switchedFormat caps pixelformat isSRGB)); cbn [negb].
  - rewrite andb_false_r. destruct f; cbn. repeat split; intros; try discriminate; auto.
  - rewrite andb_true_r.
    destruct (GLAD_ES_VERSION_2_0 caps && negb (GLAD_ES_VERSION_3_0 caps)
              && negb (isTexStorageSupported caps));
      destruct f; cbn; repeat split; intros; try discriminate; auto.
Qed.


End Conversion.

End OpenGL.
(** * Concrete runs *)

(** The constants of Graphics.h and a display state, stream buffers and
    helper functions to run the engine on. *)
Definition sampleMembers : DisplayState :=
  {| color := Colorf_white;
     backgroundColor := {| col_r := float_0; col_g := float_0; col_b := float_0;
                           col_a := float_1 |};
     blend := {| blend_enable := true; operationRGB := 0; operationA := 0;
                 srcFactorRGB := 1; srcFactorA := 1; dstFactorRGB := 7; dstFactorA := 7 |};
     lineWidth := float_1; lineStyle := LINE_SMOOTH; lineJoin := LINE_JOIN_MITER;
     pointSize := float_1;
     scissor := false; scissorRect := {| rect_x := 0; rect_y := 0; rect_w := 0; rect_h := 0 |};
     meshCullMode := 0; winding := 0;
     font := None; shader := None;
     renderTargets := RenderTargets_empty;
     stencil := {| stencil_action := 0; stencil_compare := 0; stencil_value := 0;
                   stencil_readMask := 255; stencil_writeMask := 255 |};
     depthTest := 0; depthWrite := false;
     colorMask := {| mask_r := true; mask_g := true; mask_b := true; mask_a := true |};
     wireframe := false;
     defaultSamplerState := {| mipmapFilter := MIPMAP_FILTER_LINEAR; samplerMembers := [] |};
     useCustomProjection := false;
     customProjection := Matrix4_identity |}.

Definition sampleCaps : Capabilities :=
  {| LIMIT_RENDER_TARGETS := 4; FEATURE_MULTI_RENDER_TARGET_FORMATS := true |}.

Definition sampleBuffer (size : Z) : StreamBuffer := {| sb_size := size; sb_gpuUsed := 0 |}.

Definition sampleDepthStencil (f : PixelFormat) : bool :=
  match f with
  | PIXELFORMAT_STENCIL8 | PIXELFORMAT_DEPTH16_UNORM | PIXELFORMAT_DEPTH24_UNORM
  | PIXELFORMAT_DEPTH32_FLOAT | PIXELFORMAT_DEPTH24_UNORM_STENCIL8
  | PIXELFORMAT_DEPTH32_FLOAT_STENCIL8 => true
  | _ => false
  end.

Definition sampleSRGB (f : PixelFormat) : bool :=
  match f with
  | PIXELFORMAT_RGBA8_UNORM_sRGB | PIXELFORMAT_BGRA8_UNORM_sRGB => true
  | _ => false
  end.

Definition sampleSupported (f : PixelFormat) (usage : PixelFormatUsage) (srgb : bool) : bool :=
  true.

Definition sampleProjection (m : Matrix4) (rendertotexture : bool) : Matrix4 := m.

Definition sampleOrtho (w h : Z) : Matrix4 := Matrix4_identity.

(** A new object with a window of 800 x 600, two vertex stream buffers of
    one megabyte and an index buffer for 65535 16-bit indices. *)
Definition sampleGraphics : Graphics :=
  Graphics_new sampleMembers sampleCaps 800 600 800 600
    (sampleBuffer 1048576) (sampleBuffer 1048576) (sampleBuffer 131070).

(** The command [points] requests for [vertices] points. *)
Definition pointsCommand (vertices : Z) : BatchedDrawCommand :=
  {| cmd_primitiveMode := PRIMITIVE_POINTS;
     cmd_formats0 := XYf; cmd_formats1 := RGBAub;
     cmd_indexMode := TRIANGLEINDEX_NONE;
     cmd_vertexCount := vertices;
     cmd_texture := None;
     cmd_standardShaderType := STANDARD_DEFAULT |}.

(** A fan as [fanCommand], drawn with the texture [t]. *)
Definition texturedFan (vertices : Z) (t : Texture) : BatchedDrawCommand :=
  {| cmd_primitiveMode := PRIMITIVE_TRIANGLES;
     cmd_formats0 := XYf; cmd_formats1 := RGBAub;
     cmd_indexMode := TRIANGLEINDEX_FAN;
     cmd_vertexCount := vertices;
     cmd_texture := Some t;
     cmd_standardShaderType := STANDARD_DEFAULT |}.

Definition sampleTexture (address : positive) (w h : Z) : Texture :=
  textureAt address PIXELFORMAT_RGBA8_UNORM w h 0.

(** Two identical commands of no vertex leave nothing to draw at the next
    flush, and two identical fans of two vertices, which generate no index,
    are drawn apart: the second one flushes the first. *)
Lemma requestBatchedDraw_degenerate :
  draws (calls (fst (flushBatchedDraws sampleMembers
                       (fst (requestBatchedDraws sampleMembers
                               [pointsCommand 0; pointsCommand 0] sampleGraphics))))) = []
  /\ length (draws (calls (fst (requestBatchedDraws sampleMembers
                                  [fanCommand 2; fanCommand 2] sampleGraphics)))) = 1%nat.
Proof. split; vm_compute; reflexivity. Qed.

Lemma requestBatchedDraw_coalesces_witness :
  draws (calls (fst (requestBatchedDraws sampleMembers [fanCommand 3; fanCommand 4]
                       sampleGraphics)))
  = draws (calls sampleGraphics)
  /\ exists d1 d2,
       draws (calls (fst (requestBatchedDraws sampleMembers
                            ([fanCommand 3]
                             ++ texturedFan 5 (sampleTexture 1 64 64) :: [fanCommand 4])
                            sampleGraphics)))
       = draws (calls sampleGraphics) ++ [d1; d2]
       /\ drawCovers d1 (totalVertices [fanCommand 3]) (totalIndices [fanCommand 3])
       /\ drawCovers d2 5 (reqIndexCount (texturedFan 5 (sampleTexture 1 64 64))).
Proof.
  assert (Hidle : idle (batchedDrawState sampleGraphics))
    by (unfold idle; repeat split; reflexivity).
  assert (Hne : [fanCommand 3; fanCommand 4] <> []) by discriminate.
  assert (Hsame : Forall (fun c => sameBatch (fanCommand 3) c = true)
                         [fanCommand 3; fanCommand 4])
    by (repeat constructor).
  assert (Hnd : Forall nonDegenerate [fanCommand 3; fanCommand 4])
    by (repeat constructor; vm_compute; reflexivity).
  destruct (requestBatchedDraw_coalesces sampleMembers sampleGraphics (fanCommand 3)
              [fanCommand 3; fanCommand 4] Hidle Hne Hsame Hnd eq_refl) as [H1 H2].
  split.
  - apply H1; try (right; vm_compute; split; [discriminate | reflexivity]).
    right. vm_compute. discriminate.
  - destruct (H2 (texturedFan 5 (sampleTexture 1 64 64)) [fanCommand 3] [fanCommand 4])
      as (d1 & d2 & E & C1 & C2 & _); try reflexivity; try discriminate.
    + split; vm_compute; reflexivity.
    + right. vm_compute. split; [discriminate | reflexivity].
    + right. vm_compute. split; [discriminate | reflexivity].
    + right. vm_compute. split; [discriminate | reflexivity].
    + right. vm_compute. discriminate.
    + right. vm_compute. discriminate.
    + exists d1, d2. repeat split; assumption.
Defined.

(** The constants of Graphics.h. *)
Definition sampleMaxDepth : nat := 128.
Definition sampleUnusedFrames : Z := 16.
Definition sampleTemporaryDepth : Z := 1.
Definition sampleTemporaryStencil : Z := 2.

(** The engine on these constants and helpers. *)
Definition samplePush : StackType -> M unit := push sampleMaxDepth sampleMembers.

Definition samplePop : M unit :=
  pop sampleTemporaryDepth sampleTemporaryStencil sampleDepthStencil sampleSRGB
    sampleSupported sampleProjection sampleOrtho sampleMembers.

Definition sampleRunStackOps : list StackOp -> Graphics -> Graphics :=
  runStackOps sampleMaxDepth sampleTemporaryDepth sampleTemporaryStencil sampleDepthStencil
    sampleSRGB sampleSupported sampleProjection sampleOrtho sampleMembers.

Definition sampleRunSetters : list Setter -> Graphics -> Graphics :=
  runSetters sampleTemporaryDepth sampleTemporaryStencil sampleDepthStencil sampleSRGB
    sampleSupported sampleProjection sampleOrtho sampleMembers.

Definition sampleSetRenderTargets : RenderTargets -> M unit :=
  setRenderTargets sampleTemporaryDepth sampleTemporaryStencil sampleDepthStencil sampleSRGB
    sampleSupported sampleProjection sampleOrtho sampleMembers.


Definition sampleRed : Colorf :=
  {| col_r := float_1; col_g := float_0; col_b := float_0; col_a := float_1 |}.


(** The object with a custom projection and one triangle pending. *)
Definition projectedGraphics : Graphics :=
  fst (requestBatchedDraw sampleMembers (fanCommand 3)
         (fst (setCustomProjection sampleProjection sampleMembers Matrix4_identity
                 sampleGraphics))).


(** Two color attachments of different sizes. *)
Definition mismatchedTargets : RenderTargets :=
  {| colors := [ {| ct_texture := sampleTexture 1 64 64; ct_slice := 0; ct_mipmap := 0 |};
                 {| ct_texture := sampleTexture 2 32 32; ct_slice := 0; ct_mipmap := 0 |} ];
     depthStencil := RenderTarget_null;
     temporaryRTFlags := 0 |}.


(** One color attachment of 64 x 64. *)
Definition singleTarget : RenderTargets :=
  {| colors := [ {| ct_texture := sampleTexture 1 64 64; ct_slice := 0; ct_mipmap := 0 |} ];
     depthStencil := RenderTarget_null;
     temporaryRTFlags := 0 |}.


Lemma temporaryTexture_lifecycle_witness :
  exists t,
    snd (getTemporaryTexture PIXELFORMAT_DEPTH16_UNORM 64 64 0 sampleGraphics) = Returned t
    /\ shapeMatches t PIXELFORMAT_DEPTH16_UNORM 64 64 0 = true
    /\ getTemporaryTexture PIXELFORMAT_DEPTH16_UNORM 64 64 0
         (fst (releaseTemporaryTexture t
                 (fst (getTemporaryTexture PIXELFORMAT_DEPTH16_UNORM 64 64 0
                         sampleGraphics))))
       = (fst (getTemporaryTexture PIXELFORMAT_DEPTH16_UNORM 64 64 0 sampleGraphics),
          Returned t).
Proof.
  assert (Hd : poolDistinct sampleGraphics) by (split; constructor).
  assert (Hm : 0 <= sampleUnusedFrames) by (unfold sampleUnusedFrames; lia).
  exact (proj1 (temporaryTexture_lifecycle sampleUnusedFrames sampleGraphics
                  PIXELFORMAT_DEPTH16_UNORM 64 64 0 Hd Hm)).
Defined.

Lemma fillIndices_pattern_witness :
  firstn 6 (skipn (Z.to_nat (6 * 1)) (fillIndices TRIANGLEINDEX_QUADS 10 8))
  = [10 + 4 * 1; 10 + 4 * 1 + 1; 10 + 4 * 1 + 2; 10 + 4 * 1 + 2; 10 + 4 * 1 + 3; 10 + 4 * 1]
  /\ firstn 3 (skipn (Z.to_nat (3 * (2 - 1))) (fillIndices TRIANGLEINDEX_FAN 10 5))
     = [10; 10 + 2; 10 + 2 + 1].
Proof.
  split.
  - apply (proj1 (proj2 (proj2 (proj2 (fillIndices_pattern sampleMembers 10 8))))).
    vm_compute. split; [discriminate | reflexivity].
  - apply (proj1 (proj2 (proj2 (proj2 (proj2 (fillIndices_pattern sampleMembers 10 5)))))).
    lia.
Defined.

(** ** The pixel-format conversion on a desktop OpenGL 3.3 core profile *)

Definition sampleGLCaps : OpenGL.GLCaps :=
  {| OpenGL.GLAD_ES_VERSION_2_0 := false;
     OpenGL.GLAD_ES_VERSION_3_0 := false;
     OpenGL.GLAD_VERSION_3_0 := true;
     OpenGL.GLAD_VERSION_4_2 := false;
     OpenGL.GLAD_VERSION_4_3 := false;
     OpenGL.GLAD_ARB_ES3_compatibility := false;
     OpenGL.GLAD_ARB_framebuffer_object := true;
     OpenGL.GLAD_ARB_texture_rg := true;
     OpenGL.GLAD_ARB_texture_storage := true;
     OpenGL.GLAD_EXT_texture_rg := false;
     OpenGL.GLAD_EXT_packed_depth_stencil := true;
     OpenGL.GLAD_OES_depth24 := false;
     OpenGL.GLAD_OES_packed_depth_stencil := false;
     OpenGL.GLAD_OES_texture_half_float := false;
     OpenGL.brokenR8PixelFormat := false;
     OpenGL.texStorageBreaksSubImage := false;
     OpenGL.isCoreProfile := true |}.

Definition sampleToSRGB (f : PixelFormat) : PixelFormat :=
  match f with
  | PIXELFORMAT_RGBA8_UNORM => PIXELFORMAT_RGBA8_UNORM_sRGB
  | PIXELFORMAT_BGRA8_UNORM => PIXELFORMAT_BGRA8_UNORM_sRGB
  | _ => f
  end.

Definition sampleConvert : PixelFormat -> bool -> bool ->
    OpenGL.TextureFormat * bool * list OpenGL.Diagnostic :=
  OpenGL.convertPixelFormat sampleToSRGB OpenGL.onlyInternal sampleSRGB sampleGLCaps.

(** The BGRA8 format comes back with the zero triple and nothing is
    printed. *)
Lemma convertPixelFormat_silent :
  OpenGL.zeroTriple (fst (fst (sampleConvert PIXELFORMAT_BGRA8_UNORM false false)))
  /\ snd (sampleConvert PIXELFORMAT_BGRA8_UNORM false false) = [].
Proof. vm_compute. repeat split; reflexivity. Qed.

Lemma convertPixelFormat_diagnostic_witness :
  OpenGL.internalformat (fst (fst (sampleConvert PIXELFORMAT_R8_UNORM false false)))
  <> OpenGL.GL_NONE.
Proof.
  pose proof (OpenGL.convertPixelFormat_diagnostic sampleToSRGB OpenGL.onlyInternal
                sampleSRGB sampleGLCaps PIXELFORMAT_R8_UNORM false false) as H.
  cbv zeta in H.
  destruct (OpenGL.convertPixelFormat sampleToSRGB OpenGL.onlyInternal sampleSRGB
              sampleGLCaps PIXELFORMAT_R8_UNORM false false) as [[f s] printed] eqn:E.
  unfold sampleConvert. rewrite E. cbn [fst].
  destruct H as (_ & _ & _ & H). apply H; try reflexivity. intros X. discriminate X.
Defined.

(** * The binding caches of OpenGL.cpp

    [OpenGL::state] remembers what was last bound so that a repeated bind
    does not reach the driver.  The calls that do reach the driver are
    recorded, oldest first, in [glCalls]. *)

Module GLCache.

(** A [GLuint] holds an object name; names are only stored and compared. *)
Definition GLuint : Type := Z.

(** The enumerators as the switches of [getGLBufferType] and
    [getGLTextureType] list them. *)
Inductive BufferUsage : Type :=
  | BUFFERUSAGE_VERTEX
  | BUFFERUSAGE_INDEX
  | BUFFERUSAGE_TEXEL
  | BUFFERUSAGE_SHADER_STORAGE
  | BUFFERUSAGE_MAX_ENUM.

Inductive TextureType : Type :=
  | TEXTURE_2D
  | TEXTURE_VOLUME
  | TEXTURE_2D_ARRAY
  | TEXTURE_CUBE
  | TEXTURE_MAX_ENUM.

Definition BufferUsage_eqb (x y : BufferUsage) : bool :=
  match x, y with
  | BUFFERUSAGE_VERTEX, BUFFERUSAGE_VERTEX
  | BUFFERUSAGE_INDEX, BUFFERUSAGE_INDEX
  | BUFFERUSAGE_TEXEL, BUFFERUSAGE_TEXEL
  | BUFFERUSAGE_SHADER_STORAGE, BUFFERUSAGE_SHADER_STORAGE
  | BUFFERUSAGE_MAX_ENUM, BUFFERUSAGE_MAX_ENUM => true
  | _, _ => false
  end.

Definition TextureType_eqb (x y : TextureType) : bool :=
  match x, y with
  | TEXTURE_2D, TEXTURE_2D
  | TEXTURE_VOLUME, TEXTURE_VOLUME
  | TEXTURE_2D_ARRAY, TEXTURE_2D_ARRAY
  | TEXTURE_CUBE, TEXTURE_CUBE
  | TEXTURE_MAX_ENUM, TEXTURE_MAX_ENUM => true
  | _, _ => false
  end.

Definition GLenum_eqb (x y : OpenGL.GLenum) : bool :=
  match x, y with
  | OpenGL.GL_NONE, OpenGL.GL_NONE => true
  | OpenGL.GL a, OpenGL.GL b => String.eqb a b
  | _, _ => false
  end.

Definition getGLBufferType (usage : BufferUsage) : OpenGL.GLenum :=
  match usage with
  | BUFFERUSAGE_VERTEX => OpenGL.GL "GL_ARRAY_BUFFER"
  | BUFFERUSAGE_INDEX => OpenGL.GL "GL_ELEMENT_ARRAY_BUFFER"
  | BUFFERUSAGE_TEXEL => OpenGL.GL "GL_TEXTURE_BUFFER"
  | BUFFERUSAGE_SHADER_STORAGE => OpenGL.GL "GL_SHADER_STORAGE_BUFFER"
  | BUFFERUSAGE_MAX_ENUM => OpenGL.GL "GL_ZERO"
  end.

Definition getGLTextureType (type : TextureType) : OpenGL.GLenum :=
  match type with
  | TEXTURE_2D => OpenGL.GL "GL_TEXTURE_2D"
  | TEXTURE_VOLUME => OpenGL.GL "GL_TEXTURE_3D"
  | TEXTURE_2D_ARRAY => OpenGL.GL "GL_TEXTURE_2D_ARRAY"
  | TEXTURE_CUBE => OpenGL.GL "GL_TEXTURE_CUBE_MAP"
  | TEXTURE_MAX_ENUM => OpenGL.GL "GL_TEXTURE_BUFFER" (* Hack *)
  end.

(** [GL_TEXTURE0], as the OpenGL headers define it. *)
Definition GL_TEXTURE0 : Z := 33984.

(** The driver calls of the modelled functions. *)
Inductive GLCall : Type :=
  | glBindBuffer (target : OpenGL.GLenum) (buffer : GLuint)
  | glBindBufferBase (target : OpenGL.GLenum) (index : Z) (buffer : GLuint)
  | glDeleteBuffers (buffer : GLuint)
  | glActiveTexture (texture : Z)
  | glBindTexture (target : OpenGL.GLenum) (texture : GLuint)
  | glDeleteTextures (texture : GLuint)
  | glBindFramebuffer (target : OpenGL.GLenum) (framebuffer : GLuint)
  | glDeleteFramebuffers (framebuffer : GLuint)
  | glViewport (x y w h : Z)
  | glScissor (x y w h : Z).

(** ** Vectors indexed by an [int]

    [v[i]] on a [std::vector] is not checked; outside the vector the model
    reads 0 and writes nothing, and the theorems below keep the index
    inside. *)
Definition vec_get (v : list GLuint) (i : Z) : GLuint :=
  if (0 <=? i) && (i <? Z.of_nat (length v)) then nth (Z.to_nat i) v 0 else 0.

Fixpoint set_nth (v : list GLuint) (n : nat) (x : GLuint) : list GLuint :=
  match v, n with
  | [], _ => []
  | _ :: rest, O => x :: rest
  | y :: rest, S n' => y :: set_nth rest n' x
  end.

Definition vec_set (v : list GLuint) (i : Z) (x : GLuint) : list GLuint :=
  if (0 <=? i) && (i <? Z.of_nat (length v)) then set_nth v (Z.to_nat i) x else v.

(** [if (id == x) id = 0] over a vector. *)
Definition forget (x : GLuint) (v : list GLuint) : list GLuint :=
  map (fun id => if id =? x then 0 else id) v.

(** ** The cached state *)

Record State : Type := mkState {
  boundBuffers : BufferUsage -> GLuint;
  boundIndexedBuffers : BufferUsage -> list GLuint;
  boundTextures : TextureType -> list GLuint;
  curTextureUnit : Z;
  boundFramebuffers0 : GLuint;
  boundFramebuffers1 : GLuint;
  viewport : Rect;
  scissor : Rect;
  glCalls : list GLCall
}.

Definition set_boundBuffers (v : BufferUsage -> GLuint) (s : State) : State :=
  {| boundBuffers := v; boundIndexedBuffers := boundIndexedBuffers s;
     boundTextures := boundTextures s; curTextureUnit := curTextureUnit s;
     boundFramebuffers0 := boundFramebuffers0 s; boundFramebuffers1 := boundFramebuffers1 s;
     viewport := viewport s; scissor := scissor s; glCalls := glCalls s |}.

Definition set_boundIndexedBuffers (v : BufferUsage -> list GLuint) (s : State) : State :=
  {| boundBuffers := boundBuffers s; boundIndexedBuffers := v;
     boundTextures := boundTextures s; curTextureUnit := curTextureUnit s;
     boundFramebuffers0 := boundFramebuffers0 s; boundFramebuffers1 := boundFramebuffers1 s;
     viewport := viewport s; scissor := scissor s; glCalls := glCalls s |}.

Definition set_boundTextures (v : TextureType -> list GLuint) (s : State) : State :=
  {| boundBuffers := boundBuffers s; boundIndexedBuffers := boundIndexedBuffers s;
     boundTextures := v; curTextureUnit := curTextureUnit s;
     boundFramebuffers0 := boundFramebuffers0 s; boundFramebuffers1 := boundFramebuffers1 s;
     viewport := viewport s; scissor := scissor s; glCalls := glCalls s |}.

Definition set_curTextureUnit (v : Z) (s : State) : State :=
  {| boundBuffers := boundBuffers s; boundIndexedBuffers := boundIndexedBuffers s;
     boundTextures := boundTextures s; curTextureUnit := v;
     boundFramebuffers0 := boundFramebuffers0 s; boundFramebuffers1 := boundFramebuffers1 s;
     viewport := viewport s; scissor := scissor s; glCalls := glCalls s |}.

Definition set_boundFramebuffers0 (v : GLuint) (s : State) : State :=
  {| boundBuffers := boundBuffers s; boundIndexedBuffers := boundIndexedBuffers s;
     boundTextures := boundTextures s; curTextureUnit := curTextureUnit s;
     boundFramebuffers0 := v; boundFramebuffers1 := boundFramebuffers1 s;
     viewport := viewport s; scissor := scissor s; glCalls := glCalls s |}.

Definition set_boundFramebuffers1 (v : GLuint) (s : State) : State :=
  {| boundBuffers := boundBuffers s; boundIndexedBuffers := boundIndexedBuffers s;
     boundTextures := boundTextures s; curTextureUnit := curTextureUnit s;
     boundFramebuffers0 := boundFramebuffers0 s; boundFramebuffers1 := v;
     viewport := viewport s; scissor := scissor s; glCalls := glCalls s |}.

Definition set_viewport (v : Rect) (s : State) : State :=
  {| boundBuffers := boundBuffers s; boundIndexedBuffers := boundIndexedBuffers s;
     boundTextures := boundTextures s; curTextureUnit := curTextureUnit s;
     boundFramebuffers0 := boundFramebuffers0 s; boundFramebuffers1 := boundFramebuffers1 s;
     viewport := v; scissor := scissor s; glCalls := glCalls s |}.

Definition set_scissor (v : Rect) (s : State) : State :=
  {| boundBuffers := boundBuffers s; boundIndexedBuffers := boundIndexedBuffers s;
     boundTextures := boundTextures s; curTextureUnit := curTextureUnit s;
     boundFramebuffers0 := boundFramebuffers0 s; boundFramebuffers1 := boundFramebuffers1 s;
     viewport := viewport s; scissor := v; glCalls := glCalls s |}.

Definition set_glCalls (v : list GLCall) (s : State) : State :=
  {| boundBuffers := boundBuffers s; boundIndexedBuffers := boundIndexedBuffers s;
     boundTextures := boundTextures s; curTextureUnit := curTextureUnit s;
     boundFramebuffers0 := boundFramebuffers0 s; boundFramebuffers1 := boundFramebuffers1 s;
     viewport := viewport s; scissor := scissor s; glCalls := v |}.

(** [a[i] = x] on an array indexed by an enumeration. *)
Definition assignAt {K V : Type} (eqb : K -> K -> bool) (a : K -> V) (i : K) (x : V)
    : K -> V :=
  fun k => if eqb k i then x else a k.

Definition GL_ (A : Type) : Type := St State A.

Definition gl (c : GLCall) : GL_ unit :=
  modify (fun s => set_glCalls (glCalls s ++ [c]) s).

Fixpoint forEach {A : Type} (l : list A) (body : A -> GL_ unit) : GL_ unit :=
  match l with
  | [] => ret tt
  | x :: rest => body x ;; forEach rest body
  end.

(** ** Buffers *)

Definition bindBuffer (type : BufferUsage) (buffer : GLuint) : GL_ unit :=
  cur <- gets (fun s => boundBuffers s type) ;;
  when (negb (cur =? buffer))
    (gl (glBindBuffer (getGLBufferType type) buffer) ;;
     modify (fun s => set_boundBuffers
                        (assignAt BufferUsage_eqb (boundBuffers s) type buffer) s)).

(** The indices below [BUFFERUSAGE_MAX_ENUM]. *)
Definition bufferUsages : list BufferUsage :=
  [BUFFERUSAGE_VERTEX; BUFFERUSAGE_INDEX; BUFFERUSAGE_TEXEL; BUFFERUSAGE_SHADER_STORAGE].

Definition deleteBuffer (buffer : GLuint) : GL_ unit :=
  gl (glDeleteBuffers buffer) ;;
  forEach bufferUsages (fun i =>
    cur <- gets (fun s => boundBuffers s i) ;;
    when (cur =? buffer)
      (modify (fun s => set_boundBuffers
                          (assignAt BufferUsage_eqb (boundBuffers s) i 0) s)) ;;
    modify (fun s => set_boundIndexedBuffers
                       (assignAt BufferUsage_eqb (boundIndexedBuffers s) i
                          (forget buffer (boundIndexedBuffers s i))) s)).

(** The index is compared, and used, as a [size_t]. *)
Definition bindIndexedBuffer (buffer : GLuint) (type : BufferUsage) (index : Z) : GL_ unit :=
  bindings <- gets (fun s => boundIndexedBuffers s type) ;;
  when ((Z.of_nat (length bindings) >? size_t index)
        && negb (buffer =? vec_get bindings (size_t index)))
    (modify (fun s => set_boundIndexedBuffers
                        (assignAt BufferUsage_eqb (boundIndexedBuffers s) type
                           (vec_set bindings (size_t index) buffer)) s) ;;
     gl (glBindBufferBase (getGLBufferType type) index buffer) ;;
     (* glBindBufferBase affects glBindBuffer as well... for some reason. *)
     modify (fun s => set_boundBuffers
                        (assignAt BufferUsage_eqb (boundBuffers s) type buffer) s)).

(** ** Texture units *)

Definition setTextureUnit (textureunit : Z) : GL_ unit :=
  cur <- gets curTextureUnit ;;
  when (negb (textureunit =? cur)) (gl (glActiveTexture (GL_TEXTURE0 + textureunit))) ;;
  modify (set_curTextureUnit textureunit).

Definition bindTextureToUnit (target : TextureType) (texture : GLuint) (textureunit : Z)
    (restoreprev bindforedit : bool) : GL_ unit :=
  bound <- gets (fun s => vec_get (boundTextures s target) textureunit) ;;
  if negb (texture =? bound) then
    oldtextureunit <- gets curTextureUnit ;;
    when (negb (oldtextureunit =? textureunit))
      (gl (glActiveTexture (GL_TEXTURE0 + textureunit))) ;;
    modify (fun s => set_boundTextures
                       (assignAt TextureType_eqb (boundTextures s) target
                          (vec_set (boundTextures s target) textureunit texture)) s) ;;
    gl (glBindTexture (getGLTextureType target) texture) ;;
    if restoreprev && negb (oldtextureunit =? textureunit)
    then gl (glActiveTexture (GL_TEXTURE0 + oldtextureunit))
    else modify (set_curTextureUnit textureunit)
  else
    cur <- gets curTextureUnit ;;
    when (bindforedit && negb restoreprev && negb (textureunit =? cur))
      (gl (glActiveTexture (GL_TEXTURE0 + textureunit)) ;;
       modify (set_curTextureUnit textureunit)).

Definition bindBufferTextureToUnit (texture : GLuint) (textureunit : Z)
    (restoreprev bindforedit : bool) : GL_ unit :=
  bindTextureToUnit TEXTURE_MAX_ENUM texture textureunit restoreprev bindforedit.

(** The indices up to and including [TEXTURE_MAX_ENUM]. *)
Definition textureTypes : list TextureType :=
  [TEXTURE_2D; TEXTURE_VOLUME; TEXTURE_2D_ARRAY; TEXTURE_CUBE; TEXTURE_MAX_ENUM].

Definition deleteTexture (texture : GLuint) : GL_ unit :=
  (* glDeleteTextures binds texture 0 to all texture units the deleted
     texture was bound to before deletion. *)
  forEach textureTypes (fun i =>
    modify (fun s => set_boundTextures
                       (assignAt TextureType_eqb (boundTextures s) i
                          (forget texture (boundTextures s i))) s)) ;;
  gl (glDeleteTextures texture).

(** ** Viewport and scissor *)

Definition setViewport (v : Rect) : GL_ unit :=
  gl (glViewport (rect_x v) (rect_y v) (rect_w v) (rect_h v)) ;;
  modify (set_viewport v).

Definition getViewport (s : State) : Rect := viewport s.

Definition setScissor (v : Rect) (rtActive : bool) : GL_ unit :=
  (if rtActive then gl (glScissor (rect_x v) (rect_y v) (rect_w v) (rect_h v))
   else
     (* With no RT active, we need to compensate for glScissor starting
        from the lower left of the viewport instead of the top left. *)
     vp <- gets viewport ;;
     gl (glScissor (rect_x v) (rect_h vp - (rect_y v + rect_h v)) (rect_w v) (rect_h v))) ;;
  modify (set_scissor v).

(** ** What the recorded calls leave bound in the driver

    The binding points of the OpenGL context that the modelled functions
    touch, and how each recorded call moves them: a bind replaces one
    binding (of the active texture unit, for [glBindTexture];
    [glBindBufferBase] replaces the generic binding too), a delete resets
    every binding of the deleted name to zero. *)
Record Driver : Type := mkDriver {
  bufferBinding : OpenGL.GLenum -> GLuint;
  indexedBufferBinding : OpenGL.GLenum -> Z -> GLuint;
  activeTexture : Z;
  textureBinding : Z -> OpenGL.GLenum -> GLuint;
  drawFramebufferBinding : GLuint;
  readFramebufferBinding : GLuint
}.

Definition driverStep (d : Driver) (c : GLCall) : Driver :=
  match c with
  | glBindBuffer target buffer =>
      {| bufferBinding := assignAt GLenum_eqb (bufferBinding d) target buffer;
         indexedBufferBinding := indexedBufferBinding d;
         activeTexture := activeTexture d; textureBinding := textureBinding d;
         drawFramebufferBinding := drawFramebufferBinding d;
         readFramebufferBinding := readFramebufferBinding d |}
  | glBindBufferBase target index buffer =>
      {| bufferBinding := assignAt GLenum_eqb (bufferBinding d) target buffer;
         indexedBufferBinding :=
           (fun t i => if GLenum_eqb t target && (i =? index) then buffer
                       else indexedBufferBinding d t i);
         activeTexture := activeTexture d; textureBinding := textureBinding d;
         drawFramebufferBinding := drawFramebufferBinding d;
         readFramebufferBinding := readFramebufferBinding d |}
  | glDeleteBuffers buffer =>
      {| bufferBinding :=
           (fun t => if bufferBinding d t =? buffer then 0 else bufferBinding d t);
         indexedBufferBinding :=
           (fun t i => if indexedBufferBinding d t i =? buffer then 0
                       else indexedBufferBinding d t i);
         activeTexture := activeTexture d; textureBinding := textureBinding d;
         drawFramebufferBinding := drawFramebufferBinding d;
         readFramebufferBinding := readFramebufferBinding d |}
  | glActiveTexture texture =>
      {| bufferBinding := bufferBinding d; indexedBufferBinding := indexedBufferBinding d;
         activeTexture := texture; textureBinding := textureBinding d;
         drawFramebufferBinding := drawFramebufferBinding d;
         readFramebufferBinding := readFramebufferBinding d |}
  | glBindTexture target texture =>
      {| bufferBinding := bufferBinding d; indexedBufferBinding := indexedBufferBinding d;
         activeTexture := activeTexture d;
         textureBinding :=
           (fun u t => if (u =? activeTexture d) && GLenum_eqb t target then texture
                       else textureBinding d u t);
         drawFramebufferBinding := drawFramebufferBinding d;
         readFramebufferBinding := readFramebufferBinding d |}
  | glDeleteTextures texture =>
      {| bufferBinding := bufferBinding d; indexedBufferBinding := indexedBufferBinding d;
         activeTexture := activeTexture d;
         textureBinding :=
           (fun u t => if textureBinding d u t =? texture then 0 else textureBinding d u t);
         drawFramebufferBinding := drawFramebufferBinding d;
         readFramebufferBinding := readFramebufferBinding d |}
  | glBindFramebuffer target framebuffer =>
      let draw := GLenum_eqb target (OpenGL.GL "GL_FRAMEBUFFER")
                  || GLenum_eqb target (OpenGL.GL "GL_DRAW_FRAMEBUFFER") in
      let read := GLenum_eqb target (OpenGL.GL "GL_FRAMEBUFFER")
                  || GLenum_eqb target (OpenGL.GL "GL_READ_FRAMEBUFFER") in
      {| bufferBinding := bufferBinding d; indexedBufferBinding := indexedBufferBinding d;
         activeTexture := activeTexture d; textureBinding := textureBinding d;
         drawFramebufferBinding := if draw then framebuffer else drawFramebufferBinding d;
         readFramebufferBinding := if read then framebuffer else readFramebufferBinding d |}
  | glDeleteFramebuffers framebuffer =>
      {| bufferBinding := bufferBinding d; indexedBufferBinding := indexedBufferBinding d;
         activeTexture := activeTexture d; textureBinding := textureBinding d;
         drawFramebufferBinding :=
           if drawFramebufferBinding d =? framebuffer then 0 else drawFramebufferBinding d;
         readFramebufferBinding :=
           if readFramebufferBinding d =? framebuffer then 0 else readFramebufferBinding d |}
  | glViewport _ _ _ _ | glScissor _ _ _ _ => d
  end.

(** The driver after the calls, started from [d0]. *)
Definition driverAfter (d0 : Driver) (calls : list GLCall) : Driver :=
  fold_left driverStep calls d0.

(** The texture cache tells the truth: every vector has [n] units, the
    cached unit is the active one, and each cached name is the one the
    driver has bound at that unit and target. *)
Definition texturesCoherent (n : Z) (d0 : Driver) (s : State) : Prop :=
  let d := driverAfter d0 (glCalls s) in
  (forall type, Z.of_nat (length (boundTextures s type)) = n)
  /\ activeTexture d = GL_TEXTURE0 + curTextureUnit s
  /\ forall type unit, 0 <= unit < n ->
       vec_get (boundTextures s type) unit
       = textureBinding d (GL_TEXTURE0 + unit) (getGLTextureType type).

Inductive TextureOp : Type :=
  | Op_setTextureUnit (textureunit : Z)
  | Op_bindTextureToUnit (target : TextureType) (texture : GLuint) (textureunit : Z)
                         (restoreprev bindforedit : bool)
  | Op_deleteTexture (texture : GLuint).

Definition runTextureOp (op : TextureOp) : GL_ unit :=
  match op with
  | Op_setTextureUnit u => setTextureUnit u
  | Op_bindTextureToUnit target texture u restoreprev bindforedit =>
      bindTextureToUnit target texture u restoreprev bindforedit
  | Op_deleteTexture texture => deleteTexture texture
  end.

Definition runTextureOps (ops : list TextureOp) (s : State) : State :=
  fold_left (fun s op => fst (runTextureOp op s)) ops s.

(** The unit an operation names. *)
Definition unitOf (op : TextureOp) : option Z :=
  match op with
  | Op_setTextureUnit u | Op_bindTextureToUnit _ _ u _ _ => Some u
  | Op_deleteTexture _ => None
  end.

Definition unitsBelow (n : Z) (ops : list TextureOp) : Prop :=
  Forall (fun op => forall u, unitOf op = Some u -> 0 <= u < n) ops.

(** ** Lemmas on vectors *)

Lemma set_nth_length (v : list GLuint) (n : nat) (x : GLuint) :
  length (set_nth v n x) = length v.
Proof. revert n; induction v as [|y v IH]; intros [|n]; cbn; auto. Qed.

Lemma set_nth_nth (v : list GLuint) (n m : nat) (x : GLuint) :
  (n < length v)%nat ->
  nth m (set_nth v n x) 0 = if Nat.eqb m n then x else nth m v 0.
Proof.
  revert n m; induction v as [|y v IH]; intros [|n] [|m] H; cbn in *;
    try lia; auto.
  apply IH; lia.
Qed.

Lemma vec_set_length (v : list GLuint) (i : Z) (x : GLuint) :
  length (vec_set v i x) = length v.
Proof. unfold vec_set. destruct (_ && _); auto using set_nth_length. Qed.

Lemma vec_get_set (v : list GLuint) (i j : Z) (x : GLuint) :
  0 <= i < Z.of_nat (length v) ->
  vec_get (vec_set v i x) j = if j =? i then x else vec_get v j.
Proof.
  intros Hi. unfold vec_get. rewrite vec_set_length. unfold vec_set.
  replace ((0 <=? i) && (i <? Z.of_nat (length v))) with true
    by (symmetry; apply andb_true_iff; split; [apply Z.leb_le | apply Z.ltb_lt]; lia).
  destruct ((0 <=? j) && (j <? Z.of_nat (length v))) eqn:Hj.
  - apply andb_true_iff in Hj. destruct Hj as [H1 H2].
    apply Z.leb_le in H1. apply Z.ltb_lt in H2.
    rewrite set_nth_nth by lia.
    destruct (Z.eqb_spec j i) as [->|Hne].
    + now rewrite Nat.eqb_refl.
    + destruct (Nat.eqb_spec (Z.to_nat j) (Z.to_nat i)); [lia | reflexivity].
  - destruct (Z.eqb_spec j i) as [->|Hne]; [|reflexivity].
    apply andb_false_iff in Hj. destruct Hj as [H|H];
      [apply Z.leb_gt in H | apply Z.ltb_ge in H]; lia.
Qed.

Lemma forget_length (x : GLuint) (v : list GLuint) : length (forget x v) = length v.
Proof. apply length_map. Qed.

Lemma vec_get_forget (x : GLuint) (v : list GLuint) (j : Z) :
  vec_get (forget x v) j = if vec_get v j =? x then 0 else vec_get v j.
Proof.
  unfold vec_get. rewrite forget_length.
  destruct ((0 <=? j) && (j <? Z.of_nat (length v))) eqn:Hj.
  - apply andb_true_iff in Hj. destruct Hj as [H1 H2].
    apply Z.leb_le in H1. apply Z.ltb_lt in H2.
    unfold forget.
    pose proof (map_nth (fun id => if id =? x then 0 else id) v 0 (Z.to_nat j)) as E.
    cbv beta in E. etransitivity; [| exact E].
    apply nth_indep. rewrite length_map. unfold GLuint in *. lia.
  - now destruct (0 =? x).
Qed.

Lemma driverAfter_snoc (d0 : Driver) (calls : list GLCall) (c : GLCall) :
  driverAfter d0 (calls ++ [c]) = driverStep (driverAfter d0 calls) c.
Proof. unfold driverAfter. now rewrite fold_left_app. Qed.

Lemma GLenum_eqb_eq (x y : OpenGL.GLenum) : GLenum_eqb x y = true <-> x = y.
Proof.
  destruct x, y; cbn; split; intros H; try discriminate; auto.
  - apply String.eqb_eq in H. now subst.
  - injection H as ->. apply String.eqb_refl.
Qed.

Lemma getGLTextureType_inj (a b : TextureType) :
  GLenum_eqb (getGLTextureType a) (getGLTextureType b) = TextureType_eqb a b.
Proof. destruct a, b; reflexivity. Qed.

Lemma TextureType_eqb_eq (a b : TextureType) : TextureType_eqb a b = true <-> a = b.
Proof. destruct a, b; cbn; split; intros H; try discriminate; auto. Qed.

(** ** The texture cache *)

#[local] Arguments Z.add : simpl never.
#[local] Arguments driverAfter : simpl never.
#[local] Arguments vec_get : simpl never.
#[local] Arguments vec_set : simpl never.

Lemma coherent_setTextureUnit (n : Z) (d0 : Driver) (s : State) (u : Z) :
  texturesCoherent n d0 s -> texturesCoherent n d0 (fst (setTextureUnit u s)).
Proof.
  intros (Hlen & Hact & Hbind).
  unfold setTextureUnit, bind, gets, when, gl, modify, ret.
  destruct (Z.eqb_spec u (curTextureUnit s)) as [->|Hne]; cbn.
  - repeat split; auto.
  - unfold texturesCoherent. cbn. rewrite driverAfter_snoc. cbn.
    repeat split; auto.
Qed.

Lemma coherent_bindTextureToUnit (n : Z) (d0 : Driver) (s : State)
    (target : TextureType) (texture : GLuint) (u : Z) (restoreprev bindforedit : bool) :
  0 <= u < n ->
  texturesCoherent n d0 s ->
  texturesCoherent n d0 (fst (bindTextureToUnit target texture u restoreprev bindforedit s)).
Proof.
  intros Hu (Hlen & Hact & Hbind).
  unfold bindTextureToUnit, bind, gets, when, gl, modify, ret.
  destruct (Z.eqb_spec texture (vec_get (boundTextures s target) u)) as [Hsame|Hdiff];
    cbn [negb].
  - destruct (bindforedit && negb restoreprev && negb (u =? curTextureUnit s)); cbn.
    + unfold texturesCoherent. cbn. rewrite driverAfter_snoc. cbn.
      repeat split; auto.
    + repeat split; auto.
  - assert (Hslot : forall (d : Driver) (type : TextureType) (unit : Z),
             0 <= unit < n ->
             textureBinding d = textureBinding (driverAfter d0 (glCalls s)) ->
             vec_get (assignAt TextureType_eqb (boundTextures s) target
                        (vec_set (boundTextures s target) u texture) type) unit
             = (if (GL_TEXTURE0 + unit =? GL_TEXTURE0 + u)
                   && GLenum_eqb (getGLTextureType type) (getGLTextureType target)
                then texture
                else textureBinding d (GL_TEXTURE0 + unit) (getGLTextureType type))).
    { intros d type unit Hunit ->. unfold assignAt. rewrite getGLTextureType_inj.
      destruct (TextureType_eqb type target) eqn:E.
      - apply TextureType_eqb_eq in E. subst type.
        rewrite vec_get_set by (rewrite Hlen; lia).
        destruct (Z.eqb_spec unit u), (Z.eqb_spec (GL_TEXTURE0 + unit) (GL_TEXTURE0 + u));
          try lia; cbn; auto.
      - rewrite andb_false_r. auto. }
    assert (Hlen' : forall type,
              Z.of_nat (Datatypes.length
                          (assignAt TextureType_eqb (boundTextures s) target
                             (vec_set (boundTextures s target) u texture) type)) = n).
    { intros type. unfold assignAt. destruct (TextureType_eqb type target) eqn:E; auto.
      rewrite vec_set_length. auto. }
    destruct (Z.eqb_spec (curTextureUnit s) u) as [Hcur|Hcur]; cbn [negb].
    + rewrite andb_false_r. unfold texturesCoherent. cbn.
      rewrite driverAfter_snoc. cbn. rewrite Hact, Hcur.
      repeat split; auto.
    + rewrite andb_true_r. destruct restoreprev; unfold texturesCoherent; cbn;
        rewrite !driverAfter_snoc; cbn; repeat split; auto.
Qed.

Lemma forEach_forget (texture : GLuint) (s : State) :
  exists bt,
    fst (forEach textureTypes (fun i =>
           modify (fun s => set_boundTextures
                              (assignAt TextureType_eqb (boundTextures s) i
                                 (forget texture (boundTextures s i))) s)) s)
    = set_boundTextures bt s
    /\ snd (forEach textureTypes (fun i =>
           modify (fun s => set_boundTextures
                              (assignAt TextureType_eqb (boundTextures s) i
                                 (forget texture (boundTextures s i))) s)) s)
       = Returned tt
    /\ forall type, bt type = forget texture (boundTextures s type).
Proof.
  eexists. split; [reflexivity|]. split; [reflexivity|].
  intros []; reflexivity.
Qed.

Lemma coherent_deleteTexture (n : Z) (d0 : Driver) (s : State) (texture : GLuint) :
  texturesCoherent n d0 s -> texturesCoherent n d0 (fst (deleteTexture texture s)).
Proof.
  intros (Hlen & Hact & Hbind).
  destruct (forEach_forget texture s) as (bt & E1 & E2 & Hbt).
  unfold deleteTexture, bind.
  match goal with
  | |- context [forEach ?l ?f s] =>
      destruct (forEach l f s) as [s1 o] eqn:E; cbn [fst snd] in E1, E2; subst s1 o
  end.
  unfold gl, modify. cbn [fst]. unfold texturesCoherent. cbn.
  rewrite driverAfter_snoc. cbn.
  split; [|split]; auto.
  - intros type. rewrite Hbt, forget_length. auto.
  - intros type unit Hunit. rewrite Hbt, vec_get_forget, Hbind by auto. reflexivity.
Qed.

Lemma coherent_runTextureOps (n : Z) (d0 : Driver) (ops : list TextureOp) (s : State) :
  unitsBelow n ops -> texturesCoherent n d0 s ->
  texturesCoherent n d0 (runTextureOps ops s).
Proof.
  intros Hops. revert s. induction Hops as [|op ops Hop _ IH]; intros s H; [exact H|].
  apply IH. destruct op; cbn [runTextureOp].
  - now apply coherent_setTextureUnit.
  - apply coherent_bindTextureToUnit; auto.
  - now apply coherent_deleteTexture.
Qed.

Lemma bindTextureToUnit_state (target : TextureType) (texture : GLuint) (u : Z)
    (restoreprev bindforedit : bool) (s : State) :
  0 <= u < Z.of_nat (length (boundTextures s target)) ->
  let s' := fst (bindTextureToUnit target texture u restoreprev bindforedit s) in
  vec_get (boundTextures s' target) u = texture
  /\ curTextureUnit s'
     = (if restoreprev then curTextureUnit s
        else if negb (texture =? vec_get (boundTextures s target) u) || bindforedit then u
        else curTextureUnit s).
Proof.
  intros Hu.
  unfold bindTextureToUnit, bind, gets, when, gl, modify, ret.
  destruct (Z.eqb_spec texture (vec_get (boundTextures s target) u)) as [Hsame|Hdiff];
    cbn [negb orb].
  - destruct bindforedit, restoreprev; cbn; auto;
      destruct (Z.eqb_spec u (curTextureUnit s)); cbn; auto.
  - assert (Hslot : vec_get (assignAt TextureType_eqb (boundTextures s) target
                               (vec_set (boundTextures s target) u texture) target) u
                    = texture).
    { unfold assignAt. replace (TextureType_eqb target target) with true
        by (now destruct target).
      rewrite vec_get_set by lia. now rewrite Z.eqb_refl. }
    destruct (Z.eqb_spec (curTextureUnit s) u) as [Hcur|Hcur], restoreprev; cbn; auto.
Qed.

(** The vectors of [s] hold no name equal to [texture]. *)
Definition unbound (texture : GLuint) (s : State) : Prop :=
  forall type unit, vec_get (boundTextures s type) unit <> texture.

Lemma deleteTexture_state (texture : GLuint) (s : State) :
  let s' := fst (deleteTexture texture s) in
  glCalls s' = glCalls s ++ [glDeleteTextures texture]
  /\ curTextureUnit s' = curTextureUnit s
  /\ forall type, boundTextures s' type = forget texture (boundTextures s type).
Proof.
  destruct (forEach_forget texture s) as (bt & E1 & E2 & Hbt).
  unfold deleteTexture, bind.
  match goal with
  | |- context [forEach ?l ?f s] =>
      destruct (forEach l f s) as [s1 o] eqn:E; cbn [fst snd] in E1, E2; subst s1 o
  end.
  unfold gl, modify. cbn. auto.
Qed.

Lemma bindTextureToUnit_calls (target : TextureType) (texture : GLuint) (u : Z)
    (restoreprev bindforedit : bool) (s : State) :
  vec_get (boundTextures s target) u <> texture ->
  exists pre post,
    glCalls (fst (bindTextureToUnit target texture u restoreprev bindforedit s))
    = glCalls s ++ pre ++ [glBindTexture (getGLTextureType target) texture] ++ post.
Proof.
  intros Hdiff.
  unfold bindTextureToUnit, bind, gets, when, gl, modify, ret.
  destruct (Z.eqb_spec texture (vec_get (boundTextures s target) u)) as [E|_];
    [congruence|]. cbn [negb].
  destruct (Z.eqb_spec (curTextureUnit s) u) as [Hcur|Hcur]; cbn [negb].
  - rewrite andb_false_r. cbn. exists [], []. reflexivity.
  - rewrite andb_true_r. destruct restoreprev; cbn.
    + eexists [_], [_]. rewrite <- !app_assoc. reflexivity.
    + eexists [_], []. rewrite <- !app_assoc. reflexivity.
Qed.

(** X1.  The texture cache stays coherent with the driver.  Start from a
    state whose cache tells the truth about the driver ([n] units per
    vector, the cached unit is the active unit, every cached name is the
    bound one); after any sequence of [setTextureUnit], [bindTextureToUnit]
    and [deleteTexture] on units below [n], the cached unit is still the
    unit the driver has active and every cached name is still the name the
    driver has bound at that unit and target. *)
Theorem textureCache_coherent (n : Z) (d0 : Driver) (ops : list TextureOp) (s : State) :
  texturesCoherent n d0 s ->
  unitsBelow n ops ->
  let s' := runTextureOps ops s in
  let d' := driverAfter d0 (glCalls s') in
  activeTexture d' = GL_TEXTURE0 + curTextureUnit s'
  /\ (forall type, Z.of_nat (length (boundTextures s' type)) = n)
  /\ (forall type unit, 0 <= unit < n ->
        vec_get (boundTextures s' type) unit
        = textureBinding d' (GL_TEXTURE0 + unit) (getGLTextureType type)).
Proof.
  intros H Hops s' d'.
  destruct (coherent_runTextureOps n d0 ops s Hops H) as (Hlen & Hact & Hbind).
  auto.
Qed.

(** X2.  What [bindTextureToUnit] leaves in the driver, from a coherent
    state and for a unit below [n]: the texture is bound at that unit and
    target; with [restoreprev] the active unit is the one that was active
    before; without [restoreprev] and with [bindforedit] the active unit is
    the given one; without either, a texture that the cache already has at
    the unit leaves the state as it is, so the active unit stays where it
    was. *)
Theorem bindTextureToUnit_binds (n : Z) (d0 : Driver) (s : State) (target : TextureType)
    (texture : GLuint) (u : Z) (restoreprev bindforedit : bool) :
  texturesCoherent n d0 s ->
  0 <= u < n ->
  let s' := fst (bindTextureToUnit target texture u restoreprev bindforedit s) in
  let d := driverAfter d0 (glCalls s) in
  let d' := driverAfter d0 (glCalls s') in
  snd (bindTextureToUnit target texture u restoreprev bindforedit s) = Returned tt
  /\ textureBinding d' (GL_TEXTURE0 + u) (getGLTextureType target) = texture
  /\ (restoreprev = true ->
      activeTexture d' = activeTexture d /\ curTextureUnit s' = curTextureUnit s)
  /\ (restoreprev = false -> bindforedit = true ->
      activeTexture d' = GL_TEXTURE0 + u /\ curTextureUnit s' = u)
  /\ (restoreprev = false -> bindforedit = false ->
      vec_get (boundTextures s target) u = texture -> s' = s).
Proof.
  intros H Hu s' d d'.
  pose proof (coherent_bindTextureToUnit n d0 s target texture u restoreprev bindforedit Hu H)
    as (Hlen' & Hact' & Hbind').
  destruct H as (Hlen & Hact & Hbind).
  destruct (bindTextureToUnit_state target texture u restoreprev bindforedit s)
    as (Hslot & Hcur); [rewrite Hlen; exact Hu|].
  fold s' in Hlen', Hact', Hbind', Hslot, Hcur. fold d' in Hact', Hbind'.
  fold d in Hact.
  split; [|split; [|split; [|split]]].
  - unfold bindTextureToUnit, bind, gets, when, gl, modify, ret.
    destruct (negb _); [destruct (negb _); destruct (_ && _)|destruct (_ && _)];
      reflexivity.
  - rewrite <- Hbind' by exact Hu. exact Hslot.
  - intros ->. rewrite Hact', Hact, Hcur. auto.
  - intros -> ->. rewrite orb_true_r in Hcur. rewrite Hact', Hcur. auto.
  - intros -> -> E. subst s'.
    unfold bindTextureToUnit, bind, gets, when, gl, modify, ret.
    rewrite E, Z.eqb_refl. reflexivity.
Qed.

(** X3.  A deleted name is forgotten.  After [deleteTexture] of a name
    other than zero no vector of the cache holds the name, so binding it
    again, at any unit and target, reaches the driver with a
    [glBindTexture]. *)
Theorem deleteTexture_rebinds (texture : GLuint) (s : State) :
  texture <> 0 ->
  let s1 := fst (deleteTexture texture s) in
  snd (deleteTexture texture s) = Returned tt
  /\ glCalls s1 = glCalls s ++ [glDeleteTextures texture]
  /\ unbound texture s1
  /\ (forall type unit,
        vec_get (boundTextures s type) unit <> texture ->
        vec_get (boundTextures s1 type) unit = vec_get (boundTextures s type) unit)
  /\ (forall target u restoreprev bindforedit,
        exists pre post,
          glCalls (fst (bindTextureToUnit target texture u restoreprev bindforedit s1))
          = glCalls s1 ++ pre ++ [glBindTexture (getGLTextureType target) texture] ++ post).
Proof.
  intros Hz s1.
  destruct (deleteTexture_state texture s) as (Ec & _ & Eb). fold s1 in Ec, Eb.
  assert (Hun : unbound texture s1).
  { intros type unit. rewrite Eb, vec_get_forget.
    destruct (Z.eqb_spec (vec_get (boundTextures s type) unit) texture); congruence. }
  split; [|split; [|split; [|split]]]; auto.
  - intros type unit Hne. rewrite Eb, vec_get_forget.
    destruct (Z.eqb_spec (vec_get (boundTextures s type) unit) texture); congruence.
  - intros target u restoreprev bindforedit.
    apply bindTextureToUnit_calls. apply Hun.
Qed.

(** ** The buffer cache *)

(** The buffer cache tells the truth: each cached generic binding and
    each cached indexed binding is what the driver has bound.  The
    vectors are shorter than [2^63], as every [std::vector] is. *)
Definition buffersCoherent (d0 : Driver) (s : State) : Prop :=
  let d := driverAfter d0 (glCalls s) in
  (forall usage, usage <> BUFFERUSAGE_MAX_ENUM ->
     Z.of_nat (length (boundIndexedBuffers s usage)) < 2 ^ 63)
  /\ (forall usage, usage <> BUFFERUSAGE_MAX_ENUM ->
        boundBuffers s usage = bufferBinding d (getGLBufferType usage))
  /\ (forall usage index, usage <> BUFFERUSAGE_MAX_ENUM ->
        0 <= index < Z.of_nat (length (boundIndexedBuffers s usage)) ->
        vec_get (boundIndexedBuffers s usage) index
        = indexedBufferBinding d (getGLBufferType usage) index).

Inductive BufferOp : Type :=
  | Op_bindBuffer (type : BufferUsage) (buffer : GLuint)
  | Op_bindIndexedBuffer (buffer : GLuint) (type : BufferUsage) (index : Z)
  | Op_deleteBuffer (buffer : GLuint).

Definition runBufferOp (op : BufferOp) : GL_ unit :=
  match op with
  | Op_bindBuffer type buffer => bindBuffer type buffer
  | Op_bindIndexedBuffer buffer type index => bindIndexedBuffer buffer type index
  | Op_deleteBuffer buffer => deleteBuffer buffer
  end.

Definition runBufferOps (ops : list BufferOp) (s : State) : State :=
  fold_left (fun s op => fst (runBufferOp op s)) ops s.

(** The usage is a real one and the index is an [int]. *)
Definition bufferOpValid (op : BufferOp) : Prop :=
  match op with
  | Op_bindBuffer type _ => type <> BUFFERUSAGE_MAX_ENUM
  | Op_bindIndexedBuffer _ type index =>
      type <> BUFFERUSAGE_MAX_ENUM /\ - 2 ^ 31 <= index < 2 ^ 31
  | Op_deleteBuffer _ => True
  end.

Lemma getGLBufferType_inj (a b : BufferUsage) :
  GLenum_eqb (getGLBufferType a) (getGLBufferType b) = BufferUsage_eqb a b.
Proof. destruct a, b; reflexivity. Qed.

Lemma BufferUsage_eqb_eq (a b : BufferUsage) : BufferUsage_eqb a b = true <-> a = b.
Proof. destruct a, b; cbn; split; intros H; try discriminate; auto. Qed.

Lemma coherent_bindBuffer (d0 : Driver) (s : State) (type : BufferUsage) (buffer : GLuint) :
  type <> BUFFERUSAGE_MAX_ENUM ->
  buffersCoherent d0 s -> buffersCoherent d0 (fst (bindBuffer type buffer s)).
Proof.
  intros Ht (Hlen & Hgen & Hidx).
  unfold bindBuffer, bind, gets, when, gl, modify, ret.
  destruct (Z.eqb_spec (boundBuffers s type) buffer) as [E|E]; cbn.
  - repeat split; auto.
  - unfold buffersCoherent. cbn. rewrite driverAfter_snoc. cbn.
    split; [|split]; auto.
    intros usage Hu. unfold assignAt. rewrite getGLBufferType_inj.
    destruct (BufferUsage_eqb usage type); auto.
Qed.

Lemma size_t_int (index : Z) :
  - 2 ^ 31 <= index < 2 ^ 31 ->
  (0 <= index /\ size_t index = index) \/ (index < 0 /\ 2 ^ 63 <= size_t index).
Proof.
  intros H. unfold size_t. destruct (Z_lt_le_dec index 0) as [Hneg|Hpos].
  - right. split; [lia|].
    replace index with (index + 2 ^ 64 + (-1) * 2 ^ 64) by lia.
    rewrite Z.mod_add by lia. rewrite Z.mod_small by lia. lia.
  - left. split; [lia|]. apply Z.mod_small. lia.
Qed.

Lemma coherent_bindIndexedBuffer (d0 : Driver) (s : State) (buffer : GLuint)
    (type : BufferUsage) (index : Z) :
  type <> BUFFERUSAGE_MAX_ENUM -> - 2 ^ 31 <= index < 2 ^ 31 ->
  buffersCoherent d0 s -> buffersCoherent d0 (fst (bindIndexedBuffer buffer type index s)).
Proof.
  intros Ht Hi (Hlen & Hgen & Hidx).
  unfold bindIndexedBuffer, bind, gets, when, gl, modify, ret.
  destruct ((Z.of_nat (length (boundIndexedBuffers s type)) >? size_t index)
            && negb (buffer =? vec_get (boundIndexedBuffers s type) (size_t index))) eqn:C;
    cbn.
  - apply andb_true_iff in C. destruct C as [C _].
    apply Z.gtb_lt in C.
    destruct (size_t_int index Hi) as [[Hpos Hs]|[Hneg Hs]];
      [rewrite Hs in *|specialize (Hlen type Ht); lia].
    unfold buffersCoherent. cbn. rewrite driverAfter_snoc. cbn.
    split; [|split].
    + intros usage Hu. unfold assignAt.
      destruct (BufferUsage_eqb usage type) eqn:E; auto.
      apply BufferUsage_eqb_eq in E. subst. rewrite vec_set_length. auto.
    + intros usage Hu. unfold assignAt. rewrite getGLBufferType_inj.
      destruct (BufferUsage_eqb usage type); auto.
    + intros usage i Hu. unfold assignAt. rewrite getGLBufferType_inj.
      destruct (BufferUsage_eqb usage type) eqn:E; cbn [andb].
      * apply BufferUsage_eqb_eq in E. subst usage.
        rewrite vec_set_length. intros Hr.
        rewrite vec_get_set by lia.
        destruct (i =? index); auto.
      * auto.
  - repeat split; auto.
Qed.

Lemma deleteBuffer_effect (buffer : GLuint) (s : State) :
  let s' := fst (deleteBuffer buffer s) in
  glCalls s' = glCalls s ++ [glDeleteBuffers buffer]
  /\ (forall usage, usage <> BUFFERUSAGE_MAX_ENUM ->
        boundBuffers s' usage
        = if boundBuffers s usage =? buffer then 0 else boundBuffers s usage)
  /\ (forall usage, usage <> BUFFERUSAGE_MAX_ENUM ->
        boundIndexedBuffers s' usage = forget buffer (boundIndexedBuffers s usage))
  /\ boundTextures s' = boundTextures s
  /\ curTextureUnit s' = curTextureUnit s.
Proof.
  unfold deleteBuffer, bufferUsages, forEach, bind, gets, when, gl, modify, ret.
  cbn.
  destruct (boundBuffers s BUFFERUSAGE_VERTEX =? buffer) eqn:E1;
    destruct (boundBuffers s BUFFERUSAGE_INDEX =? buffer) eqn:E2;
    destruct (boundBuffers s BUFFERUSAGE_TEXEL =? buffer) eqn:E3;
    destruct (boundBuffers s BUFFERUSAGE_SHADER_STORAGE =? buffer) eqn:E4;
    repeat (progress (cbn; rewrite ?E1, ?E2, ?E3, ?E4));
    (split; [reflexivity|]);
    (split; [intros [] Hu; cbn; rewrite ?E1, ?E2, ?E3, ?E4; congruence|]);
    (split; [intros [] Hu; cbn; try reflexivity; congruence|]); split; reflexivity.
Qed.

Lemma coherent_deleteBuffer (d0 : Driver) (s : State) (buffer : GLuint) :
  buffersCoherent d0 s -> buffersCoherent d0 (fst (deleteBuffer buffer s)).
Proof.
  intros (Hlen & Hgen & Hidx).
  destruct (deleteBuffer_effect buffer s) as (Ec & Eb & Ei & _).
  unfold buffersCoherent. rewrite Ec, driverAfter_snoc. cbn.
  split; [|split].
  - intros usage Hu. rewrite Ei, forget_length; auto.
  - intros usage Hu. rewrite Eb, Hgen; auto.
  - intros usage i Hu. rewrite Ei, forget_length by auto. intros Hr.
    rewrite vec_get_forget, Hidx by auto. reflexivity.
Qed.

Lemma coherent_runBufferOps (d0 : Driver) (ops : list BufferOp) (s : State) :
  Forall bufferOpValid ops -> buffersCoherent d0 s ->
  buffersCoherent d0 (runBufferOps ops s).
Proof.
  intros Hops. revert s. induction Hops as [|op ops Hop _ IH]; intros s H; [exact H|].
  apply IH. destruct op; cbn [runBufferOp]; cbn in Hop.
  - now apply coherent_bindBuffer.
  - destruct Hop. now apply coherent_bindIndexedBuffer.
  - now apply coherent_deleteBuffer.
Qed.

(** X4.  The buffer cache stays coherent with the driver.  Start from a
    state whose cached generic and indexed bindings are the ones the
    driver has; after any sequence of [bindBuffer], [bindIndexedBuffer]
    and [deleteBuffer] on real usages and [int] indices, every cached
    binding is still the one the driver has. *)
Theorem bufferCache_coherent (d0 : Driver) (ops : list BufferOp) (s : State) :
  buffersCoherent d0 s ->
  Forall bufferOpValid ops ->
  let s' := runBufferOps ops s in
  let d' := driverAfter d0 (glCalls s') in
  (forall usage, usage <> BUFFERUSAGE_MAX_ENUM ->
     boundBuffers s' usage = bufferBinding d' (getGLBufferType usage))
  /\ (forall usage index, usage <> BUFFERUSAGE_MAX_ENUM ->
        0 <= index < Z.of_nat (length (boundIndexedBuffers s' usage)) ->
        vec_get (boundIndexedBuffers s' usage) index
        = indexedBufferBinding d' (getGLBufferType usage) index).
Proof.
  intros H Hops s' d'.
  destruct (coherent_runBufferOps d0 ops s Hops H) as (_ & Hgen & Hidx).
  auto.
Qed.

(** X5.  The bounds of [bindIndexedBuffer].  An index outside the vector
    of the usage, negative or too large, changes nothing and calls
    nothing.  An index inside it leaves the buffer in that slot; when the
    slot held another buffer, exactly one [glBindBufferBase] is issued, the
    generic binding of the usage holds the buffer as well, and a
    [bindBuffer] of the same buffer that follows calls nothing. *)
Theorem bindIndexedBuffer_bounds (buffer : GLuint) (type : BufferUsage) (index : Z)
    (s : State) :
  - 2 ^ 31 <= index < 2 ^ 31 ->
  Z.of_nat (length (boundIndexedBuffers s type)) < 2 ^ 63 ->
  let size := Z.of_nat (length (boundIndexedBuffers s type)) in
  let s' := fst (bindIndexedBuffer buffer type index s) in
  (index < 0 \/ size <= index -> bindIndexedBuffer buffer type index s = (s, Returned tt))
  /\ (0 <= index < size ->
      vec_get (boundIndexedBuffers s' type) index = buffer
      /\ (vec_get (boundIndexedBuffers s type) index = buffer -> s' = s)
      /\ (vec_get (boundIndexedBuffers s type) index <> buffer ->
          glCalls s' = glCalls s ++ [glBindBufferBase (getGLBufferType type) index buffer]
          /\ boundBuffers s' type = buffer
          /\ bindBuffer type buffer s' = (s', Returned tt))).
Proof.
  intros Hi Hlen size s'. subst size.
  split.
  - intros Hout.
    unfold bindIndexedBuffer, bind, gets, when.
    replace (Z.of_nat (length (boundIndexedBuffers s type)) >? size_t index) with false;
      [reflexivity|].
    symmetry. rewrite Z.gtb_ltb. apply Z.ltb_ge.
    destruct (size_t_int index Hi) as [[Hpos Hs]|[Hneg Hs]]; lia.
  - intros Hin.
    destruct (size_t_int index Hi) as [[Hpos Hs]|[Hneg Hs]]; [|lia].
    subst s'. unfold bindIndexedBuffer, bind, gets, when, gl, modify, ret.
    rewrite Hs.
    replace (Z.of_nat (length (boundIndexedBuffers s type)) >? index) with true
      by (symmetry; apply Z.gtb_lt; lia).
    cbn [andb].
    destruct (Z.eqb_spec buffer (vec_get (boundIndexedBuffers s type) index)) as [E|E];
      cbn.
    + split; [auto|]. split; [auto|]. intros Hne. congruence.
    + assert (Ht : BufferUsage_eqb type type = true) by (now destruct type).
      unfold assignAt. rewrite Ht.
      split; [|split].
      * rewrite vec_get_set by lia. now rewrite Z.eqb_refl.
      * intros Hsame. congruence.
      * intros _. split; [reflexivity|]. split; [reflexivity|].
        unfold bindBuffer, bind, gets, when. cbn. rewrite ?Ht, Z.eqb_refl. reflexivity.
Qed.

(** ** Framebuffers *)

Section Framebuffers.

(** The two bits of [enum FramebufferTarget]; OpenGL.h, which gives them
    their values, is not among the sources. *)
Variable FRAMEBUFFER_READ : Z.
Variable FRAMEBUFFER_DRAW : Z.

(** [target & flag] as a condition. *)
Definition hasBit (target flag : Z) : bool := negb (Z.land target flag =? 0).

Definition bindFramebuffer (target : Z) (framebuffer : GLuint) : GL_ unit :=
  b0 <- gets boundFramebuffers0 ;;
  let drawmodified := hasBit target FRAMEBUFFER_DRAW && negb (b0 =? framebuffer) in
  when drawmodified (modify (set_boundFramebuffers0 framebuffer)) ;;
  b1 <- gets boundFramebuffers1 ;;
  let readmodified := hasBit target FRAMEBUFFER_READ && negb (b1 =? framebuffer) in
  when readmodified (modify (set_boundFramebuffers1 framebuffer)) ;;
  when (drawmodified || readmodified)
    (let gltarget :=
       if target =? FRAMEBUFFER_DRAW then OpenGL.GL "GL_DRAW_FRAMEBUFFER"
       else if target =? FRAMEBUFFER_READ then OpenGL.GL "GL_READ_FRAMEBUFFER"
       else OpenGL.GL "GL_FRAMEBUFFER" in
     gl (glBindFramebuffer gltarget framebuffer)).

Definition getFramebuffer (target : Z) (s : State) : GLuint :=
  if hasBit target FRAMEBUFFER_DRAW then boundFramebuffers0 s
  else if hasBit target FRAMEBUFFER_READ then boundFramebuffers1 s
  else 0.

Definition deleteFramebuffer (framebuffer : GLuint) : GL_ unit :=
  gl (glDeleteFramebuffers framebuffer) ;;
  b0 <- gets boundFramebuffers0 ;;
  when (b0 =? framebuffer) (modify (set_boundFramebuffers0 0)) ;;
  b1 <- gets boundFramebuffers1 ;;
  when (b1 =? framebuffer) (modify (set_boundFramebuffers1 0)).

(** The framebuffer cache tells the truth about the draw and the read
    binding. *)
Definition framebuffersCoherent (d0 : Driver) (s : State) : Prop :=
  let d := driverAfter d0 (glCalls s) in
  boundFramebuffers0 s = drawFramebufferBinding d
  /\ boundFramebuffers1 s = readFramebufferBinding d.

Inductive FramebufferOp : Type :=
  | Op_bindFramebuffer (target : Z) (framebuffer : GLuint)
  | Op_deleteFramebuffer (framebuffer : GLuint).

Definition runFramebufferOp (op : FramebufferOp) : GL_ unit :=
  match op with
  | Op_bindFramebuffer target framebuffer => bindFramebuffer target framebuffer
  | Op_deleteFramebuffer framebuffer => deleteFramebuffer framebuffer
  end.

Definition runFramebufferOps (ops : list FramebufferOp) (s : State) : State :=
  fold_left (fun s op => fst (runFramebufferOp op s)) ops s.

(** The target is one of the three enumerators: read, draw, or both. *)
Definition framebufferOpValid (op : FramebufferOp) : Prop :=
  match op with
  | Op_bindFramebuffer target _ =>
      target = FRAMEBUFFER_READ \/ target = FRAMEBUFFER_DRAW
      \/ target = Z.lor FRAMEBUFFER_READ FRAMEBUFFER_DRAW
  | Op_deleteFramebuffer _ => True
  end.

Lemma bindFramebuffer_effect (target : Z) (framebuffer : GLuint) (s : State) :
  let drawmodified :=
    hasBit target FRAMEBUFFER_DRAW && negb (boundFramebuffers0 s =? framebuffer) in
  let readmodified :=
    hasBit target FRAMEBUFFER_READ && negb (boundFramebuffers1 s =? framebuffer) in
  let gltarget :=
    if target =? FRAMEBUFFER_DRAW then OpenGL.GL "GL_DRAW_FRAMEBUFFER"
    else if target =? FRAMEBUFFER_READ then OpenGL.GL "GL_READ_FRAMEBUFFER"
    else OpenGL.GL "GL_FRAMEBUFFER" in
  let s' := fst (bindFramebuffer target framebuffer s) in
  snd (bindFramebuffer target framebuffer s) = Returned tt
  /\ boundFramebuffers0 s' = (if drawmodified then framebuffer else boundFramebuffers0 s)
  /\ boundFramebuffers1 s' = (if readmodified then framebuffer else boundFramebuffers1 s)
  /\ glCalls s' = glCalls s ++ (if drawmodified || readmodified
                                then [glBindFramebuffer gltarget framebuffer] else []).
Proof.
  unfold bindFramebuffer, bind, gets, when, gl, modify, ret.
  destruct (hasBit target FRAMEBUFFER_DRAW && negb (boundFramebuffers0 s =? framebuffer));
    cbn;
    destruct (hasBit target FRAMEBUFFER_READ && negb (boundFramebuffers1 s =? framebuffer));
    cbn; rewrite ?app_nil_r; auto.
Qed.

Lemma bindFramebuffer_again (target : Z) (framebuffer : GLuint) (s : State) :
  let s' := fst (bindFramebuffer target framebuffer s) in
  bindFramebuffer target framebuffer s' = (s', Returned tt).
Proof.
  intros s'.
  destruct (bindFramebuffer_effect target framebuffer s) as (_ & E0 & E1 & _).
  fold s' in E0, E1.
  assert (F0 : hasBit target FRAMEBUFFER_DRAW
               && negb (boundFramebuffers0 s' =? framebuffer) = false).
  { rewrite E0. destruct (hasBit target FRAMEBUFFER_DRAW); cbn; auto.
    destruct (Z.eqb_spec (boundFramebuffers0 s) framebuffer) as [->|]; cbn;
      now rewrite Z.eqb_refl. }
  assert (F1 : hasBit target FRAMEBUFFER_READ
               && negb (boundFramebuffers1 s' =? framebuffer) = false).
  { rewrite E1. destruct (hasBit target FRAMEBUFFER_READ); cbn; auto.
    destruct (Z.eqb_spec (boundFramebuffers1 s) framebuffer) as [->|]; cbn;
      now rewrite Z.eqb_refl. }
  unfold bindFramebuffer, bind, gets, when. rewrite F0. cbn. rewrite F1. reflexivity.
Qed.

Lemma getFramebuffer_bound (target : Z) (framebuffer : GLuint) (s : State) :
  hasBit target FRAMEBUFFER_DRAW || hasBit target FRAMEBUFFER_READ = true ->
  getFramebuffer target (fst (bindFramebuffer target framebuffer s)) = framebuffer.
Proof.
  destruct (bindFramebuffer_effect target framebuffer s) as (_ & E0 & E1 & _).
  unfold getFramebuffer. rewrite E0, E1.
  destruct (hasBit target FRAMEBUFFER_DRAW), (hasBit target FRAMEBUFFER_READ);
    destruct (Z.eqb_spec (boundFramebuffers0 s) framebuffer);
    destruct (Z.eqb_spec (boundFramebuffers1 s) framebuffer);
    cbn; intros H; try discriminate; auto.
Qed.

(** X6.  [bindFramebuffer] and [getFramebuffer] agree, whatever values
    the two enumerators have: the call returns and issues at most one
    [glBindFramebuffer]; a target with the draw or the read bit reads back
    the framebuffer just bound; and binding the same framebuffer to the
    same target again changes nothing and calls nothing. *)
Theorem bindFramebuffer_cached (target : Z) (framebuffer : GLuint) (s : State) :
  let s' := fst (bindFramebuffer target framebuffer s) in
  snd (bindFramebuffer target framebuffer s) = Returned tt
  /\ (exists issued, glCalls s' = glCalls s ++ issued /\ (length issued <= 1)%nat)
  /\ (hasBit target FRAMEBUFFER_DRAW || hasBit target FRAMEBUFFER_READ = true ->
      getFramebuffer target s' = framebuffer)
  /\ (hasBit target FRAMEBUFFER_DRAW || hasBit target FRAMEBUFFER_READ = false ->
      s' = s /\ getFramebuffer target s' = 0)
  /\ bindFramebuffer target framebuffer s' = (s', Returned tt).
Proof.
  intros s'.
  destruct (bindFramebuffer_effect target framebuffer s) as (Er & _ & _ & Ec).
  split; [exact Er|]. split; [|split; [|split]].
  - eexists. split; [exact Ec|]. destruct (_ || _); cbn; lia.
  - apply getFramebuffer_bound.
  - intros H. apply orb_false_iff in H. destruct H as [Hd Hr].
    subst s'. unfold getFramebuffer, bindFramebuffer, bind, gets, when.
    rewrite Hd, Hr. cbn. auto.
  - apply bindFramebuffer_again.
Qed.

Section Bits.

Hypothesis read_bit : FRAMEBUFFER_READ <> 0.
Hypothesis draw_bit : FRAMEBUFFER_DRAW <> 0.
Hypothesis disjoint_bits : Z.land FRAMEBUFFER_READ FRAMEBUFFER_DRAW = 0.

Lemma read_not_draw : FRAMEBUFFER_READ <> FRAMEBUFFER_DRAW.
Proof.
  intros E. rewrite E, Z.land_diag in disjoint_bits. contradiction.
Qed.

#[local] Ltac bits :=
  match goal with
  | |- negb (_ =? _) = true => solve [apply negb_true_iff, Z.eqb_neq; auto]
  | |- (_ =? _) = false => solve [apply Z.eqb_neq; auto]
  | |- (_ =? _) = true => apply Z.eqb_refl
  | |- _ => reflexivity
  end.

Lemma hasBit_cases (target : Z) :
  target = FRAMEBUFFER_READ \/ target = FRAMEBUFFER_DRAW
  \/ target = Z.lor FRAMEBUFFER_READ FRAMEBUFFER_DRAW ->
  (target = FRAMEBUFFER_READ /\ hasBit target FRAMEBUFFER_DRAW = false
   /\ hasBit target FRAMEBUFFER_READ = true
   /\ (target =? FRAMEBUFFER_DRAW) = false /\ (target =? FRAMEBUFFER_READ) = true)
  \/ (target = FRAMEBUFFER_DRAW /\ hasBit target FRAMEBUFFER_DRAW = true
      /\ hasBit target FRAMEBUFFER_READ = false
      /\ (target =? FRAMEBUFFER_DRAW) = true)
  \/ (hasBit target FRAMEBUFFER_DRAW = true /\ hasBit target FRAMEBUFFER_READ = true
      /\ (target =? FRAMEBUFFER_DRAW) = false /\ (target =? FRAMEBUFFER_READ) = false).
Proof.
  pose proof read_not_draw as Hne.
  unfold hasBit. intros [-> | [-> | ->]].
  - left. rewrite disjoint_bits, Z.land_diag.
    repeat split; bits.
  - right; left.
    rewrite (Z.land_comm FRAMEBUFFER_DRAW FRAMEBUFFER_READ), disjoint_bits, Z.land_diag.
    repeat split; bits.
  - right; right.
    assert (Fr : Z.land (Z.lor FRAMEBUFFER_READ FRAMEBUFFER_DRAW) FRAMEBUFFER_READ
                 = FRAMEBUFFER_READ).
    { rewrite Z.land_lor_distr_l, Z.land_diag,
        (Z.land_comm FRAMEBUFFER_DRAW FRAMEBUFFER_READ), disjoint_bits.
      apply Z.lor_0_r. }
    assert (Fd : Z.land (Z.lor FRAMEBUFFER_READ FRAMEBUFFER_DRAW) FRAMEBUFFER_DRAW
                 = FRAMEBUFFER_DRAW).
    { rewrite Z.land_lor_distr_l, Z.land_diag, disjoint_bits. apply Z.lor_0_l. }
    rewrite Fr, Fd.
    repeat split; try bits.
    + apply Z.eqb_neq. intros E. rewrite E, Z.land_comm, disjoint_bits in Fr. auto.
    + apply Z.eqb_neq. intros E. rewrite E, disjoint_bits in Fd. auto.
Qed.

Lemma coherent_bindFramebuffer (d0 : Driver) (s : State) (target : Z)
    (framebuffer : GLuint) :
  target = FRAMEBUFFER_READ \/ target = FRAMEBUFFER_DRAW
  \/ target = Z.lor FRAMEBUFFER_READ FRAMEBUFFER_DRAW ->
  framebuffersCoherent d0 s ->
  framebuffersCoherent d0 (fst (bindFramebuffer target framebuffer s)).
Proof.
  intros Ht (H0 & H1).
  destruct (bindFramebuffer_effect target framebuffer s) as (_ & E0 & E1 & Ec).
  unfold framebuffersCoherent. rewrite E0, E1, Ec. clear E0 E1 Ec.
  destruct (hasBit_cases target Ht)
    as [(_ & A & B & C & D)|[(_ & A & B & C)|(A & B & C & D)]];
    rewrite ?A, ?B, ?C, ?D;
    destruct (Z.eqb_spec (boundFramebuffers0 s) framebuffer);
    destruct (Z.eqb_spec (boundFramebuffers1 s) framebuffer);
    cbn [andb orb negb]; rewrite ?app_nil_r, ?driverAfter_snoc; cbn;
    split; congruence.
Qed.

Lemma coherent_deleteFramebuffer (d0 : Driver) (s : State) (framebuffer : GLuint) :
  framebuffersCoherent d0 s ->
  framebuffersCoherent d0 (fst (deleteFramebuffer framebuffer s)).
Proof.
  intros (H0 & H1).
  unfold deleteFramebuffer, bind, gets, when, gl, modify, ret. cbn.
  destruct (boundFramebuffers0 s =? framebuffer) eqn:E0;
    destruct (boundFramebuffers1 s =? framebuffer) eqn:E1;
    cbn; rewrite ?E1; cbn; unfold framebuffersCoherent; cbn;
    rewrite driverAfter_snoc; cbn; rewrite <- H0, <- H1, E0, E1; split; reflexivity.
Qed.

Lemma coherent_runFramebufferOps (d0 : Driver) (ops : list FramebufferOp) (s : State) :
  Forall framebufferOpValid ops -> framebuffersCoherent d0 s ->
  framebuffersCoherent d0 (runFramebufferOps ops s).
Proof.
  intros Hops. revert s. induction Hops as [|op ops Hop _ IH]; intros s H; [exact H|].
  apply IH. destruct op; cbn [runFramebufferOp]; cbn in Hop.
  - now apply coherent_bindFramebuffer.
  - now apply coherent_deleteFramebuffer.
Qed.

(** X7.  The framebuffer cache stays coherent with the driver, when the
    read and the draw enumerator are two different bits.  Start from a
    state whose two cached bindings are the draw and the read binding of
    the driver; after any sequence of [bindFramebuffer], on the read, the
    draw or the combined target, and [deleteFramebuffer], they still
    are. *)
Theorem framebufferCache_coherent (d0 : Driver) (ops : list FramebufferOp) (s : State) :
  framebuffersCoherent d0 s ->
  Forall framebufferOpValid ops ->
  let s' := runFramebufferOps ops s in
  let d' := driverAfter d0 (glCalls s') in
  boundFramebuffers0 s' = drawFramebufferBinding d'
  /\ boundFramebuffers1 s' = readFramebufferBinding d'.
Proof.
  intros H Hops s' d'. exact (coherent_runFramebufferOps d0 ops s Hops H).
Qed.

End Bits.

End Framebuffers.

(** ** Viewport and scissor *)


End GLCache.

(** ** Concrete runs of the binding caches *)

(** A context with four texture units and eight shader-storage binding
    points, nothing bound, as [setupContext] leaves it. *)
Definition sampleState : GLCache.State :=
  {| GLCache.boundBuffers := fun _ => 0;
     GLCache.boundIndexedBuffers :=
       (fun usage => match usage with
                     | GLCache.BUFFERUSAGE_SHADER_STORAGE => [0; 0; 0; 0; 0; 0; 0; 0]
                     | _ => []
                     end);
     GLCache.boundTextures := fun _ => [0; 0; 0; 0];
     GLCache.curTextureUnit := 0;
     GLCache.boundFramebuffers0 := 0;
     GLCache.boundFramebuffers1 := 0;
     GLCache.viewport := {| rect_x := 0; rect_y := 0; rect_w := 800; rect_h := 600 |};
     GLCache.scissor := {| rect_x := 0; rect_y := 0; rect_w := 800; rect_h := 600 |};
     GLCache.glCalls := [] |}.

Definition sampleDriver : GLCache.Driver :=
  {| GLCache.bufferBinding := fun _ => 0;
     GLCache.indexedBufferBinding := fun _ _ => 0;
     GLCache.activeTexture := GLCache.GL_TEXTURE0;
     GLCache.textureBinding := fun _ _ => 0;
     GLCache.drawFramebufferBinding := 0;
     GLCache.readFramebufferBinding := 0 |}.

Definition sampleTextureOps : list GLCache.TextureOp :=
  [GLCache.Op_bindTextureToUnit GLCache.TEXTURE_2D 7 1 true false;
   GLCache.Op_setTextureUnit 2;
   GLCache.Op_bindTextureToUnit GLCache.TEXTURE_CUBE 9 3 false true;
   GLCache.Op_deleteTexture 7].

Definition sampleBufferOps : list GLCache.BufferOp :=
  [GLCache.Op_bindBuffer GLCache.BUFFERUSAGE_VERTEX 5;
   GLCache.Op_bindIndexedBuffer 6 GLCache.BUFFERUSAGE_SHADER_STORAGE 2;
   GLCache.Op_bindIndexedBuffer 6 GLCache.BUFFERUSAGE_SHADER_STORAGE 8;
   GLCache.Op_deleteBuffer 5].

Definition sampleFramebufferOps : list GLCache.FramebufferOp :=
  [GLCache.Op_bindFramebuffer 3 4; GLCache.Op_bindFramebuffer 1 5;
   GLCache.Op_deleteFramebuffer 4].

Lemma sampleState_textures : GLCache.texturesCoherent 4 sampleDriver sampleState.
Proof.
  split; [intros []; reflexivity|]. split; [reflexivity|].
  intros type unit H.
  assert (C : unit = 0 \/ unit = 1 \/ unit = 2 \/ unit = 3) by lia.
  destruct C as [-> | [-> | [-> | ->]]]; destruct type; reflexivity.
Defined.

Lemma sampleState_buffers : GLCache.buffersCoherent sampleDriver sampleState.
Proof.
  split; [intros [] _; cbn; lia|]. split; [intros [] _; reflexivity|].
  intros usage index Hu H.
  destruct usage; cbn in H; try lia; try congruence.
  assert (C : index = 0 \/ index = 1 \/ index = 2 \/ index = 3
              \/ index = 4 \/ index = 5 \/ index = 6 \/ index = 7) by lia.
  destruct C as [-> | [-> | [-> | [-> | [-> | [-> | [-> | ->]]]]]]]; reflexivity.
Defined.

Lemma textureCache_coherent_witness :
  GLCache.activeTexture
    (GLCache.driverAfter sampleDriver
       (GLCache.glCalls (GLCache.runTextureOps sampleTextureOps sampleState)))
  = GLCache.GL_TEXTURE0
    + GLCache.curTextureUnit (GLCache.runTextureOps sampleTextureOps sampleState).
Proof.
  refine (proj1 (GLCache.textureCache_coherent 4 sampleDriver sampleTextureOps sampleState
                   sampleState_textures _)).
  repeat (apply Forall_cons;
          [intros u E; cbn in E; first [discriminate E | injection E as <-; lia]|]).
  apply Forall_nil.
Defined.

Lemma bindTextureToUnit_binds_witness :
  GLCache.textureBinding
    (GLCache.driverAfter sampleDriver
       (GLCache.glCalls
          (fst (GLCache.bindTextureToUnit GLCache.TEXTURE_2D 7 1 true false sampleState))))
    (GLCache.GL_TEXTURE0 + 1) (GLCache.getGLTextureType GLCache.TEXTURE_2D)
  = 7.
Proof.
  assert (Hu : 0 <= 1 < 4) by lia.
  exact (proj1 (proj2
    (GLCache.bindTextureToUnit_binds 4 sampleDriver sampleState GLCache.TEXTURE_2D 7 1
       true false sampleState_textures Hu))).
Defined.

Lemma deleteTexture_rebinds_witness :
  GLCache.unbound 7
    (fst (GLCache.deleteTexture 7
            (fst (GLCache.bindTextureToUnit GLCache.TEXTURE_2D 7 1 true false
                    sampleState)))).
Proof.
  assert (Hz : 7 <> 0) by discriminate.
  exact (proj1 (proj2 (proj2
    (GLCache.deleteTexture_rebinds 7
       (fst (GLCache.bindTextureToUnit GLCache.TEXTURE_2D 7 1 true false sampleState))
       Hz)))).
Defined.

Lemma bufferCache_coherent_witness :
  GLCache.boundBuffers (GLCache.runBufferOps sampleBufferOps sampleState)
    GLCache.BUFFERUSAGE_VERTEX
  = GLCache.bufferBinding
      (GLCache.driverAfter sampleDriver
         (GLCache.glCalls (GLCache.runBufferOps sampleBufferOps sampleState)))
      (GLCache.getGLBufferType GLCache.BUFFERUSAGE_VERTEX).
Proof.
  assert (Hops : Forall GLCache.bufferOpValid sampleBufferOps).
  { repeat (apply Forall_cons; [cbn; try split; try discriminate; try lia; exact I|]).
    apply Forall_nil. }
  assert (Hu : GLCache.BUFFERUSAGE_VERTEX <> GLCache.BUFFERUSAGE_MAX_ENUM) by discriminate.
  exact (proj1 (GLCache.bufferCache_coherent sampleDriver sampleBufferOps sampleState
                  sampleState_buffers Hops) GLCache.BUFFERUSAGE_VERTEX Hu).
Defined.

Lemma bindIndexedBuffer_bounds_witness :
  GLCache.bindIndexedBuffer 6 GLCache.BUFFERUSAGE_SHADER_STORAGE 8 sampleState
  = (sampleState, Returned tt).
Proof.
  assert (Hi : - 2 ^ 31 <= 8 < 2 ^ 31) by lia.
  assert (Hlen : Z.of_nat (length (GLCache.boundIndexedBuffers sampleState
                                     GLCache.BUFFERUSAGE_SHADER_STORAGE)) < 2 ^ 63)
    by (cbn; lia).
  apply (proj1 (GLCache.bindIndexedBuffer_bounds 6 GLCache.BUFFERUSAGE_SHADER_STORAGE 8
                  sampleState Hi Hlen)).
  right. cbn. lia.
Defined.

Lemma framebufferCache_coherent_witness :
  GLCache.boundFramebuffers0 (GLCache.runFramebufferOps 1 2 sampleFramebufferOps sampleState)
  = GLCache.drawFramebufferBinding
      (GLCache.driverAfter sampleDriver
         (GLCache.glCalls (GLCache.runFramebufferOps 1 2 sampleFramebufferOps
                             sampleState))).
Proof.
  assert (Hr : 1 <> 0) by discriminate.
  assert (Hd : 2 <> 0) by discriminate.
  assert (Hb : Z.land 1 2 = 0) by reflexivity.
  assert (H0 : GLCache.framebuffersCoherent sampleDriver sampleState)
    by (split; reflexivity).
  assert (Hops : Forall (GLCache.framebufferOpValid 1 2) sampleFramebufferOps).
  { repeat (apply Forall_cons; [cbn; auto|]). apply Forall_nil. }
  exact (proj1 (GLCache.framebufferCache_coherent 1 2 Hr Hd Hb sampleDriver
                  sampleFramebufferOps sampleState H0 Hops)).
Defined.

(** ** Concrete runs of the state functions *)

Definition sampleRect : Rect := {| rect_x := 10; rect_y := 20; rect_w := 100; rect_h := 50 |}.

Definition sampleRect' : Rect := {| rect_x := 60; rect_y := 0; rect_w := 100; rect_h := 40 |}.

Definition sampleIntersectScissor : Rect -> M unit := intersectScissor sampleMembers.

Definition sampleReset : M unit :=
  reset sampleTemporaryDepth sampleTemporaryStencil sampleDepthStencil sampleSRGB
    sampleSupported sampleProjection sampleOrtho sampleMembers.

Definition sampleScreen : M unit :=
  setRenderTarget_screen sampleProjection sampleOrtho sampleMembers.

Lemma intersectScissor_intersection_witness :
  0 <= rect_w (intersectedScissor (back sampleMembers sampleGraphics) sampleRect)
  /\ 0 <= rect_h (intersectedScissor (back sampleMembers sampleGraphics) sampleRect).
Proof.
  assert (Hfit : intersectionFits (back sampleMembers sampleGraphics) sampleRect).
  { vm_compute. repeat split; discriminate. }
  destruct (intersectScissor_intersection sampleUnusedFrames sampleProjection sampleOrtho
              sampleMembers sampleGraphics sampleRect Hfit) as (_ & Hw & Hh & _).
  split; [exact Hw | exact Hh].
Defined.


Lemma isRenderTargetActive_bound_witness :
  isRenderTargetActive sampleMembers (fst (sampleScreen sampleGraphics)) = false.
Proof.
  assert (Hne : states sampleGraphics <> []) by discriminate.
  exact (proj1 (proj1
    (isRenderTargetActive_bound sampleTemporaryDepth sampleTemporaryStencil
       sampleDepthStencil sampleSRGB sampleSupported sampleProjection sampleOrtho
       sampleMembers sampleGraphics singleTarget (sampleTexture 1 64 64) Hne))).
Defined.

Lemma reset_restores_witness :
  snd (sampleReset sampleGraphics) = Returned tt
  /\ states (fst (sampleReset sampleGraphics))
     = [restoredTop (DisplayState_new sampleMembers) (DisplayState_new sampleMembers)].
Proof.
  destruct (reset_restores sampleUnusedFrames sampleTemporaryDepth sampleTemporaryStencil
              sampleDepthStencil sampleSRGB sampleSupported sampleProjection sampleOrtho
              sampleMembers sampleGraphics (DisplayState_new sampleMembers) [] eq_refl)
    as (Hr & Hs & _).
  split; [exact Hr | exact Hs].
Defined.

Lemma push_transform_pop_witness :
  transformStack
    (fst (samplePop
            (fst (origin
                    (sampleRunSetters [SetColor sampleRed; SetWireframe true]
                       (fst (samplePush STACK_TRANSFORM sampleGraphics)))))))
  = transformStack sampleGraphics.
Proof.
  assert (Hmax : length (stackTypeStack sampleGraphics) <> sampleMaxDepth) by discriminate.
  exact (proj1 (proj2 (proj2 (proj2 (proj2
    (push_transform_pop sampleMaxDepth sampleUnusedFrames sampleTemporaryDepth
       sampleTemporaryStencil sampleDepthStencil sampleSRGB sampleSupported
       sampleProjection sampleOrtho sampleMembers sampleGraphics
       [SetColor sampleRed; SetWireframe true] Hmax)))))).
Defined.

Definition sampleRequests : list TextureRequest :=
  [ {| req_format := PIXELFORMAT_DEPTH16_UNORM; req_w := 64; req_h := 64; req_samples := 0 |};
    {| req_format := PIXELFORMAT_DEPTH16_UNORM; req_w := 64; req_h := 64; req_samples := 0 |} ].

Lemma getTemporaryTexture_exclusive_witness :
  exists ts,
    snd (getTemporaryTextures sampleRequests sampleGraphics) = Returned ts
    /\ NoDup (map tex_id ts).
Proof.
  assert (Hd : poolDistinct sampleGraphics) by (split; constructor).
  destruct (getTemporaryTexture_exclusive sampleRequests sampleGraphics Hd)
    as (ts & Hr & _ & Hn & _).
  exists ts. split; [exact Hr | exact Hn].
Defined.
